(** * FantasyBackend: the validation and consistency rules of the services

    A shallow embedding of the service layer of the football backend
    (packages [models], [repositories] and [services]) together with the
    statements the specification makes about it, followed by the read
    side of the repositories and services, the HTTP handlers of teams,
    players and games, and the invariants of the store.

    - Go's [int] is a 64-bit signed integer: values are [Z], and the one
      addition the services perform is wrapped explicitly ([int_add]).
    - Go's [error] values are identified by their message: an [error] is a
      [string], [fmt.Errorf] is string concatenation and [%w] splices the
      message of the wrapped error.
    - A [*T] field is an [option T]; [nil] is [None].
    - The relational store is a record of tables (lists of rows); every
      repository method logs the SQL statement it issues, so that "no write
      was invoked" is a statement about the log. *)

From Stdlib Require Import ZArith List String Ascii Bool Lia DecimalString.
From Stdlib Require Import Permutation Sorted.
Import ListNotations.
Open Scope list_scope.
Open Scope string_scope.
Open Scope Z_scope.

(* ================================================================== *)
(** * The Go runtime the services rely on *)
(* ================================================================== *)

(** ** Machine integers *)

Definition min_int : Z := - 2 ^ 63.
Definition max_int : Z := 2 ^ 63 - 1.

(** The values an [int] can hold. *)
Definition is_int (z : Z) : Prop := min_int <= z <= max_int.

(** Two's complement wrap-around of a mathematical integer into [int]. *)
Definition wrap (z : Z) : Z := (z + 2 ^ 63) mod 2 ^ 64 - 2 ^ 63.

(** [a + b] on [int]. *)
Definition int_add (a b : Z) : Z := wrap (a + b).

(** ** Formatting *)

(** The verb [%d]. *)
Definition itoa (z : Z) : string := NilZero.string_of_int (Z.to_int z).

(** The verb [%v] on a [[]string]. *)
Definition fmt_strings (l : list string) : string :=
  "[" ++ String.concat " " l ++ "]".

(** ** Standard-library functions

    The services call [strings.TrimSpace], [strings.EqualFold] and a few
    methods of [time.Time].  They belong to Go's standard library, not to
    the repository, and are taken as an interface; everything below is
    proved for any implementation of it.  [zeroTime] is the zero value of
    [time.Time]; [time_eqb] is equality of two timestamps as stored in a
    DATETIME column. *)
Class GoLib : Type := {
  Time : Type;
  zeroTime : Time;
  IsZero : Time -> bool;
  Before : Time -> Time -> bool;
  After : Time -> Time -> bool;
  AddDate : Time -> Z -> Z -> Z -> Time;
  time_eqb : Time -> Time -> bool;
  TrimSpace : string -> string;
  EqualFold : string -> string -> bool
}.

(** [error]: [None] is [nil]. *)
Definition error : Type := option string.

(** A Go result pair [(T, error)]. *)
Inductive result (A : Type) : Type :=
| Ok (a : A)
| Err (msg : string).
Arguments Ok {A} a.
Arguments Err {A} msg.

Definition is_ok {A} (r : result A) : bool :=
  match r with Ok _ => true | Err _ => false end.

(** The message of the error of a result, if it is one. *)
Definition failure {A} (r : result A) : option string :=
  match r with Ok _ => None | Err msg => Some msg end.

(** The value of a result, if it has one. *)
Definition value {A} (r : result A) : option A :=
  match r with Ok a => Some a | Err _ => None end.

(** [ptr == nil]. *)
Definition isNil {A} (p : option A) : bool :=
  match p with None => true | Some _ => false end.

(** [p != nil && *p < bound]. *)
Definition ptr_lt (p : option Z) (bound : Z) : bool :=
  match p with Some v => v <? bound | None => false end.

(** [p != nil && *p > bound]. *)
Definition ptr_gt (p : option Z) (bound : Z) : bool :=
  match p with Some v => v >? bound | None => false end.

(** [if src != nil { dst = src }] on a pointer field. *)
Definition patch {A} (dst src : option A) : option A :=
  match src with Some _ => src | None => dst end.

(** [if src != nil { dst = *src }] on a value field. *)
Definition patch_val {A} (dst : A) (src : option A) : A :=
  match src with Some v => v | None => dst end.

(** [for _, x := range l { if x == v { valid = true; break } }]. *)
Definition oneOf (eq : string -> string -> bool) (v : string) (l : list string) : bool :=
  existsb (fun x => eq v x) l.

(** ** Package strings and package strconv

    The handlers classify errors with [strings.Contains] and read path
    parameters with [strconv.Atoi]. *)

(** [strings.Contains(s, substr)]. *)
Fixpoint Contains (s substr : string) : bool :=
  String.prefix substr s ||
  match s with
  | EmptyString => false
  | String _ s' => Contains s' substr
  end.

(** [strconv.Atoi]: an optional sign and at least one decimal digit,
    nothing else; [None] is a syntax or range error. *)
Definition Atoi (s : string) : option Z :=
  let (negative, digits) :=
    match s with
    | String "-" r => (true, r)
    | String "+" r => (false, r)
    | _ => (false, s)
    end in
  match digits with
  | EmptyString => None
  | _ =>
      match NilZero.uint_of_string digits with
      | Some u =>
          let n := if negative then - Z.of_uint u else Z.of_uint u in
          if (min_int <=? n) && (n <=? max_int) then Some n else None
      | None => None
      end
  end.

(** ** Sorting

    The order SQLite gives two timestamps stored in a DATETIME column is
    taken as an interface as well: [datetime_le a b] says that [a] sorts no
    later than [b]. *)
Class Collation {L : GoLib} : Type := {
  datetime_le : Time -> Time -> bool
}.

Definition datetime_compare {L : GoLib} {C : Collation} (a b : Time) : comparison :=
  if datetime_le a b then (if datetime_le b a then Eq else Lt) else Gt.

(** One key of an ORDER BY clause: [c] compares the two rows on the key,
    [rest] decides when they are equal on it. *)
Definition then_by (c : comparison) (rest : bool) : bool :=
  match c with Lt => true | Gt => false | Eq => rest end.

(* ================================================================== *)
(** * Package models *)
(* ================================================================== *)

Module Team.
Section Defs.
Context {L : GoLib}.
Record t : Type := mk {
  ID : Z;
  Name : string;
  City : string;
  Conference : string;
  Division : string;
  CreatedAt : Time;
  UpdatedAt : Time
}.
End Defs.
End Team.

Module CreateTeamRequest.
Record t : Type := mk {
  Name : string;
  City : string;
  Conference : string;
  Division : string
}.
End CreateTeamRequest.

Module UpdateTeamRequest.
Record t : Type := mk {
  Name : option string;
  City : option string;
  Conference : option string;
  Division : option string
}.

(** The patch [{}]: every field absent. *)
Definition empty : t := mk None None None None.
End UpdateTeamRequest.

Module Game.
Section Defs.
Context {L : GoLib}.
Record t : Type := mk {
  ID : Z;
  HomeTeamID : Z;
  AwayTeamID : Z;
  Season : string;
  Week : Z;
  GameDate : Time;
  Status : string;
  HomeScore : option Z;
  AwayScore : option Z;
  CreatedAt : Time;
  UpdatedAt : Time
}.
End Defs.
End Game.

Module CreateGameRequest.
Section Defs.
Context {L : GoLib}.
Record t : Type := mk {
  HomeTeamID : Z;
  AwayTeamID : Z;
  Season : string;
  Week : Z;
  GameDate : Time;
  Status : string;
  HomeScore : option Z;
  AwayScore : option Z
}.

(** The same request with another away team. *)
Definition withAway (awayTeamID : Z) (req : t) : t :=
  mk (HomeTeamID req) awayTeamID (Season req) (Week req) (GameDate req)
     (Status req) (HomeScore req) (AwayScore req).

(** The same request with another [status]. *)
Definition withStatus (status : string) (req : t) : t :=
  mk (HomeTeamID req) (AwayTeamID req) (Season req) (Week req) (GameDate req)
     status (HomeScore req) (AwayScore req).
End Defs.
End CreateGameRequest.

Module UpdateGameRequest.
Section Defs.
Context {L : GoLib}.
Record t : Type := mk {
  HomeTeamID : option Z;
  AwayTeamID : option Z;
  Season : option string;
  Week : option Z;
  GameDate : option Time;
  Status : option string;
  HomeScore : option Z;
  AwayScore : option Z
}.

(** The patch [{}]: every field absent. *)
Definition empty : t := mk None None None None None None None None.

(** The patch that only sets [away_team_id]. *)
Definition onlyAway (awayTeamID : Z) : t :=
  mk None (Some awayTeamID) None None None None None None.

(** The same patch with another [status] (or none). *)
Definition withStatus (status : option string) (req : t) : t :=
  mk (HomeTeamID req) (AwayTeamID req) (Season req) (Week req) (GameDate req)
     status (HomeScore req) (AwayScore req).
End Defs.
End UpdateGameRequest.

Module Player.
Section Defs.
Context {L : GoLib}.
Record t : Type := mk {
  ID : Z;
  TeamID : Z;
  FirstName : string;
  LastName : string;
  Position : string;
  JerseyNumber : option Z;
  Height : option Z;
  Weight : option Z;
  CreatedAt : Time;
  UpdatedAt : Time
}.
End Defs.
End Player.

Module CreatePlayerRequest.
Record t : Type := mk {
  TeamID : Z;
  FirstName : string;
  LastName : string;
  Position : string;
  JerseyNumber : option Z;
  Height : option Z;
  Weight : option Z
}.
End CreatePlayerRequest.

Module UpdatePlayerRequest.
Record t : Type := mk {
  FirstName : option string;
  LastName : option string;
  Position : option string;
  JerseyNumber : option Z;
  Height : option Z;
  Weight : option Z
}.

(** The patch [{}]: every field absent. *)
Definition empty : t := mk None None None None None None.

(** The patch that only sets the jersey number. *)
Definition onlyJersey (n : Z) : t := mk None None None (Some n) None None.
End UpdatePlayerRequest.

Module PlayerStats.
Section Defs.
Context {L : GoLib}.
Record t : Type := mk {
  ID : Z;
  PlayerID : Z;
  GameID : Z;
  PassingAttempts : option Z;
  PassingCompletions : option Z;
  PassingYards : option Z;
  PassingTouchdowns : option Z;
  PassingInterceptions : option Z;
  RushingAttempts : option Z;
  RushingYards : option Z;
  RushingTouchdowns : option Z;
  ReceivingTargets : option Z;
  Receptions : option Z;
  ReceivingYards : option Z;
  ReceivingTouchdowns : option Z;
  Fumbles : option Z;
  FumblesLost : option Z;
  Tackles : option Z;
  SoloTackles : option Z;
  AssistedTackles : option Z;
  Sacks : option Z;
  DefensiveInterceptions : option Z;
  PassDeflections : option Z;
  ForcedFumbles : option Z;
  FumbleRecoveries : option Z;
  DefensiveTouchdowns : option Z;
  FieldGoalsAttempted : option Z;
  FieldGoalsMade : option Z;
  ExtraPointsAttempted : option Z;
  ExtraPointsMade : option Z;
  Punts : option Z;
  PuntYards : option Z;
  KickReturns : option Z;
  KickReturnYards : option Z;
  KickReturnTouchdowns : option Z;
  PuntReturns : option Z;
  PuntReturnYards : option Z;
  PuntReturnTouchdowns : option Z;
  CreatedAt : Time;
  UpdatedAt : Time
}.
End Defs.
End PlayerStats.

(** The value of a key of a decoded JSON object, [nil] when the key is
    absent. *)
Definition counter (name : string) (body : list (string * Z)) : option Z :=
  option_map snd (find (fun kv => (fst kv =? name)%string) body).

(** Modelled from the spec: the declaration of [models.CreatePlayerStatsRequest]
    is not among the sources.  Its fields are the ones the service reads:
    two [int] identifiers and one [*int] per optional counter of
    [models.PlayerStats] ("a create shape with all fields mandatory except
    explicitly-optional ones"). *)
Module CreatePlayerStatsRequest.
Record t : Type := mk {
  PlayerID : Z;
  GameID : Z;
  PassingAttempts : option Z;
  PassingCompletions : option Z;
  PassingYards : option Z;
  PassingTouchdowns : option Z;
  PassingInterceptions : option Z;
  RushingAttempts : option Z;
  RushingYards : option Z;
  RushingTouchdowns : option Z;
  ReceivingTargets : option Z;
  Receptions : option Z;
  ReceivingYards : option Z;
  ReceivingTouchdowns : option Z;
  Fumbles : option Z;
  FumblesLost : option Z;
  Tackles : option Z;
  SoloTackles : option Z;
  AssistedTackles : option Z;
  Sacks : option Z;
  DefensiveInterceptions : option Z;
  PassDeflections : option Z;
  ForcedFumbles : option Z;
  FumbleRecoveries : option Z;
  DefensiveTouchdowns : option Z;
  FieldGoalsAttempted : option Z;
  FieldGoalsMade : option Z;
  ExtraPointsAttempted : option Z;
  ExtraPointsMade : option Z;
  Punts : option Z;
  PuntYards : option Z;
  KickReturns : option Z;
  KickReturnYards : option Z;
  KickReturnTouchdowns : option Z;
  PuntReturns : option Z;
  PuntReturnYards : option Z;
  PuntReturnTouchdowns : option Z
}.
(** The request decoded from a JSON body with the two identifiers and
    exactly the listed counters (keys as in the [json] tags of
    [models.PlayerStats]). *)
Definition fromFields (playerID gameID : Z) (body : list (string * Z)) : t :=
  mk playerID gameID
     (counter "passing_attempts" body)
     (counter "passing_completions" body)
     (counter "passing_yards" body)
     (counter "passing_touchdowns" body)
     (counter "passing_interceptions" body)
     (counter "rushing_attempts" body)
     (counter "rushing_yards" body)
     (counter "rushing_touchdowns" body)
     (counter "receiving_targets" body)
     (counter "receptions" body)
     (counter "receiving_yards" body)
     (counter "receiving_touchdowns" body)
     (counter "fumbles" body)
     (counter "fumbles_lost" body)
     (counter "tackles" body)
     (counter "solo_tackles" body)
     (counter "assisted_tackles" body)
     (counter "sacks" body)
     (counter "defensive_interceptions" body)
     (counter "pass_deflections" body)
     (counter "forced_fumbles" body)
     (counter "fumble_recoveries" body)
     (counter "defensive_touchdowns" body)
     (counter "field_goals_attempted" body)
     (counter "field_goals_made" body)
     (counter "extra_points_attempted" body)
     (counter "extra_points_made" body)
     (counter "punts" body)
     (counter "punt_yards" body)
     (counter "kick_returns" body)
     (counter "kick_return_yards" body)
     (counter "kick_return_touchdowns" body)
     (counter "punt_returns" body)
     (counter "punt_return_yards" body)
     (counter "punt_return_touchdowns" body).

(** Only [player_id] and [game_id] supplied. *)
Definition onlyIDs (playerID gameID : Z) : t := fromFields playerID gameID [].
End CreatePlayerStatsRequest.

(** Modelled from the spec: the declaration of [models.UpdatePlayerStatsRequest]
    is not among the sources.  Its fields are the ones the service reads:
    one [*int] per optional counter ("an update shape where every field is
    optional"). *)
Module UpdatePlayerStatsRequest.
Record t : Type := mk {
  PassingAttempts : option Z;
  PassingCompletions : option Z;
  PassingYards : option Z;
  PassingTouchdowns : option Z;
  PassingInterceptions : option Z;
  RushingAttempts : option Z;
  RushingYards : option Z;
  RushingTouchdowns : option Z;
  ReceivingTargets : option Z;
  Receptions : option Z;
  ReceivingYards : option Z;
  ReceivingTouchdowns : option Z;
  Fumbles : option Z;
  FumblesLost : option Z;
  Tackles : option Z;
  SoloTackles : option Z;
  AssistedTackles : option Z;
  Sacks : option Z;
  DefensiveInterceptions : option Z;
  PassDeflections : option Z;
  ForcedFumbles : option Z;
  FumbleRecoveries : option Z;
  DefensiveTouchdowns : option Z;
  FieldGoalsAttempted : option Z;
  FieldGoalsMade : option Z;
  ExtraPointsAttempted : option Z;
  ExtraPointsMade : option Z;
  Punts : option Z;
  PuntYards : option Z;
  KickReturns : option Z;
  KickReturnYards : option Z;
  KickReturnTouchdowns : option Z;
  PuntReturns : option Z;
  PuntReturnYards : option Z;
  PuntReturnTouchdowns : option Z
}.
(** The patch decoded from a JSON body with exactly the listed counters. *)
Definition fromFields (body : list (string * Z)) : t :=
  mk
     (counter "passing_attempts" body)
     (counter "passing_completions" body)
     (counter "passing_yards" body)
     (counter "passing_touchdowns" body)
     (counter "passing_interceptions" body)
     (counter "rushing_attempts" body)
     (counter "rushing_yards" body)
     (counter "rushing_touchdowns" body)
     (counter "receiving_targets" body)
     (counter "receptions" body)
     (counter "receiving_yards" body)
     (counter "receiving_touchdowns" body)
     (counter "fumbles" body)
     (counter "fumbles_lost" body)
     (counter "tackles" body)
     (counter "solo_tackles" body)
     (counter "assisted_tackles" body)
     (counter "sacks" body)
     (counter "defensive_interceptions" body)
     (counter "pass_deflections" body)
     (counter "forced_fumbles" body)
     (counter "fumble_recoveries" body)
     (counter "defensive_touchdowns" body)
     (counter "field_goals_attempted" body)
     (counter "field_goals_made" body)
     (counter "extra_points_attempted" body)
     (counter "extra_points_made" body)
     (counter "punts" body)
     (counter "punt_yards" body)
     (counter "kick_returns" body)
     (counter "kick_return_yards" body)
     (counter "kick_return_touchdowns" body)
     (counter "punt_returns" body)
     (counter "punt_return_yards" body)
     (counter "punt_return_touchdowns" body).

(** The patch [{}]: every field absent. *)
Definition empty : t := fromFields [].
End UpdatePlayerStatsRequest.

(* ================================================================== *)
(** * Package database: the store behind [*sql.DB] *)
(* ================================================================== *)

Inductive TableName : Type := teams | games | players | player_stats.

(** The SQL statements the repositories send.  A SELECT lists the tables it
    reads (the table queried and the tables joined to it). *)
Inductive Stmt : Type :=
| SELECT (from : list TableName)
| INSERT (into : TableName)
| UPDATE (tbl : TableName)
| DELETE (from : TableName).

Definition is_write (s : Stmt) : bool :=
  match s with SELECT _ => false | _ => true end.

Definition reads (tn : TableName) (s : Stmt) : bool :=
  match s with
  | SELECT from =>
      existsb (fun x => match x, tn with
                        | teams, teams | games, games
                        | players, players | player_stats, player_stats => true
                        | _, _ => false
                        end) from
  | _ => false
  end.

(** A table with an [INTEGER PRIMARY KEY AUTOINCREMENT] column: its rows in
    insertion order and the largest row id ever handed out. *)
Record table (A : Type) : Type := mkTable {
  rows : list A;
  seq : Z
}.
Arguments mkTable {A} rows seq.
Arguments rows {A} t.
Arguments seq {A} t.

Section SQL.
Context {A : Type} (key : A -> Z).

Definition max_rowid (t : table A) : Z :=
  fold_right Z.max (seq t) (map key (rows t)).

(** [SELECT ... WHERE id = ?], first row. *)
Definition sql_find (id : Z) (t : table A) : option A :=
  find (fun r => key r =? id) (rows t).

(** [SELECT 1 ... WHERE id = ? LIMIT 1]. *)
Definition sql_exists (id : Z) (t : table A) : bool :=
  existsb (fun r => key r =? id) (rows t).

(** [INSERT]: [clash] says whether a stored row collides with the new one
    on the table's UNIQUE constraint [cols]; [row] builds the stored row
    from the id it is given. *)
Definition sql_insert (clash : A -> bool) (cols : string) (row : Z -> A)
    (t : table A) : result (Z * table A) :=
  if existsb clash (rows t) then Err ("UNIQUE constraint failed: " ++ cols)
  else
    let id := max_rowid t + 1 in
    if id >? max_int then Err "database or disk is full"
    else Ok (id, mkTable (rows t ++ [row id]) id).

(** [UPDATE ... WHERE id = ?]: [upd] rewrites a row, [same] says whether
    two rows collide on the UNIQUE constraint [cols].  The result carries
    the number of rows affected. *)
Definition sql_update (same : A -> A -> bool) (cols : string) (id : Z)
    (upd : A -> A) (t : table A) : result (Z * table A) :=
  let hit r := key r =? id in
  if existsb (fun r => hit r &&
                existsb (fun r' => negb (hit r') && same (upd r) r') (rows t))
             (rows t)
  then Err ("UNIQUE constraint failed: " ++ cols)
  else Ok (Z.of_nat (List.length (filter hit (rows t))),
           mkTable (map (fun r => if hit r then upd r else r) (rows t)) (seq t)).

(** [DELETE ... WHERE id = ?]; the result carries the rows affected. *)
Definition sql_delete (id : Z) (t : table A) : Z * table A :=
  let hit r := key r =? id in
  (Z.of_nat (List.length (filter hit (rows t))),
   mkTable (filter (fun r => negb (hit r)) (rows t)) (seq t)).
End SQL.

Section OrderBy.
Context {A : Type} (le : A -> A -> bool).

(** [ORDER BY]: [le a b] says that [a] may come before [b]; rows that
    compare equal keep the order of the scan. *)
Fixpoint sql_place (a : A) (l : list A) : list A :=
  match l with
  | [] => [a]
  | b :: l' => if le a b then a :: l else b :: sql_place a l'
  end.

Definition sql_order_by (l : list A) : list A := fold_right sql_place [] l.
End OrderBy.

Section Database.
Context {L : GoLib}.

(** The four tables of the migrations.  The connection is opened with the
    driver's defaults, under which SQLite does not enforce the FOREIGN KEY
    clauses; the UNIQUE constraints are enforced. *)
Record DB : Type := mkDB {
  teams_t : table Team.t;
  games_t : table Game.t;
  players_t : table Player.t;
  player_stats_t : table PlayerStats.t
}.

(** What the model cannot know: the reading of the wall clock at the n-th
    call of [time.Now], and whether the n-th statement sent to the driver
    fails for a reason of its own (and with which message). *)
Record Oracle : Type := mkOracle {
  wall : nat -> Time;
  fault : nat -> option string
}.

(** The state a request runs in: the store, the statements sent so far
    (newest first), the number of clock readings so far, the oracle. *)
Record World : Type := mkWorld {
  store : DB;
  trace : list Stmt;
  ticks : nat;
  oracle : Oracle
}.

(** The write statements sent so far. *)
Definition writes (w : World) : list Stmt := filter is_write (trace w).

(** The world after a statement was handed to the driver, after a reading
    of the clock, and after the store changed. *)
Definition logged (s : Stmt) (w : World) : World :=
  mkWorld (store w) (s :: trace w) (ticks w) (oracle w).
Definition ticked (w : World) : World :=
  mkWorld (store w) (trace w) (S (ticks w)) (oracle w).
Definition stored (d : DB) (w : World) : World :=
  mkWorld d (trace w) (ticks w) (oracle w).

(** Computations of the service layer: they read and change the world and
    return a value or an error.  The world is kept when an error is
    returned. *)
Definition M (A : Type) : Type := World -> result A * World.

Definition ret {A} (a : A) : M A := fun w => (Ok a, w).

Definition fail {A} (msg : string) : M A := fun w => (Err msg, w).

Definition bind {A B} (m : M A) (f : A -> M B) : M B :=
  fun w => match m w with
           | (Ok a, w') => f a w'
           | (Err e, w') => (Err e, w')
           end.

(** [if err != nil { return fmt.Errorf(prefix + "%w", err) }]. *)
Definition wrapf {A} (prefix : string) (m : M A) : M A :=
  fun w => match m w with
           | (Ok a, w') => (Ok a, w')
           | (Err e, w') => (Err (prefix ++ e), w')
           end.

(** [time.Now()]. *)
Definition time_Now : M Time :=
  fun w => (Ok (wall (oracle w) (ticks w)), ticked w).

(** One statement handed to the driver: it is logged, and the driver may
    fail on it. *)
Definition send (s : Stmt) : M unit :=
  fun w =>
    (match fault (oracle w) (List.length (trace w)) with
     | Some msg => Err msg
     | None => Ok tt
     end, logged s w).

Definition get_store : M DB := fun w => (Ok (store w), w).

Definition put_store (d : DB) : M unit := fun w => (Ok tt, stored d w).

(** Run a statement that changes one table. *)
Definition on_table {A B} (get : DB -> table A) (set : table A -> DB -> DB)
    (f : table A -> result (B * table A)) : M B :=
  fun w => match f (get (store w)) with
           | Ok (b, t') => (Ok b, stored (set t' (store w)) w)
           | Err e => (Err e, w)
           end.

Definition set_teams (t : table Team.t) (d : DB) : DB :=
  mkDB t (games_t d) (players_t d) (player_stats_t d).
Definition set_games (t : table Game.t) (d : DB) : DB :=
  mkDB (teams_t d) t (players_t d) (player_stats_t d).
Definition set_players (t : table Player.t) (d : DB) : DB :=
  mkDB (teams_t d) (games_t d) t (player_stats_t d).
Definition set_player_stats (t : table PlayerStats.t) (d : DB) : DB :=
  mkDB (teams_t d) (games_t d) (players_t d) t.
End Database.

Notation "x <- c1 ;; c2" := (bind c1 (fun x => c2))
  (at level 61, c1 at next level, right associativity).
Notation "c1 ;; c2" := (bind c1 (fun _ => c2))
  (at level 61, right associativity).

(* ================================================================== *)
(** * Package repositories *)
(* ================================================================== *)

Module teamRepository.
Section Defs.
Context {L : GoLib}.

(** [UNIQUE(name, city)]. *)
Definition same (a b : Team.t) : bool :=
  (Team.Name a =? Team.Name b)%string && (Team.City a =? Team.City b)%string.

(** The row an INSERT of [team] stores under [id]; it is also the value
    [Create] leaves in [*team]. *)
Definition inserted (team : Team.t) (currentTime : Time) (id : Z) : Team.t :=
  Team.mk id (Team.Name team) (Team.City team) (Team.Conference team)
          (Team.Division team) currentTime currentTime.

(** What the UPDATE of [team] makes of a stored row [r]; applied to [team]
    itself it is the value [Update] leaves in [*team]. *)
Definition updated (team : Team.t) (currentTime : Time) (r : Team.t) : Team.t :=
  Team.mk (Team.ID r) (Team.Name team) (Team.City team) (Team.Conference team)
          (Team.Division team) (Team.CreatedAt r) currentTime.

Definition GetByID (id : Z) : M Team.t :=
  wrapf "failed to get team: " (send (SELECT [teams])) ;;
  db <- get_store ;;
  match sql_find Team.ID id (teams_t db) with
  | Some team => ret team
  | None => fail ("team with ID " ++ itoa id ++ " not found")
  end.

Definition Create (team : Team.t) : M Team.t :=
  currentTime <- time_Now ;;
  id <- wrapf "failed to create team: "
          (send (INSERT teams) ;;
           on_table teams_t set_teams
             (sql_insert Team.ID (same team) "teams.name, teams.city"
                         (inserted team currentTime))) ;;
  ret (inserted team currentTime id).

Definition Update (team : Team.t) : M Team.t :=
  currentTime <- time_Now ;;
  rowsAffected <- wrapf "failed to update team: "
          (send (UPDATE teams) ;;
           on_table teams_t set_teams
             (sql_update Team.ID same "teams.name, teams.city" (Team.ID team)
                         (updated team currentTime))) ;;
  if rowsAffected =? 0 then
    fail ("team with ID " ++ itoa (Team.ID team) ++ " not found")
  else
    ret (updated team currentTime team).

Definition Delete (id : Z) : M unit :=
  rowsAffected <- wrapf "failed to delete team: "
          (send (DELETE teams) ;;
           on_table teams_t set_teams (fun t => Ok (sql_delete Team.ID id t))) ;;
  if rowsAffected =? 0 then
    fail ("team with ID " ++ itoa id ++ " not found")
  else ret tt.

Definition Exists (id : Z) : M bool :=
  wrapf "failed to check team existence: " (send (SELECT [teams])) ;;
  db <- get_store ;;
  ret (sql_exists Team.ID id (teams_t db)).

(** [ORDER BY conference ASC, division ASC, name ASC]. *)
Definition by_conference (a b : Team.t) : bool :=
  then_by (String.compare (Team.Conference a) (Team.Conference b))
    (then_by (String.compare (Team.Division a) (Team.Division b))
       (then_by (String.compare (Team.Name a) (Team.Name b)) true)).

(** [ORDER BY division ASC, name ASC]. *)
Definition by_division (a b : Team.t) : bool :=
  then_by (String.compare (Team.Division a) (Team.Division b))
    (then_by (String.compare (Team.Name a) (Team.Name b)) true).

(** [ORDER BY name ASC]. *)
Definition by_name (a b : Team.t) : bool :=
  then_by (String.compare (Team.Name a) (Team.Name b)) true.

Definition GetAll : M (list Team.t) :=
  wrapf "failed to query teams: " (send (SELECT [teams])) ;;
  db <- get_store ;;
  ret (sql_order_by by_conference (rows (teams_t db))).

Definition GetByConference (conference : string) : M (list Team.t) :=
  wrapf "failed to query teams by conference: " (send (SELECT [teams])) ;;
  db <- get_store ;;
  ret (sql_order_by by_division
         (filter (fun t => (Team.Conference t =? conference)%string) (rows (teams_t db)))).

Definition GetByDivision (division : string) : M (list Team.t) :=
  wrapf "failed to query teams by division: " (send (SELECT [teams])) ;;
  db <- get_store ;;
  ret (sql_order_by by_name
         (filter (fun t => (Team.Division t =? division)%string) (rows (teams_t db)))).
End Defs.
End teamRepository.

Module playerRepository.
Section Defs.
Context {L : GoLib}.

(** [UNIQUE(team_id, first_name, last_name, position, jersey_number)];
    a NULL jersey number collides with nothing. *)
Definition same (a b : Player.t) : bool :=
  (Player.TeamID a =? Player.TeamID b) &&
  (Player.FirstName a =? Player.FirstName b)%string &&
  (Player.LastName a =? Player.LastName b)%string &&
  (Player.Position a =? Player.Position b)%string &&
  match Player.JerseyNumber a, Player.JerseyNumber b with
  | Some x, Some y => x =? y
  | _, _ => false
  end.

Definition unique_columns : string :=
  "players.team_id, players.first_name, players.last_name, players.position, players.jersey_number".

(** [JOIN teams t ON p.team_id = t.id]. *)
Definition joined (db : DB) (p : Player.t) : bool :=
  sql_exists Team.ID (Player.TeamID p) (teams_t db).

(** [ORDER BY p.position ASC, p.jersey_number ASC]: NULL sorts first. *)
Definition order_le (a b : Player.t) : bool :=
  match String.compare (Player.Position a) (Player.Position b) with
  | Lt => true
  | Gt => false
  | Eq =>
      match Player.JerseyNumber a, Player.JerseyNumber b with
      | None, _ => true
      | Some _, None => false
      | Some x, Some y => x <=? y
      end
  end.

Fixpoint place (p : Player.t) (l : list Player.t) : list Player.t :=
  match l with
  | [] => [p]
  | q :: l' => if order_le p q then p :: l else q :: place p l'
  end.

Definition order_by (l : list Player.t) : list Player.t :=
  fold_right place [] l.

(** The row an INSERT of [player] stores under [id]; it is also the value
    [Create] leaves in [*player]. *)
Definition inserted (player : Player.t) (currentTime : Time) (id : Z) : Player.t :=
  Player.mk id (Player.TeamID player) (Player.FirstName player)
            (Player.LastName player) (Player.Position player)
            (Player.JerseyNumber player) (Player.Height player)
            (Player.Weight player) currentTime currentTime.

(** What the UPDATE of [player] makes of a stored row [r]; applied to
    [player] itself it is the value [Update] leaves in [*player]. *)
Definition updated (player : Player.t) (currentTime : Time) (r : Player.t) : Player.t :=
  Player.mk (Player.ID r) (Player.TeamID player) (Player.FirstName player)
            (Player.LastName player) (Player.Position player)
            (Player.JerseyNumber player) (Player.Height player)
            (Player.Weight player) (Player.CreatedAt r) currentTime.

Definition GetByID (id : Z) : M Player.t :=
  wrapf "failed to get player: " (send (SELECT [players; teams])) ;;
  db <- get_store ;;
  match find (fun p => (Player.ID p =? id) && joined db p) (rows (players_t db)) with
  | Some player => ret player
  | None => fail ("player with ID " ++ itoa id ++ " not found")
  end.

Definition GetByTeamID (teamID : Z) : M (list Player.t) :=
  wrapf "failed to query players by team: " (send (SELECT [players; teams])) ;;
  db <- get_store ;;
  ret (order_by (filter (fun p => (Player.TeamID p =? teamID) && joined db p)
                        (rows (players_t db)))).

Definition Create (player : Player.t) : M Player.t :=
  currentTime <- time_Now ;;
  id <- wrapf "failed to create player: "
          (send (INSERT players) ;;
           on_table players_t set_players
             (sql_insert Player.ID (same player) unique_columns
                         (inserted player currentTime))) ;;
  ret (inserted player currentTime id).

Definition Update (player : Player.t) : M Player.t :=
  currentTime <- time_Now ;;
  rowsAffected <- wrapf "failed to update player: "
          (send (UPDATE players) ;;
           on_table players_t set_players
             (sql_update Player.ID same unique_columns (Player.ID player)
                         (updated player currentTime))) ;;
  if rowsAffected =? 0 then
    fail ("player with ID " ++ itoa (Player.ID player) ++ " not found")
  else
    ret (updated player currentTime player).

Definition Delete (id : Z) : M unit :=
  rowsAffected <- wrapf "failed to delete player: "
          (send (DELETE players) ;;
           on_table players_t set_players (fun t => Ok (sql_delete Player.ID id t))) ;;
  if rowsAffected =? 0 then
    fail ("player with ID " ++ itoa id ++ " not found")
  else ret tt.

Definition Exists (id : Z) : M bool :=
  wrapf "failed to check player existence: " (send (SELECT [players])) ;;
  db <- get_store ;;
  ret (sql_exists Player.ID id (players_t db)).

(** [ORDER BY p.last_name ASC, p.first_name ASC]. *)
Definition by_name (a b : Player.t) : bool :=
  then_by (String.compare (Player.LastName a) (Player.LastName b))
    (then_by (String.compare (Player.FirstName a) (Player.FirstName b)) true).

Definition GetAll : M (list Player.t) :=
  wrapf "failed to query players: " (send (SELECT [players; teams])) ;;
  db <- get_store ;;
  ret (sql_order_by by_name (filter (joined db) (rows (players_t db)))).
End Defs.
End playerRepository.

Module gameRepository.
Section Defs.
Context {L : GoLib}.

(** [UNIQUE(home_team_id, away_team_id, season, week, game_date)]. *)
Definition same (a b : Game.t) : bool :=
  (Game.HomeTeamID a =? Game.HomeTeamID b) &&
  (Game.AwayTeamID a =? Game.AwayTeamID b) &&
  (Game.Season a =? Game.Season b)%string &&
  (Game.Week a =? Game.Week b) &&
  time_eqb (Game.GameDate a) (Game.GameDate b).

Definition unique_columns : string :=
  "games.home_team_id, games.away_team_id, games.season, games.week, games.game_date".

(** [JOIN teams ht ON g.home_team_id = ht.id
     JOIN teams at ON g.away_team_id = at.id]. *)
Definition joined (db : DB) (g : Game.t) : bool :=
  sql_exists Team.ID (Game.HomeTeamID g) (teams_t db) &&
  sql_exists Team.ID (Game.AwayTeamID g) (teams_t db).

(** The row an INSERT of [game] stores under [id]; it is also the value
    [Create] leaves in [*game]. *)
Definition inserted (game : Game.t) (currentTime : Time) (id : Z) : Game.t :=
  Game.mk id (Game.HomeTeamID game) (Game.AwayTeamID game) (Game.Season game)
          (Game.Week game) (Game.GameDate game) (Game.Status game)
          (Game.HomeScore game) (Game.AwayScore game) currentTime currentTime.

(** What the UPDATE of [game] makes of a stored row [r]; applied to [game]
    itself it is the value [Update] leaves in [*game]. *)
Definition updated (game : Game.t) (currentTime : Time) (r : Game.t) : Game.t :=
  Game.mk (Game.ID r) (Game.HomeTeamID game) (Game.AwayTeamID game)
          (Game.Season game) (Game.Week game) (Game.GameDate game)
          (Game.Status game) (Game.HomeScore game) (Game.AwayScore game)
          (Game.CreatedAt r) currentTime.

Definition GetByID (id : Z) : M Game.t :=
  wrapf "failed to get game: " (send (SELECT [games; teams])) ;;
  db <- get_store ;;
  match find (fun g => (Game.ID g =? id) && joined db g) (rows (games_t db)) with
  | Some game => ret game
  | None => fail ("game with ID " ++ itoa id ++ " not found")
  end.

Definition Create (game : Game.t) : M Game.t :=
  currentTime <- time_Now ;;
  id <- wrapf "failed to create game: "
          (send (INSERT games) ;;
           on_table games_t set_games
             (sql_insert Game.ID (same game) unique_columns
                         (inserted game currentTime))) ;;
  ret (inserted game currentTime id).

Definition Update (game : Game.t) : M Game.t :=
  currentTime <- time_Now ;;
  rowsAffected <- wrapf "failed to update game: "
          (send (UPDATE games) ;;
           on_table games_t set_games
             (sql_update Game.ID same unique_columns (Game.ID game)
                         (updated game currentTime))) ;;
  if rowsAffected =? 0 then
    fail ("game with ID " ++ itoa (Game.ID game) ++ " not found")
  else
    ret (updated game currentTime game).

Definition Delete (id : Z) : M unit :=
  rowsAffected <- wrapf "failed to delete game: "
          (send (DELETE games) ;;
           on_table games_t set_games (fun t => Ok (sql_delete Game.ID id t))) ;;
  if rowsAffected =? 0 then
    fail ("game with ID " ++ itoa id ++ " not found")
  else ret tt.

Definition Exists (id : Z) : M bool :=
  wrapf "failed to check if game exists: " (send (SELECT [games])) ;;
  db <- get_store ;;
  ret (sql_exists Game.ID id (games_t db)).

Context {C : Collation}.

(** [ORDER BY g.game_date DESC, g.created_at DESC]. *)
Definition latest_first (a b : Game.t) : bool :=
  then_by (datetime_compare (Game.GameDate b) (Game.GameDate a))
    (then_by (datetime_compare (Game.CreatedAt b) (Game.CreatedAt a)) true).

(** [ORDER BY g.week ASC, g.game_date ASC]. *)
Definition by_week (a b : Game.t) : bool :=
  then_by (Game.Week a ?= Game.Week b)
    (then_by (datetime_compare (Game.GameDate a) (Game.GameDate b)) true).

(** [ORDER BY g.game_date ASC]. *)
Definition by_date (a b : Game.t) : bool :=
  then_by (datetime_compare (Game.GameDate a) (Game.GameDate b)) true.

Definition GetAll : M (list Game.t) :=
  wrapf "failed to query games: " (send (SELECT [games; teams])) ;;
  db <- get_store ;;
  ret (sql_order_by latest_first (filter (joined db) (rows (games_t db)))).

Definition GetByTeamID (teamID : Z) : M (list Game.t) :=
  wrapf "failed to query games by team: " (send (SELECT [games; teams])) ;;
  db <- get_store ;;
  ret (sql_order_by latest_first
         (filter (fun g => ((Game.HomeTeamID g =? teamID) || (Game.AwayTeamID g =? teamID)) &&
                           joined db g)
                 (rows (games_t db)))).

Definition GetBySeason (season : string) : M (list Game.t) :=
  wrapf "failed to query games by season: " (send (SELECT [games; teams])) ;;
  db <- get_store ;;
  ret (sql_order_by by_week
         (filter (fun g => (Game.Season g =? season)%string && joined db g)
                 (rows (games_t db)))).

Definition GetByWeek (season : string) (week : Z) : M (list Game.t) :=
  wrapf "failed to query games by week: " (send (SELECT [games; teams])) ;;
  db <- get_store ;;
  ret (sql_order_by by_date
         (filter (fun g => (Game.Season g =? season)%string && (Game.Week g =? week) &&
                           joined db g)
                 (rows (games_t db)))).
End Defs.
End gameRepository.

Module playerStatsRepository.
Section Defs.
Context {L : GoLib}.

(** [UNIQUE(player_id, game_id)]. *)
Definition same (a b : PlayerStats.t) : bool :=
  (PlayerStats.PlayerID a =? PlayerStats.PlayerID b) &&
  (PlayerStats.GameID a =? PlayerStats.GameID b).

(** [JOIN players p ON ps.player_id = p.id JOIN teams t ON p.team_id = t.id]. *)
Definition joined (db : DB) (ps : PlayerStats.t) : bool :=
  existsb (fun p => (Player.ID p =? PlayerStats.PlayerID ps) &&
                    sql_exists Team.ID (Player.TeamID p) (teams_t db))
          (rows (players_t db)).

(** The row an INSERT of [stats] stores under [id]; it is also the value
    [Create] leaves in [*stats]. *)
Definition inserted (stats : PlayerStats.t) (currentTime : Time) (id : Z)
  : PlayerStats.t :=
  PlayerStats.mk id (PlayerStats.PlayerID stats) (PlayerStats.GameID stats)
    (PlayerStats.PassingAttempts stats) (PlayerStats.PassingCompletions stats)
    (PlayerStats.PassingYards stats) (PlayerStats.PassingTouchdowns stats)
    (PlayerStats.PassingInterceptions stats) (PlayerStats.RushingAttempts stats)
    (PlayerStats.RushingYards stats) (PlayerStats.RushingTouchdowns stats)
    (PlayerStats.ReceivingTargets stats) (PlayerStats.Receptions stats)
    (PlayerStats.ReceivingYards stats) (PlayerStats.ReceivingTouchdowns stats)
    (PlayerStats.Fumbles stats) (PlayerStats.FumblesLost stats)
    (PlayerStats.Tackles stats) (PlayerStats.SoloTackles stats)
    (PlayerStats.AssistedTackles stats) (PlayerStats.Sacks stats)
    (PlayerStats.DefensiveInterceptions stats) (PlayerStats.PassDeflections stats)
    (PlayerStats.ForcedFumbles stats) (PlayerStats.FumbleRecoveries stats)
    (PlayerStats.DefensiveTouchdowns stats) (PlayerStats.FieldGoalsAttempted stats)
    (PlayerStats.FieldGoalsMade stats) (PlayerStats.ExtraPointsAttempted stats)
    (PlayerStats.ExtraPointsMade stats) (PlayerStats.Punts stats)
    (PlayerStats.PuntYards stats) (PlayerStats.KickReturns stats)
    (PlayerStats.KickReturnYards stats) (PlayerStats.KickReturnTouchdowns stats)
    (PlayerStats.PuntReturns stats) (PlayerStats.PuntReturnYards stats)
    (PlayerStats.PuntReturnTouchdowns stats)
    currentTime currentTime.

(** What the UPDATE of [stats] makes of a stored row [r]: the statement sets
    the thirty-five counters and [updated_at].  Applied to [stats] itself
    it is the value [Update] leaves in [*stats]. *)
Definition updated (stats : PlayerStats.t) (currentTime : Time) (r : PlayerStats.t)
  : PlayerStats.t :=
  PlayerStats.mk (PlayerStats.ID r) (PlayerStats.PlayerID r) (PlayerStats.GameID r)
    (PlayerStats.PassingAttempts stats) (PlayerStats.PassingCompletions stats)
    (PlayerStats.PassingYards stats) (PlayerStats.PassingTouchdowns stats)
    (PlayerStats.PassingInterceptions stats) (PlayerStats.RushingAttempts stats)
    (PlayerStats.RushingYards stats) (PlayerStats.RushingTouchdowns stats)
    (PlayerStats.ReceivingTargets stats) (PlayerStats.Receptions stats)
    (PlayerStats.ReceivingYards stats) (PlayerStats.ReceivingTouchdowns stats)
    (PlayerStats.Fumbles stats) (PlayerStats.FumblesLost stats)
    (PlayerStats.Tackles stats) (PlayerStats.SoloTackles stats)
    (PlayerStats.AssistedTackles stats) (PlayerStats.Sacks stats)
    (PlayerStats.DefensiveInterceptions stats) (PlayerStats.PassDeflections stats)
    (PlayerStats.ForcedFumbles stats) (PlayerStats.FumbleRecoveries stats)
    (PlayerStats.DefensiveTouchdowns stats) (PlayerStats.FieldGoalsAttempted stats)
    (PlayerStats.FieldGoalsMade stats) (PlayerStats.ExtraPointsAttempted stats)
    (PlayerStats.ExtraPointsMade stats) (PlayerStats.Punts stats)
    (PlayerStats.PuntYards stats) (PlayerStats.KickReturns stats)
    (PlayerStats.KickReturnYards stats) (PlayerStats.KickReturnTouchdowns stats)
    (PlayerStats.PuntReturns stats) (PlayerStats.PuntReturnYards stats)
    (PlayerStats.PuntReturnTouchdowns stats)
    (PlayerStats.CreatedAt r) currentTime.

Definition GetByID (id : Z) : M PlayerStats.t :=
  wrapf "failed to get player stats: " (send (SELECT [player_stats; players; teams])) ;;
  db <- get_store ;;
  match find (fun ps => (PlayerStats.ID ps =? id) && joined db ps)
             (rows (player_stats_t db)) with
  | Some stats => ret stats
  | None => fail ("player stats with ID " ++ itoa id ++ " not found")
  end.

Definition Create (stats : PlayerStats.t) : M PlayerStats.t :=
  currentTime <- time_Now ;;
  id <- wrapf "failed to create player stats: "
          (send (INSERT player_stats) ;;
           on_table player_stats_t set_player_stats
             (sql_insert PlayerStats.ID (same stats)
                "player_stats.player_id, player_stats.game_id"
                (inserted stats currentTime))) ;;
  ret (inserted stats currentTime id).

(** The UPDATE leaves [player_id] and [game_id] alone, so the UNIQUE
    constraint of the table is not re-checked by it. *)
Definition Update (stats : PlayerStats.t) : M PlayerStats.t :=
  currentTime <- time_Now ;;
  rowsAffected <- wrapf "failed to update player stats: "
          (send (UPDATE player_stats) ;;
           on_table player_stats_t set_player_stats
             (sql_update PlayerStats.ID (fun _ _ => false) ""
                (PlayerStats.ID stats) (updated stats currentTime))) ;;
  if rowsAffected =? 0 then
    fail ("player stats with ID " ++ itoa (PlayerStats.ID stats) ++ " not found")
  else
    ret (updated stats currentTime stats).

Definition Delete (id : Z) : M unit :=
  rowsAffected <- wrapf "failed to delete player stats: "
          (send (DELETE player_stats) ;;
           on_table player_stats_t set_player_stats
             (fun t => Ok (sql_delete PlayerStats.ID id t))) ;;
  if rowsAffected =? 0 then
    fail ("player stats with ID " ++ itoa id ++ " not found")
  else ret tt.

Definition Exists (id : Z) : M bool :=
  wrapf "failed to check player stats existence: " (send (SELECT [player_stats])) ;;
  db <- get_store ;;
  ret (sql_exists PlayerStats.ID id (player_stats_t db)).

Definition ExistsByPlayerAndGame (playerID gameID : Z) : M bool :=
  wrapf "failed to check player stats existence: " (send (SELECT [player_stats])) ;;
  db <- get_store ;;
  ret (existsb (fun ps => (PlayerStats.PlayerID ps =? playerID) &&
                          (PlayerStats.GameID ps =? gameID))
               (rows (player_stats_t db))).

Context {C : Collation}.

(** [ORDER BY ps.created_at DESC]. *)
Definition latest_first (a b : PlayerStats.t) : bool :=
  then_by (datetime_compare (PlayerStats.CreatedAt b) (PlayerStats.CreatedAt a)) true.

(** The columns [t.name, p.last_name, p.first_name] the two JOINs add to
    a row. *)
Definition owner (db : DB) (ps : PlayerStats.t) : string * string * string :=
  match find (fun p => (Player.ID p =? PlayerStats.PlayerID ps) &&
                       sql_exists Team.ID (Player.TeamID p) (teams_t db))
             (rows (players_t db)) with
  | Some p =>
      match sql_find Team.ID (Player.TeamID p) (teams_t db) with
      | Some t => (Team.Name t, Player.LastName p, Player.FirstName p)
      | None => ("", Player.LastName p, Player.FirstName p)
      end
  | None => ("", "", "")
  end.

(** [ORDER BY t.name ASC, p.last_name ASC, p.first_name ASC]. *)
Definition by_owner (db : DB) (a b : PlayerStats.t) : bool :=
  let '(ta, la, fa) := owner db a in
  let '(tb, lb, fb) := owner db b in
  then_by (String.compare ta tb)
    (then_by (String.compare la lb) (then_by (String.compare fa fb) true)).

Definition GetAll : M (list PlayerStats.t) :=
  wrapf "failed to query player stats: " (send (SELECT [player_stats; players; teams])) ;;
  db <- get_store ;;
  ret (sql_order_by latest_first (filter (joined db) (rows (player_stats_t db)))).

Definition GetByPlayerID (playerID : Z) : M (list PlayerStats.t) :=
  wrapf "failed to query player stats by player: "
        (send (SELECT [player_stats; players; teams])) ;;
  db <- get_store ;;
  ret (sql_order_by latest_first
         (filter (fun ps => (PlayerStats.PlayerID ps =? playerID) && joined db ps)
                 (rows (player_stats_t db)))).

Definition GetByGameID (gameID : Z) : M (list PlayerStats.t) :=
  wrapf "failed to query player stats by game: "
        (send (SELECT [player_stats; players; teams])) ;;
  db <- get_store ;;
  ret (sql_order_by (by_owner db)
         (filter (fun ps => (PlayerStats.GameID ps =? gameID) && joined db ps)
                 (rows (player_stats_t db)))).

Definition GetByPlayerAndGame (playerID gameID : Z) : M PlayerStats.t :=
  wrapf "failed to get player stats: " (send (SELECT [player_stats; players; teams])) ;;
  db <- get_store ;;
  match find (fun ps => (PlayerStats.PlayerID ps =? playerID) &&
                        (PlayerStats.GameID ps =? gameID) && joined db ps)
             (rows (player_stats_t db)) with
  | Some stats => ret stats
  | None => fail ("player stats for player " ++ itoa playerID ++ " in game " ++
                  itoa gameID ++ " not found")
  end.
End Defs.
End playerStatsRepository.

(* ================================================================== *)
(** * Package services *)
(* ================================================================== *)

Module teamService.
Section Defs.
Context {L : GoLib}.

Definition validConferences : list string := ["AFC"; "NFC"].
Definition validDivisions : list string := ["North"; "South"; "East"; "West"].

(** [strings.TrimSpace(s) == ""]. *)
Definition blank (s : string) : bool := (TrimSpace s =? "")%string.

(** [p != nil && strings.TrimSpace( *p ) == ""]. *)
Definition ptr_blank (p : option string) : bool :=
  match p with Some s => blank s | None => false end.

Definition validateCreateTeamRequest (req : CreateTeamRequest.t) : error :=
  if blank (CreateTeamRequest.Name req) then Some "team name is required"
  else if blank (CreateTeamRequest.City req) then Some "city is required"
  else if blank (CreateTeamRequest.Conference req) then Some "conference is required"
  else if blank (CreateTeamRequest.Division req) then Some "division is required"
  else if negb (oneOf EqualFold (CreateTeamRequest.Conference req) validConferences)
  then Some ("conference must be one of: " ++ fmt_strings validConferences)
  else if negb (oneOf EqualFold (CreateTeamRequest.Division req) validDivisions)
  then Some ("division must be one of: " ++ fmt_strings validDivisions)
  else None.

Definition validateUpdateTeamRequest (req : UpdateTeamRequest.t) : error :=
  if isNil (UpdateTeamRequest.Name req) && isNil (UpdateTeamRequest.City req) &&
     isNil (UpdateTeamRequest.Conference req) && isNil (UpdateTeamRequest.Division req)
  then Some "at least one field must be provided for update"
  else if ptr_blank (UpdateTeamRequest.Name req) then Some "team name cannot be empty"
  else if ptr_blank (UpdateTeamRequest.City req) then Some "city cannot be empty"
  else if ptr_blank (UpdateTeamRequest.Conference req) then Some "conference cannot be empty"
  else if ptr_blank (UpdateTeamRequest.Division req) then Some "division cannot be empty"
  else if match UpdateTeamRequest.Conference req with
          | Some c => negb (oneOf EqualFold c validConferences)
          | None => false
          end
  then Some ("conference must be one of: " ++ fmt_strings validConferences)
  else if match UpdateTeamRequest.Division req with
          | Some d => negb (oneOf EqualFold d validDivisions)
          | None => false
          end
  then Some ("division must be one of: " ++ fmt_strings validDivisions)
  else None.

Definition CreateTeam (req : CreateTeamRequest.t) : M Team.t :=
  match validateCreateTeamRequest req with
  | Some err => fail ("validation failed: " ++ err)
  | None =>
      let team :=
        Team.mk 0 (TrimSpace (CreateTeamRequest.Name req))
                (TrimSpace (CreateTeamRequest.City req))
                (TrimSpace (CreateTeamRequest.Conference req))
                (TrimSpace (CreateTeamRequest.Division req))
                zeroTime zeroTime in
      wrapf "failed to create team: " (teamRepository.Create team)
  end.

Definition UpdateTeam (id : Z) (req : UpdateTeamRequest.t) : M Team.t :=
  if id <=? 0 then fail ("invalid team ID: " ++ itoa id)
  else
    match validateUpdateTeamRequest req with
    | Some err => fail ("validation failed: " ++ err)
    | None =>
        team <- wrapf "failed to get team: " (teamRepository.GetByID id) ;;
        let team :=
          Team.mk (Team.ID team)
            (patch_val (Team.Name team) (option_map TrimSpace (UpdateTeamRequest.Name req)))
            (patch_val (Team.City team) (option_map TrimSpace (UpdateTeamRequest.City req)))
            (patch_val (Team.Conference team)
                       (option_map TrimSpace (UpdateTeamRequest.Conference req)))
            (patch_val (Team.Division team)
                       (option_map TrimSpace (UpdateTeamRequest.Division req)))
            (Team.CreatedAt team) (Team.UpdatedAt team) in
        wrapf "failed to update team: " (teamRepository.Update team)
    end.

Definition DeleteTeam (id : Z) : M unit :=
  if id <=? 0 then fail ("invalid team ID: " ++ itoa id)
  else
    exists_ <- wrapf "failed to check team existence: " (teamRepository.Exists id) ;;
    if negb exists_ then fail ("team with ID " ++ itoa id ++ " not found")
    else wrapf "failed to delete team: " (teamRepository.Delete id).

Definition GetTeam (id : Z) : M Team.t :=
  if id <=? 0 then fail ("invalid team ID: " ++ itoa id)
  else wrapf "failed to get team: " (teamRepository.GetByID id).

Definition GetAllTeams : M (list Team.t) :=
  wrapf "failed to get teams: " teamRepository.GetAll.

Definition GetTeamsByConference (conference : string) : M (list Team.t) :=
  if blank conference then fail "conference cannot be empty"
  else wrapf "failed to get teams by conference: "
             (teamRepository.GetByConference (TrimSpace conference)).

Definition GetTeamsByDivision (division : string) : M (list Team.t) :=
  if blank division then fail "division cannot be empty"
  else wrapf "failed to get teams by division: "
             (teamRepository.GetByDivision (TrimSpace division)).
End Defs.
End teamService.

Module playerService.
Section Defs.
Context {L : GoLib}.

Definition blank (s : string) : bool := (TrimSpace s =? "")%string.

Definition ptr_blank (p : option string) : bool :=
  match p with Some s => blank s | None => false end.

(** [p != nil && ( *p < lo || *p > hi )]. *)
Definition out_of_range (p : option Z) (lo hi : Z) : bool :=
  match p with Some v => (v <? lo) || (v >? hi) | None => false end.

Definition validateCreatePlayerRequest (req : CreatePlayerRequest.t) : error :=
  if CreatePlayerRequest.TeamID req <=? 0
  then Some "team ID is required and must be positive"
  else if blank (CreatePlayerRequest.FirstName req) then Some "first name is required"
  else if blank (CreatePlayerRequest.LastName req) then Some "last name is required"
  else if blank (CreatePlayerRequest.Position req) then Some "position is required"
  else if out_of_range (CreatePlayerRequest.JerseyNumber req) 0 99
  then Some "jersey number must be between 0 and 99"
  else if out_of_range (CreatePlayerRequest.Height req) 60 90
  then Some "height must be between 60 and 90 inches"
  else if out_of_range (CreatePlayerRequest.Weight req) 150 400
  then Some "weight must be between 150 and 400 pounds"
  else None.

Definition validateUpdatePlayerRequest (req : UpdatePlayerRequest.t) : error :=
  if isNil (UpdatePlayerRequest.FirstName req) && isNil (UpdatePlayerRequest.LastName req) &&
     isNil (UpdatePlayerRequest.Position req) && isNil (UpdatePlayerRequest.JerseyNumber req) &&
     isNil (UpdatePlayerRequest.Height req) && isNil (UpdatePlayerRequest.Weight req)
  then Some "at least one field must be provided for update"
  else if ptr_blank (UpdatePlayerRequest.FirstName req) then Some "first name cannot be empty"
  else if ptr_blank (UpdatePlayerRequest.LastName req) then Some "last name cannot be empty"
  else if ptr_blank (UpdatePlayerRequest.Position req) then Some "position cannot be empty"
  else if out_of_range (UpdatePlayerRequest.JerseyNumber req) 0 99
  then Some "jersey number must be between 0 and 99"
  else if out_of_range (UpdatePlayerRequest.Height req) 60 90
  then Some "height must be between 60 and 90 inches"
  else if out_of_range (UpdatePlayerRequest.Weight req) 150 400
  then Some "weight must be between 150 and 400 pounds"
  else None.

(** [player.JerseyNumber != nil && *player.JerseyNumber == n]. *)
Definition wears (n : Z) (player : Player.t) : bool :=
  match Player.JerseyNumber player with Some j => j =? n | None => false end.

Definition taken_msg (n : Z) : string :=
  "jersey number " ++ itoa n ++ " is already taken by another player on this team".

Definition CreatePlayer (req : CreatePlayerRequest.t) : M Player.t :=
  match validateCreatePlayerRequest req with
  | Some err => fail ("validation failed: " ++ err)
  | None =>
      exists_ <- wrapf "failed to verify team existence: "
                   (teamRepository.Exists (CreatePlayerRequest.TeamID req)) ;;
      if negb exists_
      then fail ("team with ID " ++ itoa (CreatePlayerRequest.TeamID req) ++ " not found")
      else
        match CreatePlayerRequest.JerseyNumber req with
        | Some n =>
            players <- wrapf "failed to check existing players: "
                         (playerRepository.GetByTeamID (CreatePlayerRequest.TeamID req)) ;;
            if existsb (wears n) players then fail (taken_msg n) else ret tt
        | None => ret tt
        end ;;
        let player :=
          Player.mk 0 (CreatePlayerRequest.TeamID req)
                    (TrimSpace (CreatePlayerRequest.FirstName req))
                    (TrimSpace (CreatePlayerRequest.LastName req))
                    (TrimSpace (CreatePlayerRequest.Position req))
                    (CreatePlayerRequest.JerseyNumber req)
                    (CreatePlayerRequest.Height req)
                    (CreatePlayerRequest.Weight req)
                    zeroTime zeroTime in
        wrapf "failed to create player: " (playerRepository.Create player)
  end.

Definition UpdatePlayer (id : Z) (req : UpdatePlayerRequest.t) : M Player.t :=
  if id <=? 0 then fail ("invalid player ID: " ++ itoa id)
  else
    match validateUpdatePlayerRequest req with
    | Some err => fail ("validation failed: " ++ err)
    | None =>
        player <- wrapf "failed to get player: " (playerRepository.GetByID id) ;;
        match UpdatePlayerRequest.JerseyNumber req with
        | Some n =>
            players <- wrapf "failed to check existing players: "
                         (playerRepository.GetByTeamID (Player.TeamID player)) ;;
            if existsb (fun existingPlayer =>
                          negb (Player.ID existingPlayer =? id) && wears n existingPlayer)
                       players
            then fail (taken_msg n) else ret tt
        | None => ret tt
        end ;;
        let player :=
          Player.mk (Player.ID player) (Player.TeamID player)
            (patch_val (Player.FirstName player)
                       (option_map TrimSpace (UpdatePlayerRequest.FirstName req)))
            (patch_val (Player.LastName player)
                       (option_map TrimSpace (UpdatePlayerRequest.LastName req)))
            (patch_val (Player.Position player)
                       (option_map TrimSpace (UpdatePlayerRequest.Position req)))
            (patch (Player.JerseyNumber player) (UpdatePlayerRequest.JerseyNumber req))
            (patch (Player.Height player) (UpdatePlayerRequest.Height req))
            (patch (Player.Weight player) (UpdatePlayerRequest.Weight req))
            (Player.CreatedAt player) (Player.UpdatedAt player) in
        wrapf "failed to update player: " (playerRepository.Update player)
    end.

Definition DeletePlayer (id : Z) : M unit :=
  if id <=? 0 then fail ("invalid player ID: " ++ itoa id)
  else
    exists_ <- wrapf "failed to check player existence: " (playerRepository.Exists id) ;;
    if negb exists_ then fail ("player with ID " ++ itoa id ++ " not found")
    else wrapf "failed to delete player: " (playerRepository.Delete id).

Definition GetPlayer (id : Z) : M Player.t :=
  if id <=? 0 then fail ("invalid player ID: " ++ itoa id)
  else wrapf "failed to get player: " (playerRepository.GetByID id).

Definition GetAllPlayers : M (list Player.t) :=
  wrapf "failed to get players: " playerRepository.GetAll.

Definition GetPlayersByTeam (teamID : Z) : M (list Player.t) :=
  if teamID <=? 0 then fail ("invalid team ID: " ++ itoa teamID)
  else
    exists_ <- wrapf "failed to verify team existence: " (teamRepository.Exists teamID) ;;
    if negb exists_ then fail ("team with ID " ++ itoa teamID ++ " not found")
    else wrapf "failed to get players by team: " (playerRepository.GetByTeamID teamID).
End Defs.
End playerService.

Module gameService.
Section Defs.
Context {L : GoLib}.

Definition validStatuses : list string :=
  ["scheduled"; "in_progress"; "completed"; "cancelled"].

Definition invalid_status (s : string) : string :=
  "invalid status: " ++ s ++
  ". Must be one of: scheduled, in_progress, completed, cancelled".

(** The two window checks on a game date; each reads the clock. *)
Definition checkWindow (gameDate : Time) : M unit :=
  now <- time_Now ;;
  let oneYearAgo := AddDate now (-1) 0 0 in
  if Before gameDate oneYearAgo
  then fail "game date cannot be more than 1 year in the past"
  else
    now <- time_Now ;;
    let twoYearsFromNow := AddDate now 2 0 0 in
    if After gameDate twoYearsFromNow
    then fail "game date cannot be more than 2 years in the future"
    else ret tt.

Definition validateCreateGameRequest (req : CreateGameRequest.t) : M unit :=
  if CreateGameRequest.HomeTeamID req <=? 0 then fail "home team ID must be positive"
  else if CreateGameRequest.AwayTeamID req <=? 0 then fail "away team ID must be positive"
  else if (CreateGameRequest.Season req =? "")%string then fail "season is required"
  else if (CreateGameRequest.Week req <? 1) || (CreateGameRequest.Week req >? 22)
  then fail ("week must be between 1 and 22, got " ++ itoa (CreateGameRequest.Week req))
  else if IsZero (CreateGameRequest.GameDate req) then fail "game date is required"
  else
    checkWindow (CreateGameRequest.GameDate req) ;;
    if negb (CreateGameRequest.Status req =? "")%string &&
       negb (oneOf String.eqb (CreateGameRequest.Status req) validStatuses)
    then fail (invalid_status (CreateGameRequest.Status req))
    else if ptr_lt (CreateGameRequest.HomeScore req) 0
    then fail "home score cannot be negative"
    else if ptr_lt (CreateGameRequest.AwayScore req) 0
    then fail "away score cannot be negative"
    else ret tt.

(** The tests of a game patch on [week], [game_date] and [status]; each
    applies only when the field is present. *)
Definition checkWeek (week : option Z) : M unit :=
  match week with
  | Some wk =>
      if (wk <? 1) || (wk >? 22)
      then fail ("week must be between 1 and 22, got " ++ itoa wk)
      else ret tt
  | None => ret tt
  end.

Definition checkDate (gameDate : option Time) : M unit :=
  match gameDate with
  | Some d => if IsZero d then fail "game date cannot be zero" else checkWindow d
  | None => ret tt
  end.

Definition checkStatus (status : option string) : M unit :=
  match status with
  | Some s =>
      if negb (oneOf String.eqb s validStatuses) then fail (invalid_status s)
      else ret tt
  | None => ret tt
  end.

Definition validateUpdateGameRequest (req : UpdateGameRequest.t) : M unit :=
  if match UpdateGameRequest.HomeTeamID req with Some h => h <=? 0 | None => false end
  then fail "home team ID must be positive"
  else if match UpdateGameRequest.AwayTeamID req with Some a => a <=? 0 | None => false end
  then fail "away team ID must be positive"
  else if match UpdateGameRequest.Season req with
          | Some s => (s =? "")%string
          | None => false
          end
  then fail "season cannot be empty"
  else
    checkWeek (UpdateGameRequest.Week req) ;;
    checkDate (UpdateGameRequest.GameDate req) ;;
    checkStatus (UpdateGameRequest.Status req) ;;
    if ptr_lt (UpdateGameRequest.HomeScore req) 0
    then fail "home score cannot be negative"
    else if ptr_lt (UpdateGameRequest.AwayScore req) 0
    then fail "away score cannot be negative"
    else ret tt.

Definition CreateGame (req : CreateGameRequest.t) : M Game.t :=
  wrapf "validation failed: " (validateCreateGameRequest req) ;;
  homeTeamExists <- wrapf "failed to check home team: "
                      (teamRepository.Exists (CreateGameRequest.HomeTeamID req)) ;;
  if negb homeTeamExists
  then fail ("home team with ID " ++ itoa (CreateGameRequest.HomeTeamID req) ++ " not found")
  else
    awayTeamExists <- wrapf "failed to check away team: "
                        (teamRepository.Exists (CreateGameRequest.AwayTeamID req)) ;;
    if negb awayTeamExists
    then fail ("away team with ID " ++ itoa (CreateGameRequest.AwayTeamID req) ++ " not found")
    else if CreateGameRequest.HomeTeamID req =? CreateGameRequest.AwayTeamID req
    then fail "home team and away team cannot be the same"
    else
      let status :=
        if (CreateGameRequest.Status req =? "")%string then "scheduled"
        else CreateGameRequest.Status req in
      let game :=
        Game.mk 0 (CreateGameRequest.HomeTeamID req) (CreateGameRequest.AwayTeamID req)
                (CreateGameRequest.Season req) (CreateGameRequest.Week req)
                (CreateGameRequest.GameDate req) status
                (CreateGameRequest.HomeScore req) (CreateGameRequest.AwayScore req)
                zeroTime zeroTime in
      wrapf "failed to create game: " (gameRepository.Create game).

(** [if req.X != nil { probe the team; game.X = *req.X }]: the team id
    the game ends up with. *)
Definition patchTeam (side : string) (current : Z) (req : option Z) : M Z :=
  match req with
  | Some tid =>
      teamExists <- wrapf ("failed to check " ++ side ++ " team: ")
                      (teamRepository.Exists tid) ;;
      if negb teamExists
      then fail (side ++ " team with ID " ++ itoa tid ++ " not found")
      else ret tid
  | None => ret current
  end.

Definition UpdateGame (id : Z) (req : UpdateGameRequest.t) : M Game.t :=
  if id <=? 0 then fail ("invalid game ID: " ++ itoa id)
  else
    game <- wrapf "failed to get game: " (gameRepository.GetByID id) ;;
    wrapf "validation failed: " (validateUpdateGameRequest req) ;;
    homeTeamID <- patchTeam "home" (Game.HomeTeamID game) (UpdateGameRequest.HomeTeamID req) ;;
    awayTeamID <- patchTeam "away" (Game.AwayTeamID game) (UpdateGameRequest.AwayTeamID req) ;;
    if homeTeamID =? awayTeamID
    then fail "home team and away team cannot be the same"
    else
      let game :=
        Game.mk (Game.ID game) homeTeamID awayTeamID
          (patch_val (Game.Season game) (UpdateGameRequest.Season req))
          (patch_val (Game.Week game) (UpdateGameRequest.Week req))
          (patch_val (Game.GameDate game) (UpdateGameRequest.GameDate req))
          (patch_val (Game.Status game) (UpdateGameRequest.Status req))
          (patch (Game.HomeScore game) (UpdateGameRequest.HomeScore req))
          (patch (Game.AwayScore game) (UpdateGameRequest.AwayScore req))
          (Game.CreatedAt game) (Game.UpdatedAt game) in
      wrapf "failed to update game: " (gameRepository.Update game).

Definition DeleteGame (id : Z) : M unit :=
  if id <=? 0 then fail ("invalid game ID: " ++ itoa id)
  else
    exists_ <- wrapf "failed to check if game exists: " (gameRepository.Exists id) ;;
    if negb exists_ then fail ("game with ID " ++ itoa id ++ " not found")
    else gameRepository.Delete id.

Context {C : Collation}.

Definition GetAllGames : M (list Game.t) := gameRepository.GetAll.

Definition GetGameByID (id : Z) : M Game.t :=
  if id <=? 0 then fail ("invalid game ID: " ++ itoa id)
  else gameRepository.GetByID id.

Definition GetGamesByTeam (teamID : Z) : M (list Game.t) :=
  if teamID <=? 0 then fail ("invalid team ID: " ++ itoa teamID)
  else
    exists_ <- wrapf "failed to check if team exists: " (teamRepository.Exists teamID) ;;
    if negb exists_ then fail ("team with ID " ++ itoa teamID ++ " not found")
    else gameRepository.GetByTeamID teamID.

Definition GetGamesBySeason (season : string) : M (list Game.t) :=
  if (season =? "")%string then fail "season cannot be empty"
  else gameRepository.GetBySeason season.

Definition GetGamesByWeek (season : string) (week : Z) : M (list Game.t) :=
  if (season =? "")%string then fail "season cannot be empty"
  else if (week <? 1) || (week >? 22)
  then fail ("week must be between 1 and 22, got " ++ itoa week)
  else gameRepository.GetByWeek season week.
End Defs.
End gameService.

Module playerStatsService.
Section Defs.
Context {L : GoLib}.

(** [made != nil && attempted != nil && *made > *attempted]. *)
Definition exceeds (made attempted : option Z) : bool :=
  match made, attempted with
  | Some m, Some a => m >? a
  | _, _ => false
  end.

(** [tackles != nil && solo != nil && assisted != nil &&
     *tackles != *solo + *assisted]. *)
Definition tackles_mismatch (tackles solo assisted : option Z) : bool :=
  match tackles, solo, assisted with
  | Some t, Some s, Some a => negb (t =? int_add s a)
  | _, _, _ => false
  end.

(** The loop over [nonNegativeFields]: the first field that is present
    and negative is reported. *)
Fixpoint firstNegative (fields : list (option Z * string)) : error :=
  match fields with
  | [] => None
  | (value, name) :: rest =>
      if ptr_lt value 0 then Some (name ++ " cannot be negative")
      else firstNegative rest
  end.

(** The condition of the "at least one statistic" test of a create. *)
Definition noStatistic (req : CreatePlayerStatsRequest.t) : bool :=
  isNil (CreatePlayerStatsRequest.PassingAttempts req) && isNil (CreatePlayerStatsRequest.PassingCompletions req) &&
  isNil (CreatePlayerStatsRequest.PassingYards req) && isNil (CreatePlayerStatsRequest.PassingTouchdowns req) &&
  isNil (CreatePlayerStatsRequest.PassingInterceptions req) && isNil (CreatePlayerStatsRequest.RushingAttempts req) &&
  isNil (CreatePlayerStatsRequest.RushingYards req) && isNil (CreatePlayerStatsRequest.RushingTouchdowns req) &&
  isNil (CreatePlayerStatsRequest.ReceivingTargets req) && isNil (CreatePlayerStatsRequest.Receptions req) &&
  isNil (CreatePlayerStatsRequest.ReceivingYards req) && isNil (CreatePlayerStatsRequest.ReceivingTouchdowns req) &&
  isNil (CreatePlayerStatsRequest.Fumbles req) && isNil (CreatePlayerStatsRequest.FumblesLost req) &&
  isNil (CreatePlayerStatsRequest.Tackles req) && isNil (CreatePlayerStatsRequest.SoloTackles req) &&
  isNil (CreatePlayerStatsRequest.AssistedTackles req) && isNil (CreatePlayerStatsRequest.Sacks req) &&
  isNil (CreatePlayerStatsRequest.DefensiveInterceptions req) && isNil (CreatePlayerStatsRequest.PassDeflections req) &&
  isNil (CreatePlayerStatsRequest.ForcedFumbles req) && isNil (CreatePlayerStatsRequest.FumbleRecoveries req) &&
  isNil (CreatePlayerStatsRequest.DefensiveTouchdowns req) && isNil (CreatePlayerStatsRequest.FieldGoalsAttempted req) &&
  isNil (CreatePlayerStatsRequest.FieldGoalsMade req) && isNil (CreatePlayerStatsRequest.ExtraPointsAttempted req) &&
  isNil (CreatePlayerStatsRequest.ExtraPointsMade req) && isNil (CreatePlayerStatsRequest.Punts req) &&
  isNil (CreatePlayerStatsRequest.PuntYards req) && isNil (CreatePlayerStatsRequest.KickReturns req) &&
  isNil (CreatePlayerStatsRequest.KickReturnYards req) && isNil (CreatePlayerStatsRequest.KickReturnTouchdowns req) &&
  isNil (CreatePlayerStatsRequest.PuntReturns req) && isNil (CreatePlayerStatsRequest.PuntReturnYards req) &&
  isNil (CreatePlayerStatsRequest.PuntReturnTouchdowns req).

(** The condition of the "at least one field" test of an update. *)
Definition noField (req : UpdatePlayerStatsRequest.t) : bool :=
  isNil (UpdatePlayerStatsRequest.PassingAttempts req) && isNil (UpdatePlayerStatsRequest.PassingCompletions req) &&
  isNil (UpdatePlayerStatsRequest.PassingYards req) && isNil (UpdatePlayerStatsRequest.PassingTouchdowns req) &&
  isNil (UpdatePlayerStatsRequest.PassingInterceptions req) && isNil (UpdatePlayerStatsRequest.RushingAttempts req) &&
  isNil (UpdatePlayerStatsRequest.RushingYards req) && isNil (UpdatePlayerStatsRequest.RushingTouchdowns req) &&
  isNil (UpdatePlayerStatsRequest.ReceivingTargets req) && isNil (UpdatePlayerStatsRequest.Receptions req) &&
  isNil (UpdatePlayerStatsRequest.ReceivingYards req) && isNil (UpdatePlayerStatsRequest.ReceivingTouchdowns req) &&
  isNil (UpdatePlayerStatsRequest.Fumbles req) && isNil (UpdatePlayerStatsRequest.FumblesLost req) &&
  isNil (UpdatePlayerStatsRequest.Tackles req) && isNil (UpdatePlayerStatsRequest.SoloTackles req) &&
  isNil (UpdatePlayerStatsRequest.AssistedTackles req) && isNil (UpdatePlayerStatsRequest.Sacks req) &&
  isNil (UpdatePlayerStatsRequest.DefensiveInterceptions req) && isNil (UpdatePlayerStatsRequest.PassDeflections req) &&
  isNil (UpdatePlayerStatsRequest.ForcedFumbles req) && isNil (UpdatePlayerStatsRequest.FumbleRecoveries req) &&
  isNil (UpdatePlayerStatsRequest.DefensiveTouchdowns req) && isNil (UpdatePlayerStatsRequest.FieldGoalsAttempted req) &&
  isNil (UpdatePlayerStatsRequest.FieldGoalsMade req) && isNil (UpdatePlayerStatsRequest.ExtraPointsAttempted req) &&
  isNil (UpdatePlayerStatsRequest.ExtraPointsMade req) && isNil (UpdatePlayerStatsRequest.Punts req) &&
  isNil (UpdatePlayerStatsRequest.PuntYards req) && isNil (UpdatePlayerStatsRequest.KickReturns req) &&
  isNil (UpdatePlayerStatsRequest.KickReturnYards req) && isNil (UpdatePlayerStatsRequest.KickReturnTouchdowns req) &&
  isNil (UpdatePlayerStatsRequest.PuntReturns req) && isNil (UpdatePlayerStatsRequest.PuntReturnYards req) &&
  isNil (UpdatePlayerStatsRequest.PuntReturnTouchdowns req).

Definition createNonNegativeFields (req : CreatePlayerStatsRequest.t) : list (option Z * string) :=
  [
    (CreatePlayerStatsRequest.PassingAttempts req, "passing attempts");
    (CreatePlayerStatsRequest.PassingCompletions req, "passing completions");
    (CreatePlayerStatsRequest.PassingYards req, "passing yards");
    (CreatePlayerStatsRequest.PassingTouchdowns req, "passing touchdowns");
    (CreatePlayerStatsRequest.PassingInterceptions req, "passing interceptions");
    (CreatePlayerStatsRequest.RushingAttempts req, "rushing attempts");
    (CreatePlayerStatsRequest.RushingYards req, "rushing yards");
    (CreatePlayerStatsRequest.RushingTouchdowns req, "rushing touchdowns");
    (CreatePlayerStatsRequest.ReceivingTargets req, "receiving targets");
    (CreatePlayerStatsRequest.Receptions req, "receptions");
    (CreatePlayerStatsRequest.ReceivingYards req, "receiving yards");
    (CreatePlayerStatsRequest.ReceivingTouchdowns req, "receiving touchdowns");
    (CreatePlayerStatsRequest.Fumbles req, "fumbles");
    (CreatePlayerStatsRequest.FumblesLost req, "fumbles lost");
    (CreatePlayerStatsRequest.Tackles req, "tackles");
    (CreatePlayerStatsRequest.SoloTackles req, "solo tackles");
    (CreatePlayerStatsRequest.AssistedTackles req, "assisted tackles");
    (CreatePlayerStatsRequest.Sacks req, "sacks");
    (CreatePlayerStatsRequest.DefensiveInterceptions req, "defensive interceptions");
    (CreatePlayerStatsRequest.PassDeflections req, "pass deflections");
    (CreatePlayerStatsRequest.ForcedFumbles req, "forced fumbles");
    (CreatePlayerStatsRequest.FumbleRecoveries req, "fumble recoveries");
    (CreatePlayerStatsRequest.DefensiveTouchdowns req, "defensive touchdowns");
    (CreatePlayerStatsRequest.FieldGoalsAttempted req, "field goals attempted");
    (CreatePlayerStatsRequest.FieldGoalsMade req, "field goals made");
    (CreatePlayerStatsRequest.ExtraPointsAttempted req, "extra points attempted");
    (CreatePlayerStatsRequest.ExtraPointsMade req, "extra points made");
    (CreatePlayerStatsRequest.Punts req, "punts");
    (CreatePlayerStatsRequest.PuntYards req, "punt yards");
    (CreatePlayerStatsRequest.KickReturns req, "kick returns");
    (CreatePlayerStatsRequest.KickReturnYards req, "kick return yards");
    (CreatePlayerStatsRequest.KickReturnTouchdowns req, "kick return touchdowns");
    (CreatePlayerStatsRequest.PuntReturns req, "punt returns");
    (CreatePlayerStatsRequest.PuntReturnYards req, "punt return yards");
    (CreatePlayerStatsRequest.PuntReturnTouchdowns req, "punt return touchdowns")
  ].

Definition updateNonNegativeFields (req : UpdatePlayerStatsRequest.t) : list (option Z * string) :=
  [
    (UpdatePlayerStatsRequest.PassingAttempts req, "passing attempts");
    (UpdatePlayerStatsRequest.PassingCompletions req, "passing completions");
    (UpdatePlayerStatsRequest.PassingYards req, "passing yards");
    (UpdatePlayerStatsRequest.PassingTouchdowns req, "passing touchdowns");
    (UpdatePlayerStatsRequest.PassingInterceptions req, "passing interceptions");
    (UpdatePlayerStatsRequest.RushingAttempts req, "rushing attempts");
    (UpdatePlayerStatsRequest.RushingYards req, "rushing yards");
    (UpdatePlayerStatsRequest.RushingTouchdowns req, "rushing touchdowns");
    (UpdatePlayerStatsRequest.ReceivingTargets req, "receiving targets");
    (UpdatePlayerStatsRequest.Receptions req, "receptions");
    (UpdatePlayerStatsRequest.ReceivingYards req, "receiving yards");
    (UpdatePlayerStatsRequest.ReceivingTouchdowns req, "receiving touchdowns");
    (UpdatePlayerStatsRequest.Fumbles req, "fumbles");
    (UpdatePlayerStatsRequest.FumblesLost req, "fumbles lost");
    (UpdatePlayerStatsRequest.Tackles req, "tackles");
    (UpdatePlayerStatsRequest.SoloTackles req, "solo tackles");
    (UpdatePlayerStatsRequest.AssistedTackles req, "assisted tackles");
    (UpdatePlayerStatsRequest.Sacks req, "sacks");
    (UpdatePlayerStatsRequest.DefensiveInterceptions req, "defensive interceptions");
    (UpdatePlayerStatsRequest.PassDeflections req, "pass deflections");
    (UpdatePlayerStatsRequest.ForcedFumbles req, "forced fumbles");
    (UpdatePlayerStatsRequest.FumbleRecoveries req, "fumble recoveries");
    (UpdatePlayerStatsRequest.DefensiveTouchdowns req, "defensive touchdowns");
    (UpdatePlayerStatsRequest.FieldGoalsAttempted req, "field goals attempted");
    (UpdatePlayerStatsRequest.FieldGoalsMade req, "field goals made");
    (UpdatePlayerStatsRequest.ExtraPointsAttempted req, "extra points attempted");
    (UpdatePlayerStatsRequest.ExtraPointsMade req, "extra points made");
    (UpdatePlayerStatsRequest.Punts req, "punts");
    (UpdatePlayerStatsRequest.PuntYards req, "punt yards");
    (UpdatePlayerStatsRequest.KickReturns req, "kick returns");
    (UpdatePlayerStatsRequest.KickReturnYards req, "kick return yards");
    (UpdatePlayerStatsRequest.KickReturnTouchdowns req, "kick return touchdowns");
    (UpdatePlayerStatsRequest.PuntReturns req, "punt returns");
    (UpdatePlayerStatsRequest.PuntReturnYards req, "punt return yards");
    (UpdatePlayerStatsRequest.PuntReturnTouchdowns req, "punt return touchdowns")
  ].

Definition validateStatConstraints (req : CreatePlayerStatsRequest.t) : error :=
  if exceeds (CreatePlayerStatsRequest.PassingCompletions req) (CreatePlayerStatsRequest.PassingAttempts req)
  then Some "passing completions cannot exceed passing attempts"
  else if tackles_mismatch (CreatePlayerStatsRequest.Tackles req) (CreatePlayerStatsRequest.SoloTackles req)
                           (CreatePlayerStatsRequest.AssistedTackles req)
  then Some "total tackles must equal solo tackles plus assisted tackles"
  else if exceeds (CreatePlayerStatsRequest.FieldGoalsMade req) (CreatePlayerStatsRequest.FieldGoalsAttempted req)
  then Some "field goals made cannot exceed field goals attempted"
  else if exceeds (CreatePlayerStatsRequest.ExtraPointsMade req) (CreatePlayerStatsRequest.ExtraPointsAttempted req)
  then Some "extra points made cannot exceed extra points attempted"
  else if exceeds (CreatePlayerStatsRequest.FumblesLost req) (CreatePlayerStatsRequest.Fumbles req)
  then Some "fumbles lost cannot exceed total fumbles"
  else firstNegative (createNonNegativeFields req).

Definition validateUpdateStatConstraints (req : UpdatePlayerStatsRequest.t) : error :=
  if exceeds (UpdatePlayerStatsRequest.PassingCompletions req) (UpdatePlayerStatsRequest.PassingAttempts req)
  then Some "passing completions cannot exceed passing attempts"
  else if tackles_mismatch (UpdatePlayerStatsRequest.Tackles req) (UpdatePlayerStatsRequest.SoloTackles req)
                           (UpdatePlayerStatsRequest.AssistedTackles req)
  then Some "total tackles must equal solo tackles plus assisted tackles"
  else if exceeds (UpdatePlayerStatsRequest.FieldGoalsMade req) (UpdatePlayerStatsRequest.FieldGoalsAttempted req)
  then Some "field goals made cannot exceed field goals attempted"
  else if exceeds (UpdatePlayerStatsRequest.ExtraPointsMade req) (UpdatePlayerStatsRequest.ExtraPointsAttempted req)
  then Some "extra points made cannot exceed extra points attempted"
  else if exceeds (UpdatePlayerStatsRequest.FumblesLost req) (UpdatePlayerStatsRequest.Fumbles req)
  then Some "fumbles lost cannot exceed total fumbles"
  else firstNegative (updateNonNegativeFields req).

Definition validateCreatePlayerStatsRequest (req : CreatePlayerStatsRequest.t) : error :=
  if CreatePlayerStatsRequest.PlayerID req <=? 0
  then Some "player ID is required and must be positive"
  else if CreatePlayerStatsRequest.GameID req <=? 0
  then Some "game ID is required and must be positive"
  else if noStatistic req then Some "at least one statistic must be provided"
  else validateStatConstraints req.

Definition validateUpdatePlayerStatsRequest (req : UpdatePlayerStatsRequest.t) : error :=
  if noField req then Some "at least one field must be provided for update"
  else validateUpdateStatConstraints req.

Definition CreatePlayerStats (req : CreatePlayerStatsRequest.t) : M PlayerStats.t :=
  match validateCreatePlayerStatsRequest req with
  | Some err => fail ("validation failed: " ++ err)
  | None =>
      exists_ <- wrapf "failed to verify player existence: "
                   (playerRepository.Exists (CreatePlayerStatsRequest.PlayerID req)) ;;
      if negb exists_
      then fail ("player with ID " ++ itoa (CreatePlayerStatsRequest.PlayerID req) ++ " not found")
      else
        exists_ <- wrapf "failed to check existing stats: "
                     (playerStatsRepository.ExistsByPlayerAndGame
                        (CreatePlayerStatsRequest.PlayerID req) (CreatePlayerStatsRequest.GameID req)) ;;
        if exists_
        then fail ("player stats already exist for player " ++
                   itoa (CreatePlayerStatsRequest.PlayerID req) ++ " in game " ++
                   itoa (CreatePlayerStatsRequest.GameID req))
        else
          let stats :=
            PlayerStats.mk 0 (CreatePlayerStatsRequest.PlayerID req) (CreatePlayerStatsRequest.GameID req)
          (CreatePlayerStatsRequest.PassingAttempts req) (CreatePlayerStatsRequest.PassingCompletions req)
          (CreatePlayerStatsRequest.PassingYards req) (CreatePlayerStatsRequest.PassingTouchdowns req)
          (CreatePlayerStatsRequest.PassingInterceptions req) (CreatePlayerStatsRequest.RushingAttempts req)
          (CreatePlayerStatsRequest.RushingYards req) (CreatePlayerStatsRequest.RushingTouchdowns req)
          (CreatePlayerStatsRequest.ReceivingTargets req) (CreatePlayerStatsRequest.Receptions req)
          (CreatePlayerStatsRequest.ReceivingYards req) (CreatePlayerStatsRequest.ReceivingTouchdowns req)
          (CreatePlayerStatsRequest.Fumbles req) (CreatePlayerStatsRequest.FumblesLost req)
          (CreatePlayerStatsRequest.Tackles req) (CreatePlayerStatsRequest.SoloTackles req)
          (CreatePlayerStatsRequest.AssistedTackles req) (CreatePlayerStatsRequest.Sacks req)
          (CreatePlayerStatsRequest.DefensiveInterceptions req) (CreatePlayerStatsRequest.PassDeflections req)
          (CreatePlayerStatsRequest.ForcedFumbles req) (CreatePlayerStatsRequest.FumbleRecoveries req)
          (CreatePlayerStatsRequest.DefensiveTouchdowns req) (CreatePlayerStatsRequest.FieldGoalsAttempted req)
          (CreatePlayerStatsRequest.FieldGoalsMade req) (CreatePlayerStatsRequest.ExtraPointsAttempted req)
          (CreatePlayerStatsRequest.ExtraPointsMade req) (CreatePlayerStatsRequest.Punts req)
          (CreatePlayerStatsRequest.PuntYards req) (CreatePlayerStatsRequest.KickReturns req)
          (CreatePlayerStatsRequest.KickReturnYards req) (CreatePlayerStatsRequest.KickReturnTouchdowns req)
          (CreatePlayerStatsRequest.PuntReturns req) (CreatePlayerStatsRequest.PuntReturnYards req)
          (CreatePlayerStatsRequest.PuntReturnTouchdowns req)
              zeroTime zeroTime in
          wrapf "failed to create player stats: " (playerStatsRepository.Create stats)
  end.

(** The thirty-five [if req.X != nil { stats.X = req.X }] of an update. *)
Definition applyPatch (stats : PlayerStats.t) (req : UpdatePlayerStatsRequest.t) : PlayerStats.t :=
  PlayerStats.mk (PlayerStats.ID stats) (PlayerStats.PlayerID stats)
                 (PlayerStats.GameID stats)
            (patch (PlayerStats.PassingAttempts stats) (UpdatePlayerStatsRequest.PassingAttempts req))
            (patch (PlayerStats.PassingCompletions stats) (UpdatePlayerStatsRequest.PassingCompletions req))
            (patch (PlayerStats.PassingYards stats) (UpdatePlayerStatsRequest.PassingYards req))
            (patch (PlayerStats.PassingTouchdowns stats) (UpdatePlayerStatsRequest.PassingTouchdowns req))
            (patch (PlayerStats.PassingInterceptions stats) (UpdatePlayerStatsRequest.PassingInterceptions req))
            (patch (PlayerStats.RushingAttempts stats) (UpdatePlayerStatsRequest.RushingAttempts req))
            (patch (PlayerStats.RushingYards stats) (UpdatePlayerStatsRequest.RushingYards req))
            (patch (PlayerStats.RushingTouchdowns stats) (UpdatePlayerStatsRequest.RushingTouchdowns req))
            (patch (PlayerStats.ReceivingTargets stats) (UpdatePlayerStatsRequest.ReceivingTargets req))
            (patch (PlayerStats.Receptions stats) (UpdatePlayerStatsRequest.Receptions req))
            (patch (PlayerStats.ReceivingYards stats) (UpdatePlayerStatsRequest.ReceivingYards req))
            (patch (PlayerStats.ReceivingTouchdowns stats) (UpdatePlayerStatsRequest.ReceivingTouchdowns req))
            (patch (PlayerStats.Fumbles stats) (UpdatePlayerStatsRequest.Fumbles req))
            (patch (PlayerStats.FumblesLost stats) (UpdatePlayerStatsRequest.FumblesLost req))
            (patch (PlayerStats.Tackles stats) (UpdatePlayerStatsRequest.Tackles req))
            (patch (PlayerStats.SoloTackles stats) (UpdatePlayerStatsRequest.SoloTackles req))
            (patch (PlayerStats.AssistedTackles stats) (UpdatePlayerStatsRequest.AssistedTackles req))
            (patch (PlayerStats.Sacks stats) (UpdatePlayerStatsRequest.Sacks req))
            (patch (PlayerStats.DefensiveInterceptions stats) (UpdatePlayerStatsRequest.DefensiveInterceptions req))
            (patch (PlayerStats.PassDeflections stats) (UpdatePlayerStatsRequest.PassDeflections req))
            (patch (PlayerStats.ForcedFumbles stats) (UpdatePlayerStatsRequest.ForcedFumbles req))
            (patch (PlayerStats.FumbleRecoveries stats) (UpdatePlayerStatsRequest.FumbleRecoveries req))
            (patch (PlayerStats.DefensiveTouchdowns stats) (UpdatePlayerStatsRequest.DefensiveTouchdowns req))
            (patch (PlayerStats.FieldGoalsAttempted stats) (UpdatePlayerStatsRequest.FieldGoalsAttempted req))
            (patch (PlayerStats.FieldGoalsMade stats) (UpdatePlayerStatsRequest.FieldGoalsMade req))
            (patch (PlayerStats.ExtraPointsAttempted stats) (UpdatePlayerStatsRequest.ExtraPointsAttempted req))
            (patch (PlayerStats.ExtraPointsMade stats) (UpdatePlayerStatsRequest.ExtraPointsMade req))
            (patch (PlayerStats.Punts stats) (UpdatePlayerStatsRequest.Punts req))
            (patch (PlayerStats.PuntYards stats) (UpdatePlayerStatsRequest.PuntYards req))
            (patch (PlayerStats.KickReturns stats) (UpdatePlayerStatsRequest.KickReturns req))
            (patch (PlayerStats.KickReturnYards stats) (UpdatePlayerStatsRequest.KickReturnYards req))
            (patch (PlayerStats.KickReturnTouchdowns stats) (UpdatePlayerStatsRequest.KickReturnTouchdowns req))
            (patch (PlayerStats.PuntReturns stats) (UpdatePlayerStatsRequest.PuntReturns req))
            (patch (PlayerStats.PuntReturnYards stats) (UpdatePlayerStatsRequest.PuntReturnYards req))
            (patch (PlayerStats.PuntReturnTouchdowns stats) (UpdatePlayerStatsRequest.PuntReturnTouchdowns req))
                 (PlayerStats.CreatedAt stats) (PlayerStats.UpdatedAt stats).

Definition UpdatePlayerStats (id : Z) (req : UpdatePlayerStatsRequest.t) : M PlayerStats.t :=
  if id <=? 0 then fail ("invalid player stats ID: " ++ itoa id)
  else
    match validateUpdatePlayerStatsRequest req with
    | Some err => fail ("validation failed: " ++ err)
    | None =>
        stats <- wrapf "failed to get player stats: " (playerStatsRepository.GetByID id) ;;
        wrapf "failed to update player stats: "
              (playerStatsRepository.Update (applyPatch stats req))
    end.

Definition DeletePlayerStats (id : Z) : M unit :=
  if id <=? 0 then fail ("invalid player stats ID: " ++ itoa id)
  else
    exists_ <- wrapf "failed to check player stats existence: "
                 (playerStatsRepository.Exists id) ;;
    if negb exists_ then fail ("player stats with ID " ++ itoa id ++ " not found")
    else wrapf "failed to delete player stats: " (playerStatsRepository.Delete id).

Context {C : Collation}.

Definition GetPlayerStats (id : Z) : M PlayerStats.t :=
  if id <=? 0 then fail ("invalid player stats ID: " ++ itoa id)
  else wrapf "failed to get player stats: " (playerStatsRepository.GetByID id).

Definition GetAllPlayerStats : M (list PlayerStats.t) :=
  wrapf "failed to get all player stats: " playerStatsRepository.GetAll.

Definition GetPlayerStatsByPlayer (playerID : Z) : M (list PlayerStats.t) :=
  if playerID <=? 0 then fail ("invalid player ID: " ++ itoa playerID)
  else
    exists_ <- wrapf "failed to verify player existence: "
                 (playerRepository.Exists playerID) ;;
    if negb exists_ then fail ("player with ID " ++ itoa playerID ++ " not found")
    else wrapf "failed to get player stats by player: "
               (playerStatsRepository.GetByPlayerID playerID).

Definition GetPlayerStatsByGame (gameID : Z) : M (list PlayerStats.t) :=
  if gameID <=? 0 then fail ("invalid game ID: " ++ itoa gameID)
  else wrapf "failed to get player stats by game: "
             (playerStatsRepository.GetByGameID gameID).
End Defs.
End playerStatsService.

(* ================================================================== *)
(** * Package handlers *)
(* ================================================================== *)

(** What a handler leaves in the [http.ResponseWriter]: the status code
    and the body.  [text msg] is the plain-text body [http.Error] writes
    (the message and a newline), [json a] the JSON encoding of [a]. *)
Module http.
Definition StatusOK : Z := 200.
Definition StatusCreated : Z := 201.
Definition StatusNoContent : Z := 204.
Definition StatusBadRequest : Z := 400.
Definition StatusNotFound : Z := 404.
Definition StatusInternalServerError : Z := 500.

Inductive Body (A : Type) : Type :=
| text (msg : string)
| json (a : A)
| empty.
Arguments text {A} msg.
Arguments json {A} a.
Arguments empty {A}.

Record Response (A : Type) : Type := mkResponse {
  StatusCode : Z;
  body : Body A
}.
Arguments mkResponse {A} StatusCode body.
Arguments StatusCode {A} r.
Arguments body {A} r.

(** [http.Error(w, msg, code)]. *)
Definition Error {A} (msg : string) (code : Z) : Response A := mkResponse code (text msg).

(** A body written without [WriteHeader]: the status is 200. *)
Definition Encode {A} (a : A) : Response A := mkResponse StatusOK (json a).
End http.

(** A handler runs in the world and leaves a response.  The path
    parameters [mux.Vars] yields are arguments; a request body is given as
    what [json.NewDecoder(r.Body).Decode(&req)] makes of it: [Some req], or
    [None] when [Decode] returns an error. *)
Definition Handler {L : GoLib} (A : Type) : Type := World -> http.Response A * World.

(** [x, err := call; if err != nil { failed } else { succeeded }]. *)
Definition respond {L : GoLib} {A B} (call : M A) (failed : string -> http.Response B)
    (succeeded : A -> http.Response B) : Handler B :=
  fun w => match call w with
           | (Ok a, w') => (succeeded a, w')
           | (Err err, w') => (failed err, w')
           end.

(** A handler that answers without calling the service. *)
Definition answer {L : GoLib} {B} (r : http.Response B) : Handler B := fun w => (r, w).

Module TeamHandler.
Section Defs.
Context {L : GoLib}.

Definition GetTeams : Handler (list Team.t) :=
  respond teamService.GetAllTeams
    (fun err => http.Error err http.StatusInternalServerError)
    http.Encode.

Definition CreateTeam (decoded : option CreateTeamRequest.t) : Handler Team.t :=
  match decoded with
  | None => answer (http.Error "Invalid JSON" http.StatusBadRequest)
  | Some req =>
      respond (teamService.CreateTeam req)
        (fun err => http.Error err http.StatusBadRequest)
        (fun team => http.mkResponse http.StatusCreated (http.json team))
  end.

Definition GetTeam (id : string) : Handler Team.t :=
  match Atoi id with
  | None => answer (http.Error "Invalid team ID" http.StatusBadRequest)
  | Some id =>
      respond (teamService.GetTeam id)
        (fun err => http.Error err http.StatusNotFound)
        http.Encode
  end.

Definition UpdateTeam (id : string) (decoded : option UpdateTeamRequest.t) : Handler Team.t :=
  match Atoi id with
  | None => answer (http.Error "Invalid team ID" http.StatusBadRequest)
  | Some id =>
      match decoded with
      | None => answer (http.Error "Invalid JSON" http.StatusBadRequest)
      | Some req =>
          respond (teamService.UpdateTeam id req)
            (fun err => http.Error err http.StatusBadRequest)
            http.Encode
      end
  end.

Definition DeleteTeam (id : string) : Handler unit :=
  match Atoi id with
  | None => answer (http.Error "Invalid team ID" http.StatusBadRequest)
  | Some id =>
      respond (teamService.DeleteTeam id)
        (fun err => http.Error err http.StatusNotFound)
        (fun _ => http.mkResponse http.StatusNoContent http.empty)
  end.
End Defs.
End TeamHandler.

Module PlayerHandler.
Section Defs.
Context {L : GoLib}.

Definition GetPlayers : Handler (list Player.t) :=
  respond playerService.GetAllPlayers
    (fun err => http.Error err http.StatusInternalServerError)
    http.Encode.

Definition CreatePlayer (decoded : option CreatePlayerRequest.t) : Handler Player.t :=
  match decoded with
  | None => answer (http.Error "Invalid JSON" http.StatusBadRequest)
  | Some req =>
      respond (playerService.CreatePlayer req)
        (fun err => http.Error err http.StatusBadRequest)
        (fun player => http.mkResponse http.StatusCreated (http.json player))
  end.

Definition GetPlayer (id : string) : Handler Player.t :=
  match Atoi id with
  | None => answer (http.Error "Invalid player ID" http.StatusBadRequest)
  | Some id =>
      respond (playerService.GetPlayer id)
        (fun err => http.Error err http.StatusNotFound)
        http.Encode
  end.

Definition UpdatePlayer (id : string) (decoded : option UpdatePlayerRequest.t)
    : Handler Player.t :=
  match Atoi id with
  | None => answer (http.Error "Invalid player ID" http.StatusBadRequest)
  | Some id =>
      match decoded with
      | None => answer (http.Error "Invalid JSON" http.StatusBadRequest)
      | Some req =>
          respond (playerService.UpdatePlayer id req)
            (fun err => http.Error err http.StatusBadRequest)
            http.Encode
      end
  end.

Definition DeletePlayer (id : string) : Handler unit :=
  match Atoi id with
  | None => answer (http.Error "Invalid player ID" http.StatusBadRequest)
  | Some id =>
      respond (playerService.DeletePlayer id)
        (fun err => http.Error err http.StatusNotFound)
        (fun _ => http.mkResponse http.StatusNoContent http.empty)
  end.
End Defs.
End PlayerHandler.

Module GameHandler.
Section Defs.
Context {L : GoLib} {C : Collation}.

(** The test the create and update handlers apply to a service error. *)
Definition is_client_error (err : string) : bool :=
  Contains err "validation failed" || Contains err "not found" ||
  Contains err "cannot be the same".

Definition GetGames : Handler (list Game.t) :=
  respond gameService.GetAllGames
    (fun err => http.Error ("Failed to get games: " ++ err) http.StatusInternalServerError)
    http.Encode.

Definition GetGame (idStr : string) : Handler Game.t :=
  match Atoi idStr with
  | None => answer (http.Error "Invalid game ID" http.StatusBadRequest)
  | Some id =>
      respond (gameService.GetGameByID id)
        (fun err =>
           if Contains err "not found" then http.Error err http.StatusNotFound
           else http.Error ("Failed to get game: " ++ err) http.StatusInternalServerError)
        http.Encode
  end.

Definition CreateGame (decoded : option CreateGameRequest.t) : Handler Game.t :=
  match decoded with
  | None => answer (http.Error "Invalid JSON" http.StatusBadRequest)
  | Some req =>
      respond (gameService.CreateGame req)
        (fun err =>
           if is_client_error err then http.Error err http.StatusBadRequest
           else http.Error ("Failed to create game: " ++ err)
                           http.StatusInternalServerError)
        (fun game => http.mkResponse http.StatusCreated (http.json game))
  end.

Definition UpdateGame (idStr : string) (decoded : option UpdateGameRequest.t)
    : Handler Game.t :=
  match Atoi idStr with
  | None => answer (http.Error "Invalid game ID" http.StatusBadRequest)
  | Some id =>
      match decoded with
      | None => answer (http.Error "Invalid JSON" http.StatusBadRequest)
      | Some req =>
          respond (gameService.UpdateGame id req)
            (fun err =>
               if is_client_error err then http.Error err http.StatusBadRequest
               else http.Error ("Failed to update game: " ++ err)
                               http.StatusInternalServerError)
            http.Encode
      end
  end.

Definition DeleteGame (idStr : string) : Handler unit :=
  match Atoi idStr with
  | None => answer (http.Error "Invalid game ID" http.StatusBadRequest)
  | Some id =>
      respond (gameService.DeleteGame id)
        (fun err =>
           if Contains err "not found" then http.Error err http.StatusNotFound
           else http.Error ("Failed to delete game: " ++ err)
                           http.StatusInternalServerError)
        (fun _ => http.mkResponse http.StatusNoContent http.empty)
  end.

Definition GetGamesByTeam (teamIDStr : string) : Handler (list Game.t) :=
  match Atoi teamIDStr with
  | None => answer (http.Error "Invalid team ID" http.StatusBadRequest)
  | Some teamID =>
      respond (gameService.GetGamesByTeam teamID)
        (fun err =>
           if Contains err "not found" then http.Error err http.StatusNotFound
           else http.Error ("Failed to get games: " ++ err) http.StatusInternalServerError)
        http.Encode
  end.

Definition GetGamesBySeason (season : string) : Handler (list Game.t) :=
  if (season =? "")%string
  then answer (http.Error "Season parameter is required" http.StatusBadRequest)
  else
    respond (gameService.GetGamesBySeason season)
      (fun err => http.Error ("Failed to get games: " ++ err) http.StatusInternalServerError)
      http.Encode.

Definition GetGamesByWeek (season weekStr : string) : Handler (list Game.t) :=
  if (season =? "")%string
  then answer (http.Error "Season parameter is required" http.StatusBadRequest)
  else
    match Atoi weekStr with
    | None => answer (http.Error "Invalid week parameter" http.StatusBadRequest)
    | Some week =>
        respond (gameService.GetGamesByWeek season week)
          (fun err =>
             if Contains err "must be between 1 and 22"
             then http.Error err http.StatusBadRequest
             else http.Error ("Failed to get games: " ++ err)
                             http.StatusInternalServerError)
          http.Encode
    end.
End Defs.
End GameHandler.

(* ================================================================== *)
(** * The mutating operations of the service layer *)
(* ================================================================== *)

Section Mutations.
Context {L : GoLib}.

Inductive Mutation : Type :=
| CreateTeam (req : CreateTeamRequest.t)
| UpdateTeam (id : Z) (req : UpdateTeamRequest.t)
| DeleteTeam (id : Z)
| CreatePlayer (req : CreatePlayerRequest.t)
| UpdatePlayer (id : Z) (req : UpdatePlayerRequest.t)
| DeletePlayer (id : Z)
| CreateGame (req : CreateGameRequest.t)
| UpdateGame (id : Z) (req : UpdateGameRequest.t)
| DeleteGame (id : Z)
| CreatePlayerStats (req : CreatePlayerStatsRequest.t)
| UpdatePlayerStats (id : Z) (req : UpdatePlayerStatsRequest.t)
| DeletePlayerStats (id : Z).

(** Keep the error of a call, drop its value. *)
Definition outcome {A} (m : M A) : M unit := _ <- m ;; ret tt.

Definition perform (op : Mutation) : M unit :=
  match op with
  | CreateTeam req => outcome (teamService.CreateTeam req)
  | UpdateTeam id req => outcome (teamService.UpdateTeam id req)
  | DeleteTeam id => teamService.DeleteTeam id
  | CreatePlayer req => outcome (playerService.CreatePlayer req)
  | UpdatePlayer id req => outcome (playerService.UpdatePlayer id req)
  | DeletePlayer id => playerService.DeletePlayer id
  | CreateGame req => outcome (gameService.CreateGame req)
  | UpdateGame id req => outcome (gameService.UpdateGame id req)
  | DeleteGame id => gameService.DeleteGame id
  | CreatePlayerStats req => outcome (playerStatsService.CreatePlayerStats req)
  | UpdatePlayerStats id req => outcome (playerStatsService.UpdatePlayerStats id req)
  | DeletePlayerStats id => playerStatsService.DeletePlayerStats id
  end.
End Mutations.

(** An error reporting that the repository's INSERT, UPDATE or DELETE itself
    failed: the repositories and the services prefix such errors with
    "failed to create", "failed to update" or "failed to delete". *)
Definition is_write_failure (e : string) : bool :=
  String.prefix "failed to create " e ||
  String.prefix "failed to update " e ||
  String.prefix "failed to delete " e.

(* ================================================================== *)
(** * A concrete runtime for running the model *)
(* ================================================================== *)

(** An implementation of [GoLib] on which the model can be evaluated: byte
    strings with the ASCII behaviour of [strings.TrimSpace] and
    [strings.EqualFold], and time as seconds since the Unix epoch in UTC
    with the calendar arithmetic of [time.Time.AddDate]. *)
Module Sample.

(** The space characters of [strings.TrimSpace] below U+0080. *)
Definition asciiSpace (c : ascii) : bool :=
  match N_of_ascii c with
  | 9%N | 10%N | 11%N | 12%N | 13%N | 32%N => true
  | _ => false
  end.

Fixpoint trimLeft (s : string) : string :=
  match s with
  | String c s' => if asciiSpace c then trimLeft s' else s
  | EmptyString => EmptyString
  end.

Fixpoint reverse (s acc : string) : string :=
  match s with
  | String c s' => reverse s' (String c acc)
  | EmptyString => acc
  end.

Definition TrimSpace (s : string) : string :=
  reverse (trimLeft (reverse (trimLeft s) "")) "".

Definition lower (c : ascii) : ascii :=
  let n := N_of_ascii c in
  if ((65 <=? n) && (n <=? 90))%N then ascii_of_N (n + 32) else c.

Fixpoint EqualFold (s t : string) : bool :=
  match s, t with
  | EmptyString, EmptyString => true
  | String a s', String b t' => Ascii.eqb (lower a) (lower b) && EqualFold s' t'
  | _, _ => false
  end.

(** Days since 1970-01-01 of a proleptic Gregorian date; the month may lie
    outside 1..12 and the day outside the month, as [time.Date] allows. *)
Definition days_from_civil (y m d : Z) : Z :=
  let y := y + (m - 1) / 12 in
  let m := (m - 1) mod 12 + 1 in
  let y := if m <=? 2 then y - 1 else y in
  let era := y / 400 in
  let yoe := y - era * 400 in
  let mp := if m >? 2 then m - 3 else m + 9 in
  let doy := (153 * mp + 2) / 5 in
  let doe := yoe * 365 + yoe / 4 - yoe / 100 + doy in
  era * 146097 + doe - 719468 + (d - 1).

(** Year, month and day of a day number. *)
Definition civil_from_days (z : Z) : Z * Z * Z :=
  let z := z + 719468 in
  let era := z / 146097 in
  let doe := z - era * 146097 in
  let yoe := (doe - doe / 1460 + doe / 36524 - doe / 146096) / 365 in
  let doy := doe - (365 * yoe + yoe / 4 - yoe / 100) in
  let mp := (5 * doy + 2) / 153 in
  let d := doy - (153 * mp + 2) / 5 + 1 in
  let m := if mp <? 10 then mp + 3 else mp - 9 in
  let y := yoe + era * 400 in
  (if m <=? 2 then y + 1 else y, m, d).

Definition AddDate (t years months days : Z) : Z :=
  let '(y, m, d) := civil_from_days (t / 86400) in
  days_from_civil (y + years) (m + months) (d + days) * 86400 + t mod 86400.

(** Midnight UTC of a date. *)
Definition date (y m d : Z) : Z := days_from_civil y m d * 86400.

Definition lib : GoLib :=
  Build_GoLib Z                             (* Time *)
              (date 1 1 1)                  (* zeroTime *)
              (fun t => t =? date 1 1 1)    (* IsZero *)
              Z.ltb                         (* Before *)
              Z.gtb                         (* After *)
              AddDate
              Z.eqb                         (* time_eqb *)
              TrimSpace
              EqualFold.

#[local] Existing Instance lib.

(** A clock that starts on 2024-09-01 and advances one second per
    reading, and a driver that never fails. *)
Definition clock (n : nat) : Z := Z.of_nat n + date 2024 9 1.
Definition healthy : Oracle := mkOracle clock (fun _ => None).

Definition no_rows {A} : table A := mkTable [] 0.

(** The store right after the migrations. *)
Definition fresh : World :=
  mkWorld (mkDB no_rows no_rows no_rows no_rows) [] 0%nat healthy.

(** The world after a sequence of requests. *)
Definition after (ops : list Mutation) (w : World) : World :=
  fold_left (fun w op => snd (perform op w)) ops w.

Definition chiefs : CreateTeamRequest.t :=
  CreateTeamRequest.mk "Chiefs" "Kansas City" "AFC" "West".
Definition raiders : CreateTeamRequest.t :=
  CreateTeamRequest.mk "Raiders" "Las Vegas" "afc" "west".
Definition opener : CreateGameRequest.t :=
  CreateGameRequest.mk 1 2 "2024" 1 (date 2024 9 5) "" None None.
Definition mahomes : CreatePlayerRequest.t :=
  CreatePlayerRequest.mk 1 "Patrick" "Mahomes" "QB" (Some 15) (Some 74) (Some 225).
Definition passing : CreatePlayerStatsRequest.t :=
  CreatePlayerStatsRequest.fromFields 1 1
    [("passing_attempts", 35); ("passing_completions", 28)].

Definition kickoff : list Mutation :=
  [CreateTeam chiefs; CreateTeam raiders; CreateGame opener;
   CreatePlayer mahomes; CreatePlayerStats passing].

(** The world [after kickoff fresh], written out: two teams (ids 1 and 2),
    one game between them (id 1), one player of team 1 wearing 15 (id 1)
    and that player's statistics for the game (id 1). *)
Definition league_store : DB := Eval vm_compute in store (after kickoff fresh).
Definition league_trace : list Stmt := Eval vm_compute in trace (after kickoff fresh).
Definition league_ticks : nat := Eval vm_compute in ticks (after kickoff fresh).
Definition league : World := mkWorld league_store league_trace league_ticks healthy.

(** Timestamps are seconds, and sort as numbers. *)
Definition collation : Collation := Build_Collation lib Z.leb.
#[local] Existing Instance collation.

(** The statistics row of the league, as [playerStatsRepository.GetByID 1]
    selects it. *)
Definition league_line : option PlayerStats.t :=
  Eval vm_compute in
    find (fun ps => (PlayerStats.ID ps =? 1) && playerStatsRepository.joined league_store ps)
         (rows (player_stats_t league_store)).
End Sample.

(* ================================================================== *)
(** * Notions used in the statements *)
(* ================================================================== *)

(** The messages of the five cross-field tests and of the empty-patch test. *)
Definition passing_error : string :=
  "passing completions cannot exceed passing attempts".
Definition tackles_error : string :=
  "total tackles must equal solo tackles plus assisted tackles".
Definition field_goals_error : string :=
  "field goals made cannot exceed field goals attempted".
Definition extra_points_error : string :=
  "extra points made cannot exceed extra points attempted".
Definition fumbles_error : string :=
  "fumbles lost cannot exceed total fumbles".
Definition no_fields_error : string :=
  "at least one field must be provided for update".

Section Notions.
Context {L : GoLib}.

(** The driver never fails on its own. *)
Definition healthy (w : World) : Prop :=
  forall n, fault (oracle w) n = None.

(** A computation that leaves the store alone and sends no write. *)
Definition readonly {A} (m : M A) : Prop :=
  forall w r w', m w = (r, w') -> store w' = store w /\ writes w' = writes w.

(** A computation none of whose statements reads table [tn]. *)
Definition avoids {A} (tn : TableName) (m : M A) : Prop :=
  forall w r w', m w = (r, w') ->
    exists sent, trace w' = (sent ++ trace w)%list /\ existsb (reads tn) sent = false.

(** A computation whose errors leave the store as it was. *)
Definition safe {A} (m : M A) : Prop :=
  forall w e w', m w = (Err e, w') -> store w' = store w.

(** A computation whose errors leave the store as it was, and that sends a
    write only when the error it returns is the failure of that write. *)
Definition atomic {A} (m : M A) : Prop :=
  forall w e w', m w = (Err e, w') ->
    store w' = store w /\ (writes w' = writes w \/ is_write_failure e = true).


(** [v] is a case-insensitive match ([strings.EqualFold]) of a member of
    [allowed]. *)
Definition fold_member (v : string) (allowed : list string) : Prop :=
  exists m, In m allowed /\ EqualFold v m = true.

(** A statistics row exists for the pair: the condition of
    [playerStatsRepository.ExistsByPlayerAndGame]. *)
Definition has_stats (playerID gameID : Z) (db : DB) : bool :=
  existsb (fun ps => (PlayerStats.PlayerID ps =? playerID) &&
                     (PlayerStats.GameID ps =? gameID))
          (rows (player_stats_t db)).

(** [p == nil || lo <= *p], and [p == nil || lo <= *p <= hi]. *)
Definition at_least (lo : Z) (p : option Z) : Prop :=
  match p with Some v => lo <= v | None => True end.

Definition within (lo hi : Z) (p : option Z) : Prop :=
  match p with Some v => lo <= v <= hi | None => True end.

(** What the player validators ask of the fields of a player. *)
Definition player_rules (p : Player.t) : Prop :=
  0 < Player.TeamID p /\
  Player.FirstName p <> "" /\ Player.LastName p <> "" /\ Player.Position p <> "" /\
  within 0 99 (Player.JerseyNumber p) /\
  within 60 90 (Player.Height p) /\
  within 150 400 (Player.Weight p).

(** What the game validators and the same-team test ask of the fields of a
    game. *)
Definition game_rules (g : Game.t) : Prop :=
  0 < Game.HomeTeamID g /\ 0 < Game.AwayTeamID g /\
  Game.HomeTeamID g <> Game.AwayTeamID g /\
  Game.Season g <> "" /\
  1 <= Game.Week g <= 22 /\
  IsZero (Game.GameDate g) = false /\
  In (Game.Status g) gameService.validStatuses /\
  at_least 0 (Game.HomeScore g) /\ at_least 0 (Game.AwayScore g).

(** The statistic counters of a row, in the order of the record. *)
Definition counters (s : PlayerStats.t) : list (option Z) :=
  [PlayerStats.PassingAttempts s;
   PlayerStats.PassingCompletions s;
   PlayerStats.PassingYards s;
   PlayerStats.PassingTouchdowns s;
   PlayerStats.PassingInterceptions s;
   PlayerStats.RushingAttempts s;
   PlayerStats.RushingYards s;
   PlayerStats.RushingTouchdowns s;
   PlayerStats.ReceivingTargets s;
   PlayerStats.Receptions s;
   PlayerStats.ReceivingYards s;
   PlayerStats.ReceivingTouchdowns s;
   PlayerStats.Fumbles s;
   PlayerStats.FumblesLost s;
   PlayerStats.Tackles s;
   PlayerStats.SoloTackles s;
   PlayerStats.AssistedTackles s;
   PlayerStats.Sacks s;
   PlayerStats.DefensiveInterceptions s;
   PlayerStats.PassDeflections s;
   PlayerStats.ForcedFumbles s;
   PlayerStats.FumbleRecoveries s;
   PlayerStats.DefensiveTouchdowns s;
   PlayerStats.FieldGoalsAttempted s;
   PlayerStats.FieldGoalsMade s;
   PlayerStats.ExtraPointsAttempted s;
   PlayerStats.ExtraPointsMade s;
   PlayerStats.Punts s;
   PlayerStats.PuntYards s;
   PlayerStats.KickReturns s;
   PlayerStats.KickReturnYards s;
   PlayerStats.KickReturnTouchdowns s;
   PlayerStats.PuntReturns s;
   PlayerStats.PuntReturnYards s;
   PlayerStats.PuntReturnTouchdowns s].

(** What the statistics validators ask of every row: positive ids and no
    negative counter. *)
Definition stats_rules (s : PlayerStats.t) : Prop :=
  0 < PlayerStats.PlayerID s /\ 0 < PlayerStats.GameID s /\
  Forall (at_least 0) (counters s).

(** No two players of a team wear the same number. *)
Definition unique_jerseys (db : DB) : Prop :=
  forall a b n,
    In a (rows (players_t db)) -> In b (rows (players_t db)) ->
    Player.TeamID a = Player.TeamID b ->
    Player.JerseyNumber a = Some n -> Player.JerseyNumber b = Some n ->
    Player.ID a = Player.ID b.

(** The row [gameRepository.GetByID] selects. *)
Definition selected_game (id : Z) (db : DB) : option Game.t :=
  find (fun g => (Game.ID g =? id) && gameRepository.joined db g)
       (rows (games_t db)).

(** A table as SQLite keeps it: no two rows share an id, and no row has an
    id above the AUTOINCREMENT counter. *)
Definition keyed {A} (key : A -> Z) (t : table A) : Prop :=
  NoDup (map key (rows t)) /\ forall r, In r (rows t) -> key r <= seq t.

Definition consistent (db : DB) : Prop :=
  keyed Team.ID (teams_t db) /\ keyed Game.ID (games_t db) /\
  keyed Player.ID (players_t db) /\ keyed PlayerStats.ID (player_stats_t db).

(** The store a request leaves, against the one it found: still as SQLite
    keeps it, and no AUTOINCREMENT counter went down. *)
Definition grown (db db' : DB) : Prop :=
  consistent db' /\
  seq (teams_t db) <= seq (teams_t db') /\
  seq (games_t db) <= seq (games_t db') /\
  seq (players_t db) <= seq (players_t db') /\
  seq (player_stats_t db) <= seq (player_stats_t db').

(** The row [playerRepository.GetByID] selects. *)
Definition selected_player (id : Z) (db : DB) : option Player.t :=
  find (fun p => (Player.ID p =? id) && playerRepository.joined db p)
       (rows (players_t db)).

(** The row [playerStatsRepository.GetByID] selects. *)
Definition selected (id : Z) (db : DB) : option PlayerStats.t :=
  find (fun ps => (PlayerStats.ID ps =? id) && playerStatsRepository.joined db ps)
       (rows (player_stats_t db)).

End Notions.

(* ================================================================== *)
(** * Properties of the validation rules *)
(* ================================================================== *)

(** ** Machine arithmetic *)

Lemma wrap_id (z : Z) : is_int z -> wrap z = z.
Proof.
  unfold is_int, min_int, max_int, wrap. intros H.
  rewrite Z.mod_small; lia.
Qed.

Lemma wrap_above (z : Z) : max_int < z < 2 ^ 64 -> wrap z = z - 2 ^ 64.
Proof.
  unfold max_int, wrap. intros H.
  replace (z + 2 ^ 63) with ((z - 2 ^ 63) + 1 * 2 ^ 64) by lia.
  rewrite Z.mod_add by lia. rewrite Z.mod_small; lia.
Qed.

Lemma wrap_below (z : Z) : - 2 ^ 64 <= z < min_int -> wrap z = z + 2 ^ 64.
Proof.
  unfold min_int, wrap. intros H.
  replace (z + 2 ^ 63) with ((z + 2 ^ 64 + 2 ^ 63) + (-1) * 2 ^ 64) by lia.
  rewrite Z.mod_add by lia. rewrite Z.mod_small; lia.
Qed.

(** When the machine sum of two [int]s differs from their mathematical sum,
    the sum overflowed: an operand is negative or the wrapped sum is. *)
Lemma int_add_overflow (s a : Z) :
  is_int s -> is_int a -> int_add s a <> s + a ->
  s < 0 \/ a < 0 \/ int_add s a < 0.
Proof.
  unfold int_add. intros Hs Ha Hne.
  destruct (Z_lt_dec (s + a) min_int) as [Hlo | Hlo].
  - unfold is_int, min_int, max_int in *. lia.
  - destruct (Z_lt_dec max_int (s + a)) as [Hhi | Hhi].
    + right; right. rewrite wrap_above.
      * unfold is_int, min_int, max_int in *. lia.
      * unfold is_int, min_int, max_int in *. lia.
    + exfalso. apply Hne. apply wrap_id. unfold is_int. lia.
Qed.

(** ** The loop over the non-negative fields *)

Section Counters.
Context {L : GoLib}.
Import playerStatsService.

Lemma firstNegative_hit (fields : list (option Z * string)) (v : Z) (name : string) :
  In (Some v, name) fields -> v < 0 -> firstNegative fields <> None.
Proof.
  induction fields as [| [value nm] rest IH]; simpl; intros Hin Hneg.
  - contradiction.
  - destruct Hin as [Heq | Hin].
    + inversion Heq; subst. simpl.
      replace (v <? 0) with true by (symmetry; apply Z.ltb_lt; exact Hneg).
      discriminate.
    + destruct (ptr_lt value 0); [discriminate | auto].
Qed.

(** The loop only ever reports "<name> cannot be negative" for a listed
    name. *)
Lemma firstNegative_message (fields : list (option Z * string)) (msg : string) :
  firstNegative fields = Some msg ->
  In msg (map (fun f => snd f ++ " cannot be negative") fields).
Proof.
  induction fields as [| [value nm] rest IH]; simpl; intros H.
  - discriminate.
  - destruct (ptr_lt value 0).
    + inversion H. left. reflexivity.
    + right. auto.
Qed.

Lemma firstNegative_all_nil (fields : list (option Z * string)) :
  forallb (fun f => isNil (fst f)) fields = true -> firstNegative fields = None.
Proof.
  induction fields as [| [value nm] rest IH]; simpl; intros H.
  - reflexivity.
  - apply andb_true_iff in H. destruct H as [Hv Hrest].
    destruct value; [discriminate | simpl; auto].
Qed.
End Counters.

Section StatRules.
Context {L : GoLib}.
Import playerStatsService.

Lemma CreatePlayerStats_invalid (req : CreatePlayerStatsRequest.t) (e : string) (w : World) :
  validateCreatePlayerStatsRequest req = Some e ->
  CreatePlayerStats req w = (Err ("validation failed: " ++ e), w).
Proof. intros H. unfold CreatePlayerStats. rewrite H. reflexivity. Qed.

Lemma UpdatePlayerStats_invalid (id : Z) (req : UpdatePlayerStatsRequest.t)
    (e : string) (w : World) :
  0 < id ->
  validateUpdatePlayerStatsRequest req = Some e ->
  UpdatePlayerStats id req w = (Err ("validation failed: " ++ e), w).
Proof.
  intros Hid H. unfold UpdatePlayerStats.
  replace (id <=? 0) with false by (symmetry; apply Z.leb_gt; exact Hid).
  rewrite H. reflexivity.
Qed.

Lemma UpdatePlayerStats_rejects (id : Z) (req : UpdatePlayerStatsRequest.t) (w : World) :
  validateUpdatePlayerStatsRequest req <> None ->
  exists e, UpdatePlayerStats id req w = (Err e, w).
Proof.
  intros H. unfold UpdatePlayerStats.
  destruct (id <=? 0); [eexists; reflexivity |].
  destruct (validateUpdatePlayerStatsRequest req); [eexists; reflexivity | congruence].
Qed.

Lemma create_constraints_propagate (req : CreatePlayerStatsRequest.t) :
  validateStatConstraints req <> None -> validateCreatePlayerStatsRequest req <> None.
Proof.
  intros H. unfold validateCreatePlayerStatsRequest.
  repeat match goal with |- context [if ?c then _ else _] => destruct c end;
    solve [discriminate | exact H].
Qed.

Lemma update_constraints_propagate (req : UpdatePlayerStatsRequest.t) :
  validateUpdateStatConstraints req <> None -> validateUpdatePlayerStatsRequest req <> None.
Proof.
  intros H. unfold validateUpdatePlayerStatsRequest.
  destruct (noField req); [discriminate | exact H].
Qed.

(** Membership in a literal list, by position. *)
Ltac listed := simpl; repeat first [left; reflexivity | right].

(** A message that is none of the listed ones. *)
Ltac unlisted H :=
  simpl in H; repeat (destruct H as [H | H]; [discriminate H |]); contradiction.

Lemma create_tackles_mismatch_rejected (req : CreatePlayerStatsRequest.t) (t s a : Z) :
  CreatePlayerStatsRequest.Tackles req = Some t ->
  CreatePlayerStatsRequest.SoloTackles req = Some s ->
  CreatePlayerStatsRequest.AssistedTackles req = Some a ->
  is_int s -> is_int a -> t <> s + a ->
  validateStatConstraints req <> None.
Proof.
  intros Ht Hs Ha Is Ia Hne.
  unfold validateStatConstraints, tackles_mismatch. rewrite Ht, Hs, Ha.
  destruct (exceeds _ _); [discriminate |].
  destruct (t =? int_add s a) eqn:E; cbn [negb]; [| discriminate].
  apply Z.eqb_eq in E.
  repeat (destruct (exceeds _ _); [discriminate |]).
  assert (Hov : int_add s a <> s + a) by congruence.
  destruct (int_add_overflow s a Is Ia Hov) as [H | [H | H]].
  - apply firstNegative_hit with (v := s) (name := "solo tackles"); [| exact H].
    unfold createNonNegativeFields. rewrite Hs. listed.
  - apply firstNegative_hit with (v := a) (name := "assisted tackles"); [| exact H].
    unfold createNonNegativeFields. rewrite Ha. listed.
  - apply firstNegative_hit with (v := t) (name := "tackles"); [| lia].
    unfold createNonNegativeFields. rewrite Ht. listed.
Qed.

Lemma update_tackles_mismatch_rejected (req : UpdatePlayerStatsRequest.t) (t s a : Z) :
  UpdatePlayerStatsRequest.Tackles req = Some t ->
  UpdatePlayerStatsRequest.SoloTackles req = Some s ->
  UpdatePlayerStatsRequest.AssistedTackles req = Some a ->
  is_int s -> is_int a -> t <> s + a ->
  validateUpdateStatConstraints req <> None.
Proof.
  intros Ht Hs Ha Is Ia Hne.
  unfold validateUpdateStatConstraints, tackles_mismatch. rewrite Ht, Hs, Ha.
  destruct (exceeds _ _); [discriminate |].
  destruct (t =? int_add s a) eqn:E; cbn [negb]; [| discriminate].
  apply Z.eqb_eq in E.
  repeat (destruct (exceeds _ _); [discriminate |]).
  assert (Hov : int_add s a <> s + a) by congruence.
  destruct (int_add_overflow s a Is Ia Hov) as [H | [H | H]].
  - apply firstNegative_hit with (v := s) (name := "solo tackles"); [| exact H].
    unfold updateNonNegativeFields. rewrite Hs. listed.
  - apply firstNegative_hit with (v := a) (name := "assisted tackles"); [| exact H].
    unfold updateNonNegativeFields. rewrite Ha. listed.
  - apply firstNegative_hit with (v := t) (name := "tackles"); [| lia].
    unfold updateNonNegativeFields. rewrite Ht. listed.
Qed.

(** When the tackles test does not fire, no other test produces its
    message. *)
Lemma create_tackles_silent (req : CreatePlayerStatsRequest.t) :
  tackles_mismatch (CreatePlayerStatsRequest.Tackles req)
                   (CreatePlayerStatsRequest.SoloTackles req)
                   (CreatePlayerStatsRequest.AssistedTackles req) = false ->
  validateStatConstraints req <> Some tackles_error.
Proof.
  intros Hm. unfold validateStatConstraints. rewrite Hm.
  repeat (destruct (exceeds _ _); [discriminate |]).
  intros H. apply firstNegative_message in H. unlisted H.
Qed.

Lemma update_tackles_silent (req : UpdatePlayerStatsRequest.t) :
  tackles_mismatch (UpdatePlayerStatsRequest.Tackles req)
                   (UpdatePlayerStatsRequest.SoloTackles req)
                   (UpdatePlayerStatsRequest.AssistedTackles req) = false ->
  validateUpdateStatConstraints req <> Some tackles_error.
Proof.
  intros Hm. unfold validateUpdateStatConstraints. rewrite Hm.
  repeat (destruct (exceeds _ _); [discriminate |]).
  intros H. apply firstNegative_message in H. unlisted H.
Qed.

Lemma tackles_match (t s a : Z) :
  is_int t -> t = s + a -> tackles_mismatch (Some t) (Some s) (Some a) = false.
Proof.
  intros It E. simpl. unfold int_add. rewrite <- E, (wrap_id t It), Z.eqb_refl.
  reflexivity.
Qed.

Lemma tackles_absent (t s a : option Z) :
  t = None \/ s = None \/ a = None -> tackles_mismatch t s a = false.
Proof.
  intros H. destruct t, s, a; try reflexivity.
  destruct H as [H | [H | H]]; discriminate H.
Qed.
(** The tackles message is returned exactly when the tackles test fires,
    which needs the test before it, on the passing completions, to pass. *)
Lemma create_tackles_message (req : CreatePlayerStatsRequest.t) :
  validateStatConstraints req = Some tackles_error <->
  exceeds (CreatePlayerStatsRequest.PassingCompletions req)
          (CreatePlayerStatsRequest.PassingAttempts req) = false /\
  tackles_mismatch (CreatePlayerStatsRequest.Tackles req)
                   (CreatePlayerStatsRequest.SoloTackles req)
                   (CreatePlayerStatsRequest.AssistedTackles req) = true.
Proof.
  split.
  - intros H.
    destruct (tackles_mismatch (CreatePlayerStatsRequest.Tackles req)
                (CreatePlayerStatsRequest.SoloTackles req)
                (CreatePlayerStatsRequest.AssistedTackles req)) eqn:Hm.
    + unfold validateStatConstraints in H.
      destruct (exceeds (CreatePlayerStatsRequest.PassingCompletions req) _);
        [discriminate H | split; reflexivity].
    + exfalso. exact (create_tackles_silent req Hm H).
  - intros [He Hm]. unfold validateStatConstraints. rewrite He, Hm. reflexivity.
Qed.

Lemma update_tackles_message (req : UpdatePlayerStatsRequest.t) :
  validateUpdateStatConstraints req = Some tackles_error <->
  exceeds (UpdatePlayerStatsRequest.PassingCompletions req)
          (UpdatePlayerStatsRequest.PassingAttempts req) = false /\
  tackles_mismatch (UpdatePlayerStatsRequest.Tackles req)
                   (UpdatePlayerStatsRequest.SoloTackles req)
                   (UpdatePlayerStatsRequest.AssistedTackles req) = true.
Proof.
  split.
  - intros H.
    destruct (tackles_mismatch (UpdatePlayerStatsRequest.Tackles req)
                (UpdatePlayerStatsRequest.SoloTackles req)
                (UpdatePlayerStatsRequest.AssistedTackles req)) eqn:Hm.
    + unfold validateUpdateStatConstraints in H.
      destruct (exceeds (UpdatePlayerStatsRequest.PassingCompletions req) _);
        [discriminate H | split; reflexivity].
    + exfalso. exact (update_tackles_silent req Hm H).
  - intros [He Hm]. unfold validateUpdateStatConstraints. rewrite He, Hm. reflexivity.
Qed.

(** When the tackles test does not fire and the other tests pass, the
    request passes. *)
Lemma create_tackles_passes (req : CreatePlayerStatsRequest.t) :
  tackles_mismatch (CreatePlayerStatsRequest.Tackles req)
                   (CreatePlayerStatsRequest.SoloTackles req)
                   (CreatePlayerStatsRequest.AssistedTackles req) = false ->
  exceeds (CreatePlayerStatsRequest.PassingCompletions req)
          (CreatePlayerStatsRequest.PassingAttempts req) = false ->
  exceeds (CreatePlayerStatsRequest.FieldGoalsMade req)
          (CreatePlayerStatsRequest.FieldGoalsAttempted req) = false ->
  exceeds (CreatePlayerStatsRequest.ExtraPointsMade req)
          (CreatePlayerStatsRequest.ExtraPointsAttempted req) = false ->
  exceeds (CreatePlayerStatsRequest.FumblesLost req)
          (CreatePlayerStatsRequest.Fumbles req) = false ->
  firstNegative (createNonNegativeFields req) = None ->
  validateStatConstraints req = None.
Proof.
  intros Hm H1 H2 H3 H4 H5. unfold validateStatConstraints.
  rewrite Hm, H1, H2, H3, H4. exact H5.
Qed.

Lemma update_tackles_passes (req : UpdatePlayerStatsRequest.t) :
  tackles_mismatch (UpdatePlayerStatsRequest.Tackles req)
                   (UpdatePlayerStatsRequest.SoloTackles req)
                   (UpdatePlayerStatsRequest.AssistedTackles req) = false ->
  exceeds (UpdatePlayerStatsRequest.PassingCompletions req)
          (UpdatePlayerStatsRequest.PassingAttempts req) = false ->
  exceeds (UpdatePlayerStatsRequest.FieldGoalsMade req)
          (UpdatePlayerStatsRequest.FieldGoalsAttempted req) = false ->
  exceeds (UpdatePlayerStatsRequest.ExtraPointsMade req)
          (UpdatePlayerStatsRequest.ExtraPointsAttempted req) = false ->
  exceeds (UpdatePlayerStatsRequest.FumblesLost req)
          (UpdatePlayerStatsRequest.Fumbles req) = false ->
  firstNegative (updateNonNegativeFields req) = None ->
  validateUpdateStatConstraints req = None.
Proof.
  intros Hm H1 H2 H3 H4 H5. unfold validateUpdateStatConstraints.
  rewrite Hm, H1, H2, H3, H4. exact H5.
Qed.

(** A create that carries the three tackles counters carries a statistic. *)
Lemma tackles_is_a_statistic (req : CreatePlayerStatsRequest.t) (t : Z) :
  CreatePlayerStatsRequest.Tackles req = Some t -> noStatistic req = false.
Proof.
  intros Ht. unfold noStatistic. rewrite Ht. cbn [isNil].
  repeat rewrite ?andb_false_r, ?andb_false_l. reflexivity.
Qed.

Lemma tackles_is_a_field (req : UpdatePlayerStatsRequest.t) (t : Z) :
  UpdatePlayerStatsRequest.Tackles req = Some t -> noField req = false.
Proof.
  intros Ht. unfold noField. rewrite Ht. cbn [isNil].
  repeat rewrite ?andb_false_r, ?andb_false_l. reflexivity.
Qed.

Lemma tackles_differ (t s a : Z) :
  tackles_mismatch (Some t) (Some s) (Some a) = true <-> t <> int_add s a.
Proof.
  cbn [tackles_mismatch]. rewrite negb_true_iff. apply Z.eqb_neq.
Qed.
End StatRules.

(** C9.  A PlayerStats create request that supplies only [player_id] and
    [game_id] (every optional statistic counter absent) is rejected with
    "at least one statistic must be provided" whenever both identifiers are
    positive, whatever the store contains (so also when the player and the
    game exist); nothing is read from or written to the store. *)
Theorem create_stats_needs_a_statistic {L : GoLib} (playerID gameID : Z) (w : World) :
  0 < playerID -> 0 < gameID ->
  playerStatsService.CreatePlayerStats
    (CreatePlayerStatsRequest.onlyIDs playerID gameID) w
  = (Err "validation failed: at least one statistic must be provided", w).
Proof.
  intros Hp Hg.
  apply CreatePlayerStats_invalid with
    (e := "at least one statistic must be provided").
  unfold playerStatsService.validateCreatePlayerStatsRequest.
  cbn [CreatePlayerStatsRequest.onlyIDs CreatePlayerStatsRequest.fromFields
       CreatePlayerStatsRequest.PlayerID CreatePlayerStatsRequest.GameID].
  replace (playerID <=? 0) with false by (symmetry; apply Z.leb_gt; exact Hp).
  replace (gameID <=? 0) with false by (symmetry; apply Z.leb_gt; exact Hg).
  reflexivity.
Qed.

(** The player and the game of the request exist in the sample league. *)
Lemma create_stats_needs_a_statistic_witness :
  sql_exists Player.ID 1 (players_t (store Sample.league)) = true /\
  sql_exists Game.ID 1 (games_t (store Sample.league)) = true /\
  playerStatsService.CreatePlayerStats (L := Sample.lib)
    (CreatePlayerStatsRequest.onlyIDs 1 1) Sample.league
  = (Err "validation failed: at least one statistic must be provided", Sample.league).
Proof.
  split; [reflexivity | split; [reflexivity |]].
  apply (create_stats_needs_a_statistic (L := Sample.lib) 1 1 Sample.league); lia.
Defined.

(** C8.  When tackles, solo_tackles and assisted_tackles are all supplied
    (as [int] values) to a create or an update:
    - if tackles differ from solo + assisted the request is rejected; the
      message is "total tackles must equal solo tackles plus assisted
      tackles" exactly when the test before it (passing completions against
      attempts) passes and tackles differ from the machine sum, and then,
      for positive ids, the service returns "validation failed: " followed
      by that message and touches nothing;
    - if tackles equal solo + assisted the test passes: the tackles message
      is not returned, and when the other tests of the validator pass the
      request is valid.
    When one of the three is absent the test is skipped, with the same two
    consequences. *)
Theorem tackles_rule {L : GoLib} (t s a : Z) :
  is_int t -> is_int s -> is_int a ->
  (forall (req : CreatePlayerStatsRequest.t) (w : World),
      CreatePlayerStatsRequest.Tackles req = Some t ->
      CreatePlayerStatsRequest.SoloTackles req = Some s ->
      CreatePlayerStatsRequest.AssistedTackles req = Some a ->
      (t <> s + a ->
         playerStatsService.validateStatConstraints req <> None /\
         exists e, playerStatsService.CreatePlayerStats req w = (Err e, w)) /\
      (playerStatsService.validateStatConstraints req = Some tackles_error <->
         playerStatsService.exceeds (CreatePlayerStatsRequest.PassingCompletions req)
                                    (CreatePlayerStatsRequest.PassingAttempts req) = false /\
         t <> int_add s a) /\
      (playerStatsService.validateStatConstraints req = Some tackles_error ->
       0 < CreatePlayerStatsRequest.PlayerID req ->
       0 < CreatePlayerStatsRequest.GameID req ->
       playerStatsService.CreatePlayerStats req w
       = (Err ("validation failed: " ++ tackles_error), w)) /\
      (t = s + a ->
         playerStatsService.validateStatConstraints req <> Some tackles_error /\
         (playerStatsService.exceeds (CreatePlayerStatsRequest.PassingCompletions req)
                                     (CreatePlayerStatsRequest.PassingAttempts req) = false ->
          playerStatsService.exceeds (CreatePlayerStatsRequest.FieldGoalsMade req)
                                     (CreatePlayerStatsRequest.FieldGoalsAttempted req) = false ->
          playerStatsService.exceeds (CreatePlayerStatsRequest.ExtraPointsMade req)
                                     (CreatePlayerStatsRequest.ExtraPointsAttempted req) = false ->
          playerStatsService.exceeds (CreatePlayerStatsRequest.FumblesLost req)
                                     (CreatePlayerStatsRequest.Fumbles req) = false ->
          playerStatsService.firstNegative
            (playerStatsService.createNonNegativeFields req) = None ->
          playerStatsService.validateStatConstraints req = None /\
          (0 < CreatePlayerStatsRequest.PlayerID req ->
           0 < CreatePlayerStatsRequest.GameID req ->
           playerStatsService.validateCreatePlayerStatsRequest req = None)))) /\
  (forall (id : Z) (req : UpdatePlayerStatsRequest.t) (w : World),
      UpdatePlayerStatsRequest.Tackles req = Some t ->
      UpdatePlayerStatsRequest.SoloTackles req = Some s ->
      UpdatePlayerStatsRequest.AssistedTackles req = Some a ->
      (t <> s + a ->
         playerStatsService.validateUpdateStatConstraints req <> None /\
         exists e, playerStatsService.UpdatePlayerStats id req w = (Err e, w)) /\
      (playerStatsService.validateUpdateStatConstraints req = Some tackles_error <->
         playerStatsService.exceeds (UpdatePlayerStatsRequest.PassingCompletions req)
                                    (UpdatePlayerStatsRequest.PassingAttempts req) = false /\
         t <> int_add s a) /\
      (playerStatsService.validateUpdateStatConstraints req = Some tackles_error ->
       0 < id ->
       playerStatsService.UpdatePlayerStats id req w
       = (Err ("validation failed: " ++ tackles_error), w)) /\
      (t = s + a ->
         playerStatsService.validateUpdateStatConstraints req <> Some tackles_error /\
         (playerStatsService.exceeds (UpdatePlayerStatsRequest.PassingCompletions req)
                                     (UpdatePlayerStatsRequest.PassingAttempts req) = false ->
          playerStatsService.exceeds (UpdatePlayerStatsRequest.FieldGoalsMade req)
                                     (UpdatePlayerStatsRequest.FieldGoalsAttempted req) = false ->
          playerStatsService.exceeds (UpdatePlayerStatsRequest.ExtraPointsMade req)
                                     (UpdatePlayerStatsRequest.ExtraPointsAttempted req) = false ->
          playerStatsService.exceeds (UpdatePlayerStatsRequest.FumblesLost req)
                                     (UpdatePlayerStatsRequest.Fumbles req) = false ->
          playerStatsService.firstNegative
            (playerStatsService.updateNonNegativeFields req) = None ->
          playerStatsService.validateUpdateStatConstraints req = None /\
          playerStatsService.validateUpdatePlayerStatsRequest req = None))) /\
  (forall req : CreatePlayerStatsRequest.t,
      CreatePlayerStatsRequest.Tackles req = None \/
      CreatePlayerStatsRequest.SoloTackles req = None \/
      CreatePlayerStatsRequest.AssistedTackles req = None ->
      playerStatsService.validateStatConstraints req <> Some tackles_error /\
      (playerStatsService.exceeds (CreatePlayerStatsRequest.PassingCompletions req)
                                  (CreatePlayerStatsRequest.PassingAttempts req) = false ->
       playerStatsService.exceeds (CreatePlayerStatsRequest.FieldGoalsMade req)
                                  (CreatePlayerStatsRequest.FieldGoalsAttempted req) = false ->
       playerStatsService.exceeds (CreatePlayerStatsRequest.ExtraPointsMade req)
                                  (CreatePlayerStatsRequest.ExtraPointsAttempted req) = false ->
       playerStatsService.exceeds (CreatePlayerStatsRequest.FumblesLost req)
                                  (CreatePlayerStatsRequest.Fumbles req) = false ->
       playerStatsService.firstNegative
         (playerStatsService.createNonNegativeFields req) = None ->
       playerStatsService.validateStatConstraints req = None)) /\
  (forall req : UpdatePlayerStatsRequest.t,
      UpdatePlayerStatsRequest.Tackles req = None \/
      UpdatePlayerStatsRequest.SoloTackles req = None \/
      UpdatePlayerStatsRequest.AssistedTackles req = None ->
      playerStatsService.validateUpdateStatConstraints req <> Some tackles_error /\
      (playerStatsService.exceeds (UpdatePlayerStatsRequest.PassingCompletions req)
                                  (UpdatePlayerStatsRequest.PassingAttempts req) = false ->
       playerStatsService.exceeds (UpdatePlayerStatsRequest.FieldGoalsMade req)
                                  (UpdatePlayerStatsRequest.FieldGoalsAttempted req) = false ->
       playerStatsService.exceeds (UpdatePlayerStatsRequest.ExtraPointsMade req)
                                  (UpdatePlayerStatsRequest.ExtraPointsAttempted req) = false ->
       playerStatsService.exceeds (UpdatePlayerStatsRequest.FumblesLost req)
                                  (UpdatePlayerStatsRequest.Fumbles req) = false ->
       playerStatsService.firstNegative
         (playerStatsService.updateNonNegativeFields req) = None ->
       playerStatsService.validateUpdateStatConstraints req = None)).
Proof.
  intros It Is Ia. split; [| split; [| split]].
  - intros req w Ht Hs Ha.
    assert (t = s + a ->
            playerStatsService.tackles_mismatch
              (CreatePlayerStatsRequest.Tackles req)
              (CreatePlayerStatsRequest.SoloTackles req)
              (CreatePlayerStatsRequest.AssistedTackles req) = false) as Hmatch
      by (intros E; rewrite Ht, Hs, Ha; apply tackles_match; assumption).
    split; [| split; [| split]].
    + intros Hne.
      assert (playerStatsService.validateStatConstraints req <> None) as Hc
        by (eapply create_tackles_mismatch_rejected; eauto).
      split; [exact Hc |].
      apply create_constraints_propagate in Hc.
      destruct (playerStatsService.validateCreatePlayerStatsRequest req) as [e |] eqn:E;
        [| congruence].
      eexists. apply CreatePlayerStats_invalid. exact E.
    + rewrite create_tackles_message, Ht, Hs, Ha, tackles_differ. reflexivity.
    + intros Hv Hp Hg. apply CreatePlayerStats_invalid.
      unfold playerStatsService.validateCreatePlayerStatsRequest.
      replace (CreatePlayerStatsRequest.PlayerID req <=? 0) with false
        by (symmetry; apply Z.leb_gt; exact Hp).
      replace (CreatePlayerStatsRequest.GameID req <=? 0) with false
        by (symmetry; apply Z.leb_gt; exact Hg).
      rewrite (tackles_is_a_statistic req t Ht). exact Hv.
    + intros E. split; [apply create_tackles_silent; auto |].
      intros H1 H2 H3 H4 H5.
      assert (playerStatsService.validateStatConstraints req = None) as Hc
        by (apply create_tackles_passes; auto).
      split; [exact Hc |]. intros Hp Hg.
      unfold playerStatsService.validateCreatePlayerStatsRequest.
      replace (CreatePlayerStatsRequest.PlayerID req <=? 0) with false
        by (symmetry; apply Z.leb_gt; exact Hp).
      replace (CreatePlayerStatsRequest.GameID req <=? 0) with false
        by (symmetry; apply Z.leb_gt; exact Hg).
      rewrite (tackles_is_a_statistic req t Ht). exact Hc.
  - intros id req w Ht Hs Ha.
    assert (t = s + a ->
            playerStatsService.tackles_mismatch
              (UpdatePlayerStatsRequest.Tackles req)
              (UpdatePlayerStatsRequest.SoloTackles req)
              (UpdatePlayerStatsRequest.AssistedTackles req) = false) as Hmatch
      by (intros E; rewrite Ht, Hs, Ha; apply tackles_match; assumption).
    split; [| split; [| split]].
    + intros Hne.
      assert (playerStatsService.validateUpdateStatConstraints req <> None) as Hc
        by (eapply update_tackles_mismatch_rejected; eauto).
      split; [exact Hc |].
      apply UpdatePlayerStats_rejects. apply update_constraints_propagate. exact Hc.
    + rewrite update_tackles_message, Ht, Hs, Ha, tackles_differ. reflexivity.
    + intros Hv Hid. apply UpdatePlayerStats_invalid; [exact Hid |].
      unfold playerStatsService.validateUpdatePlayerStatsRequest.
      rewrite (tackles_is_a_field req t Ht). exact Hv.
    + intros E. split; [apply update_tackles_silent; auto |].
      intros H1 H2 H3 H4 H5.
      assert (playerStatsService.validateUpdateStatConstraints req = None) as Hc
        by (apply update_tackles_passes; auto).
      split; [exact Hc |].
      unfold playerStatsService.validateUpdatePlayerStatsRequest.
      rewrite (tackles_is_a_field req t Ht). exact Hc.
  - intros req Habs. apply tackles_absent in Habs.
    split; [apply create_tackles_silent; exact Habs |].
    intros H1 H2 H3 H4 H5. apply create_tackles_passes; assumption.
  - intros req Habs. apply tackles_absent in Habs.
    split; [apply update_tackles_silent; exact Habs |].
    intros H1 H2 H3 H4 H5. apply update_tackles_passes; assumption.
Qed.

(** In the sample league: a create with 5 = 3 + 2 tackles for player 1 in
    game 2 is valid and is stored; a patch with 5, 3 and 2 is valid and is
    written; a create and a patch with 6, 3 and 2 are refused with the
    tackles message and nothing is touched. *)
Lemma tackles_rule_witness :
  let counted n := [("tackles", n); ("solo_tackles", 3); ("assisted_tackles", 2)] in
  playerStatsService.validateCreatePlayerStatsRequest
    (CreatePlayerStatsRequest.fromFields 1 2 (counted 5)) = None /\
  is_ok (fst (playerStatsService.CreatePlayerStats (L := Sample.lib)
                (CreatePlayerStatsRequest.fromFields 1 2 (counted 5)) Sample.league))
  = true /\
  playerStatsService.validateUpdatePlayerStatsRequest
    (UpdatePlayerStatsRequest.fromFields (counted 5)) = None /\
  is_ok (fst (playerStatsService.UpdatePlayerStats (L := Sample.lib) 1
                (UpdatePlayerStatsRequest.fromFields (counted 5)) Sample.league))
  = true /\
  playerStatsService.CreatePlayerStats (L := Sample.lib)
    (CreatePlayerStatsRequest.fromFields 1 2 (counted 6)) Sample.league
  = (Err "validation failed: total tackles must equal solo tackles plus assisted tackles",
     Sample.league) /\
  playerStatsService.UpdatePlayerStats (L := Sample.lib) 1
    (UpdatePlayerStatsRequest.fromFields (counted 6)) Sample.league
  = (Err "validation failed: total tackles must equal solo tackles plus assisted tackles",
     Sample.league).
Proof.
  cbv zeta.
  assert (I : forall z, -100 <= z <= 100 -> is_int z).
  { intros z Hz. unfold is_int, min_int, max_int. lia. }
  destruct (tackles_rule (L := Sample.lib) 5 3 2) as [Hc [Hu _]]; try (apply I; lia).
  destruct (tackles_rule (L := Sample.lib) 6 3 2) as [Hc' [Hu' _]]; try (apply I; lia).
  split; [| split; [reflexivity | split; [| split; [reflexivity | split]]]].
  - destruct (Hc (CreatePlayerStatsRequest.fromFields 1 2
                    [("tackles", 5); ("solo_tackles", 3); ("assisted_tackles", 2)])
                 Sample.league eq_refl eq_refl eq_refl) as [_ [_ [_ Hpass]]].
    apply Hpass; try reflexivity; simpl; lia.
  - destruct (Hu 1 (UpdatePlayerStatsRequest.fromFields
                      [("tackles", 5); ("solo_tackles", 3); ("assisted_tackles", 2)])
                 Sample.league eq_refl eq_refl eq_refl) as [_ [_ [_ Hpass]]].
    apply Hpass; reflexivity.
  - destruct (Hc' (CreatePlayerStatsRequest.fromFields 1 2
                     [("tackles", 6); ("solo_tackles", 3); ("assisted_tackles", 2)])
                  Sample.league eq_refl eq_refl eq_refl) as [_ [Hmsg [Hrej _]]].
    apply Hrej; [| simpl; lia | simpl; lia].
    apply Hmsg. split; [reflexivity | discriminate].
  - destruct (Hu' 1 (UpdatePlayerStatsRequest.fromFields
                       [("tackles", 6); ("solo_tackles", 3); ("assisted_tackles", 2)])
                  Sample.league eq_refl eq_refl eq_refl) as [_ [Hmsg [Hrej _]]].
    apply Hrej; [| lia].
    apply Hmsg. split; [reflexivity | discriminate].
Defined.

(* ================================================================== *)
(** * Reasoning about service computations *)
(* ================================================================== *)

Section Lists.
Context {A : Type}.

Lemma existsb_never (f : A -> bool) (l : list A) :
  (forall x, f x = false) -> existsb f l = false.
Proof.
  intros H. induction l as [| x l IH]; simpl; [reflexivity |].
  rewrite H, IH. reflexivity.
Qed.

Lemma find_map_stable (f : A -> bool) (g : A -> A) (l : list A) :
  (forall x, f (g x) = f x) -> find f (map g l) = option_map g (find f l).
Proof.
  intros H. induction l as [| x l IH]; simpl; [reflexivity |].
  rewrite H. destruct (f x); [reflexivity | exact IH].
Qed.

Lemma filter_hit (f : A -> bool) (l : list A) (x : A) :
  In x l -> f x = true -> (Z.of_nat (List.length (filter f l)) =? 0) = false.
Proof.
  intros Hin Hf. apply Z.eqb_neq.
  induction l as [| y l IH]; simpl in *; [contradiction |].
  destruct Hin as [-> | Hin].
  - rewrite Hf. simpl. lia.
  - destruct (f y); simpl; [lia | auto].
Qed.

Lemma filter_miss (f : A -> bool) (l : list A) :
  (Z.of_nat (List.length (filter f l)) =? 0) = true -> forall x, In x l -> f x = false.
Proof.
  intros H x Hin. destruct (f x) eqn:E; [| reflexivity].
  rewrite (filter_hit f l x Hin E) in H. discriminate.
Qed.

Lemma map_untouched (f : A -> bool) (g : A -> A) (l : list A) :
  (forall x, In x l -> f x = false) -> map (fun r => if f r then g r else r) l = l.
Proof.
  induction l as [| x l IH]; simpl; intros H; [reflexivity |].
  rewrite (H x) by (left; reflexivity). f_equal. apply IH. intros y Hy. apply H. right. exact Hy.
Qed.

Lemma filter_untouched (f : A -> bool) (l : list A) :
  (forall x, In x l -> f x = false) -> filter (fun r => negb (f r)) l = l.
Proof.
  induction l as [| x l IH]; simpl; intros H; [reflexivity |].
  rewrite (H x) by (left; reflexivity). simpl. f_equal. apply IH. intros y Hy. apply H. right. exact Hy.
Qed.
End Lists.

Section Monad.
Context {L : GoLib}.

Lemma bind_ok {A B} (m : M A) (f : A -> M B) (w w' : World) (a : A) :
  m w = (Ok a, w') -> bind m f w = f a w'.
Proof. intros H. unfold bind. rewrite H. reflexivity. Qed.

Lemma bind_err {A B} (m : M A) (f : A -> M B) (w w' : World) (e : string) :
  m w = (Err e, w') -> bind m f w = (Err e, w').
Proof. intros H. unfold bind. rewrite H. reflexivity. Qed.

Lemma wrapf_ok {A} (p : string) (m : M A) (w w' : World) (a : A) :
  m w = (Ok a, w') -> wrapf p m w = (Ok a, w').
Proof. intros H. unfold wrapf. rewrite H. reflexivity. Qed.

Lemma wrapf_err {A} (p : string) (m : M A) (w w' : World) (e : string) :
  m w = (Err e, w') -> wrapf p m w = (Err (p ++ e), w').
Proof. intros H. unfold wrapf. rewrite H. reflexivity. Qed.

Lemma bind_inv_ok {A B} (m : M A) (f : A -> M B) (w w2 : World) (b : B) :
  bind m f w = (Ok b, w2) ->
  exists a w1, m w = (Ok a, w1) /\ f a w1 = (Ok b, w2).
Proof.
  unfold bind. destruct (m w) as [[a | e] w1]; intros H.
  - exists a, w1. split; [reflexivity | exact H].
  - discriminate.
Qed.

Lemma wrapf_inv_ok {A} (p : string) (m : M A) (w w' : World) (a : A) :
  wrapf p m w = (Ok a, w') -> m w = (Ok a, w').
Proof.
  unfold wrapf. destruct (m w) as [[a' | e] w1]; intros H; [exact H | discriminate].
Qed.

Lemma healthy_logged (s : Stmt) (w : World) : healthy w -> healthy (logged s w).
Proof. intros H n. apply H. Qed.

Lemma healthy_ticked (w : World) : healthy w -> healthy (ticked w).
Proof. intros H n. apply H. Qed.

Lemma healthy_stored (d : DB) (w : World) : healthy w -> healthy (stored d w).
Proof. intros H n. apply H. Qed.

Lemma send_ok (s : Stmt) (w : World) : healthy w -> send s w = (Ok tt, logged s w).
Proof. intros H. unfold send. rewrite H. reflexivity. Qed.

(** A statement sent through [wrapf] on a healthy driver. *)
Lemma sent {B} (p : string) (s : Stmt) (f : unit -> M B) (w : World) :
  healthy w -> bind (wrapf p (send s)) f w = f tt (logged s w).
Proof.
  intros H. apply bind_ok. apply wrapf_ok. apply send_ok. exact H.
Qed.
End Monad.

Create HintDb world.
#[export] Hint Resolve healthy_logged healthy_ticked healthy_stored : world.

Section StatsRepository.
Context {L : GoLib}.
Import playerStatsRepository.

Lemma GetByID_run (id : Z) (w : World) :
  healthy w ->
  GetByID id w =
  (match selected id (store w) with
   | Some stats => Ok stats
   | None => Err ("player stats with ID " ++ itoa id ++ " not found")
   end, logged (SELECT [player_stats; players; teams]) w).
Proof.
  intros H. unfold GetByID. rewrite sent by exact H.
  unfold bind, get_store, selected. cbn [store logged].
  destruct (find _ _); reflexivity.
Qed.

Lemma selected_found (id : Z) (db : DB) (stats : PlayerStats.t) :
  selected id db = Some stats ->
  In stats (rows (player_stats_t db)) /\ PlayerStats.ID stats = id /\ joined db stats = true.
Proof.
  intros H. apply find_some in H. destruct H as [Hin Hb].
  apply andb_true_iff in Hb. destruct Hb as [Hid Hj].
  apply Z.eqb_eq in Hid. auto.
Qed.
End StatsRepository.


Section Writes.
Context {L : GoLib}.

(** A write statement on a healthy driver: the statement is logged, and the
    table changes when the statement succeeds. *)
Lemma written {A B} (p : string) (s : Stmt) (get : DB -> table A)
    (set : table A -> DB -> DB) (f : table A -> result (B * table A)) (w : World) :
  healthy w ->
  wrapf p (send s ;; on_table get set f) w =
  match f (get (store w)) with
  | Ok (b, t') => (Ok b, stored (set t' (store w)) (logged s w))
  | Err e => (Err (p ++ e), logged s w)
  end.
Proof.
  intros H. unfold wrapf. rewrite (bind_ok _ _ _ _ _ (send_ok s w H)).
  unfold on_table. cbn [store logged].
  destruct (f (get (store w))) as [[b t'] | e]; reflexivity.
Qed.

(** The UPDATE of the statistics table never fails on a constraint. *)
Lemma stats_update_run (id : Z) (upd : PlayerStats.t -> PlayerStats.t)
    (t : table PlayerStats.t) :
  sql_update PlayerStats.ID (fun _ _ => false) "" id upd t =
  Ok (Z.of_nat (List.length (filter (fun r => PlayerStats.ID r =? id) (rows t))),
      mkTable (map (fun r => if PlayerStats.ID r =? id then upd r else r) (rows t)) (seq t)).
Proof.
  unfold sql_update. rewrite existsb_never; [reflexivity |].
  intros x. rewrite existsb_never.
  - apply andb_false_r.
  - intros y. apply andb_false_r.
Qed.

Lemma stats_Update_run (stats r : PlayerStats.t) (w : World) :
  healthy w ->
  In r (rows (player_stats_t (store w))) ->
  PlayerStats.ID r = PlayerStats.ID stats ->
  let now := wall (oracle w) (ticks w) in
  playerStatsRepository.Update stats w =
  (Ok (playerStatsRepository.updated stats now stats),
   stored (set_player_stats
             (mkTable (map (fun r => if PlayerStats.ID r =? PlayerStats.ID stats
                                     then playerStatsRepository.updated stats now r
                                     else r)
                           (rows (player_stats_t (store w))))
                      (seq (player_stats_t (store w))))
             (store w))
          (logged (UPDATE player_stats) (ticked w))).
Proof.
  intros Hw Hin Hid now.
  unfold playerStatsRepository.Update.
  unfold bind at 1. unfold time_Now at 1.
  unfold bind at 1. rewrite written by auto with world.
  rewrite stats_update_run. cbn [store ticked].
  rewrite (filter_hit _ _ r Hin) by (apply Z.eqb_eq; exact Hid).
  reflexivity.
Qed.
End Writes.

Section StatsUpdate.
Context {L : GoLib}.
Import playerStatsService.

Lemma applyPatch_ID (stats : PlayerStats.t) (req : UpdatePlayerStatsRequest.t) :
  PlayerStats.ID (applyPatch stats req) = PlayerStats.ID stats.
Proof. reflexivity. Qed.

(** An accepted patch of an existing row: the merged record is written as
    it is and returned, and reading the row back returns the same value. *)
Lemma UpdatePlayerStats_accepted (id : Z) (req : UpdatePlayerStatsRequest.t)
    (w : World) (stats : PlayerStats.t) :
  healthy w -> 0 < id ->
  validateUpdatePlayerStatsRequest req = None ->
  selected id (store w) = Some stats ->
  let merged := applyPatch stats req in
  let result := playerStatsRepository.updated merged (wall (oracle w) (ticks w)) merged in
  exists w',
    UpdatePlayerStats id req w = (Ok result, w') /\
    healthy w' /\
    selected id (store w') = Some result.
Proof.
  intros Hw Hid Hv Hsel merged result.
  destruct (selected_found _ _ _ Hsel) as [Hin [Heq Hj]].
  unfold UpdatePlayerStats.
  replace (id <=? 0) with false by (symmetry; apply Z.leb_gt; exact Hid).
  rewrite Hv.
  erewrite bind_ok;
    [| apply wrapf_ok; rewrite GetByID_run by exact Hw; rewrite Hsel; reflexivity].
  set (w1 := logged _ w).
  assert (Hw1 : healthy w1) by (subst w1; auto with world).
  eexists. split; [| split].
  - apply wrapf_ok.
    exact (stats_Update_run (applyPatch stats req) stats w1 Hw1 Hin eq_refl).
  - auto with world.
  - unfold selected. cbn [store stored logged ticked w1 player_stats_t set_player_stats rows].
    rewrite find_map_stable.
    + unfold selected in Hsel.
      change (playerStatsRepository.joined (set_player_stats ?t (store w)))
        with (playerStatsRepository.joined (store w)).
      rewrite Hsel. cbn [option_map].
      rewrite applyPatch_ID. rewrite Heq. rewrite Z.eqb_refl. reflexivity.
    + intros x. destruct (PlayerStats.ID x =? PlayerStats.ID (applyPatch stats req)); reflexivity.
Qed.
End StatsUpdate.

Section PatchOnly.
Context {L : GoLib}.
Import playerStatsService.

Lemma exceeds_absent (made attempted : option Z) :
  made = None \/ attempted = None -> exceeds made attempted = false.
Proof.
  intros H. destruct made, attempted; try reflexivity.
  destruct H as [H | H]; discriminate H.
Qed.

(** A cross-field message can only come from its own test. *)
Ltac silent Hm :=
  let H := fresh "H" in
  intros H; unfold validateUpdateStatConstraints in H; rewrite Hm in H;
  repeat match type of H with
         | context [if ?c then _ else _] => destruct c
         end;
  try discriminate H;
  apply firstNegative_message in H;
  simpl in H; repeat (destruct H as [H | H]; [discriminate H |]); contradiction.

Lemma update_rules_silent (req : UpdatePlayerStatsRequest.t) :
  (exceeds (UpdatePlayerStatsRequest.PassingCompletions req)
           (UpdatePlayerStatsRequest.PassingAttempts req) = false ->
   validateUpdateStatConstraints req <> Some passing_error) /\
  (exceeds (UpdatePlayerStatsRequest.FieldGoalsMade req)
           (UpdatePlayerStatsRequest.FieldGoalsAttempted req) = false ->
   validateUpdateStatConstraints req <> Some field_goals_error) /\
  (exceeds (UpdatePlayerStatsRequest.ExtraPointsMade req)
           (UpdatePlayerStatsRequest.ExtraPointsAttempted req) = false ->
   validateUpdateStatConstraints req <> Some extra_points_error) /\
  (exceeds (UpdatePlayerStatsRequest.FumblesLost req)
           (UpdatePlayerStatsRequest.Fumbles req) = false ->
   validateUpdateStatConstraints req <> Some fumbles_error).
Proof.
  repeat split; intros Hm; silent Hm.
Qed.
End PatchOnly.

(** C4.  On a PlayerStats update each cross-field test fires only when all
    of its operands are in the patch: with an operand absent from the patch
    the test's error is never reported.  In particular a patch that sets
    passing_completions and not passing_attempts, and that passes
    validation, is accepted for an existing row whatever passing_attempts
    the row stores: the stored value is kept and never compared. *)
Theorem cross_checks_need_both_operands_in_the_patch {L : GoLib} :
  (forall req : UpdatePlayerStatsRequest.t,
      (UpdatePlayerStatsRequest.PassingCompletions req = None \/
       UpdatePlayerStatsRequest.PassingAttempts req = None ->
       playerStatsService.validateUpdateStatConstraints req <> Some passing_error) /\
      (UpdatePlayerStatsRequest.Tackles req = None \/
       UpdatePlayerStatsRequest.SoloTackles req = None \/
       UpdatePlayerStatsRequest.AssistedTackles req = None ->
       playerStatsService.validateUpdateStatConstraints req <> Some tackles_error) /\
      (UpdatePlayerStatsRequest.FieldGoalsMade req = None \/
       UpdatePlayerStatsRequest.FieldGoalsAttempted req = None ->
       playerStatsService.validateUpdateStatConstraints req <> Some field_goals_error) /\
      (UpdatePlayerStatsRequest.ExtraPointsMade req = None \/
       UpdatePlayerStatsRequest.ExtraPointsAttempted req = None ->
       playerStatsService.validateUpdateStatConstraints req <> Some extra_points_error) /\
      (UpdatePlayerStatsRequest.FumblesLost req = None \/
       UpdatePlayerStatsRequest.Fumbles req = None ->
       playerStatsService.validateUpdateStatConstraints req <> Some fumbles_error)) /\
  (forall (id : Z) (req : UpdatePlayerStatsRequest.t) (w : World)
          (stats : PlayerStats.t) (c : Z),
      healthy w -> 0 < id ->
      selected id (store w) = Some stats ->
      UpdatePlayerStatsRequest.PassingCompletions req = Some c ->
      UpdatePlayerStatsRequest.PassingAttempts req = None ->
      playerStatsService.validateUpdatePlayerStatsRequest req = None ->
      exists s w',
        playerStatsService.UpdatePlayerStats id req w = (Ok s, w') /\
        PlayerStats.PassingCompletions s = Some c /\
        PlayerStats.PassingAttempts s = PlayerStats.PassingAttempts stats).
Proof.
  split.
  - intros req.
    destruct (update_rules_silent req) as [Hp [Hf [He Hl]]].
    repeat split; intros H.
    + apply Hp. apply exceeds_absent. exact H.
    + apply update_tackles_silent. apply tackles_absent. exact H.
    + apply Hf. apply exceeds_absent. exact H.
    + apply He. apply exceeds_absent. exact H.
    + apply Hl. apply exceeds_absent. exact H.
  - intros id req w stats c Hw Hid Hsel Hc Ha Hv.
    destruct (UpdatePlayerStats_accepted id req w stats Hw Hid Hv Hsel)
      as [w' [Hrun _]].
    eexists. exists w'. split; [exact Hrun |].
    cbn [playerStatsRepository.updated playerStatsService.applyPatch
         PlayerStats.PassingCompletions PlayerStats.PassingAttempts].
    rewrite Hc, Ha. split; reflexivity.
Qed.


(** The sample row stores 35 attempts; a patch that only sets 40 completions
    is accepted and the row ends with 40 completions of 35 attempts. *)
Lemma cross_checks_need_both_operands_in_the_patch_witness :
  exists s w',
    playerStatsService.UpdatePlayerStats (L := Sample.lib) 1
      (UpdatePlayerStatsRequest.fromFields [("passing_completions", 40)])
      Sample.league = (Ok s, w') /\
    PlayerStats.PassingCompletions s = Some 40 /\
    PlayerStats.PassingAttempts s = Some 35.
Proof.
  destruct (cross_checks_need_both_operands_in_the_patch (L := Sample.lib)) as [_ H].
  pose proof (eq_refl : selected (L := Sample.lib) 1 (store Sample.league)
                        = Sample.league_line) as Hsel.
  unfold Sample.league_line in Hsel.
  destruct (H 1 (UpdatePlayerStatsRequest.fromFields [("passing_completions", 40)])
              Sample.league _ 40 (fun n => eq_refl) eq_refl Hsel eq_refl eq_refl
              ltac:(vm_compute; reflexivity))
    as [s [w' [Hrun [Hc Ha]]]].
  exists s, w'. split; [exact Hrun | split; [exact Hc | rewrite Ha; reflexivity]].
Defined.




(* ================================================================== *)
(** * Empty patches *)
(* ================================================================== *)

Section EmptyPatch.
Context {L : GoLib}.

Lemma UpdateTeam_empty (id : Z) (w : World) :
  0 < id ->
  teamService.UpdateTeam id UpdateTeamRequest.empty w
  = (Err ("validation failed: " ++ no_fields_error), w).
Proof.
  intros Hid. unfold teamService.UpdateTeam.
  replace (id <=? 0) with false by (symmetry; apply Z.leb_gt; exact Hid).
  reflexivity.
Qed.

Lemma UpdatePlayer_empty (id : Z) (w : World) :
  0 < id ->
  playerService.UpdatePlayer id UpdatePlayerRequest.empty w
  = (Err ("validation failed: " ++ no_fields_error), w).
Proof.
  intros Hid. unfold playerService.UpdatePlayer.
  replace (id <=? 0) with false by (symmetry; apply Z.leb_gt; exact Hid).
  reflexivity.
Qed.

Lemma UpdatePlayerStats_empty (id : Z) (w : World) :
  0 < id ->
  playerStatsService.UpdatePlayerStats id UpdatePlayerStatsRequest.empty w
  = (Err ("validation failed: " ++ no_fields_error), w).
Proof.
  intros Hid. apply UpdatePlayerStats_invalid; [exact Hid | reflexivity].
Qed.

(** The validator of a game patch has no test for the empty patch: it
    accepts it without reading the clock. *)
Lemma validateUpdateGameRequest_empty (w : World) :
  gameService.validateUpdateGameRequest UpdateGameRequest.empty w = (Ok tt, w).
Proof. reflexivity. Qed.
End EmptyPatch.

(** C3 (the code departs from it).  [UpdateGame] with the patch [{}] on the
    game of the sample league is not rejected: the service sends
    [UPDATE games], the row's [updated_at] moves from the time of creation to
    the time of the request, and the game is returned with a [nil] error. *)
Theorem empty_game_patch_is_written :
  let run := gameService.UpdateGame (L := Sample.lib) 1 UpdateGameRequest.empty
               Sample.league in
  is_ok (fst run) = true /\
  option_map Game.UpdatedAt (value (fst run)) = Some (Sample.clock 7) /\
  writes (snd run) = UPDATE games :: writes Sample.league /\
  option_map Game.UpdatedAt (sql_find Game.ID 1 (games_t (store Sample.league)))
  = Some (Sample.clock 4) /\
  option_map Game.UpdatedAt (sql_find Game.ID 1 (games_t (store (snd run))))
  = Some (Sample.clock 7).
Proof.
  cbv zeta. repeat split; vm_compute; reflexivity.
Qed.

(* ================================================================== *)
(** * Enum-valued fields *)
(* ================================================================== *)

Section Enums.
Context {L : GoLib}.

Lemma oneOf_fold (v : string) (allowed : list string) :
  oneOf EqualFold v allowed = true <-> fold_member v allowed.
Proof.
  unfold oneOf, fold_member. rewrite existsb_exists. reflexivity.
Qed.

Lemma oneOf_not_fold (v : string) (allowed : list string) :
  oneOf EqualFold v allowed = false <-> ~ fold_member v allowed.
Proof.
  rewrite <- oneOf_fold. destruct (oneOf EqualFold v allowed); split; congruence.
Qed.

Lemma oneOf_exact (v : string) (allowed : list string) :
  oneOf String.eqb v allowed = true <-> In v allowed.
Proof.
  unfold oneOf. rewrite existsb_exists. split.
  - intros [m [Hin Heq]]. apply String.eqb_eq in Heq. subst. exact Hin.
  - intros Hin. exists v. split; [exact Hin | apply String.eqb_refl].
Qed.

Lemma oneOf_not_exact (v : string) (allowed : list string) :
  oneOf String.eqb v allowed = false <-> ~ In v allowed.
Proof.
  rewrite <- oneOf_exact. destruct (oneOf String.eqb v allowed); split; congruence.
Qed.

Lemma create_team_enums (req : CreateTeamRequest.t) :
  teamService.blank (CreateTeamRequest.Name req) = false ->
  teamService.blank (CreateTeamRequest.City req) = false ->
  teamService.blank (CreateTeamRequest.Conference req) = false ->
  teamService.blank (CreateTeamRequest.Division req) = false ->
  (teamService.validateCreateTeamRequest req = None <->
   fold_member (CreateTeamRequest.Conference req) ["AFC"; "NFC"] /\
   fold_member (CreateTeamRequest.Division req) ["North"; "South"; "East"; "West"]) /\
  (~ fold_member (CreateTeamRequest.Conference req) ["AFC"; "NFC"] ->
   teamService.validateCreateTeamRequest req
   = Some "conference must be one of: [AFC NFC]") /\
  (fold_member (CreateTeamRequest.Conference req) ["AFC"; "NFC"] ->
   ~ fold_member (CreateTeamRequest.Division req) ["North"; "South"; "East"; "West"] ->
   teamService.validateCreateTeamRequest req
   = Some "division must be one of: [North South East West]").
Proof.
  intros Hn Hc Hcf Hd. unfold teamService.validateCreateTeamRequest.
  rewrite Hn, Hc, Hcf, Hd.
  change teamService.validConferences with ["AFC"; "NFC"].
  change teamService.validDivisions with ["North"; "South"; "East"; "West"].
  destruct (oneOf EqualFold (CreateTeamRequest.Conference req) ["AFC"; "NFC"]) eqn:Ec;
    [pose proof (proj1 (oneOf_fold _ _) Ec) as Pc
    | pose proof (proj1 (oneOf_not_fold _ _) Ec) as Pc];
    (destruct (oneOf EqualFold (CreateTeamRequest.Division req)
                 ["North"; "South"; "East"; "West"]) eqn:Ed;
     [pose proof (proj1 (oneOf_fold _ _) Ed) as Pd
     | pose proof (proj1 (oneOf_not_fold _ _) Ed) as Pd]);
    cbn [negb]; clear Ec Ed;
    (split; [split; [intros E; try discriminate E; tauto | tauto] |]);
    (split; [intros; try reflexivity; tauto | intros; try reflexivity; tauto]).
Qed.

Lemma update_team_enums (req : UpdateTeamRequest.t) :
  isNil (UpdateTeamRequest.Name req) && isNil (UpdateTeamRequest.City req) &&
  isNil (UpdateTeamRequest.Conference req) && isNil (UpdateTeamRequest.Division req)
  = false ->
  teamService.ptr_blank (UpdateTeamRequest.Name req) = false ->
  teamService.ptr_blank (UpdateTeamRequest.City req) = false ->
  teamService.ptr_blank (UpdateTeamRequest.Conference req) = false ->
  teamService.ptr_blank (UpdateTeamRequest.Division req) = false ->
  (teamService.validateUpdateTeamRequest req = None <->
   (forall c, UpdateTeamRequest.Conference req = Some c ->
              fold_member c ["AFC"; "NFC"]) /\
   (forall d, UpdateTeamRequest.Division req = Some d ->
              fold_member d ["North"; "South"; "East"; "West"])) /\
  (forall c, UpdateTeamRequest.Conference req = Some c ->
             ~ fold_member c ["AFC"; "NFC"] ->
             teamService.validateUpdateTeamRequest req
             = Some "conference must be one of: [AFC NFC]") /\
  (forall d, UpdateTeamRequest.Division req = Some d ->
             (forall c, UpdateTeamRequest.Conference req = Some c ->
                        fold_member c ["AFC"; "NFC"]) ->
             ~ fold_member d ["North"; "South"; "East"; "West"] ->
             teamService.validateUpdateTeamRequest req
             = Some "division must be one of: [North South East West]").
Proof.
  intros H0 Hn Hc Hcf Hd. unfold teamService.validateUpdateTeamRequest.
  rewrite H0, Hn, Hc, Hcf, Hd.
  change teamService.validConferences with ["AFC"; "NFC"].
  change teamService.validDivisions with ["North"; "South"; "East"; "West"].
  assert (Pc : (forall c, UpdateTeamRequest.Conference req = Some c ->
                          fold_member c ["AFC"; "NFC"]) \/
               exists c, UpdateTeamRequest.Conference req = Some c /\
                         oneOf EqualFold c ["AFC"; "NFC"] = false).
  { destruct (UpdateTeamRequest.Conference req) as [c |].
    - destruct (oneOf EqualFold c ["AFC"; "NFC"]) eqn:E.
      + left. intros c' Hc'. inversion Hc'; subst. apply oneOf_fold. exact E.
      + right. exists c. auto.
    - left. intros c' Hc'. discriminate Hc'. }
  assert (Pd : (forall d, UpdateTeamRequest.Division req = Some d ->
                          fold_member d ["North"; "South"; "East"; "West"]) \/
               exists d, UpdateTeamRequest.Division req = Some d /\
                         oneOf EqualFold d ["North"; "South"; "East"; "West"] = false).
  { destruct (UpdateTeamRequest.Division req) as [d |].
    - destruct (oneOf EqualFold d ["North"; "South"; "East"; "West"]) eqn:E.
      + left. intros d' Hd'. inversion Hd'; subst. apply oneOf_fold. exact E.
      + right. exists d. auto.
    - left. intros d' Hd'. discriminate Hd'. }
  assert (Gc : forall c, UpdateTeamRequest.Conference req = Some c ->
                         fold_member c ["AFC"; "NFC"] ->
                         oneOf EqualFold c ["AFC"; "NFC"] = true).
  { intros c _ F. apply oneOf_fold. exact F. }
  assert (Gd : forall d, UpdateTeamRequest.Division req = Some d ->
                         fold_member d ["North"; "South"; "East"; "West"] ->
                         oneOf EqualFold d ["North"; "South"; "East"; "West"] = true).
  { intros d _ F. apply oneOf_fold. exact F. }
  destruct Pc as [Pc | [c [Ec Fc]]]; destruct Pd as [Pd | [d [Ed Fd]]].
  - assert (Vc : match UpdateTeamRequest.Conference req with
                 | Some c => negb (oneOf EqualFold c ["AFC"; "NFC"])
                 | None => false
                 end = false).
    { destruct (UpdateTeamRequest.Conference req) as [c |] eqn:E; [| reflexivity].
      rewrite (Gc c eq_refl (Pc c eq_refl)). reflexivity. }
    assert (Vd : match UpdateTeamRequest.Division req with
                 | Some d => negb (oneOf EqualFold d ["North"; "South"; "East"; "West"])
                 | None => false
                 end = false).
    { destruct (UpdateTeamRequest.Division req) as [d |] eqn:E; [| reflexivity].
      rewrite (Gd d eq_refl (Pd d eq_refl)). reflexivity. }
    rewrite Vc, Vd. split; [tauto |]. split.
    + intros c E F. exfalso. apply F. apply Pc. exact E.
    + intros d E _ F. exfalso. apply F. apply Pd. exact E.
  - assert (Vc : match UpdateTeamRequest.Conference req with
                 | Some c => negb (oneOf EqualFold c ["AFC"; "NFC"])
                 | None => false
                 end = false).
    { destruct (UpdateTeamRequest.Conference req) as [c |] eqn:E; [| reflexivity].
      rewrite (Gc c eq_refl (Pc c eq_refl)). reflexivity. }
    rewrite Vc, Ed, Fd. cbn [negb].
    assert (Nd : ~ fold_member d ["North"; "South"; "East"; "West"])
      by (apply oneOf_not_fold; exact Fd).
    split; [split; [intros E; discriminate E | intros [_ A]; exfalso; apply Nd; apply A; reflexivity] |].
    split.
    + intros c E F. exfalso. apply F. apply Pc. exact E.
    + intros d' E _ _. reflexivity.
  - rewrite Ec, Fc. cbn [negb].
    assert (Nc : ~ fold_member c ["AFC"; "NFC"]) by (apply oneOf_not_fold; exact Fc).
    split; [split; [intros E; discriminate E | intros [A _]; exfalso; apply Nc; apply A; reflexivity] |].
    split.
    + intros c' E _. reflexivity.
    + intros d' E A _. exfalso. apply Nc. apply A. reflexivity.
  - rewrite Ec, Fc. cbn [negb].
    assert (Nc : ~ fold_member c ["AFC"; "NFC"]) by (apply oneOf_not_fold; exact Fc).
    split; [split; [intros E; discriminate E | intros [A _]; exfalso; apply Nc; apply A; reflexivity] |].
    split.
    + intros c' E _. reflexivity.
    + intros d' E A _. exfalso. apply Nc. apply A. reflexivity.
Qed.

(** A run of a validator that ends in [fail] is not a success. *)
Ltac passed H :=
  repeat match type of H with
         | (if ?c then _ else _) _ = (Ok _, _) =>
             destruct c eqn:?; [discriminate H |]
         end.

Lemma create_game_status (req : CreateGameRequest.t) (w w' : World) :
  gameService.validateCreateGameRequest (CreateGameRequest.withStatus "" req) w
  = (Ok tt, w') ->
  (CreateGameRequest.Status req = "" \/
   In (CreateGameRequest.Status req)
      ["scheduled"; "in_progress"; "completed"; "cancelled"] ->
   gameService.validateCreateGameRequest req w = (Ok tt, w')) /\
  (CreateGameRequest.Status req <> "" ->
   ~ In (CreateGameRequest.Status req)
        ["scheduled"; "in_progress"; "completed"; "cancelled"] ->
   gameService.validateCreateGameRequest req w
   = (Err ("invalid status: " ++ CreateGameRequest.Status req ++
           ". Must be one of: scheduled, in_progress, completed, cancelled"), w')).
Proof.
  unfold gameService.validateCreateGameRequest.
  cbn [CreateGameRequest.withStatus CreateGameRequest.HomeTeamID
       CreateGameRequest.AwayTeamID CreateGameRequest.Season CreateGameRequest.Week
       CreateGameRequest.GameDate CreateGameRequest.Status CreateGameRequest.HomeScore
       CreateGameRequest.AwayScore].
  change gameService.validStatuses
    with ["scheduled"; "in_progress"; "completed"; "cancelled"].
  intros H. passed H.
  unfold bind in *.
  destruct (gameService.checkWindow (CreateGameRequest.GameDate req) w)
    as [[[] | e] w1]; [| discriminate H].
  change (negb ("" =? "")%string) with false in H. cbn [andb] in H.
  passed H. inversion H; subst w1.
  split.
  - intros [E | Hin].
    + rewrite E. reflexivity.
    + apply oneOf_exact in Hin. rewrite Hin. cbn [negb]. rewrite andb_false_r. reflexivity.
  - intros Hne Hnot.
    apply String.eqb_neq in Hne. apply oneOf_not_exact in Hnot.
    rewrite Hne, Hnot. reflexivity.
Qed.

Lemma update_game_status (req : UpdateGameRequest.t) (s : string) (w w' : World) :
  UpdateGameRequest.Status req = Some s ->
  gameService.validateUpdateGameRequest (UpdateGameRequest.withStatus None req) w
  = (Ok tt, w') ->
  (In s ["scheduled"; "in_progress"; "completed"; "cancelled"] ->
   gameService.validateUpdateGameRequest req w = (Ok tt, w')) /\
  (~ In s ["scheduled"; "in_progress"; "completed"; "cancelled"] ->
   gameService.validateUpdateGameRequest req w
   = (Err ("invalid status: " ++ s ++
           ". Must be one of: scheduled, in_progress, completed, cancelled"), w')).
Proof.
  intros Hs.
  unfold gameService.validateUpdateGameRequest.
  cbn [UpdateGameRequest.withStatus UpdateGameRequest.HomeTeamID
       UpdateGameRequest.AwayTeamID UpdateGameRequest.Season UpdateGameRequest.Week
       UpdateGameRequest.GameDate UpdateGameRequest.Status UpdateGameRequest.HomeScore
       UpdateGameRequest.AwayScore].
  rewrite Hs.
  intros H. passed H.
  unfold bind in *.
  destruct (gameService.checkWeek (UpdateGameRequest.Week req) w)
    as [[[] | e] w1]; [| discriminate H].
  destruct (gameService.checkDate (UpdateGameRequest.GameDate req) w1)
    as [[[] | e] w2]; [| discriminate H].
  unfold gameService.checkStatus in *. unfold ret at 1 in H.
  change gameService.validStatuses
    with ["scheduled"; "in_progress"; "completed"; "cancelled"].
  split.
  - intros Hin. apply oneOf_exact in Hin. rewrite Hin. cbn [negb]. exact H.
  - intros Hnot. apply oneOf_not_exact in Hnot. rewrite Hnot. cbn [negb].
    passed H. inversion H; subst w2. reflexivity.
Qed.
(** The four fields of a team create, name and city being valid: the
    blank tests of the conference and the division come before the two
    membership tests. *)
Lemma create_team_fields (req : CreateTeamRequest.t) :
  teamService.blank (CreateTeamRequest.Name req) = false ->
  teamService.blank (CreateTeamRequest.City req) = false ->
  (teamService.validateCreateTeamRequest req = None <->
   teamService.blank (CreateTeamRequest.Conference req) = false /\
   teamService.blank (CreateTeamRequest.Division req) = false /\
   fold_member (CreateTeamRequest.Conference req) ["AFC"; "NFC"] /\
   fold_member (CreateTeamRequest.Division req) ["North"; "South"; "East"; "West"]) /\
  (teamService.blank (CreateTeamRequest.Conference req) = true ->
   teamService.validateCreateTeamRequest req = Some "conference is required") /\
  (teamService.blank (CreateTeamRequest.Conference req) = false ->
   teamService.blank (CreateTeamRequest.Division req) = true ->
   teamService.validateCreateTeamRequest req = Some "division is required") /\
  (teamService.blank (CreateTeamRequest.Conference req) = false ->
   teamService.blank (CreateTeamRequest.Division req) = false ->
   ~ fold_member (CreateTeamRequest.Conference req) ["AFC"; "NFC"] ->
   teamService.validateCreateTeamRequest req
   = Some "conference must be one of: [AFC NFC]") /\
  (teamService.blank (CreateTeamRequest.Conference req) = false ->
   teamService.blank (CreateTeamRequest.Division req) = false ->
   fold_member (CreateTeamRequest.Conference req) ["AFC"; "NFC"] ->
   ~ fold_member (CreateTeamRequest.Division req) ["North"; "South"; "East"; "West"] ->
   teamService.validateCreateTeamRequest req
   = Some "division must be one of: [North South East West]").
Proof.
  intros Hn Hc.
  destruct (teamService.blank (CreateTeamRequest.Conference req)) eqn:Bc.
  - assert (teamService.validateCreateTeamRequest req = Some "conference is required") as E
      by (unfold teamService.validateCreateTeamRequest; rewrite Hn, Hc, Bc; reflexivity).
    rewrite E. split; [split; [discriminate | intros [H _]; discriminate H] |].
    split; [reflexivity |].
    split; [discriminate |]. split; discriminate.
  - destruct (teamService.blank (CreateTeamRequest.Division req)) eqn:Bd.
    + assert (teamService.validateCreateTeamRequest req = Some "division is required") as E
        by (unfold teamService.validateCreateTeamRequest; rewrite Hn, Hc, Bc, Bd; reflexivity).
      rewrite E. split; [split; [discriminate | intros [_ [H _]]; discriminate H] |].
      split; [discriminate |].
      split; [reflexivity |]. split; discriminate.
    + destruct (create_team_enums req Hn Hc Bc Bd) as [Hiff [Hconf Hdiv]].
      split; [rewrite Hiff; tauto |].
      split; [discriminate |].
      split; [discriminate |].
      split; [intros _ _; exact Hconf | intros _ _; exact Hdiv].
Qed.

(** The same for an update that sets at least one field. *)
Lemma update_team_fields (req : UpdateTeamRequest.t) :
  isNil (UpdateTeamRequest.Name req) && isNil (UpdateTeamRequest.City req) &&
  isNil (UpdateTeamRequest.Conference req) && isNil (UpdateTeamRequest.Division req)
  = false ->
  teamService.ptr_blank (UpdateTeamRequest.Name req) = false ->
  teamService.ptr_blank (UpdateTeamRequest.City req) = false ->
  (teamService.validateUpdateTeamRequest req = None <->
   teamService.ptr_blank (UpdateTeamRequest.Conference req) = false /\
   teamService.ptr_blank (UpdateTeamRequest.Division req) = false /\
   (forall c, UpdateTeamRequest.Conference req = Some c ->
              fold_member c ["AFC"; "NFC"]) /\
   (forall d, UpdateTeamRequest.Division req = Some d ->
              fold_member d ["North"; "South"; "East"; "West"])) /\
  (teamService.ptr_blank (UpdateTeamRequest.Conference req) = true ->
   teamService.validateUpdateTeamRequest req = Some "conference cannot be empty") /\
  (teamService.ptr_blank (UpdateTeamRequest.Conference req) = false ->
   teamService.ptr_blank (UpdateTeamRequest.Division req) = true ->
   teamService.validateUpdateTeamRequest req = Some "division cannot be empty") /\
  (teamService.ptr_blank (UpdateTeamRequest.Conference req) = false ->
   teamService.ptr_blank (UpdateTeamRequest.Division req) = false ->
   forall c, UpdateTeamRequest.Conference req = Some c ->
             ~ fold_member c ["AFC"; "NFC"] ->
             teamService.validateUpdateTeamRequest req
             = Some "conference must be one of: [AFC NFC]") /\
  (teamService.ptr_blank (UpdateTeamRequest.Conference req) = false ->
   teamService.ptr_blank (UpdateTeamRequest.Division req) = false ->
   forall d, UpdateTeamRequest.Division req = Some d ->
             (forall c, UpdateTeamRequest.Conference req = Some c ->
                        fold_member c ["AFC"; "NFC"]) ->
             ~ fold_member d ["North"; "South"; "East"; "West"] ->
             teamService.validateUpdateTeamRequest req
             = Some "division must be one of: [North South East West]").
Proof.
  intros H0 Hn Hc.
  destruct (teamService.ptr_blank (UpdateTeamRequest.Conference req)) eqn:Bc.
  - assert (teamService.validateUpdateTeamRequest req = Some "conference cannot be empty")
      as E
      by (unfold teamService.validateUpdateTeamRequest; rewrite H0, Hn, Hc, Bc; reflexivity).
    rewrite E. split; [split; [discriminate | intros [H _]; discriminate H] |].
    split; [reflexivity |].
    split; [discriminate |]. split; discriminate.
  - destruct (teamService.ptr_blank (UpdateTeamRequest.Division req)) eqn:Bd.
    + assert (teamService.validateUpdateTeamRequest req = Some "division cannot be empty")
        as E
        by (unfold teamService.validateUpdateTeamRequest;
            rewrite H0, Hn, Hc, Bc, Bd; reflexivity).
      rewrite E. split; [split; [discriminate | intros [_ [H _]]; discriminate H] |].
      split; [discriminate |].
      split; [reflexivity |]. split; discriminate.
    + destruct (update_team_enums req H0 Hn Hc Bc Bd) as [Hiff [Hconf Hdiv]].
      split; [rewrite Hiff; tauto |].
      split; [discriminate |].
      split; [discriminate |].
      split; [intros _ _; exact Hconf | intros _ _; exact Hdiv].
Qed.
End Enums.

(** C2 (as amended).  With the other fields of the request held valid:
    - a team's conference and division (create, and update when present)
      that are blank after trimming are rejected with "conference is
      required" / "division is required" on create and "conference cannot
      be empty" / "division cannot be empty" on update, messages that list
      no set; both blank tests come before the membership tests, the
      conference first;
    - when neither is blank they are accepted exactly when they are a
      case-insensitive match ([strings.EqualFold]) of a member of AFC|NFC,
      respectively North|South|East|West, and are otherwise rejected with a
      message that lists the set of the first one that fails, the
      conference first;
    - a game's status is accepted exactly when it is literally
      (case-sensitively) one of scheduled|in_progress|completed|cancelled
      or, on create, empty; any other value is rejected with a message that
      lists the set. *)
Theorem enum_fields_membership {L : GoLib} :
  (forall req : CreateTeamRequest.t,
      teamService.blank (CreateTeamRequest.Name req) = false ->
      teamService.blank (CreateTeamRequest.City req) = false ->
      (teamService.validateCreateTeamRequest req = None <->
       teamService.blank (CreateTeamRequest.Conference req) = false /\
       teamService.blank (CreateTeamRequest.Division req) = false /\
       fold_member (CreateTeamRequest.Conference req) ["AFC"; "NFC"] /\
       fold_member (CreateTeamRequest.Division req) ["North"; "South"; "East"; "West"]) /\
      (teamService.blank (CreateTeamRequest.Conference req) = true ->
       teamService.validateCreateTeamRequest req = Some "conference is required") /\
      (teamService.blank (CreateTeamRequest.Conference req) = false ->
       teamService.blank (CreateTeamRequest.Division req) = true ->
       teamService.validateCreateTeamRequest req = Some "division is required") /\
      (teamService.blank (CreateTeamRequest.Conference req) = false ->
       teamService.blank (CreateTeamRequest.Division req) = false ->
       ~ fold_member (CreateTeamRequest.Conference req) ["AFC"; "NFC"] ->
       teamService.validateCreateTeamRequest req
       = Some "conference must be one of: [AFC NFC]") /\
      (teamService.blank (CreateTeamRequest.Conference req) = false ->
       teamService.blank (CreateTeamRequest.Division req) = false ->
       fold_member (CreateTeamRequest.Conference req) ["AFC"; "NFC"] ->
       ~ fold_member (CreateTeamRequest.Division req) ["North"; "South"; "East"; "West"] ->
       teamService.validateCreateTeamRequest req
       = Some "division must be one of: [North South East West]")) /\
  (forall req : UpdateTeamRequest.t,
      isNil (UpdateTeamRequest.Name req) && isNil (UpdateTeamRequest.City req) &&
      isNil (UpdateTeamRequest.Conference req) && isNil (UpdateTeamRequest.Division req)
      = false ->
      teamService.ptr_blank (UpdateTeamRequest.Name req) = false ->
      teamService.ptr_blank (UpdateTeamRequest.City req) = false ->
      (teamService.validateUpdateTeamRequest req = None <->
       teamService.ptr_blank (UpdateTeamRequest.Conference req) = false /\
       teamService.ptr_blank (UpdateTeamRequest.Division req) = false /\
       (forall c, UpdateTeamRequest.Conference req = Some c ->
                  fold_member c ["AFC"; "NFC"]) /\
       (forall d, UpdateTeamRequest.Division req = Some d ->
                  fold_member d ["North"; "South"; "East"; "West"])) /\
      (teamService.ptr_blank (UpdateTeamRequest.Conference req) = true ->
       teamService.validateUpdateTeamRequest req = Some "conference cannot be empty") /\
      (teamService.ptr_blank (UpdateTeamRequest.Conference req) = false ->
       teamService.ptr_blank (UpdateTeamRequest.Division req) = true ->
       teamService.validateUpdateTeamRequest req = Some "division cannot be empty") /\
      (teamService.ptr_blank (UpdateTeamRequest.Conference req) = false ->
       teamService.ptr_blank (UpdateTeamRequest.Division req) = false ->
       forall c, UpdateTeamRequest.Conference req = Some c ->
                 ~ fold_member c ["AFC"; "NFC"] ->
                 teamService.validateUpdateTeamRequest req
                 = Some "conference must be one of: [AFC NFC]") /\
      (teamService.ptr_blank (UpdateTeamRequest.Conference req) = false ->
       teamService.ptr_blank (UpdateTeamRequest.Division req) = false ->
       forall d, UpdateTeamRequest.Division req = Some d ->
                 (forall c, UpdateTeamRequest.Conference req = Some c ->
                            fold_member c ["AFC"; "NFC"]) ->
                 ~ fold_member d ["North"; "South"; "East"; "West"] ->
                 teamService.validateUpdateTeamRequest req
                 = Some "division must be one of: [North South East West]")) /\
  (forall (req : CreateGameRequest.t) (w w' : World),
      gameService.validateCreateGameRequest (CreateGameRequest.withStatus "" req) w
      = (Ok tt, w') ->
      (CreateGameRequest.Status req = "" \/
       In (CreateGameRequest.Status req)
          ["scheduled"; "in_progress"; "completed"; "cancelled"] ->
       gameService.validateCreateGameRequest req w = (Ok tt, w')) /\
      (CreateGameRequest.Status req <> "" ->
       ~ In (CreateGameRequest.Status req)
            ["scheduled"; "in_progress"; "completed"; "cancelled"] ->
       gameService.validateCreateGameRequest req w
       = (Err ("invalid status: " ++ CreateGameRequest.Status req ++
               ". Must be one of: scheduled, in_progress, completed, cancelled"), w'))) /\
  (forall (req : UpdateGameRequest.t) (s : string) (w w' : World),
      UpdateGameRequest.Status req = Some s ->
      gameService.validateUpdateGameRequest (UpdateGameRequest.withStatus None req) w
      = (Ok tt, w') ->
      (In s ["scheduled"; "in_progress"; "completed"; "cancelled"] ->
       gameService.validateUpdateGameRequest req w = (Ok tt, w')) /\
      (~ In s ["scheduled"; "in_progress"; "completed"; "cancelled"] ->
       gameService.validateUpdateGameRequest req w
       = (Err ("invalid status: " ++ s ++
               ". Must be one of: scheduled, in_progress, completed, cancelled"), w'))).
Proof.
  split; [exact create_team_fields |].
  split; [exact update_team_fields |].
  split; [exact create_game_status | exact update_game_status].
Qed.

(** The lower-case conference and division of the sample request are
    accepted, and so is the status "completed" on the sample game; a
    conference of one space is refused as missing on create, an empty one
    as empty on update, and "AFC East" with the set of the conferences. *)
Lemma enum_fields_membership_witness :
  teamService.validateCreateTeamRequest (L := Sample.lib) Sample.raiders = None /\
  teamService.validateCreateTeamRequest (L := Sample.lib)
    (CreateTeamRequest.mk "Raiders" "Las Vegas" " " "west")
  = Some "conference is required" /\
  teamService.validateCreateTeamRequest (L := Sample.lib)
    (CreateTeamRequest.mk "Raiders" "Las Vegas" "AFC East" "west")
  = Some "conference must be one of: [AFC NFC]" /\
  teamService.validateUpdateTeamRequest (L := Sample.lib)
    (UpdateTeamRequest.mk None None (Some "") None)
  = Some "conference cannot be empty" /\
  teamService.validateUpdateTeamRequest (L := Sample.lib)
    (UpdateTeamRequest.mk None None (Some "nfc") (Some "center"))
  = Some "division must be one of: [North South East West]" /\
  gameService.validateCreateGameRequest (L := Sample.lib)
    (CreateGameRequest.withStatus "completed" Sample.opener) Sample.fresh
  = (Ok tt, ticked (ticked Sample.fresh)).
Proof.
  destruct (enum_fields_membership (L := Sample.lib)) as [Ht [Hu [Hg _]]].
  split; [| split; [| split; [| split; [| split]]]].
  - destruct (Ht Sample.raiders eq_refl eq_refl) as [Hiff _]. apply Hiff.
    split; [reflexivity |]. split; [reflexivity |]. split.
    + exists "AFC". split; [left; reflexivity | reflexivity].
    + exists "West". split; [do 3 right; left; reflexivity | reflexivity].
  - destruct (Ht (CreateTeamRequest.mk "Raiders" "Las Vegas" " " "west") eq_refl eq_refl)
      as [_ [Hblank _]].
    apply Hblank. reflexivity.
  - destruct (Ht (CreateTeamRequest.mk "Raiders" "Las Vegas" "AFC East" "west")
                eq_refl eq_refl) as [_ [_ [_ [Hconf _]]]].
    apply Hconf; try reflexivity.
    intros [m [Hin Hm]]. simpl in Hin.
    destruct Hin as [<- | [<- | []]]; discriminate Hm.
  - destruct (Hu (UpdateTeamRequest.mk None None (Some "") None) eq_refl eq_refl eq_refl)
      as [_ [Hblank _]].
    apply Hblank. reflexivity.
  - destruct (Hu (UpdateTeamRequest.mk None None (Some "nfc") (Some "center"))
                eq_refl eq_refl eq_refl) as [_ [_ [_ [_ Hdiv]]]].
    apply (Hdiv eq_refl eq_refl "center" eq_refl).
    + intros c Hc. injection Hc as <-.
      exists "NFC". split; [right; left; reflexivity | reflexivity].
    + intros [m [Hin Hm]]. simpl in Hin.
      destruct Hin as [<- | [<- | [<- | [<- | []]]]]; discriminate Hm.
  - apply (Hg (CreateGameRequest.withStatus "completed" Sample.opener)
              Sample.fresh (ticked (ticked Sample.fresh))).
    + reflexivity.
    + right. do 2 right. left. reflexivity.
Defined.

(** C2 as stated fails for the game status: "SCHEDULED" and "Completed" are
    case-insensitive matches of allowed values, and a create and an update
    that carry them are rejected, while the lower-case spelling passes. *)
Lemma game_status_is_case_sensitive :
  Sample.EqualFold "SCHEDULED" "scheduled" = true /\
  Sample.EqualFold "Completed" "completed" = true /\
  In "scheduled" gameService.validStatuses /\
  In "completed" gameService.validStatuses /\
  fst (gameService.validateCreateGameRequest (L := Sample.lib)
         (CreateGameRequest.withStatus "scheduled" Sample.opener) Sample.fresh)
  = Ok tt /\
  fst (gameService.validateCreateGameRequest (L := Sample.lib)
         (CreateGameRequest.withStatus "SCHEDULED" Sample.opener) Sample.fresh)
  = Err "invalid status: SCHEDULED. Must be one of: scheduled, in_progress, completed, cancelled" /\
  fst (gameService.CreateGame (L := Sample.lib)
         (CreateGameRequest.withStatus "SCHEDULED" Sample.opener) Sample.league)
  = Err "validation failed: invalid status: SCHEDULED. Must be one of: scheduled, in_progress, completed, cancelled" /\
  fst (gameService.UpdateGame (L := Sample.lib) 1
         (UpdateGameRequest.withStatus (Some "Completed") UpdateGameRequest.empty)
         Sample.league)
  = Err "validation failed: invalid status: Completed. Must be one of: scheduled, in_progress, completed, cancelled" /\
  is_ok (fst (gameService.UpdateGame (L := Sample.lib) 1
                (UpdateGameRequest.withStatus (Some "completed") UpdateGameRequest.empty)
                Sample.league)) = true.
Proof.
  repeat split; try reflexivity.
  - left. reflexivity.
  - do 2 right. left. reflexivity.
Qed.

(* ================================================================== *)
(** * Reads, writes and rejected requests *)
(* ================================================================== *)

Section ReadOnly.
Context {L : GoLib}.

Lemma readonly_ret {A} (a : A) : readonly (ret a).
Proof. intros w r w' H. inversion H; subst. auto. Qed.

Lemma readonly_fail {A} (msg : string) : readonly (@fail L A msg).
Proof. intros w r w' H. inversion H; subst. auto. Qed.

Lemma readonly_time_Now : readonly time_Now.
Proof. intros w r w' H. inversion H; subst. auto. Qed.

Lemma readonly_get_store : readonly get_store.
Proof. intros w r w' H. inversion H; subst. auto. Qed.

Lemma readonly_select (from : list TableName) : readonly (send (SELECT from)).
Proof. intros w r w' H. inversion H; subst. auto. Qed.

Lemma readonly_wrapf {A} (p : string) (m : M A) : readonly m -> readonly (wrapf p m).
Proof.
  intros Hm w r w' H. unfold wrapf in H.
  destruct (m w) as [[a | e] w1] eqn:E; inversion H; subst; exact (Hm _ _ _ E).
Qed.

Lemma readonly_bind {A B} (m : M A) (f : A -> M B) :
  readonly m -> (forall a, readonly (f a)) -> readonly (bind m f).
Proof.
  intros Hm Hf w r w' H. unfold bind in H.
  destruct (m w) as [[a | e] w1] eqn:E; destruct (Hm _ _ _ E) as [Hs Hw].
  - destruct (Hf a _ _ _ H) as [Hs' Hw']. split; congruence.
  - inversion H; subst. auto.
Qed.
End ReadOnly.

Create HintDb reads.

(** Walk through a computation that only reads. *)
Ltac reads :=
  repeat lazymatch goal with
    | |- readonly (ret _) => apply readonly_ret
    | |- readonly (fail _) => apply readonly_fail
    | |- readonly time_Now => apply readonly_time_Now
    | |- readonly get_store => apply readonly_get_store
    | |- readonly (send (SELECT _)) => apply readonly_select
    | |- readonly (wrapf _ _) => apply readonly_wrapf
    | |- readonly (bind _ _) => apply readonly_bind; [| intros ?]
    | |- readonly (if ?c then _ else _) => destruct c
    | |- readonly (match ?x with _ => _ end) => destruct x
    | |- readonly (let _ := _ in _) => cbv zeta
    | |- readonly _ => solve [auto with reads nocore]
    end.

Section Probes.
Context {L : GoLib}.

Lemma readonly_team_Exists (id : Z) : readonly (teamRepository.Exists id).
Proof. unfold teamRepository.Exists. reads. Qed.

Lemma readonly_team_GetByID (id : Z) : readonly (teamRepository.GetByID id).
Proof. unfold teamRepository.GetByID. reads. Qed.

Lemma readonly_player_Exists (id : Z) : readonly (playerRepository.Exists id).
Proof. unfold playerRepository.Exists. reads. Qed.

Lemma readonly_player_GetByID (id : Z) : readonly (playerRepository.GetByID id).
Proof. unfold playerRepository.GetByID. reads. Qed.

Lemma readonly_player_GetByTeamID (id : Z) : readonly (playerRepository.GetByTeamID id).
Proof. unfold playerRepository.GetByTeamID. reads. Qed.

Lemma readonly_game_Exists (id : Z) : readonly (gameRepository.Exists id).
Proof. unfold gameRepository.Exists. reads. Qed.

Lemma readonly_game_GetByID (id : Z) : readonly (gameRepository.GetByID id).
Proof. unfold gameRepository.GetByID. reads. Qed.

Lemma readonly_stats_Exists (id : Z) : readonly (playerStatsRepository.Exists id).
Proof. unfold playerStatsRepository.Exists. reads. Qed.

Lemma readonly_stats_GetByID (id : Z) : readonly (playerStatsRepository.GetByID id).
Proof. unfold playerStatsRepository.GetByID. reads. Qed.

Lemma readonly_stats_ExistsByPlayerAndGame (playerID gameID : Z) :
  readonly (playerStatsRepository.ExistsByPlayerAndGame playerID gameID).
Proof. unfold playerStatsRepository.ExistsByPlayerAndGame. reads. Qed.

Lemma readonly_checkWindow (d : Time) : readonly (gameService.checkWindow d).
Proof. unfold gameService.checkWindow. reads. Qed.

Lemma readonly_validateCreateGameRequest (req : CreateGameRequest.t) :
  readonly (gameService.validateCreateGameRequest req).
Proof.
  unfold gameService.validateCreateGameRequest. reads. apply readonly_checkWindow.
Qed.

Lemma readonly_validateUpdateGameRequest (req : UpdateGameRequest.t) :
  readonly (gameService.validateUpdateGameRequest req).
Proof.
  unfold gameService.validateUpdateGameRequest, gameService.checkWeek,
    gameService.checkDate, gameService.checkStatus.
  reads; apply readonly_checkWindow.
Qed.

Lemma readonly_patchTeam (side : string) (current : Z) (req : option Z) :
  readonly (gameService.patchTeam side current req).
Proof.
  unfold gameService.patchTeam. reads. apply readonly_team_Exists.
Qed.
End Probes.

#[export] Hint Resolve readonly_team_Exists readonly_team_GetByID
  readonly_player_Exists readonly_player_GetByID readonly_player_GetByTeamID
  readonly_game_Exists readonly_game_GetByID readonly_stats_Exists
  readonly_stats_GetByID readonly_stats_ExistsByPlayerAndGame
  readonly_checkWindow readonly_validateCreateGameRequest
  readonly_validateUpdateGameRequest readonly_patchTeam : reads.

Section Atomic.
Context {L : GoLib}.

Lemma safe_bind {A B} (m : M A) (f : A -> M B) :
  readonly m -> (forall a, safe (f a)) -> safe (bind m f).
Proof.
  intros Hm Hf w e w' H. unfold bind in H.
  destruct (m w) as [[a | e1] w1] eqn:E; destruct (Hm _ _ _ E) as [Hs _].
  - rewrite <- Hs. exact (Hf a _ _ _ H).
  - inversion H; subst. exact Hs.
Qed.

Lemma atomic_readonly {A} (m : M A) : readonly m -> atomic m.
Proof.
  intros Hm w e w' H. destruct (Hm _ _ _ H) as [Hs Hw]. auto.
Qed.

Lemma atomic_bind {A B} (m : M A) (f : A -> M B) :
  readonly m -> (forall a, atomic (f a)) -> atomic (bind m f).
Proof.
  intros Hm Hf w e w' H. unfold bind in H.
  destruct (m w) as [[a | e1] w1] eqn:E; destruct (Hm _ _ _ E) as [Hs Hw].
  - destruct (Hf a _ _ _ H) as [Hs' Hw']. rewrite <- Hs, <- Hw. auto.
  - inversion H; subst. auto.
Qed.

Lemma atomic_outcome {A} (m : M A) : atomic m -> atomic (outcome m).
Proof.
  intros Hm w e w' H. unfold outcome, bind in H.
  destruct (m w) as [[a | e1] w1] eqn:E.
  - discriminate H.
  - inversion H; subst. exact (Hm _ _ _ E).
Qed.

(** A failed write reported under a "failed to ..." prefix. *)
Lemma atomic_write {A} (q : string) (m : M A) :
  (forall x, is_write_failure (q ++ x) = true) -> safe m -> atomic (wrapf q m).
Proof.
  intros Hq Hm w e w' H. unfold wrapf in H.
  destruct (m w) as [[a | e1] w1] eqn:E; [discriminate H |].
  inversion H; subst. split; [exact (Hm _ _ _ E) | right; apply Hq].
Qed.

(** The statement of a write and the test on the rows it affected. *)
Lemma safe_statement {A B} (p : string) (s : Stmt) (get : DB -> table A)
    (set : table A -> DB -> DB) (f : table A -> result (B * table A)) :
  safe (wrapf p (send s ;; on_table get set f)).
Proof.
  intros w e w' H. unfold wrapf, bind, send, on_table in H.
  destruct (fault (oracle w) (List.length (trace w))).
  - inversion H; subst. reflexivity.
  - cbn [store logged] in H.
    destruct (f (get (store w))) as [[b t'] | e1]; inversion H; subst. reflexivity.
Qed.

Lemma safe_affected {A B} (p msg : string) (s : Stmt) (get : DB -> table A)
    (set : table A -> DB -> DB) (f : table A -> result (Z * table A)) (b : B) :
  (forall d, set (get d) d = d) ->
  (forall t n t', f t = Ok (n, t') -> (n =? 0) = true -> t' = t) ->
  safe (n <- wrapf p (send s ;; on_table get set f) ;;
        if n =? 0 then fail msg else ret b).
Proof.
  intros Hset Hf w e w' H. unfold bind at 1 in H.
  destruct (wrapf p (send s ;; on_table get set f) w) as [[n | e1] w1] eqn:E.
  - destruct (n =? 0) eqn:En; [| discriminate H].
    inversion H; subst w1.
    unfold wrapf, bind, send, on_table in E.
    destruct (fault (oracle w) (List.length (trace w))); [discriminate E |].
    cbn [store logged] in E.
    destruct (f (get (store w))) as [[n' t'] | e2] eqn:Ef; [| discriminate E].
    inversion E; subst. cbn [store stored].
    rewrite (Hf _ _ _ Ef En). apply Hset.
  - inversion H; subst. exact (safe_statement _ _ _ _ _ _ _ _ E).
Qed.

Lemma sql_update_none {A} (key : A -> Z) (same : A -> A -> bool) (cols : string)
    (id : Z) (upd : A -> A) (t : table A) (n : Z) (t' : table A) :
  sql_update key same cols id upd t = Ok (n, t') -> (n =? 0) = true -> t' = t.
Proof.
  unfold sql_update. destruct (existsb _ _); [discriminate |].
  intros H Hn. inversion H; subst.
  rewrite map_untouched by (apply filter_miss; exact Hn).
  destruct t; reflexivity.
Qed.

Lemma sql_delete_none {A} (key : A -> Z) (id : Z) (t : table A) (n : Z) (t' : table A) :
  Ok (sql_delete key id t) = Ok (n, t') -> (n =? 0) = true -> t' = t.
Proof.
  unfold sql_delete. intros H Hn. inversion H; subst.
  rewrite filter_untouched by (apply filter_miss; exact Hn).
  destruct t; reflexivity.
Qed.

Lemma set_teams_same (d : DB) : set_teams (teams_t d) d = d.
Proof. destruct d; reflexivity. Qed.
Lemma set_games_same (d : DB) : set_games (games_t d) d = d.
Proof. destruct d; reflexivity. Qed.
Lemma set_players_same (d : DB) : set_players (players_t d) d = d.
Proof. destruct d; reflexivity. Qed.
Lemma set_player_stats_same (d : DB) : set_player_stats (player_stats_t d) d = d.
Proof. destruct d; reflexivity. Qed.

(** An INSERT: the only errors are those of the statement. *)
Lemma safe_insert {A R} (p : string) (s : Stmt) (get : DB -> table A)
    (set : table A -> DB -> DB) (f : Time -> table A -> result (Z * table A))
    (k : Time -> Z -> R) :
  safe (currentTime <- time_Now ;;
        id <- wrapf p (send s ;; on_table get set (f currentTime)) ;;
        ret (k currentTime id)).
Proof.
  apply safe_bind; [apply readonly_time_Now |]. intros now w e w' H.
  unfold bind at 1 in H.
  destruct (wrapf p (send s ;; on_table get set (f now)) w) as [[n | e1] w1] eqn:E.
  - discriminate H.
  - inversion H; subst. exact (safe_statement _ _ _ _ _ _ _ _ E).
Qed.

Lemma safe_team_Create (team : Team.t) : safe (teamRepository.Create team).
Proof. apply safe_insert. Qed.
Lemma safe_player_Create (player : Player.t) : safe (playerRepository.Create player).
Proof. apply safe_insert. Qed.
Lemma safe_game_Create (game : Game.t) : safe (gameRepository.Create game).
Proof. apply safe_insert. Qed.
Lemma safe_stats_Create (stats : PlayerStats.t) : safe (playerStatsRepository.Create stats).
Proof. apply safe_insert. Qed.

Lemma safe_team_Update (team : Team.t) : safe (teamRepository.Update team).
Proof.
  apply safe_bind; [apply readonly_time_Now |]. intros now.
  apply safe_affected; [apply set_teams_same | apply sql_update_none].
Qed.
Lemma safe_player_Update (player : Player.t) : safe (playerRepository.Update player).
Proof.
  apply safe_bind; [apply readonly_time_Now |]. intros now.
  apply safe_affected; [apply set_players_same | apply sql_update_none].
Qed.
Lemma safe_game_Update (game : Game.t) : safe (gameRepository.Update game).
Proof.
  apply safe_bind; [apply readonly_time_Now |]. intros now.
  apply safe_affected; [apply set_games_same | apply sql_update_none].
Qed.
Lemma safe_stats_Update (stats : PlayerStats.t) : safe (playerStatsRepository.Update stats).
Proof.
  apply safe_bind; [apply readonly_time_Now |]. intros now.
  apply safe_affected; [apply set_player_stats_same | apply sql_update_none].
Qed.

Lemma safe_team_Delete (id : Z) : safe (teamRepository.Delete id).
Proof.
  apply safe_affected; [apply set_teams_same | intros t; apply sql_delete_none].
Qed.
Lemma safe_player_Delete (id : Z) : safe (playerRepository.Delete id).
Proof.
  apply safe_affected; [apply set_players_same | intros t; apply sql_delete_none].
Qed.
Lemma safe_game_Delete (id : Z) : safe (gameRepository.Delete id).
Proof.
  apply safe_affected; [apply set_games_same | intros t; apply sql_delete_none].
Qed.
Lemma safe_stats_Delete (id : Z) : safe (playerStatsRepository.Delete id).
Proof.
  apply safe_affected; [apply set_player_stats_same | intros t; apply sql_delete_none].
Qed.
End Atomic.

Create HintDb writes.
#[export] Hint Resolve safe_team_Create safe_player_Create safe_game_Create
  safe_stats_Create safe_team_Update safe_player_Update safe_game_Update
  safe_stats_Update safe_team_Delete safe_player_Delete safe_game_Delete
  safe_stats_Delete : writes.

(** Walk through a service: probes and validation first, one write last. *)
Ltac atomically :=
  repeat lazymatch goal with
    | |- atomic (bind _ _) => apply atomic_bind; [solve [reads] | intros ?]
    | |- atomic (if ?c then _ else _) => destruct c
    | |- atomic (match ?x with _ => _ end) => destruct x
    | |- atomic (let _ := _ in _) => cbv zeta
    | |- atomic (wrapf _ _) =>
        first [ apply atomic_write;
                [intros ?; reflexivity | solve [auto with writes nocore]]
              | apply atomic_readonly; solve [reads] ]
    | |- atomic _ => apply atomic_readonly; solve [reads]
    end.

Section Services.
Context {L : GoLib}.

Lemma atomic_CreateTeam (req : CreateTeamRequest.t) : atomic (teamService.CreateTeam req).
Proof. unfold teamService.CreateTeam. atomically. Qed.

Lemma atomic_UpdateTeam (id : Z) (req : UpdateTeamRequest.t) :
  atomic (teamService.UpdateTeam id req).
Proof. unfold teamService.UpdateTeam. atomically. Qed.

Lemma atomic_DeleteTeam (id : Z) : atomic (teamService.DeleteTeam id).
Proof. unfold teamService.DeleteTeam. atomically. Qed.

Lemma atomic_CreatePlayer (req : CreatePlayerRequest.t) :
  atomic (playerService.CreatePlayer req).
Proof. unfold playerService.CreatePlayer. atomically. Qed.

Lemma atomic_UpdatePlayer (id : Z) (req : UpdatePlayerRequest.t) :
  atomic (playerService.UpdatePlayer id req).
Proof. unfold playerService.UpdatePlayer. atomically. Qed.

Lemma atomic_DeletePlayer (id : Z) : atomic (playerService.DeletePlayer id).
Proof. unfold playerService.DeletePlayer. atomically. Qed.

Lemma atomic_CreateGame (req : CreateGameRequest.t) : atomic (gameService.CreateGame req).
Proof. unfold gameService.CreateGame. atomically. Qed.

Lemma atomic_UpdateGame (id : Z) (req : UpdateGameRequest.t) :
  atomic (gameService.UpdateGame id req).
Proof. unfold gameService.UpdateGame. atomically. Qed.

Lemma atomic_CreatePlayerStats (req : CreatePlayerStatsRequest.t) :
  atomic (playerStatsService.CreatePlayerStats req).
Proof. unfold playerStatsService.CreatePlayerStats. atomically. Qed.

Lemma atomic_UpdatePlayerStats (id : Z) (req : UpdatePlayerStatsRequest.t) :
  atomic (playerStatsService.UpdatePlayerStats id req).
Proof. unfold playerStatsService.UpdatePlayerStats. atomically. Qed.

Lemma atomic_DeletePlayerStats (id : Z) : atomic (playerStatsService.DeletePlayerStats id).
Proof. unfold playerStatsService.DeletePlayerStats. atomically. Qed.
End Services.

Section DeleteGame.
Context {L : GoLib}.

Lemma game_Exists_value (id : Z) (w w1 : World) (b : bool) :
  gameRepository.Exists id w = (Ok b, w1) ->
  b = sql_exists Game.ID id (games_t (store w1)).
Proof.
  unfold gameRepository.Exists, bind, wrapf, send, get_store, ret.
  destruct (fault (oracle w) (List.length (trace w))); intros H; inversion H; subst.
  reflexivity.
Qed.

(** [DeleteGame] returns the repository's error as it is; after a
    successful probe the DELETE affects a row, so the only error left is the
    failure of the statement. *)
Lemma game_Delete_after_probe (id : Z) (w w' : World) (e : string) :
  sql_exists Game.ID id (games_t (store w)) = true ->
  gameRepository.Delete id w = (Err e, w') ->
  store w' = store w /\ is_write_failure e = true.
Proof.
  intros Hex H. split; [exact (safe_game_Delete id _ _ _ H) |].
  unfold gameRepository.Delete, bind, wrapf, send, on_table in H.
  destruct (fault (oracle w) (List.length (trace w))).
  - inversion H; subst. reflexivity.
  - cbn [store logged sql_delete fst snd] in H.
    unfold sql_exists in Hex. apply existsb_exists in Hex. destruct Hex as [g [Hin Hg]].
    rewrite (filter_hit _ _ g Hin Hg) in H. discriminate H.
Qed.

Lemma atomic_DeleteGame (id : Z) : atomic (gameService.DeleteGame id).
Proof.
  unfold gameService.DeleteGame.
  destruct (id <=? 0); [apply atomic_readonly; reads |].
  intros w e w' H. unfold bind at 1 in H.
  destruct (wrapf "failed to check if game exists: " (gameRepository.Exists id) w)
    as [[ex | e1] w1] eqn:E.
  - pose proof (readonly_wrapf _ _ (readonly_game_Exists id) _ _ _ E) as [Hs Hw].
    apply wrapf_inv_ok in E. apply game_Exists_value in E.
    destruct ex; cbn [negb] in H.
    + destruct (game_Delete_after_probe id w1 w' e (eq_sym E) H) as [Hs' He].
      split; [congruence | right; exact He].
    + inversion H; subst. auto.
  - pose proof (readonly_wrapf _ _ (readonly_game_Exists id) _ _ _ E) as [Hs Hw].
    inversion H; subst. auto.
Qed.
End DeleteGame.

(** C10.  Whenever a create, update or delete of any entity family returns
    an error, the store is what it was before the request; and unless the
    error is the failure of the final INSERT, UPDATE or DELETE itself, no
    write statement was sent at all: validation, existence probes and
    uniqueness probes all fail before the repository write is invoked. *)
Theorem rejection_is_atomic {L : GoLib} (op : Mutation) (w w' : World) (e : string) :
  perform op w = (Err e, w') ->
  store w' = store w /\
  (writes w' = writes w \/ is_write_failure e = true).
Proof.
  revert w e w'. change (atomic (perform op)).
  destruct op; cbn [perform]; try apply atomic_outcome.
  - apply atomic_CreateTeam.
  - apply atomic_UpdateTeam.
  - apply atomic_DeleteTeam.
  - apply atomic_CreatePlayer.
  - apply atomic_UpdatePlayer.
  - apply atomic_DeletePlayer.
  - apply atomic_CreateGame.
  - apply atomic_UpdateGame.
  - apply atomic_DeleteGame.
  - apply atomic_CreatePlayerStats.
  - apply atomic_UpdatePlayerStats.
  - apply atomic_DeletePlayerStats.
Qed.

(** A second statistics row for the same player and game is refused by the
    uniqueness probe: two SELECTs were sent, no write, and the store is
    untouched. *)
Lemma rejection_is_atomic_witness :
  let w' := logged (SELECT [player_stats]) (logged (SELECT [players]) Sample.league) in
  perform (L := Sample.lib) (CreatePlayerStats Sample.passing) Sample.league
  = (Err "player stats already exist for player 1 in game 1", w') /\
  store w' = store Sample.league /\
  (writes w' = writes Sample.league \/
   is_write_failure "player stats already exist for player 1 in game 1" = true).
Proof.
  cbv zeta.
  assert (H : perform (L := Sample.lib) (CreatePlayerStats Sample.passing) Sample.league
              = (Err "player stats already exist for player 1 in game 1",
                 logged (SELECT [player_stats]) (logged (SELECT [players]) Sample.league)))
    by reflexivity.
  split; [exact H |].
  exact (rejection_is_atomic (L := Sample.lib) _ _ _ _ H).
Defined.

(* ================================================================== *)
(** * A game needs two different teams *)
(* ================================================================== *)

Section SameTeam.
Context {L : GoLib}.

Lemma patchTeam_value (side : string) (current : Z) (req : option Z)
    (w w' : World) (tid : Z) :
  gameService.patchTeam side current req w = (Ok tid, w') ->
  tid = patch_val current req.
Proof.
  unfold gameService.patchTeam. destruct req as [t |]; cbn [patch_val].
  - unfold bind. destruct (wrapf _ _ w) as [[b | e] w1]; [| discriminate].
    destruct (negb b); intros H; inversion H. reflexivity.
  - intros H. inversion H. reflexivity.
Qed.

Lemma CreateGame_same_team_fails (req : CreateGameRequest.t) (w : World) :
  CreateGameRequest.HomeTeamID req = CreateGameRequest.AwayTeamID req ->
  exists e, fst (gameService.CreateGame req w) = Err e.
Proof.
  intros Hsame. unfold gameService.CreateGame.
  unfold bind at 1.
  destruct (wrapf "validation failed: " _ w) as [[[] | e] w1];
    [| eexists; reflexivity].
  unfold bind at 1.
  destruct (wrapf "failed to check home team: " _ w1) as [[b | e] w2];
    [| eexists; reflexivity].
  destruct (negb b); [eexists; reflexivity |].
  unfold bind at 1.
  destruct (wrapf "failed to check away team: " _ w2) as [[b' | e] w3];
    [| eexists; reflexivity].
  destruct (negb b'); [eexists; reflexivity |].
  rewrite Hsame, Z.eqb_refl. eexists; reflexivity.
Qed.

Lemma UpdateGame_same_team_fails (id : Z) (req : UpdateGameRequest.t)
    (w w1 : World) (game : Game.t) :
  gameRepository.GetByID id w = (Ok game, w1) ->
  patch_val (Game.HomeTeamID game) (UpdateGameRequest.HomeTeamID req)
  = patch_val (Game.AwayTeamID game) (UpdateGameRequest.AwayTeamID req) ->
  exists e, fst (gameService.UpdateGame id req w) = Err e.
Proof.
  intros Hget Hsame. unfold gameService.UpdateGame.
  destruct (id <=? 0); [eexists; reflexivity |].
  rewrite (bind_ok _ _ _ _ _ (wrapf_ok "failed to get game: " _ _ _ _ Hget)).
  unfold bind at 1.
  destruct (wrapf "validation failed: " _ w1) as [[[] | e] w2];
    [| eexists; reflexivity].
  unfold bind at 1.
  destruct (gameService.patchTeam "home" _ _ w2) as [[h | e] w3] eqn:Eh;
    [| eexists; reflexivity].
  unfold bind at 1.
  destruct (gameService.patchTeam "away" _ _ w3) as [[a | e] w4] eqn:Ea;
    [| eexists; reflexivity].
  apply patchTeam_value in Eh. apply patchTeam_value in Ea.
  replace (h =? a) with true by (symmetry; apply Z.eqb_eq; congruence).
  eexists; reflexivity.
Qed.

Lemma atomic_error {A} (m : M A) (w : World) (e : string) :
  atomic m -> fst (m w) = Err e -> store (snd (m w)) = store w.
Proof.
  intros Hm He. destruct (m w) as [r w'] eqn:E. cbn [fst snd] in *. subst r.
  exact (proj1 (Hm _ _ _ E)).
Qed.
End SameTeam.

(** C5.  A Game create whose home_team_id equals its away_team_id returns an
    error and leaves the store unchanged, whatever the other fields are; and
    a Game update is checked on the team ids it ends up with: when the
    stored game patched with the request has the same home and away team,
    the update returns an error and leaves the store unchanged, also when
    the patch changes only one side. *)
Theorem games_need_two_teams {L : GoLib} :
  (forall (req : CreateGameRequest.t) (w : World),
      CreateGameRequest.HomeTeamID req = CreateGameRequest.AwayTeamID req ->
      (exists e, fst (gameService.CreateGame req w) = Err e) /\
      store (snd (gameService.CreateGame req w)) = store w) /\
  (forall (id : Z) (req : UpdateGameRequest.t) (w w1 : World) (game : Game.t),
      gameRepository.GetByID id w = (Ok game, w1) ->
      patch_val (Game.HomeTeamID game) (UpdateGameRequest.HomeTeamID req)
      = patch_val (Game.AwayTeamID game) (UpdateGameRequest.AwayTeamID req) ->
      (exists e, fst (gameService.UpdateGame id req w) = Err e) /\
      store (snd (gameService.UpdateGame id req w)) = store w).
Proof.
  split.
  - intros req w Hsame.
    destruct (CreateGame_same_team_fails req w Hsame) as [e He].
    split; [exists e; exact He |].
    exact (atomic_error _ _ _ (atomic_CreateGame req) He).
  - intros id req w w1 game Hget Hsame.
    destruct (UpdateGame_same_team_fails id req w w1 game Hget Hsame) as [e He].
    split; [exists e; exact He |].
    exact (atomic_error _ _ _ (atomic_UpdateGame id req) He).
Qed.

(** In the sample league: a create with team 1 on both sides, and an update
    of the game between teams 1 and 2 that only sets the away team to 1. *)
Lemma games_need_two_teams_witness :
  ((exists e, fst (gameService.CreateGame (L := Sample.lib)
                     (CreateGameRequest.withAway 1 Sample.opener) Sample.league) = Err e) /\
   store (snd (gameService.CreateGame (L := Sample.lib)
                 (CreateGameRequest.withAway 1 Sample.opener) Sample.league))
   = store Sample.league) /\
  ((exists e, fst (gameService.UpdateGame (L := Sample.lib) 1
                     (UpdateGameRequest.onlyAway 1) Sample.league) = Err e) /\
   store (snd (gameService.UpdateGame (L := Sample.lib) 1
                 (UpdateGameRequest.onlyAway 1) Sample.league))
   = store Sample.league) /\
  failure (fst (gameService.UpdateGame (L := Sample.lib) 1
                  (UpdateGameRequest.onlyAway 1) Sample.league))
  = Some "home team and away team cannot be the same".
Proof.
  destruct (games_need_two_teams (L := Sample.lib)) as [Hc Hu].
  split; [| split].
  - apply Hc. reflexivity.
  - eapply Hu; reflexivity.
  - reflexivity.
Defined.

(* ================================================================== *)
(** * Creating player statistics *)
(* ================================================================== *)

Section CreateStats.
Context {L : GoLib}.
Import playerStatsService.

(** A probe: one SELECT, then a value computed from the store. *)
Lemma probe_run {B} (p : string) (s : Stmt) (v : DB -> B) (w : World) :
  healthy w ->
  (wrapf p (send s) ;; db <- get_store ;; ret (v db)) w = (Ok (v (store w)), logged s w).
Proof. intros Hw. rewrite sent by exact Hw. reflexivity. Qed.

Lemma probe_inv {B} (p : string) (s : Stmt) (v : DB -> B) (w w1 : World) (b : B) :
  (wrapf p (send s) ;; db <- get_store ;; ret (v db)) w = (Ok b, w1) ->
  b = v (store w) /\ w1 = logged s w.
Proof.
  unfold bind, wrapf, send, get_store, ret.
  destruct (fault (oracle w) (List.length (trace w))); intros H; inversion H.
  split; reflexivity.
Qed.

(** An INSERT that succeeds stores one more row, under the next id. *)
Lemma insert_inv {A} (p cols : string) (s : Stmt) (get : DB -> table A)
    (set : table A -> DB -> DB) (key : A -> Z) (clash : A -> bool)
    (row : Time -> Z -> A) (w w' : World) (r : A) :
  (currentTime <- time_Now ;;
   id <- wrapf p (send s ;;
                  on_table get set (sql_insert key clash cols (row currentTime))) ;;
   ret (row currentTime id)) w = (Ok r, w') ->
  let id := max_rowid key (get (store w)) + 1 in
  existsb clash (rows (get (store w))) = false /\
  r = row (wall (oracle w) (ticks w)) id /\
  w' = stored (set (mkTable (rows (get (store w)) ++ [r])%list id) (store w))
              (logged s (ticked w)).
Proof.
  unfold bind, wrapf, send, on_table, time_Now, ret, sql_insert.
  cbn [store trace ticks oracle ticked logged].
  destruct (fault (oracle w) (List.length (trace w))); [discriminate |].
  destruct (existsb clash (rows (get (store w)))); [discriminate |].
  destruct (_ >? max_int); [discriminate |].
  intros H. inversion H. repeat split; reflexivity.
Qed.

Lemma insert_run {A} (p cols : string) (s : Stmt) (get : DB -> table A)
    (set : table A -> DB -> DB) (key : A -> Z) (clash : A -> bool)
    (row : Time -> Z -> A) (w : World) :
  healthy w ->
  existsb clash (rows (get (store w))) = false ->
  max_rowid key (get (store w)) < max_int ->
  let id := max_rowid key (get (store w)) + 1 in
  let r := row (wall (oracle w) (ticks w)) id in
  (currentTime <- time_Now ;;
   id <- wrapf p (send s ;;
                  on_table get set (sql_insert key clash cols (row currentTime))) ;;
   ret (row currentTime id)) w
  = (Ok r, stored (set (mkTable (rows (get (store w)) ++ [r])%list id) (store w))
                  (logged s (ticked w))).
Proof.
  intros Hw Hc Hfull. cbv zeta.
  unfold bind, wrapf, send, on_table, time_Now, ret, sql_insert.
  cbn [store trace ticks oracle ticked logged].
  rewrite Hw, Hc.
  replace (_ >? max_int) with false
    by (symmetry; rewrite Z.gtb_ltb; apply Z.ltb_ge; lia).
  reflexivity.
Qed.

Lemma CreatePlayerStats_created (req : CreatePlayerStatsRequest.t) (w w' : World)
    (s : PlayerStats.t) :
  CreatePlayerStats req w = (Ok s, w') ->
  sql_exists Player.ID (CreatePlayerStatsRequest.PlayerID req) (players_t (store w)) = true /\
  has_stats (CreatePlayerStatsRequest.PlayerID req) (CreatePlayerStatsRequest.GameID req)
            (store w) = false /\
  trace w' = INSERT player_stats :: SELECT [player_stats] :: SELECT [players] :: trace w /\
  rows (player_stats_t (store w')) = (rows (player_stats_t (store w)) ++ [s])%list /\
  PlayerStats.PlayerID s = CreatePlayerStatsRequest.PlayerID req /\
  PlayerStats.GameID s = CreatePlayerStatsRequest.GameID req.
Proof.
  unfold CreatePlayerStats. intros H.
  destruct (validateCreatePlayerStatsRequest req); [discriminate H |].
  apply bind_inv_ok in H. destruct H as [b [w1 [H1 H]]].
  apply wrapf_inv_ok, probe_inv in H1. destruct H1 as [Hb Hw1]. subst b w1.
  destruct (sql_exists Player.ID _ _) eqn:Ep; cbn [negb] in H; [| discriminate H].
  apply bind_inv_ok in H. destruct H as [b [w2 [H2 H]]].
  apply wrapf_inv_ok, probe_inv in H2. destruct H2 as [Hb Hw2]. subst b w2.
  cbn [store logged] in H.
  fold (has_stats (CreatePlayerStatsRequest.PlayerID req)
                  (CreatePlayerStatsRequest.GameID req) (store w)) in H.
  destruct (has_stats _ _ _) eqn:Es; [discriminate H |].
  apply wrapf_inv_ok, insert_inv in H. cbv zeta in H.
  destruct H as [_ [Hs Hw']]. subst w'.
  cbn [store trace stored logged ticked rows player_stats_t set_player_stats].
  repeat split; try reflexivity; rewrite Hs; reflexivity.
Qed.

Lemma avoids_ret {A} (tn : TableName) (a : A) : avoids tn (ret a).
Proof. intros w r w' H. inversion H; subst. exists []. auto. Qed.

Lemma avoids_fail {A} (tn : TableName) (msg : string) : avoids tn (@fail L A msg).
Proof. intros w r w' H. inversion H; subst. exists []. auto. Qed.

Lemma avoids_time_Now (tn : TableName) : avoids tn time_Now.
Proof. intros w r w' H. inversion H; subst. exists []. auto. Qed.

Lemma avoids_get_store (tn : TableName) : avoids tn get_store.
Proof. intros w r w' H. inversion H; subst. exists []. auto. Qed.

Lemma avoids_on_table {A B} (tn : TableName) (get : DB -> table A)
    (set : table A -> DB -> DB) (f : table A -> result (B * table A)) :
  avoids tn (on_table get set f).
Proof.
  intros w r w' H. unfold on_table in H.
  destruct (f (get (store w))) as [[b t'] | e]; inversion H; subst; exists []; auto.
Qed.

Lemma avoids_send (tn : TableName) (s : Stmt) :
  reads tn s = false -> avoids tn (send s).
Proof.
  intros Hs w r w' H. inversion H; subst. exists [s]. split; [reflexivity |].
  cbn [existsb]. rewrite Hs. reflexivity.
Qed.

Lemma avoids_wrapf {A} (tn : TableName) (p : string) (m : M A) :
  avoids tn m -> avoids tn (wrapf p m).
Proof.
  intros Hm w r w' H. unfold wrapf in H.
  destruct (m w) as [[a | e] w1] eqn:E; inversion H; subst; exact (Hm _ _ _ E).
Qed.

Lemma avoids_bind {A B} (tn : TableName) (m : M A) (f : A -> M B) :
  avoids tn m -> (forall a, avoids tn (f a)) -> avoids tn (bind m f).
Proof.
  intros Hm Hf w r w' H. unfold bind in H.
  destruct (m w) as [[a | e] w1] eqn:E; destruct (Hm _ _ _ E) as [s1 [H1 N1]].
  - destruct (Hf a _ _ _ H) as [s2 [H2 N2]].
    exists (s2 ++ s1)%list. split.
    + rewrite H2, H1. apply app_assoc.
    + rewrite existsb_app, N1, N2. reflexivity.
  - inversion H; subst. exists s1. auto.
Qed.

(** Walk through a computation and look at each statement it sends. *)
Ltac statements :=
  repeat lazymatch goal with
    | |- avoids _ (ret _) => apply avoids_ret
    | |- avoids _ (fail _) => apply avoids_fail
    | |- avoids _ time_Now => apply avoids_time_Now
    | |- avoids _ get_store => apply avoids_get_store
    | |- avoids _ (on_table _ _ _) => apply avoids_on_table
    | |- avoids _ (send _) => apply avoids_send; reflexivity
    | |- avoids _ (wrapf _ _) => apply avoids_wrapf
    | |- avoids _ (bind _ _) => apply avoids_bind; [| intros ?]
    | |- avoids _ (if ?c then _ else _) => destruct c
    | |- avoids _ (match ?x with _ => _ end) => destruct x
    | |- avoids _ (let _ := _ in _) => cbv zeta
    end.

(** No statement of [CreatePlayerStats] reads the games table. *)
Lemma CreatePlayerStats_avoids_games (req : CreatePlayerStatsRequest.t) :
  avoids games (CreatePlayerStats req).
Proof.
  unfold CreatePlayerStats, playerRepository.Exists,
    playerStatsRepository.ExistsByPlayerAndGame, playerStatsRepository.Create.
  statements.
Qed.

Lemma CreatePlayerStats_no_player (req : CreatePlayerStatsRequest.t) (w : World) :
  validateCreatePlayerStatsRequest req = None -> healthy w ->
  sql_exists Player.ID (CreatePlayerStatsRequest.PlayerID req) (players_t (store w)) = false ->
  CreatePlayerStats req w
  = (Err ("player with ID " ++ itoa (CreatePlayerStatsRequest.PlayerID req) ++ " not found"),
     logged (SELECT [players]) w).
Proof.
  intros Hv Hw Hp. unfold CreatePlayerStats. rewrite Hv.
  erewrite bind_ok by (apply wrapf_ok; apply probe_run; exact Hw).
  rewrite Hp. reflexivity.
Qed.

Lemma CreatePlayerStats_duplicate (req : CreatePlayerStatsRequest.t) (w : World) :
  validateCreatePlayerStatsRequest req = None -> healthy w ->
  sql_exists Player.ID (CreatePlayerStatsRequest.PlayerID req) (players_t (store w)) = true ->
  has_stats (CreatePlayerStatsRequest.PlayerID req) (CreatePlayerStatsRequest.GameID req)
            (store w) = true ->
  CreatePlayerStats req w
  = (Err ("player stats already exist for player " ++
          itoa (CreatePlayerStatsRequest.PlayerID req) ++ " in game " ++
          itoa (CreatePlayerStatsRequest.GameID req)),
     logged (SELECT [player_stats]) (logged (SELECT [players]) w)).
Proof.
  intros Hv Hw Hp Hs. unfold CreatePlayerStats. rewrite Hv.
  erewrite bind_ok by (apply wrapf_ok; apply probe_run; exact Hw).
  rewrite Hp. cbn [negb].
  erewrite bind_ok by (apply wrapf_ok; apply probe_run; auto with world).
  cbn [store logged]. unfold has_stats in Hs. rewrite Hs. reflexivity.
Qed.

Lemma clash_has_stats (stats : PlayerStats.t) (db : DB) :
  existsb (playerStatsRepository.same stats) (rows (player_stats_t db))
  = has_stats (PlayerStats.PlayerID stats) (PlayerStats.GameID stats) db.
Proof.
  unfold has_stats, playerStatsRepository.same.
  induction (rows (player_stats_t db)) as [| ps l IH]; [reflexivity |].
  cbn [existsb]. rewrite IH.
  rewrite (Z.eqb_sym (PlayerStats.PlayerID stats)), (Z.eqb_sym (PlayerStats.GameID stats)).
  reflexivity.
Qed.

Lemma CreatePlayerStats_creates (req : CreatePlayerStatsRequest.t) (w : World) :
  validateCreatePlayerStatsRequest req = None -> healthy w ->
  sql_exists Player.ID (CreatePlayerStatsRequest.PlayerID req) (players_t (store w)) = true ->
  has_stats (CreatePlayerStatsRequest.PlayerID req) (CreatePlayerStatsRequest.GameID req)
            (store w) = false ->
  max_rowid PlayerStats.ID (player_stats_t (store w)) < max_int ->
  exists s w', CreatePlayerStats req w = (Ok s, w').
Proof.
  intros Hv Hw Hp Hs Hfull. unfold CreatePlayerStats. rewrite Hv.
  erewrite bind_ok by (apply wrapf_ok; apply probe_run; exact Hw).
  rewrite Hp. cbn [negb].
  erewrite bind_ok by (apply wrapf_ok; apply probe_run; auto with world).
  cbn [store logged].
  fold (has_stats (CreatePlayerStatsRequest.PlayerID req)
                  (CreatePlayerStatsRequest.GameID req) (store w)).
  rewrite Hs.
  eexists. eexists. apply wrapf_ok.
  unfold playerStatsRepository.Create. apply insert_run.
  - auto with world.
  - cbn [store stored logged ticked]. rewrite clash_has_stats. exact Hs.
  - exact Hfull.
Qed.
End CreateStats.

(** C6.  A valid PlayerStats create on a healthy store is rejected with
    "player with ID <id> not found" when the player does not exist, and with
    "player stats already exist for player <p> in game <g>" when the player
    exists and a row for the pair exists; when the player exists and no row
    for the pair exists the row is created.  Conversely a create only
    succeeds after both probes passed, and it adds exactly the returned row.
    No statement sent by the operation reads the games table: the game of
    the request is never looked up. *)
Theorem create_stats_probes {L : GoLib} :
  (forall (req : CreatePlayerStatsRequest.t) (w : World),
      playerStatsService.validateCreatePlayerStatsRequest req = None ->
      healthy w ->
      let p := CreatePlayerStatsRequest.PlayerID req in
      let g := CreatePlayerStatsRequest.GameID req in
      (sql_exists Player.ID p (players_t (store w)) = false ->
       playerStatsService.CreatePlayerStats req w
       = (Err ("player with ID " ++ itoa p ++ " not found"),
          logged (SELECT [players]) w)) /\
      (sql_exists Player.ID p (players_t (store w)) = true ->
       has_stats p g (store w) = true ->
       playerStatsService.CreatePlayerStats req w
       = (Err ("player stats already exist for player " ++ itoa p ++
               " in game " ++ itoa g),
          logged (SELECT [player_stats]) (logged (SELECT [players]) w))) /\
      (sql_exists Player.ID p (players_t (store w)) = true ->
       has_stats p g (store w) = false ->
       max_rowid PlayerStats.ID (player_stats_t (store w)) < max_int ->
       exists s w', playerStatsService.CreatePlayerStats req w = (Ok s, w'))) /\
  (forall (req : CreatePlayerStatsRequest.t) (w w' : World) (s : PlayerStats.t),
      playerStatsService.CreatePlayerStats req w = (Ok s, w') ->
      sql_exists Player.ID (CreatePlayerStatsRequest.PlayerID req)
                 (players_t (store w)) = true /\
      has_stats (CreatePlayerStatsRequest.PlayerID req)
                (CreatePlayerStatsRequest.GameID req) (store w) = false /\
      rows (player_stats_t (store w')) = (rows (player_stats_t (store w)) ++ [s])%list /\
      PlayerStats.PlayerID s = CreatePlayerStatsRequest.PlayerID req /\
      PlayerStats.GameID s = CreatePlayerStatsRequest.GameID req) /\
  (forall req : CreatePlayerStatsRequest.t,
      avoids games (playerStatsService.CreatePlayerStats req)).
Proof.
  split; [| split].
  - intros req w Hv Hw p g. split; [| split].
    + apply CreatePlayerStats_no_player; assumption.
    + apply CreatePlayerStats_duplicate; assumption.
    + apply CreatePlayerStats_creates; assumption.
  - intros req w w' s H.
    destruct (CreatePlayerStats_created req w w' s H) as [Hp [Hs [_ [Hr [Hi Hg]]]]].
    auto.
  - exact CreatePlayerStats_avoids_games.
Qed.

(** In the sample league a second row for player 1 in game 1 is refused,
    and a row for player 1 in game 99, a game that does not exist, is
    created. *)
Lemma create_stats_probes_witness :
  playerStatsService.CreatePlayerStats (L := Sample.lib) Sample.passing Sample.league
  = (Err "player stats already exist for player 1 in game 1",
     logged (SELECT [player_stats]) (logged (SELECT [players]) Sample.league)) /\
  sql_exists Game.ID 99 (games_t (store Sample.league)) = false /\
  exists s w',
    playerStatsService.CreatePlayerStats (L := Sample.lib)
      (CreatePlayerStatsRequest.fromFields 1 99 [("rushing_yards", 12)]) Sample.league
    = (Ok s, w').
Proof.
  destruct (create_stats_probes (L := Sample.lib)) as [H _].
  split; [| split].
  - apply (H Sample.passing Sample.league); try reflexivity.
    intros n. reflexivity.
  - reflexivity.
  - apply (H (CreatePlayerStatsRequest.fromFields 1 99 [("rushing_yards", 12)])
             Sample.league); try reflexivity.
    intros n. reflexivity.
Defined.

(* ================================================================== *)
(** * Jersey numbers *)
(* ================================================================== *)

Section Jersey.
Context {L : GoLib}.
Import playerService.

Lemma existsb_place (f : Player.t -> bool) (p : Player.t) (l : list Player.t) :
  existsb f (playerRepository.place p l) = f p || existsb f l.
Proof.
  induction l as [| q l IH]; cbn [playerRepository.place existsb]; [reflexivity |].
  destruct (playerRepository.order_le p q); cbn [existsb]; [reflexivity |].
  rewrite IH. destruct (f p), (f q); reflexivity.
Qed.

(** The order of the roster does not matter to a scan of it. *)
Lemma existsb_order_by (f : Player.t -> bool) (l : list Player.t) :
  existsb f (playerRepository.order_by l) = existsb f l.
Proof.
  unfold playerRepository.order_by.
  induction l as [| p l IH]; cbn [fold_right existsb]; [reflexivity |].
  rewrite existsb_place, IH. reflexivity.
Qed.

Lemma existsb_filter {A} (f g : A -> bool) (l : list A) :
  existsb f (filter g l) = existsb (fun x => g x && f x) l.
Proof.
  induction l as [| x l IH]; cbn [filter existsb]; [reflexivity |].
  destruct (g x); cbn [existsb andb]; rewrite IH; reflexivity.
Qed.

(** A lookup by id: one SELECT, then the first matching row or "not found". *)
Lemma lookup_run {A} (p msg : string) (s : Stmt) (g : DB -> option A) (w : World) :
  healthy w ->
  (wrapf p (send s) ;; db <- get_store ;;
   match g db with Some x => ret x | None => fail msg end) w
  = (match g (store w) with Some x => Ok x | None => Err msg end, logged s w).
Proof.
  intros Hw. rewrite sent by exact Hw. unfold bind, get_store.
  cbn [store logged]. destruct (g (store w)); reflexivity.
Qed.

(** An UPDATE that hits a row and breaks no constraint. *)
Lemma update_run {A R} (p cols msg : string) (s : Stmt) (get : DB -> table A)
    (set : table A -> DB -> DB) (key : A -> Z) (same : A -> A -> bool) (id : Z)
    (upd : Time -> A -> A) (k : Time -> R) (w : World) (r : A) :
  healthy w ->
  In r (rows (get (store w))) -> key r = id ->
  (forall x y, In x (rows (get (store w))) -> In y (rows (get (store w))) ->
               key x = id -> key y <> id ->
               same (upd (wall (oracle w) (ticks w)) x) y = false) ->
  let now := wall (oracle w) (ticks w) in
  (currentTime <- time_Now ;;
   n <- wrapf p (send s ;;
                 on_table get set (sql_update key same cols id (upd currentTime))) ;;
   if n =? 0 then fail msg else ret (k currentTime)) w
  = (Ok (k now),
     stored (set (mkTable (map (fun x => if key x =? id then upd now x else x)
                               (rows (get (store w))))
                          (seq (get (store w))))
                 (store w))
            (logged s (ticked w))).
Proof.
  intros Hw Hin Hkey Hfree now.
  unfold bind, wrapf, send, on_table, time_Now, sql_update.
  cbn [store trace ticks oracle ticked logged]. rewrite Hw.
  replace (existsb _ (rows (get (store w)))) with false.
  - rewrite (filter_hit _ _ r Hin) by (apply Z.eqb_eq; exact Hkey). reflexivity.
  - symmetry. apply not_true_is_false. intros Hex.
    apply existsb_exists in Hex. destruct Hex as [x [Hx Hb]].
    apply andb_true_iff in Hb. destruct Hb as [Hhit Hex].
    apply existsb_exists in Hex. destruct Hex as [y [Hy Hb]].
    apply andb_true_iff in Hb. destruct Hb as [Hmiss Hsame].
    apply Z.eqb_eq in Hhit. apply negb_true_iff, Z.eqb_neq in Hmiss.
    rewrite (Hfree x y Hx Hy Hhit Hmiss) in Hsame. discriminate Hsame.
Qed.

(** A roster scan for number [n] on team [teamID], in terms of the rows. *)
Lemma scan_spec (f : Player.t -> bool) (teamID : Z) (db : DB) :
  sql_exists Team.ID teamID (teams_t db) = true ->
  existsb f (playerRepository.order_by
               (filter (fun p => (Player.TeamID p =? teamID) &&
                                 playerRepository.joined db p)
                       (rows (players_t db)))) = true <->
  exists other, In other (rows (players_t db)) /\
                Player.TeamID other = teamID /\ f other = true.
Proof.
  intros Ht. rewrite existsb_order_by, existsb_filter, existsb_exists.
  split; intros [other [Hin Hb]]; exists other.
  - apply andb_true_iff in Hb. destruct Hb as [Hg Hf].
    apply andb_true_iff in Hg. destruct Hg as [Hteam _].
    apply Z.eqb_eq in Hteam. auto.
  - destruct Hb as [Hteam Hf]. split; [exact Hin |].
    unfold playerRepository.joined. rewrite Hteam, Z.eqb_refl, Ht, Hf. reflexivity.
Qed.

Lemma wears_spec (n : Z) (p : Player.t) :
  wears n p = true <-> Player.JerseyNumber p = Some n.
Proof.
  unfold wears. destruct (Player.JerseyNumber p) as [j |].
  - rewrite Z.eqb_eq. split; congruence.
  - split; discriminate.
Qed.

Lemma CreatePlayer_taken (req : CreatePlayerRequest.t) (w : World) (n : Z)
    (other : Player.t) :
  validateCreatePlayerRequest req = None -> healthy w ->
  sql_exists Team.ID (CreatePlayerRequest.TeamID req) (teams_t (store w)) = true ->
  CreatePlayerRequest.JerseyNumber req = Some n ->
  In other (rows (players_t (store w))) ->
  Player.TeamID other = CreatePlayerRequest.TeamID req ->
  Player.JerseyNumber other = Some n ->
  CreatePlayer req w
  = (Err ("jersey number " ++ itoa n ++ " is already taken by another player on this team"),
     logged (SELECT [players; teams]) (logged (SELECT [teams]) w)).
Proof.
  intros Hv Hw Ht Hj Hin Hteam Hn. unfold CreatePlayer. rewrite Hv.
  erewrite bind_ok by (apply wrapf_ok; apply probe_run; exact Hw).
  rewrite Ht, Hj. cbn [negb].
  apply bind_err.
  erewrite bind_ok by (apply wrapf_ok; apply probe_run; auto with world).
  cbn [store logged].
  replace (existsb (wears n) _) with true; [reflexivity |].
  symmetry. apply scan_spec; [exact Ht |].
  exists other. rewrite wears_spec. auto.
Qed.

Lemma CreatePlayer_free (req : CreatePlayerRequest.t) (w : World) (n : Z) :
  validateCreatePlayerRequest req = None -> healthy w ->
  sql_exists Team.ID (CreatePlayerRequest.TeamID req) (teams_t (store w)) = true ->
  CreatePlayerRequest.JerseyNumber req = Some n ->
  (forall other, In other (rows (players_t (store w))) ->
                 Player.JerseyNumber other = Some n ->
                 Player.TeamID other <> CreatePlayerRequest.TeamID req) ->
  max_rowid Player.ID (players_t (store w)) < max_int ->
  exists p w',
    CreatePlayer req w = (Ok p, w') /\
    rows (players_t (store w')) = (rows (players_t (store w)) ++ [p])%list /\
    Player.TeamID p = CreatePlayerRequest.TeamID req /\
    Player.JerseyNumber p = Some n.
Proof.
  intros Hv Hw Ht Hj Hfree Hfull. unfold CreatePlayer. rewrite Hv.
  erewrite bind_ok by (apply wrapf_ok; apply probe_run; exact Hw).
  rewrite Ht, Hj. cbn [negb].
  erewrite bind_ok.
  2:{ erewrite bind_ok by (apply wrapf_ok; apply probe_run; auto with world).
      cbn [store logged].
      replace (existsb (wears n) _) with false; [reflexivity |].
      symmetry. apply not_true_is_false. intros Hex.
      apply scan_spec in Hex; [| exact Ht].
      destruct Hex as [other [Hin [Hteam Hwears]]].
      apply wears_spec in Hwears. exact (Hfree other Hin Hwears Hteam). }
  eexists. eexists. split.
  - apply wrapf_ok. unfold playerRepository.Create. apply insert_run.
    + auto with world.
    + cbn [store logged]. apply not_true_is_false. intros Hex.
      apply existsb_exists in Hex. destruct Hex as [r [Hin Hsame]].
      unfold playerRepository.same in Hsame.
      cbn [Player.TeamID Player.JerseyNumber] in Hsame.
      apply andb_true_iff in Hsame. destruct Hsame as [Hsame Hjer].
      apply andb_true_iff in Hsame. destruct Hsame as [Hsame _].
      apply andb_true_iff in Hsame. destruct Hsame as [Hsame _].
      apply andb_true_iff in Hsame. destruct Hsame as [Hteam _].
      apply Z.eqb_eq in Hteam.
      destruct (Player.JerseyNumber r) as [j |] eqn:Ej; [| discriminate Hjer].
      apply Z.eqb_eq in Hjer. subst j.
      exact (Hfree r Hin Ej (eq_sym Hteam)).
    + exact Hfull.
  - cbn [store stored logged ticked rows players_t set_players
         playerRepository.inserted Player.TeamID Player.JerseyNumber].
    repeat split; reflexivity.
Qed.

Lemma player_GetByID_run (id : Z) (w : World) (player : Player.t) :
  healthy w -> selected_player id (store w) = Some player ->
  playerRepository.GetByID id w = (Ok player, logged (SELECT [players; teams]) w).
Proof.
  intros Hw Hsel. unfold playerRepository.GetByID. rewrite sent by exact Hw.
  unfold bind, get_store. cbn [store logged].
  unfold selected_player in Hsel. rewrite Hsel. reflexivity.
Qed.

Lemma selected_player_found (id : Z) (db : DB) (player : Player.t) :
  selected_player id db = Some player ->
  In player (rows (players_t db)) /\ Player.ID player = id /\
  sql_exists Team.ID (Player.TeamID player) (teams_t db) = true.
Proof.
  intros H. apply find_some in H. destruct H as [Hin Hb].
  apply andb_true_iff in Hb. destruct Hb as [Hid Hj].
  apply Z.eqb_eq in Hid. auto.
Qed.

Lemma UpdatePlayer_taken (id : Z) (req : UpdatePlayerRequest.t) (w : World)
    (player other : Player.t) (n : Z) :
  0 < id -> validateUpdatePlayerRequest req = None -> healthy w ->
  selected_player id (store w) = Some player ->
  UpdatePlayerRequest.JerseyNumber req = Some n ->
  In other (rows (players_t (store w))) ->
  Player.TeamID other = Player.TeamID player ->
  Player.ID other <> id ->
  Player.JerseyNumber other = Some n ->
  UpdatePlayer id req w
  = (Err ("jersey number " ++ itoa n ++ " is already taken by another player on this team"),
     logged (SELECT [players; teams]) (logged (SELECT [players; teams]) w)).
Proof.
  intros Hid Hv Hw Hsel Hj Hin Hteam Hother Hn.
  destruct (selected_player_found _ _ _ Hsel) as [_ [_ Ht]].
  unfold UpdatePlayer.
  replace (id <=? 0) with false by (symmetry; apply Z.leb_gt; exact Hid).
  rewrite Hv.
  erewrite bind_ok by (apply wrapf_ok; apply player_GetByID_run; eassumption).
  rewrite Hj. apply bind_err.
  erewrite bind_ok by (apply wrapf_ok; apply probe_run; auto with world).
  cbn [store logged].
  replace (existsb _ _) with true; [reflexivity |].
  symmetry. apply scan_spec; [exact Ht |].
  exists other. split; [exact Hin | split; [exact Hteam |]].
  apply andb_true_iff. split.
  - apply negb_true_iff. apply Z.eqb_neq. exact Hother.
  - apply wears_spec. exact Hn.
Qed.

Lemma UpdatePlayer_free (id : Z) (req : UpdatePlayerRequest.t) (w : World)
    (player : Player.t) (n : Z) :
  0 < id -> validateUpdatePlayerRequest req = None -> healthy w ->
  selected_player id (store w) = Some player ->
  UpdatePlayerRequest.JerseyNumber req = Some n ->
  (forall other, In other (rows (players_t (store w))) ->
                 Player.TeamID other = Player.TeamID player ->
                 Player.JerseyNumber other = Some n ->
                 Player.ID other = id) ->
  exists p w',
    UpdatePlayer id req w = (Ok p, w') /\
    Player.ID p = id /\ Player.JerseyNumber p = Some n.
Proof.
  intros Hid Hv Hw Hsel Hj Hfree.
  destruct (selected_player_found _ _ _ Hsel) as [Hin [Hkey Ht]].
  unfold UpdatePlayer.
  replace (id <=? 0) with false by (symmetry; apply Z.leb_gt; exact Hid).
  rewrite Hv.
  erewrite bind_ok by (apply wrapf_ok; apply player_GetByID_run; eassumption).
  rewrite Hj.
  erewrite bind_ok.
  2:{ erewrite bind_ok by (apply wrapf_ok; apply probe_run; auto with world).
      cbn [store logged].
      replace (existsb _ _) with false; [reflexivity |].
      symmetry. apply not_true_is_false. intros Hex.
      apply scan_spec in Hex; [| exact Ht].
      destruct Hex as [other [Hin' [Hteam Hb]]].
      apply andb_true_iff in Hb. destruct Hb as [Hne Hwears].
      apply negb_true_iff, Z.eqb_neq in Hne. apply wears_spec in Hwears.
      exact (Hne (Hfree other Hin' Hteam Hwears)). }
  eexists. eexists. split.
  - apply wrapf_ok. unfold playerRepository.Update.
    eapply (update_run _ _ _ _ _ _ _ _ _
              (fun t => playerRepository.updated _ t)
              (fun t => playerRepository.updated _ t _) _ player).
    + auto with world.
    + exact Hin.
    + reflexivity.
    + intros x y Hx Hy Hxid Hyid. cbn [store logged] in *.
      apply not_true_is_false. intros Hsame.
      unfold playerRepository.same in Hsame.
      cbn [playerRepository.updated Player.TeamID Player.JerseyNumber patch] in Hsame.
      apply andb_true_iff in Hsame. destruct Hsame as [Hsame Hjer].
      apply andb_true_iff in Hsame. destruct Hsame as [Hsame _].
      apply andb_true_iff in Hsame. destruct Hsame as [Hsame _].
      apply andb_true_iff in Hsame. destruct Hsame as [Hteam _].
      apply Z.eqb_eq in Hteam.
      destruct (Player.JerseyNumber y) as [j |] eqn:Ej; [| discriminate Hjer].
      apply Z.eqb_eq in Hjer. subst j.
      apply Hyid. cbn [Player.ID]. rewrite Hkey.
      exact (Hfree y Hy (eq_sym Hteam) Ej).
  - cbn [playerRepository.updated Player.ID Player.JerseyNumber patch].
    split; [exact Hkey | reflexivity].
Qed.
End Jersey.

(** C7.  A valid Player create for an existing team that carries a jersey
    number is rejected with "jersey number <n> is already taken by another
    player on this team" when some player of that team wears the number, and
    is accepted, appending the new row, when every player wearing the number
    belongs to another team.  A valid Player update that sets a jersey number
    is rejected with the same message exactly when a player of the updated
    player's current team, other than the updated player, wears the number;
    the updated player wearing it already does not count. *)
Theorem jersey_numbers_are_unique_within_a_team {L : GoLib} :
  (forall (req : CreatePlayerRequest.t) (w : World) (n : Z),
      playerService.validateCreatePlayerRequest req = None ->
      healthy w ->
      sql_exists Team.ID (CreatePlayerRequest.TeamID req) (teams_t (store w)) = true ->
      CreatePlayerRequest.JerseyNumber req = Some n ->
      ((exists other,
           In other (rows (players_t (store w))) /\
           Player.TeamID other = CreatePlayerRequest.TeamID req /\
           Player.JerseyNumber other = Some n) ->
       playerService.CreatePlayer req w
       = (Err ("jersey number " ++ itoa n ++
               " is already taken by another player on this team"),
          logged (SELECT [players; teams]) (logged (SELECT [teams]) w))) /\
      ((forall other,
           In other (rows (players_t (store w))) ->
           Player.JerseyNumber other = Some n ->
           Player.TeamID other <> CreatePlayerRequest.TeamID req) ->
       max_rowid Player.ID (players_t (store w)) < max_int ->
       exists p w',
         playerService.CreatePlayer req w = (Ok p, w') /\
         rows (players_t (store w')) = (rows (players_t (store w)) ++ [p])%list /\
         Player.TeamID p = CreatePlayerRequest.TeamID req /\
         Player.JerseyNumber p = Some n)) /\
  (forall (id : Z) (req : UpdatePlayerRequest.t) (w : World) (player : Player.t) (n : Z),
      0 < id ->
      playerService.validateUpdatePlayerRequest req = None ->
      healthy w ->
      selected_player id (store w) = Some player ->
      UpdatePlayerRequest.JerseyNumber req = Some n ->
      ((exists other,
           In other (rows (players_t (store w))) /\
           Player.TeamID other = Player.TeamID player /\
           Player.ID other <> id /\
           Player.JerseyNumber other = Some n) ->
       playerService.UpdatePlayer id req w
       = (Err ("jersey number " ++ itoa n ++
               " is already taken by another player on this team"),
          logged (SELECT [players; teams]) (logged (SELECT [players; teams]) w))) /\
      ((forall other,
           In other (rows (players_t (store w))) ->
           Player.TeamID other = Player.TeamID player ->
           Player.JerseyNumber other = Some n ->
           Player.ID other = id) ->
       exists p w',
         playerService.UpdatePlayer id req w = (Ok p, w') /\
         Player.ID p = id /\
         Player.JerseyNumber p = Some n)).
Proof.
  split.
  - intros req w n Hv Hw Ht Hj. split.
    + intros [other [Hin [Hteam Hn]]].
      eapply CreatePlayer_taken; eassumption.
    + intros Hfree Hroom. apply CreatePlayer_free; assumption.
  - intros id req w player n Hid Hv Hw Hsel Hj. split.
    + intros [other [Hin [Hteam [Hother Hn]]]].
      eapply UpdatePlayer_taken; eassumption.
    + intros Hfree. eapply UpdatePlayer_free; eassumption.
Qed.

(** In the sample league, where player 1 of team 1 wears 15: a second
    player of team 1 wearing 15 is refused, a player of team 2 wearing 15 is
    created, and an update of player 1 that sets the number 15 again is
    accepted. *)
Lemma jersey_numbers_are_unique_within_a_team_witness :
  playerService.CreatePlayer (L := Sample.lib) Sample.mahomes Sample.league
  = (Err "jersey number 15 is already taken by another player on this team",
     logged (SELECT [players; teams]) (logged (SELECT [teams]) Sample.league)) /\
  (exists p w',
      playerService.CreatePlayer (L := Sample.lib)
        (CreatePlayerRequest.mk 2 "Patrick" "Mahomes" "QB" (Some 15) (Some 74) (Some 225))
        Sample.league = (Ok p, w') /\
      rows (players_t (store w'))
      = (rows (players_t (store Sample.league)) ++ [p])%list /\
      Player.TeamID p = 2 /\
      Player.JerseyNumber p = Some 15) /\
  (exists p w',
      playerService.UpdatePlayer (L := Sample.lib) 1
        (UpdatePlayerRequest.onlyJersey 15) Sample.league = (Ok p, w') /\
      Player.ID p = 1 /\
      Player.JerseyNumber p = Some 15).
Proof.
  destruct (jersey_numbers_are_unique_within_a_team (L := Sample.lib)) as [Hc Hu].
  split; [| split].
  - apply (Hc Sample.mahomes Sample.league 15); try reflexivity.
    + intros k. reflexivity.
    + eexists. split; [left; reflexivity | split; reflexivity].
  - apply (Hc (CreatePlayerRequest.mk 2 "Patrick" "Mahomes" "QB" (Some 15) (Some 74) (Some 225))
              Sample.league 15); try reflexivity.
    + intros k. reflexivity.
    + intros other [<- | []] _. discriminate.
  - eapply (Hu 1 (UpdatePlayerRequest.onlyJersey 15) Sample.league _ 15).
    + reflexivity.
    + reflexivity.
    + intros k. reflexivity.
    + reflexivity.
    + reflexivity.
    + intros other [<- | []] _ _. reflexivity.
Defined.

(* ================================================================== *)
(** * Strings and path parameters *)
(* ================================================================== *)

Section Strings.

Lemma prefix_app (t b : string) : String.prefix t (t ++ b) = true.
Proof.
  induction t as [| c t IH]; simpl.
  - destruct b; reflexivity.
  - destruct (ascii_dec c c) as [_ | Hne]; [exact IH | contradiction].
Qed.

Lemma prefix_inv (t s : string) :
  String.prefix t s = true -> exists b, s = t ++ b.
Proof.
  revert s. induction t as [| c t IH]; intros s H.
  - exists s. reflexivity.
  - destruct s as [| d s]; simpl in H; [discriminate |].
    destruct (ascii_dec c d) as [-> | _]; [| discriminate].
    destruct (IH s H) as [b ->]. exists b. reflexivity.
Qed.

(** [strings.Contains] finds exactly the occurrences of the substring. *)
Lemma Contains_occurs (s t : string) :
  Contains s t = true <-> exists a b, s = a ++ t ++ b.
Proof.
  split.
  - induction s as [| c s IH]; cbn [Contains]; intros H.
    + rewrite orb_false_r in H. destruct t; [| discriminate H].
      exists "", "". reflexivity.
    + apply orb_true_iff in H. destruct H as [H | H].
      * destruct (prefix_inv _ _ H) as [b Hb]. exists "", b. exact Hb.
      * destruct (IH H) as [a [b ->]]. exists (String c a), b. reflexivity.
  - intros [a [b ->]]. induction a as [| c a IH].
    + cbn [append]. destruct (t ++ b) eqn:E; cbn [Contains];
        rewrite <- E, prefix_app; reflexivity.
    + cbn [append Contains]. rewrite IH. apply orb_true_r.
Qed.

Lemma Contains_prefix (t b : string) : Contains (t ++ b) t = true.
Proof. apply Contains_occurs. exists "", b. reflexivity. Qed.

Lemma Contains_suffix (a t : string) : Contains (a ++ t) t = true.
Proof.
  apply Contains_occurs. exists a, "".
  replace (t ++ "") with t; [reflexivity |].
  induction t as [| c t IH]; simpl; [| rewrite <- IH]; reflexivity.
Qed.

Lemma Contains_inside (a t b : string) : Contains (a ++ t ++ b) t = true.
Proof. apply Contains_occurs. exists a, b. reflexivity. Qed.

Lemma append_assoc (a b c : string) : (a ++ b) ++ c = a ++ b ++ c.
Proof. induction a as [| x a IH]; simpl; [| rewrite IH]; reflexivity. Qed.

Lemma chars_app (a b : string) :
  list_ascii_of_string (a ++ b) = (list_ascii_of_string a ++ list_ascii_of_string b)%list.
Proof. induction a as [| c a IH]; simpl; [| rewrite IH]; reflexivity. Qed.

(** A string that lacks one character of [t] does not contain [t]. *)
Lemma Contains_lacking (s t : string) (c : ascii) :
  In c (list_ascii_of_string t) -> ~ In c (list_ascii_of_string s) ->
  Contains s t = false.
Proof.
  intros Ht Hs. apply not_true_is_false. intros H.
  apply Contains_occurs in H. destruct H as [a [b ->]].
  apply Hs. rewrite !chars_app. apply in_or_app. right.
  apply in_or_app. left. exact Ht.
Qed.

Lemma uint_digits (d : Decimal.uint) (c : ascii) :
  In c (list_ascii_of_string (NilEmpty.string_of_uint d)) ->
  In c (list_ascii_of_string "0123456789").
Proof.
  induction d as [| d IH | d IH | d IH | d IH | d IH | d IH | d IH | d IH | d IH | d IH];
    simpl; intros H.
  1: contradiction.
  all: destruct H as [<- | H]; [simpl; tauto | exact (IH H)].
Qed.

Lemma nat_digits (d : Decimal.uint) (c : ascii) :
  In c (list_ascii_of_string (NilZero.string_of_uint d)) ->
  In c (list_ascii_of_string "0123456789").
Proof.
  destruct d; try apply uint_digits.
  simpl. intros [<- | []]. tauto.
Qed.

(** [%d] prints digits and at most a sign. *)
Lemma itoa_chars (z : Z) (c : ascii) :
  In c (list_ascii_of_string (itoa z)) ->
  In c (list_ascii_of_string "-0123456789").
Proof.
  unfold itoa. destruct (Z.to_int z) as [d | d]; simpl; intros H.
  - right. apply nat_digits in H. exact H.
  - destruct H as [<- | H]; [left; reflexivity |].
    right. apply nat_digits in H. exact H.
Qed.

(** A fixed text followed by a number printed with [%d] does not contain
    [t] when [t] has a character that is neither in the text nor a digit or
    a sign. *)
Lemma number_lacks (p t : string) (c : ascii) (z : Z) :
  existsb (Ascii.eqb c) (list_ascii_of_string t) = true ->
  existsb (Ascii.eqb c) (list_ascii_of_string (p ++ "-0123456789")) = false ->
  Contains (p ++ itoa z) t = false.
Proof.
  intros Ht Hp. apply Contains_lacking with (c := c).
  - apply existsb_exists in Ht. destruct Ht as [x [Hx Hc]].
    apply Ascii.eqb_eq in Hc. subst x. exact Hx.
  - intros H.
    assert (existsb (Ascii.eqb c) (list_ascii_of_string (p ++ "-0123456789")) = true) as Hq;
      [| congruence].
    apply existsb_exists. exists c. split; [| apply Ascii.eqb_refl].
    rewrite chars_app in *. apply in_or_app. apply in_app_or in H.
    destruct H as [H | H]; [left; exact H | right; exact (itoa_chars z c H)].
Qed.
End Strings.

(* ================================================================== *)
(** * Runs of the repository reads on a healthy store *)
(* ================================================================== *)

Section ReadRuns.
Context {L : GoLib}.

Lemma team_GetByID_run (id : Z) (w : World) :
  healthy w ->
  teamRepository.GetByID id w
  = (match sql_find Team.ID id (teams_t (store w)) with
     | Some team => Ok team
     | None => Err ("team with ID " ++ itoa id ++ " not found")
     end, logged (SELECT [teams]) w).
Proof.
  intros Hw. unfold teamRepository.GetByID. rewrite sent by exact Hw.
  unfold bind, get_store. cbn [store logged].
  destruct (sql_find Team.ID id (teams_t (store w))); reflexivity.
Qed.

Lemma player_GetByID_value (id : Z) (w : World) :
  healthy w ->
  playerRepository.GetByID id w
  = (match selected_player id (store w) with
     | Some player => Ok player
     | None => Err ("player with ID " ++ itoa id ++ " not found")
     end, logged (SELECT [players; teams]) w).
Proof.
  intros Hw. unfold playerRepository.GetByID. rewrite sent by exact Hw.
  unfold bind, get_store, selected_player. cbn [store logged].
  destruct (find _ _); reflexivity.
Qed.

Lemma game_GetByID_run (id : Z) (w : World) :
  healthy w ->
  gameRepository.GetByID id w
  = (match selected_game id (store w) with
     | Some game => Ok game
     | None => Err ("game with ID " ++ itoa id ++ " not found")
     end, logged (SELECT [games; teams]) w).
Proof.
  intros Hw. unfold gameRepository.GetByID. rewrite sent by exact Hw.
  unfold bind, get_store, selected_game. cbn [store logged].
  destruct (find _ _); reflexivity.
Qed.

Lemma team_Exists_run (id : Z) (w : World) :
  healthy w ->
  teamRepository.Exists id w
  = (Ok (sql_exists Team.ID id (teams_t (store w))), logged (SELECT [teams]) w).
Proof. intros Hw. apply (probe_run _ _ (fun db => sql_exists Team.ID id (teams_t db))). exact Hw. Qed.

Lemma player_Exists_run (id : Z) (w : World) :
  healthy w ->
  playerRepository.Exists id w
  = (Ok (sql_exists Player.ID id (players_t (store w))), logged (SELECT [players]) w).
Proof. intros Hw. apply (probe_run _ _ (fun db => sql_exists Player.ID id (players_t db))). exact Hw. Qed.

Lemma game_Exists_run (id : Z) (w : World) :
  healthy w ->
  gameRepository.Exists id w
  = (Ok (sql_exists Game.ID id (games_t (store w))), logged (SELECT [games]) w).
Proof. intros Hw. apply (probe_run _ _ (fun db => sql_exists Game.ID id (games_t db))). exact Hw. Qed.

Lemma stats_Exists_run (id : Z) (w : World) :
  healthy w ->
  playerStatsRepository.Exists id w
  = (Ok (sql_exists PlayerStats.ID id (player_stats_t (store w))),
     logged (SELECT [player_stats]) w).
Proof.
  intros Hw.
  apply (probe_run _ _ (fun db => sql_exists PlayerStats.ID id (player_stats_t db))).
  exact Hw.
Qed.

(** A DELETE that hits a row, on a healthy store. *)
Lemma delete_run {A} (p msg : string) (s : Stmt) (get : DB -> table A)
    (set : table A -> DB -> DB) (key : A -> Z) (id : Z) (w : World) :
  healthy w ->
  sql_exists key id (get (store w)) = true ->
  (n <- wrapf p (send s ;; on_table get set (fun t => Ok (sql_delete key id t))) ;;
   if n =? 0 then fail msg else ret tt) w
  = (Ok tt,
     stored (set (mkTable (filter (fun r => negb (key r =? id)) (rows (get (store w))))
                          (seq (get (store w)))) (store w))
            (logged s w)).
Proof.
  intros Hw E. unfold bind at 1. rewrite written by exact Hw.
  unfold sql_delete. cbn [fst snd].
  apply existsb_exists in E. destruct E as [r [Hin Hr]].
  rewrite (filter_hit _ _ r Hin Hr). reflexivity.
Qed.
End ReadRuns.

(* ================================================================== *)
(** * What an accepted request did to the store *)
(* ================================================================== *)

Section Effects.
Context {L : GoLib}.

Lemma filter_none {A} (f : A -> bool) (l : list A) :
  existsb f l = false -> filter f l = [].
Proof.
  induction l as [| x l IH]; simpl; intros H; [reflexivity |].
  apply orb_false_iff in H. destruct H as [-> H]. exact (IH H).
Qed.

Lemma lookup_inv {A} (p msg : string) (s : Stmt) (g : DB -> option A) (w w' : World) (x : A) :
  (wrapf p (send s) ;; db <- get_store ;;
   match g db with Some x => ret x | None => fail msg end) w = (Ok x, w') ->
  g (store w) = Some x /\ w' = logged s w.
Proof.
  unfold bind, wrapf, send, get_store.
  destruct (fault (oracle w) (List.length (trace w))); [discriminate |].
  cbn [store logged]. destruct (g (store w)); unfold ret, fail; intros H; inversion H.
  split; reflexivity.
Qed.

Lemma update_inv {A R} (p cols msg : string) (s : Stmt) (get : DB -> table A)
    (set : table A -> DB -> DB) (key : A -> Z) (same : A -> A -> bool) (id : Z)
    (upd : Time -> A -> A) (k : Time -> R) (w w' : World) (r : R) :
  (currentTime <- time_Now ;;
   n <- wrapf p (send s ;;
                 on_table get set (sql_update key same cols id (upd currentTime))) ;;
   if n =? 0 then fail msg else ret (k currentTime)) w = (Ok r, w') ->
  let now := wall (oracle w) (ticks w) in
  r = k now /\
  sql_exists key id (get (store w)) = true /\
  w' = stored (set (mkTable (map (fun x => if key x =? id then upd now x else x)
                                 (rows (get (store w))))
                            (seq (get (store w))))
                   (store w))
              (logged s (ticked w)).
Proof.
  unfold bind, wrapf, send, on_table, time_Now, sql_update.
  cbn [store trace ticks oracle ticked logged].
  destruct (fault (oracle w) (List.length (trace w))); [discriminate |].
  destruct (existsb _ (rows (get (store w)))); [discriminate |].
  destruct (Z.of_nat (List.length (filter _ _)) =? 0) eqn:E;
    unfold fail, ret; intros H; inversion H.
  cbv zeta. repeat split.
  unfold sql_exists. destruct (existsb _ _) eqn:Ex; [reflexivity |].
  rewrite (filter_none _ _ Ex) in E. discriminate E.
Qed.

Lemma delete_inv {A} (p msg : string) (s : Stmt) (get : DB -> table A)
    (set : table A -> DB -> DB) (key : A -> Z) (id : Z) (w w' : World) :
  (n <- wrapf p (send s ;; on_table get set (fun t => Ok (sql_delete key id t))) ;;
   if n =? 0 then fail msg else ret tt) w = (Ok tt, w') ->
  w' = stored (set (mkTable (filter (fun r => negb (key r =? id)) (rows (get (store w))))
                            (seq (get (store w)))) (store w))
              (logged s w).
Proof.
  unfold bind, wrapf, send, on_table, sql_delete.
  cbn [store trace ticks oracle logged].
  destruct (fault (oracle w) (List.length (trace w))); [discriminate |].
  destruct (_ =? 0); unfold fail, ret; intros H; inversion H. reflexivity.
Qed.

(** ** Teams *)

Lemma CreateTeam_effect (req : CreateTeamRequest.t) (w w' : World) (team : Team.t) :
  teamService.CreateTeam req w = (Ok team, w') ->
  let now := wall (oracle w) (ticks w) in
  let id := max_rowid Team.ID (teams_t (store w)) + 1 in
  teamService.validateCreateTeamRequest req = None /\
  team = Team.mk id (TrimSpace (CreateTeamRequest.Name req))
                 (TrimSpace (CreateTeamRequest.City req))
                 (TrimSpace (CreateTeamRequest.Conference req))
                 (TrimSpace (CreateTeamRequest.Division req)) now now /\
  existsb (teamRepository.same team) (rows (teams_t (store w))) = false /\
  w' = stored (set_teams (mkTable (rows (teams_t (store w)) ++ [team])%list id) (store w))
              (logged (INSERT teams) (ticked w)).
Proof.
  unfold teamService.CreateTeam. intros H.
  destruct (teamService.validateCreateTeamRequest req); [discriminate H |].
  apply wrapf_inv_ok, insert_inv in H. cbv zeta in H.
  destruct H as [Hc [Ht Hw']]. cbv zeta. split; [reflexivity |].
  split; [exact Ht |]. split; [rewrite Ht; exact Hc | exact Hw'].
Qed.

Lemma UpdateTeam_effect (id : Z) (req : UpdateTeamRequest.t) (w w' : World) (team : Team.t) :
  teamService.UpdateTeam id req w = (Ok team, w') ->
  exists old,
    0 < id /\
    teamService.validateUpdateTeamRequest req = None /\
    sql_find Team.ID id (teams_t (store w)) = Some old /\
    team = Team.mk (Team.ID old)
             (patch_val (Team.Name old) (option_map TrimSpace (UpdateTeamRequest.Name req)))
             (patch_val (Team.City old) (option_map TrimSpace (UpdateTeamRequest.City req)))
             (patch_val (Team.Conference old)
                        (option_map TrimSpace (UpdateTeamRequest.Conference req)))
             (patch_val (Team.Division old)
                        (option_map TrimSpace (UpdateTeamRequest.Division req)))
             (Team.CreatedAt old) (wall (oracle w) (ticks w)) /\
    w' = stored (set_teams
                   (mkTable (map (fun r => if Team.ID r =? Team.ID old
                                           then teamRepository.updated team
                                                  (wall (oracle w) (ticks w)) r
                                           else r)
                                 (rows (teams_t (store w))))
                            (seq (teams_t (store w))))
                   (store w))
                (logged (UPDATE teams) (ticked (logged (SELECT [teams]) w))).
Proof.
  unfold teamService.UpdateTeam. intros H.
  destruct (id <=? 0) eqn:Eid; [discriminate H |]. apply Z.leb_gt in Eid.
  destruct (teamService.validateUpdateTeamRequest req); [discriminate H |].
  apply bind_inv_ok in H. destruct H as [old [w1 [H1 H]]].
  apply wrapf_inv_ok in H1.
  apply (lookup_inv _ _ _ (fun db => sql_find Team.ID id (teams_t db))) in H1.
  destruct H1 as [Hold ->].
  apply wrapf_inv_ok in H. unfold teamRepository.Update in H.
  apply update_inv in H. cbv zeta in H. cbn [store logged ticks oracle Team.ID] in H.
  destruct H as [Ht [_ Hw']].
  exists old. repeat split; try assumption.
  subst w'. cbn [store logged]. rewrite Ht. reflexivity.
Qed.

Lemma DeleteTeam_effect (id : Z) (w w' : World) :
  teamService.DeleteTeam id w = (Ok tt, w') ->
  0 < id /\
  sql_exists Team.ID id (teams_t (store w)) = true /\
  w' = stored (set_teams
                 (mkTable (filter (fun r => negb (Team.ID r =? id)) (rows (teams_t (store w))))
                          (seq (teams_t (store w))))
                 (store w))
              (logged (DELETE teams) (logged (SELECT [teams]) w)).
Proof.
  unfold teamService.DeleteTeam. intros H.
  destruct (id <=? 0) eqn:Eid; [discriminate H |]. apply Z.leb_gt in Eid.
  apply bind_inv_ok in H. destruct H as [b [w1 [H1 H]]].
  apply wrapf_inv_ok, probe_inv in H1. destruct H1 as [-> ->].
  destruct (sql_exists Team.ID id (teams_t (store w))) eqn:E; cbn [negb] in H;
    [| discriminate H].
  apply wrapf_inv_ok in H. unfold teamRepository.Delete in H.
  apply delete_inv in H. auto.
Qed.
End Effects.

(* ================================================================== *)
(** * The field rules of players *)
(* ================================================================== *)

Section PlayerRules.
Context {L : GoLib}.
Import playerService.

Lemma out_of_range_spec (p : option Z) (lo hi : Z) :
  out_of_range p lo hi = false <-> within lo hi p.
Proof.
  unfold out_of_range, within. destruct p as [v |]; [| tauto].
  rewrite orb_false_iff, Z.ltb_ge, Z.gtb_ltb, Z.ltb_ge. tauto.
Qed.

Lemma blank_spec (s : string) : blank s = false <-> TrimSpace s <> "".
Proof. unfold blank. apply String.eqb_neq. Qed.

Lemma ptr_blank_spec (p : option string) :
  ptr_blank p = false <-> forall s, p = Some s -> TrimSpace s <> "".
Proof.
  unfold ptr_blank. destruct p as [s |].
  - rewrite blank_spec. split; [intros H s' E; inversion E; subst; exact H | auto].
  - split; [discriminate | reflexivity].
Qed.

Lemma validateCreatePlayerRequest_spec (req : CreatePlayerRequest.t) :
  validateCreatePlayerRequest req = None <->
  0 < CreatePlayerRequest.TeamID req /\
  TrimSpace (CreatePlayerRequest.FirstName req) <> "" /\
  TrimSpace (CreatePlayerRequest.LastName req) <> "" /\
  TrimSpace (CreatePlayerRequest.Position req) <> "" /\
  within 0 99 (CreatePlayerRequest.JerseyNumber req) /\
  within 60 90 (CreatePlayerRequest.Height req) /\
  within 150 400 (CreatePlayerRequest.Weight req).
Proof.
  unfold validateCreatePlayerRequest.
  rewrite <- !blank_spec, <- !out_of_range_spec, <- Z.leb_gt.
  destruct (CreatePlayerRequest.TeamID req <=? 0);
    [split; [discriminate | intros [H _]; discriminate H] |].
  destruct (blank (CreatePlayerRequest.FirstName req));
    [split; [discriminate | intros [_ [H _]]; discriminate H] |].
  destruct (blank (CreatePlayerRequest.LastName req));
    [split; [discriminate | intros [_ [_ [H _]]]; discriminate H] |].
  destruct (blank (CreatePlayerRequest.Position req));
    [split; [discriminate | intros [_ [_ [_ [H _]]]]; discriminate H] |].
  destruct (out_of_range (CreatePlayerRequest.JerseyNumber req) 0 99);
    [split; [discriminate | intros [_ [_ [_ [_ [H _]]]]]; discriminate H] |].
  destruct (out_of_range (CreatePlayerRequest.Height req) 60 90);
    [split; [discriminate | intros [_ [_ [_ [_ [_ [H _]]]]]]; discriminate H] |].
  destruct (out_of_range (CreatePlayerRequest.Weight req) 150 400);
    [split; [discriminate | intros [_ [_ [_ [_ [_ [_ H]]]]]]; discriminate H] |].
  tauto.
Qed.

Lemma validateUpdatePlayerRequest_spec (req : UpdatePlayerRequest.t) :
  validateUpdatePlayerRequest req = None <->
  req <> UpdatePlayerRequest.empty /\
  (forall s, UpdatePlayerRequest.FirstName req = Some s -> TrimSpace s <> "") /\
  (forall s, UpdatePlayerRequest.LastName req = Some s -> TrimSpace s <> "") /\
  (forall s, UpdatePlayerRequest.Position req = Some s -> TrimSpace s <> "") /\
  within 0 99 (UpdatePlayerRequest.JerseyNumber req) /\
  within 60 90 (UpdatePlayerRequest.Height req) /\
  within 150 400 (UpdatePlayerRequest.Weight req).
Proof.
  unfold validateUpdatePlayerRequest.
  rewrite <- !ptr_blank_spec, <- !out_of_range_spec.
  destruct (isNil (UpdatePlayerRequest.FirstName req) && _ && _ && _ && _ && _) eqn:Enil.
  - split; [discriminate |]. intros [Hne _]. exfalso. apply Hne.
    destruct req as [[|] [|] [|] [|] [|] [|]]; try discriminate Enil. reflexivity.
  - assert (req <> UpdatePlayerRequest.empty) as Hne
      by (intros ->; discriminate Enil).
    destruct (ptr_blank (UpdatePlayerRequest.FirstName req));
      [split; [discriminate | intros [_ [H _]]; discriminate H] |].
    destruct (ptr_blank (UpdatePlayerRequest.LastName req));
      [split; [discriminate | intros [_ [_ [H _]]]; discriminate H] |].
    destruct (ptr_blank (UpdatePlayerRequest.Position req));
      [split; [discriminate | intros [_ [_ [_ [H _]]]]; discriminate H] |].
    destruct (out_of_range (UpdatePlayerRequest.JerseyNumber req) 0 99);
      [split; [discriminate | intros [_ [_ [_ [_ [H _]]]]]; discriminate H] |].
    destruct (out_of_range (UpdatePlayerRequest.Height req) 60 90);
      [split; [discriminate | intros [_ [_ [_ [_ [_ [H _]]]]]]; discriminate H] |].
    destruct (out_of_range (UpdatePlayerRequest.Weight req) 150 400);
      [split; [discriminate | intros [_ [_ [_ [_ [_ [_ H]]]]]]; discriminate H] |].
    tauto.
Qed.

(** ** What an accepted player request did *)

(** The roster scan of a create or update found nobody. *)
Lemma scan_inv {B} (p : string) (teamID : Z) (f : Player.t -> bool) (msg : string)
    (k : M B) (w w' : World) (b : B) :
  ((players <- wrapf p (playerRepository.GetByTeamID teamID) ;;
    if existsb f players then fail msg else ret tt) ;; k) w = (Ok b, w') ->
  existsb f (playerRepository.order_by
               (filter (fun q => (Player.TeamID q =? teamID) &&
                                 playerRepository.joined (store w) q)
                       (rows (players_t (store w))))) = false /\
  k (logged (SELECT [players; teams]) w) = (Ok b, w').
Proof.
  intros H. apply bind_inv_ok in H. destruct H as [[] [w1 [H1 H]]].
  apply bind_inv_ok in H1. destruct H1 as [players [w2 [H2 H1]]].
  apply wrapf_inv_ok in H2. unfold playerRepository.GetByTeamID in H2.
  apply (probe_inv _ _ (fun db => playerRepository.order_by
           (filter (fun q => (Player.TeamID q =? teamID) && playerRepository.joined db q)
                   (rows (players_t db))))) in H2.
  destruct H2 as [-> ->].
  destruct (existsb f _) eqn:E; unfold fail, ret in H1; inversion H1; subst w1.
  split; [reflexivity | exact H].
Qed.

Lemma CreatePlayer_effect (req : CreatePlayerRequest.t) (w w' : World) (player : Player.t) :
  CreatePlayer req w = (Ok player, w') ->
  let now := wall (oracle w) (ticks w) in
  let id := max_rowid Player.ID (players_t (store w)) + 1 in
  validateCreatePlayerRequest req = None /\
  sql_exists Team.ID (CreatePlayerRequest.TeamID req) (teams_t (store w)) = true /\
  (forall n other,
      CreatePlayerRequest.JerseyNumber req = Some n ->
      In other (rows (players_t (store w))) ->
      Player.TeamID other = CreatePlayerRequest.TeamID req ->
      Player.JerseyNumber other <> Some n) /\
  player = Player.mk id (CreatePlayerRequest.TeamID req)
             (TrimSpace (CreatePlayerRequest.FirstName req))
             (TrimSpace (CreatePlayerRequest.LastName req))
             (TrimSpace (CreatePlayerRequest.Position req))
             (CreatePlayerRequest.JerseyNumber req) (CreatePlayerRequest.Height req)
             (CreatePlayerRequest.Weight req) now now /\
  store w' = set_players (mkTable (rows (players_t (store w)) ++ [player])%list id) (store w) /\
  oracle w' = oracle w.
Proof.
  unfold CreatePlayer. intros H.
  destruct (validateCreatePlayerRequest req); [discriminate H |].
  apply bind_inv_ok in H. destruct H as [b [w1 [H1 H]]].
  apply wrapf_inv_ok, probe_inv in H1. destruct H1 as [-> ->].
  destruct (sql_exists Team.ID _ _) eqn:Et; cbn [negb] in H; [| discriminate H].
  cbv zeta. split; [reflexivity |]. split; [reflexivity |].
  destruct (CreatePlayerRequest.JerseyNumber req) as [n |] eqn:Ej.
  - apply scan_inv in H. destruct H as [Hscan H]. cbn [store logged] in Hscan.
    apply wrapf_inv_ok, insert_inv in H. cbv zeta in H.
    cbn [store logged ticks oracle] in H. destruct H as [_ [Hp ->]].
    split; [| split; [exact Hp | split; reflexivity]].
    intros n' other Hn' Hin Hteam Hwears. inversion Hn'; subst n'.
    assert (existsb (wears n) (playerRepository.order_by
              (filter (fun q => (Player.TeamID q =? CreatePlayerRequest.TeamID req) &&
                                playerRepository.joined (store w) q)
                      (rows (players_t (store w))))) = true) as Ht.
    { apply scan_spec; [exact Et |]. exists other.
      split; [exact Hin | split; [exact Hteam | apply wears_spec; exact Hwears]]. }
    congruence.
  - apply bind_inv_ok in H. destruct H as [[] [w1 [H1 H]]].
    inversion H1; subst w1.
    apply wrapf_inv_ok, insert_inv in H. cbv zeta in H.
    cbn [store logged ticks oracle] in H. destruct H as [_ [Hp ->]].
    split; [discriminate |]. split; [exact Hp | split; reflexivity].
Qed.

Lemma UpdatePlayer_effect (id : Z) (req : UpdatePlayerRequest.t) (w w' : World)
    (player : Player.t) :
  UpdatePlayer id req w = (Ok player, w') ->
  exists old,
    let now := wall (oracle w) (ticks w) in
    0 < id /\
    validateUpdatePlayerRequest req = None /\
    selected_player id (store w) = Some old /\
    (forall n other,
        UpdatePlayerRequest.JerseyNumber req = Some n ->
        In other (rows (players_t (store w))) ->
        Player.TeamID other = Player.TeamID old ->
        Player.ID other <> id ->
        Player.JerseyNumber other <> Some n) /\
    player = Player.mk (Player.ID old) (Player.TeamID old)
               (patch_val (Player.FirstName old)
                          (option_map TrimSpace (UpdatePlayerRequest.FirstName req)))
               (patch_val (Player.LastName old)
                          (option_map TrimSpace (UpdatePlayerRequest.LastName req)))
               (patch_val (Player.Position old)
                          (option_map TrimSpace (UpdatePlayerRequest.Position req)))
               (patch (Player.JerseyNumber old) (UpdatePlayerRequest.JerseyNumber req))
               (patch (Player.Height old) (UpdatePlayerRequest.Height req))
               (patch (Player.Weight old) (UpdatePlayerRequest.Weight req))
               (Player.CreatedAt old) now /\
    store w' = set_players
                 (mkTable (map (fun r => if Player.ID r =? Player.ID old
                                         then playerRepository.updated player now r
                                         else r)
                               (rows (players_t (store w))))
                          (seq (players_t (store w))))
                 (store w) /\
    oracle w' = oracle w.
Proof.
  unfold UpdatePlayer. intros H.
  destruct (id <=? 0) eqn:Eid; [discriminate H |]. apply Z.leb_gt in Eid.
  destruct (validateUpdatePlayerRequest req); [discriminate H |].
  apply bind_inv_ok in H. destruct H as [old [w1 [H1 H]]].
  apply wrapf_inv_ok in H1.
  apply (lookup_inv _ _ _ (selected_player id)) in H1.
  destruct H1 as [Hold ->].
  exists old. cbv zeta. split; [exact Eid |]. split; [reflexivity |].
  split; [exact Hold |].
  destruct (selected_player_found _ _ _ Hold) as [_ [_ Ht]].
  destruct (UpdatePlayerRequest.JerseyNumber req) as [n |] eqn:Ej.
  - apply scan_inv in H. destruct H as [Hscan H]. cbn [store logged] in Hscan.
    apply wrapf_inv_ok in H. unfold playerRepository.Update in H.
    apply update_inv in H. cbv zeta in H.
    cbn [store logged ticks oracle Player.ID] in H. destruct H as [Hp [_ ->]].
    split; [| split; [exact Hp | split; [rewrite Hp |]; reflexivity]].
    intros n' other Hn' Hin Hteam Hother Hwears. inversion Hn'; subst n'.
    assert (existsb (fun q => negb (Player.ID q =? id) && wears n q)
              (playerRepository.order_by
                 (filter (fun q => (Player.TeamID q =? Player.TeamID old) &&
                                   playerRepository.joined (store w) q)
                         (rows (players_t (store w))))) = true) as Hfound.
    { apply scan_spec; [exact Ht |]. exists other.
      split; [exact Hin | split; [exact Hteam |]].
      apply andb_true_iff. split.
      - apply negb_true_iff, Z.eqb_neq. exact Hother.
      - apply wears_spec. exact Hwears. }
    congruence.
  - apply bind_inv_ok in H. destruct H as [[] [w1 [H1 H]]].
    inversion H1; subst w1.
    apply wrapf_inv_ok in H. unfold playerRepository.Update in H.
    apply update_inv in H. cbv zeta in H.
    cbn [store logged ticks oracle Player.ID] in H. destruct H as [Hp [_ ->]].
    split; [discriminate |]. split; [exact Hp | split; [rewrite Hp |]; reflexivity].
Qed.

Lemma DeletePlayer_effect (id : Z) (w w' : World) :
  DeletePlayer id w = (Ok tt, w') ->
  0 < id /\
  sql_exists Player.ID id (players_t (store w)) = true /\
  w' = stored (set_players
                 (mkTable (filter (fun r => negb (Player.ID r =? id))
                                  (rows (players_t (store w))))
                          (seq (players_t (store w))))
                 (store w))
              (logged (DELETE players) (logged (SELECT [players]) w)).
Proof.
  unfold DeletePlayer. intros H.
  destruct (id <=? 0) eqn:Eid; [discriminate H |]. apply Z.leb_gt in Eid.
  apply bind_inv_ok in H. destruct H as [b [w1 [H1 H]]].
  apply wrapf_inv_ok, probe_inv in H1. destruct H1 as [-> ->].
  destruct (sql_exists Player.ID id (players_t (store w))) eqn:E; cbn [negb] in H;
    [| discriminate H].
  apply wrapf_inv_ok in H. unfold playerRepository.Delete in H.
  apply delete_inv in H. auto.
Qed.
End PlayerRules.

(* ================================================================== *)
(** * The field rules of games *)
(* ================================================================== *)

Section GameRules.
Context {L : GoLib}.
Import gameService.

Lemma ptr_lt_spec (p : option Z) (lo : Z) : ptr_lt p lo = false <-> at_least lo p.
Proof.
  unfold ptr_lt, at_least. destruct p as [v |]; [apply Z.ltb_ge | tauto].
Qed.

Lemma week_spec (wk : Z) : (wk <? 1) || (wk >? 22) = false <-> 1 <= wk <= 22.
Proof. rewrite orb_false_iff, Z.ltb_ge, Z.gtb_ltb, Z.ltb_ge. tauto. Qed.

(** The window test reads the clock twice: once for each bound. *)
Lemma checkWindow_spec (d : Time) (w w' : World) :
  checkWindow d w = (Ok tt, w') <->
  Before d (AddDate (wall (oracle w) (ticks w)) (-1) 0 0) = false /\
  After d (AddDate (wall (oracle w) (S (ticks w))) 2 0 0) = false /\
  w' = ticked (ticked w).
Proof.
  unfold checkWindow, bind, time_Now, fail, ret.
  cbn [ticked oracle ticks].
  destruct (Before d _).
  - split; [discriminate | intros [H _]; discriminate H].
  - destruct (After d _).
    + split; [discriminate | intros [_ [H _]]; discriminate H].
    + split.
      * intros H. inversion H. auto.
      * intros [_ [_ ->]]. reflexivity.
Qed.

Lemma validateCreateGameRequest_spec (req : CreateGameRequest.t) (w w' : World) :
  validateCreateGameRequest req w = (Ok tt, w') <->
  0 < CreateGameRequest.HomeTeamID req /\
  0 < CreateGameRequest.AwayTeamID req /\
  CreateGameRequest.Season req <> "" /\
  1 <= CreateGameRequest.Week req <= 22 /\
  IsZero (CreateGameRequest.GameDate req) = false /\
  Before (CreateGameRequest.GameDate req)
         (AddDate (wall (oracle w) (ticks w)) (-1) 0 0) = false /\
  After (CreateGameRequest.GameDate req)
        (AddDate (wall (oracle w) (S (ticks w))) 2 0 0) = false /\
  (CreateGameRequest.Status req = "" \/ In (CreateGameRequest.Status req) validStatuses) /\
  at_least 0 (CreateGameRequest.HomeScore req) /\
  at_least 0 (CreateGameRequest.AwayScore req) /\
  w' = ticked (ticked w).
Proof.
  unfold validateCreateGameRequest.
  rewrite <- !ptr_lt_spec, <- week_spec, <- !Z.leb_gt, <- String.eqb_neq.
  destruct (CreateGameRequest.HomeTeamID req <=? 0);
    [split; [discriminate | intros [H _]; discriminate H] |].
  destruct (CreateGameRequest.AwayTeamID req <=? 0);
    [split; [discriminate | intros [_ [H _]]; discriminate H] |].
  destruct (CreateGameRequest.Season req =? "")%string;
    [split; [discriminate | intros [_ [_ [H _]]]; discriminate H] |].
  destruct ((CreateGameRequest.Week req <? 1) || (CreateGameRequest.Week req >? 22));
    [split; [discriminate | intros [_ [_ [_ [H _]]]]; discriminate H] |].
  destruct (IsZero (CreateGameRequest.GameDate req));
    [split; [discriminate | intros [_ [_ [_ [_ [H _]]]]]; discriminate H] |].
  unfold bind.
  destruct (checkWindow (CreateGameRequest.GameDate req) w) as [[[] | e] w1] eqn:Ew.
  - apply checkWindow_spec in Ew. destruct Ew as [Hb [Ha ->]].
    assert ((negb (CreateGameRequest.Status req =? "")%string &&
             negb (oneOf String.eqb (CreateGameRequest.Status req) validStatuses)) = false
            <-> CreateGameRequest.Status req = "" \/
                In (CreateGameRequest.Status req) validStatuses) as Hs.
    { rewrite andb_false_iff, !negb_false_iff, String.eqb_eq, oneOf_exact. tauto. }
    destruct (negb _ && negb _).
    + split; [discriminate |]. intros [_ [_ [_ [_ [_ [_ [_ [H _]]]]]]]].
      apply Hs in H. discriminate H.
    + destruct (ptr_lt (CreateGameRequest.HomeScore req) 0);
        [split; [discriminate |];
         intros [_ [_ [_ [_ [_ [_ [_ [_ [H _]]]]]]]]]; discriminate H |].
      destruct (ptr_lt (CreateGameRequest.AwayScore req) 0);
        [split; [discriminate |];
         intros [_ [_ [_ [_ [_ [_ [_ [_ [_ [H _]]]]]]]]]]; discriminate H |].
      unfold ret. split.
      * intros H. inversion H. repeat split; try reflexivity; try assumption.
        apply Hs. reflexivity.
      * intros [_ [_ [_ [_ [_ [_ [_ [_ [_ [_ ->]]]]]]]]]]. reflexivity.
  - split; [discriminate |].
    intros [_ [_ [_ [_ [_ [Hb [Ha [_ [_ [_ Hw]]]]]]]]]].
    assert (checkWindow (CreateGameRequest.GameDate req) w = (Ok tt, w')) as Hok
      by (apply checkWindow_spec; auto).
    congruence.
Qed.

Lemma checkWeek_passed (week : option Z) (w w' : World) :
  checkWeek week w = (Ok tt, w') ->
  (forall k, week = Some k -> 1 <= k <= 22) /\ w' = w.
Proof.
  unfold checkWeek. destruct week as [k |].
  - destruct ((k <? 1) || (k >? 22)) eqn:Ek; [discriminate |].
    apply week_spec in Ek. intros H. inversion H.
    split; [intros ? E; inversion E; subst; exact Ek | reflexivity].
  - intros H. inversion H. split; [discriminate | reflexivity].
Qed.

Lemma checkDate_passed (gameDate : option Time) (w w' : World) :
  checkDate gameDate w = (Ok tt, w') ->
  (forall d, gameDate = Some d -> IsZero d = false) /\
  store w' = store w /\ oracle w' = oracle w /\ trace w' = trace w.
Proof.
  unfold checkDate. destruct gameDate as [d |].
  - destruct (IsZero d) eqn:Ez; [discriminate |].
    intros H. apply checkWindow_spec in H. destruct H as [_ [_ ->]].
    split; [intros ? E; inversion E; subst; exact Ez | auto].
  - intros H. inversion H. split; [discriminate | auto].
Qed.

Lemma checkStatus_passed (status : option string) (w w' : World) :
  checkStatus status w = (Ok tt, w') ->
  (forall s, status = Some s -> In s validStatuses) /\ w' = w.
Proof.
  unfold checkStatus. destruct status as [s |].
  - destruct (oneOf String.eqb s validStatuses) eqn:Eo; cbn [negb]; [| discriminate].
    apply oneOf_exact in Eo. intros H. inversion H.
    split; [intros ? E; inversion E; subst; exact Eo | reflexivity].
  - intros H. inversion H. split; [discriminate | reflexivity].
Qed.

(** What a game patch that passed validation says about its fields; the
    validation wrote nothing. *)
Lemma validateUpdateGameRequest_passed (req : UpdateGameRequest.t) (w w' : World) :
  validateUpdateGameRequest req w = (Ok tt, w') ->
  (forall h, UpdateGameRequest.HomeTeamID req = Some h -> 0 < h) /\
  (forall a, UpdateGameRequest.AwayTeamID req = Some a -> 0 < a) /\
  (forall s, UpdateGameRequest.Season req = Some s -> s <> "") /\
  (forall k, UpdateGameRequest.Week req = Some k -> 1 <= k <= 22) /\
  (forall d, UpdateGameRequest.GameDate req = Some d -> IsZero d = false) /\
  (forall s, UpdateGameRequest.Status req = Some s -> In s validStatuses) /\
  at_least 0 (UpdateGameRequest.HomeScore req) /\
  at_least 0 (UpdateGameRequest.AwayScore req) /\
  store w' = store w /\ oracle w' = oracle w /\ trace w' = trace w.
Proof.
  unfold validateUpdateGameRequest. intros H.
  assert (forall h, UpdateGameRequest.HomeTeamID req = Some h -> 0 < h) as Hh.
  { intros h E. rewrite E in H. destruct (h <=? 0) eqn:Eh; [discriminate H |].
    apply Z.leb_gt. exact Eh. }
  destruct (match UpdateGameRequest.HomeTeamID req with
            | Some h => h <=? 0 | None => false end); [discriminate H |].
  assert (forall a, UpdateGameRequest.AwayTeamID req = Some a -> 0 < a) as Ha.
  { intros a E. rewrite E in H. destruct (a <=? 0) eqn:Ea; [discriminate H |].
    apply Z.leb_gt. exact Ea. }
  destruct (match UpdateGameRequest.AwayTeamID req with
            | Some a => a <=? 0 | None => false end); [discriminate H |].
  assert (forall s, UpdateGameRequest.Season req = Some s -> s <> "") as Hs.
  { intros s E. rewrite E in H. destruct (s =? "")%string eqn:Es; [discriminate H |].
    apply String.eqb_neq. exact Es. }
  destruct (match UpdateGameRequest.Season req with
            | Some s => (s =? "")%string | None => false end); [discriminate H |].
  apply bind_inv_ok in H. destruct H as [[] [w1 [H1 H]]].
  apply bind_inv_ok in H. destruct H as [[] [w2 [H2 H]]].
  apply bind_inv_ok in H. destruct H as [[] [w3 [H3 H]]].
  apply checkWeek_passed in H1. destruct H1 as [Hk ->].
  apply checkDate_passed in H2. destruct H2 as [Hd [S2 [O2 T2]]].
  apply checkStatus_passed in H3. destruct H3 as [Hst ->].
  destruct (ptr_lt (UpdateGameRequest.HomeScore req) 0) eqn:Ehs; [discriminate H |].
  destruct (ptr_lt (UpdateGameRequest.AwayScore req) 0) eqn:Eas; [discriminate H |].
  apply ptr_lt_spec in Ehs. apply ptr_lt_spec in Eas.
  inversion H; subst w'.
  split; [exact Hh |]. split; [exact Ha |]. split; [exact Hs |].
  split; [exact Hk |]. split; [exact Hd |]. split; [exact Hst |]. auto.
Qed.
End GameRules.

Section GameEffects.
Context {L : GoLib}.
Import gameService.

Lemma patchTeam_passed (side : string) (current : Z) (req : option Z)
    (w w' : World) (tid : Z) :
  patchTeam side current req w = (Ok tid, w') ->
  tid = patch_val current req /\
  (forall t, req = Some t -> sql_exists Team.ID t (teams_t (store w)) = true) /\
  store w' = store w /\ oracle w' = oracle w /\ ticks w' = ticks w.
Proof.
  unfold patchTeam. destruct req as [t |]; cbn [patch_val].
  - intros H. apply bind_inv_ok in H. destruct H as [b [w1 [H1 H]]].
    apply wrapf_inv_ok, probe_inv in H1. destruct H1 as [-> ->].
    destruct (sql_exists Team.ID t (teams_t (store w))) eqn:E; cbn [negb] in H;
      [| discriminate H].
    inversion H. split; [reflexivity |].
    split; [intros ? Et; inversion Et; subst; exact E | auto].
  - intros H. inversion H. split; [reflexivity |]. split; [discriminate | auto].
Qed.

Lemma CreateGame_effect (req : CreateGameRequest.t) (w w' : World) (game : Game.t) :
  CreateGame req w = (Ok game, w') ->
  let now := wall (oracle w) (S (S (ticks w))) in
  let id := max_rowid Game.ID (games_t (store w)) + 1 in
  validateCreateGameRequest req w = (Ok tt, ticked (ticked w)) /\
  sql_exists Team.ID (CreateGameRequest.HomeTeamID req) (teams_t (store w)) = true /\
  sql_exists Team.ID (CreateGameRequest.AwayTeamID req) (teams_t (store w)) = true /\
  CreateGameRequest.HomeTeamID req <> CreateGameRequest.AwayTeamID req /\
  game = Game.mk id (CreateGameRequest.HomeTeamID req) (CreateGameRequest.AwayTeamID req)
           (CreateGameRequest.Season req) (CreateGameRequest.Week req)
           (CreateGameRequest.GameDate req)
           (if (CreateGameRequest.Status req =? "")%string then "scheduled"
            else CreateGameRequest.Status req)
           (CreateGameRequest.HomeScore req) (CreateGameRequest.AwayScore req) now now /\
  store w' = set_games (mkTable (rows (games_t (store w)) ++ [game])%list id) (store w) /\
  oracle w' = oracle w.
Proof.
  unfold CreateGame. intros H.
  apply bind_inv_ok in H. destruct H as [[] [w1 [H1 H]]].
  apply wrapf_inv_ok in H1.
  pose proof (proj1 (validateCreateGameRequest_spec _ _ _) H1) as Hv.
  destruct Hv as [_ [_ [_ [_ [_ [_ [_ [_ [_ [_ Hw1]]]]]]]]]]. subst w1.
  apply bind_inv_ok in H. destruct H as [b [w1 [H2 H]]].
  apply wrapf_inv_ok, probe_inv in H2. destruct H2 as [-> ->].
  cbn [store ticked logged] in H.
  destruct (sql_exists Team.ID (CreateGameRequest.HomeTeamID req) _) eqn:Eh;
    cbn [negb] in H; [| discriminate H].
  apply bind_inv_ok in H. destruct H as [b [w1 [H2 H]]].
  apply wrapf_inv_ok, probe_inv in H2. destruct H2 as [-> ->].
  cbn [store ticked logged] in H.
  destruct (sql_exists Team.ID (CreateGameRequest.AwayTeamID req) _) eqn:Ea;
    cbn [negb] in H; [| discriminate H].
  destruct (CreateGameRequest.HomeTeamID req =? CreateGameRequest.AwayTeamID req) eqn:En;
    [discriminate H |]. apply Z.eqb_neq in En.
  cbv zeta in H. apply wrapf_inv_ok, insert_inv in H. cbv zeta in H.
  cbn [store logged ticked ticks oracle] in H. destruct H as [_ [Hg ->]].
  cbv zeta. split; [exact H1 |]. split; [reflexivity |]. split; [reflexivity |].
  split; [exact En |]. split; [exact Hg |]. split; reflexivity.
Qed.

Lemma UpdateGame_effect (id : Z) (req : UpdateGameRequest.t) (w w' : World) (game : Game.t) :
  UpdateGame id req w = (Ok game, w') ->
  exists old w1 now,
    0 < id /\
    selected_game id (store w) = Some old /\
    validateUpdateGameRequest req (logged (SELECT [games; teams]) w) = (Ok tt, w1) /\
    (forall h, UpdateGameRequest.HomeTeamID req = Some h ->
               sql_exists Team.ID h (teams_t (store w)) = true) /\
    (forall a, UpdateGameRequest.AwayTeamID req = Some a ->
               sql_exists Team.ID a (teams_t (store w)) = true) /\
    patch_val (Game.HomeTeamID old) (UpdateGameRequest.HomeTeamID req) <>
    patch_val (Game.AwayTeamID old) (UpdateGameRequest.AwayTeamID req) /\
    game = Game.mk (Game.ID old)
             (patch_val (Game.HomeTeamID old) (UpdateGameRequest.HomeTeamID req))
             (patch_val (Game.AwayTeamID old) (UpdateGameRequest.AwayTeamID req))
             (patch_val (Game.Season old) (UpdateGameRequest.Season req))
             (patch_val (Game.Week old) (UpdateGameRequest.Week req))
             (patch_val (Game.GameDate old) (UpdateGameRequest.GameDate req))
             (patch_val (Game.Status old) (UpdateGameRequest.Status req))
             (patch (Game.HomeScore old) (UpdateGameRequest.HomeScore req))
             (patch (Game.AwayScore old) (UpdateGameRequest.AwayScore req))
             (Game.CreatedAt old) now /\
    store w' = set_games
                 (mkTable (map (fun r => if Game.ID r =? Game.ID old
                                         then gameRepository.updated game now r
                                         else r)
                               (rows (games_t (store w))))
                          (seq (games_t (store w))))
                 (store w) /\
    oracle w' = oracle w.
Proof.
  unfold UpdateGame. intros H.
  destruct (id <=? 0) eqn:Eid; [discriminate H |]. apply Z.leb_gt in Eid.
  apply bind_inv_ok in H. destruct H as [old [w0 [H0 H]]].
  apply wrapf_inv_ok in H0.
  apply (lookup_inv _ _ _ (selected_game id)) in H0. destruct H0 as [Hold ->].
  apply bind_inv_ok in H. destruct H as [[] [w1 [H1 H]]].
  apply wrapf_inv_ok in H1.
  destruct (validateUpdateGameRequest_passed _ _ _ H1)
    as [_ [_ [_ [_ [_ [_ [_ [_ [S1 [O1 _]]]]]]]]]].
  cbn [store oracle logged] in S1, O1.
  apply bind_inv_ok in H. destruct H as [home [w2 [H2 H]]].
  apply patchTeam_passed in H2. destruct H2 as [-> [Hh [S2 [O2 _]]]].
  apply bind_inv_ok in H. destruct H as [away [w3 [H3 H]]].
  apply patchTeam_passed in H3. destruct H3 as [-> [Ha [S3 [O3 _]]]].
  destruct (patch_val (Game.HomeTeamID old) _ =? patch_val (Game.AwayTeamID old) _) eqn:En;
    [discriminate H |]. apply Z.eqb_neq in En.
  cbv zeta in H. apply wrapf_inv_ok in H. unfold gameRepository.Update in H.
  apply update_inv in H. cbv zeta in H. cbn [Game.ID] in H.
  destruct H as [Hg [_ ->]].
  exists old, w1, (wall (oracle w3) (ticks w3)).
  split; [exact Eid |]. split; [exact Hold |]. split; [exact H1 |].
  split; [intros h E; rewrite <- S1; exact (Hh h E) |].
  split; [intros a E; rewrite <- S1, <- S2; exact (Ha a E) |].
  split; [exact En |]. split; [exact Hg |].
  cbn [store oracle stored logged ticked].
  rewrite S3, S2, S1, O3, O2, O1, Hg. split; reflexivity.
Qed.

Lemma DeleteGame_effect (id : Z) (w w' : World) :
  DeleteGame id w = (Ok tt, w') ->
  0 < id /\
  sql_exists Game.ID id (games_t (store w)) = true /\
  w' = stored (set_games
                 (mkTable (filter (fun r => negb (Game.ID r =? id)) (rows (games_t (store w))))
                          (seq (games_t (store w))))
                 (store w))
              (logged (DELETE games) (logged (SELECT [games]) w)).
Proof.
  unfold DeleteGame. intros H.
  destruct (id <=? 0) eqn:Eid; [discriminate H |]. apply Z.leb_gt in Eid.
  apply bind_inv_ok in H. destruct H as [b [w1 [H1 H]]].
  apply wrapf_inv_ok, probe_inv in H1. destruct H1 as [-> ->].
  destruct (sql_exists Game.ID id (games_t (store w))) eqn:E; cbn [negb] in H;
    [| discriminate H].
  unfold gameRepository.Delete in H. apply delete_inv in H. auto.
Qed.
End GameEffects.

Section StatsEffects.
Context {L : GoLib}.
Import playerStatsService.

Lemma CreatePlayerStats_effect (req : CreatePlayerStatsRequest.t) (w w' : World)
    (stats : PlayerStats.t) :
  CreatePlayerStats req w = (Ok stats, w') ->
  let id := max_rowid PlayerStats.ID (player_stats_t (store w)) + 1 in
  validateCreatePlayerStatsRequest req = None /\
  PlayerStats.ID stats = id /\
  PlayerStats.PlayerID stats = CreatePlayerStatsRequest.PlayerID req /\
  PlayerStats.GameID stats = CreatePlayerStatsRequest.GameID req /\
  counters stats = map fst (createNonNegativeFields req) /\
  PlayerStats.CreatedAt stats = wall (oracle w) (ticks w) /\
  store w' = set_player_stats
               (mkTable (rows (player_stats_t (store w)) ++ [stats])%list id) (store w) /\
  oracle w' = oracle w.
Proof.
  unfold CreatePlayerStats. intros H.
  destruct (validateCreatePlayerStatsRequest req); [discriminate H |].
  apply bind_inv_ok in H. destruct H as [b [w1 [H1 H]]].
  apply wrapf_inv_ok, probe_inv in H1. destruct H1 as [-> ->].
  destruct (sql_exists Player.ID _ _); cbn [negb] in H; [| discriminate H].
  apply bind_inv_ok in H. destruct H as [b [w2 [H2 H]]].
  apply wrapf_inv_ok, probe_inv in H2. destruct H2 as [-> ->].
  destruct (existsb _ _); [discriminate H |].
  cbv zeta in H. apply wrapf_inv_ok, insert_inv in H. cbv zeta in H.
  cbn [store logged ticks oracle] in H. destruct H as [_ [Hs ->]].
  cbv zeta. split; [reflexivity |]. rewrite Hs. repeat split.
Qed.

Lemma UpdatePlayerStats_effect (id : Z) (req : UpdatePlayerStatsRequest.t) (w w' : World)
    (stats : PlayerStats.t) :
  UpdatePlayerStats id req w = (Ok stats, w') ->
  exists old,
    let now := wall (oracle w) (ticks w) in
    0 < id /\
    validateUpdatePlayerStatsRequest req = None /\
    selected id (store w) = Some old /\
    stats = playerStatsRepository.updated (applyPatch old req) now (applyPatch old req) /\
    store w' = set_player_stats
                 (mkTable (map (fun r => if PlayerStats.ID r =? PlayerStats.ID old
                                         then playerStatsRepository.updated
                                                (applyPatch old req) now r
                                         else r)
                               (rows (player_stats_t (store w))))
                          (seq (player_stats_t (store w))))
                 (store w) /\
    oracle w' = oracle w.
Proof.
  unfold UpdatePlayerStats. intros H.
  destruct (id <=? 0) eqn:Eid; [discriminate H |]. apply Z.leb_gt in Eid.
  destruct (validateUpdatePlayerStatsRequest req); [discriminate H |].
  apply bind_inv_ok in H. destruct H as [old [w1 [H1 H]]].
  apply wrapf_inv_ok in H1.
  apply (lookup_inv _ _ _ (selected id)) in H1. destruct H1 as [Hold ->].
  apply wrapf_inv_ok in H. unfold playerStatsRepository.Update in H.
  apply update_inv in H. cbv zeta in H.
  cbn [store logged ticks oracle] in H. destruct H as [Hs [_ ->]].
  exists old. cbv zeta. split; [exact Eid |]. split; [reflexivity |].
  split; [exact Hold |]. split; [exact Hs |].
  rewrite applyPatch_ID. split; reflexivity.
Qed.

Lemma DeletePlayerStats_effect (id : Z) (w w' : World) :
  DeletePlayerStats id w = (Ok tt, w') ->
  0 < id /\
  sql_exists PlayerStats.ID id (player_stats_t (store w)) = true /\
  w' = stored (set_player_stats
                 (mkTable (filter (fun r => negb (PlayerStats.ID r =? id))
                                  (rows (player_stats_t (store w))))
                          (seq (player_stats_t (store w))))
                 (store w))
              (logged (DELETE player_stats) (logged (SELECT [player_stats]) w)).
Proof.
  unfold DeletePlayerStats. intros H.
  destruct (id <=? 0) eqn:Eid; [discriminate H |]. apply Z.leb_gt in Eid.
  apply bind_inv_ok in H. destruct H as [b [w1 [H1 H]]].
  apply wrapf_inv_ok, probe_inv in H1. destruct H1 as [-> ->].
  destruct (sql_exists PlayerStats.ID id (player_stats_t (store w))) eqn:E;
    cbn [negb] in H; [| discriminate H].
  apply wrapf_inv_ok in H. unfold playerStatsRepository.Delete in H.
  apply delete_inv in H. auto.
Qed.
End StatsEffects.

(* ================================================================== *)
(** * Invariants of the store *)
(* ================================================================== *)

Section Invariants.
Context {L : GoLib}.

(** An invariant of the store survives every request if it survives the
    twelve accepted ones: a rejected request leaves the store as it was. *)
Lemma perform_keeps (I : DB -> Prop) (w : World) :
  I (store w) ->
  (forall req x w', teamService.CreateTeam req w = (Ok x, w') -> I (store w')) ->
  (forall id req x w', teamService.UpdateTeam id req w = (Ok x, w') -> I (store w')) ->
  (forall id w', teamService.DeleteTeam id w = (Ok tt, w') -> I (store w')) ->
  (forall req x w', playerService.CreatePlayer req w = (Ok x, w') -> I (store w')) ->
  (forall id req x w', playerService.UpdatePlayer id req w = (Ok x, w') -> I (store w')) ->
  (forall id w', playerService.DeletePlayer id w = (Ok tt, w') -> I (store w')) ->
  (forall req x w', gameService.CreateGame req w = (Ok x, w') -> I (store w')) ->
  (forall id req x w', gameService.UpdateGame id req w = (Ok x, w') -> I (store w')) ->
  (forall id w', gameService.DeleteGame id w = (Ok tt, w') -> I (store w')) ->
  (forall req x w', playerStatsService.CreatePlayerStats req w = (Ok x, w') -> I (store w')) ->
  (forall id req x w',
      playerStatsService.UpdatePlayerStats id req w = (Ok x, w') -> I (store w')) ->
  (forall id w', playerStatsService.DeletePlayerStats id w = (Ok tt, w') -> I (store w')) ->
  forall op, I (store (snd (perform op w))).
Proof.
  intros HI H1 H2 H3 H4 H5 H6 H7 H8 H9 H10 H11 H12 op.
  destruct op; cbn [perform]; unfold outcome, bind.
  - destruct (teamService.CreateTeam req w) as [[x | e] w'] eqn:E; cbn [snd];
      [exact (H1 _ _ _ E) | rewrite (proj1 (atomic_CreateTeam _ _ _ _ E)); exact HI].
  - destruct (teamService.UpdateTeam id req w) as [[x | e] w'] eqn:E; cbn [snd];
      [exact (H2 _ _ _ _ E) | rewrite (proj1 (atomic_UpdateTeam _ _ _ _ _ E)); exact HI].
  - destruct (teamService.DeleteTeam id w) as [[[] | e] w'] eqn:E; cbn [snd];
      [exact (H3 _ _ E) | rewrite (proj1 (atomic_DeleteTeam _ _ _ _ E)); exact HI].
  - destruct (playerService.CreatePlayer req w) as [[x | e] w'] eqn:E; cbn [snd];
      [exact (H4 _ _ _ E) | rewrite (proj1 (atomic_CreatePlayer _ _ _ _ E)); exact HI].
  - destruct (playerService.UpdatePlayer id req w) as [[x | e] w'] eqn:E; cbn [snd];
      [exact (H5 _ _ _ _ E) | rewrite (proj1 (atomic_UpdatePlayer _ _ _ _ _ E)); exact HI].
  - destruct (playerService.DeletePlayer id w) as [[[] | e] w'] eqn:E; cbn [snd];
      [exact (H6 _ _ E) | rewrite (proj1 (atomic_DeletePlayer _ _ _ _ E)); exact HI].
  - destruct (gameService.CreateGame req w) as [[x | e] w'] eqn:E; cbn [snd];
      [exact (H7 _ _ _ E) | rewrite (proj1 (atomic_CreateGame _ _ _ _ E)); exact HI].
  - destruct (gameService.UpdateGame id req w) as [[x | e] w'] eqn:E; cbn [snd];
      [exact (H8 _ _ _ _ E) | rewrite (proj1 (atomic_UpdateGame _ _ _ _ _ E)); exact HI].
  - destruct (gameService.DeleteGame id w) as [[[] | e] w'] eqn:E; cbn [snd];
      [exact (H9 _ _ E) | rewrite (proj1 (atomic_DeleteGame _ _ _ _ E)); exact HI].
  - destruct (playerStatsService.CreatePlayerStats req w) as [[x | e] w'] eqn:E; cbn [snd];
      [exact (H10 _ _ _ E)
      | rewrite (proj1 (atomic_CreatePlayerStats _ _ _ _ E)); exact HI].
  - destruct (playerStatsService.UpdatePlayerStats id req w) as [[x | e] w'] eqn:E;
      cbn [snd];
      [exact (H11 _ _ _ _ E)
      | rewrite (proj1 (atomic_UpdatePlayerStats _ _ _ _ _ E)); exact HI].
  - destruct (playerStatsService.DeletePlayerStats id w) as [[[] | e] w'] eqn:E; cbn [snd];
      [exact (H12 _ _ E)
      | rewrite (proj1 (atomic_DeletePlayerStats _ _ _ _ E)); exact HI].
Qed.

(** ** Row ids *)

Lemma max_rowid_keyed {A} (key : A -> Z) (t : table A) :
  keyed key t -> max_rowid key t = seq t.
Proof.
  intros [_ Hb]. unfold max_rowid.
  induction (rows t) as [| r l IH]; simpl; [reflexivity |].
  rewrite IH by (intros x Hx; apply Hb; right; exact Hx).
  apply Z.max_r. apply Hb. left. reflexivity.
Qed.

Lemma keyed_insert {A} (key : A -> Z) (t : table A) (r : A) :
  keyed key t -> key r = max_rowid key t + 1 ->
  keyed key (mkTable (rows t ++ [r])%list (max_rowid key t + 1)).
Proof.
  intros Hk Hr. pose proof (max_rowid_keyed key t Hk) as Hm.
  destruct Hk as [Hn Hb]. split; cbn [rows seq].
  - rewrite map_app. cbn [map]. apply NoDup_app; [exact Hn | repeat constructor; simpl; tauto |].
    intros a Ha [<- | []]. apply in_map_iff in Ha. destruct Ha as [x [Hx Hin]].
    specialize (Hb x Hin). lia.
  - intros x Hx. apply in_app_or in Hx. destruct Hx as [Hx | [<- | []]].
    + specialize (Hb x Hx). lia.
    + lia.
Qed.

Lemma keyed_update {A} (key : A -> Z) (t : table A) (hit : A -> bool) (upd : A -> A) :
  keyed key t -> (forall r, key (upd r) = key r) ->
  keyed key (mkTable (map (fun r => if hit r then upd r else r) (rows t)) (seq t)).
Proof.
  intros [Hn Hb] Hu.
  assert (map key (map (fun r => if hit r then upd r else r) (rows t)) = map key (rows t))
    as Hmap.
  { rewrite map_map. apply map_ext. intros r. destruct (hit r); [apply Hu | reflexivity]. }
  split; cbn [rows seq].
  - rewrite Hmap. exact Hn.
  - intros x Hx. apply in_map_iff in Hx. destruct Hx as [r [<- Hin]].
    destruct (hit r); [rewrite Hu |]; apply Hb; exact Hin.
Qed.

Lemma NoDup_map_filter {A B} (g : A -> B) (f : A -> bool) (l : list A) :
  NoDup (map g l) -> NoDup (map g (filter f l)).
Proof.
  induction l as [| x l IH]; simpl; intros H; [constructor |].
  inversion H as [| ? ? Hx Hl]; subst.
  destruct (f x); simpl; [constructor |]; auto.
  intros Hin. apply Hx. apply in_map_iff in Hin. destruct Hin as [y [Hy Hin]].
  apply filter_In in Hin. apply in_map_iff. exists y. tauto.
Qed.

Lemma keyed_delete {A} (key : A -> Z) (t : table A) (f : A -> bool) :
  keyed key t -> keyed key (mkTable (filter f (rows t)) (seq t)).
Proof.
  intros [Hn Hb]. split; cbn [rows seq].
  - apply NoDup_map_filter. exact Hn.
  - intros x Hx. apply filter_In in Hx. apply Hb. tauto.
Qed.
End Invariants.

Section RowIds.
Context {L : GoLib}.

Lemma grown_refl (db : DB) : consistent db -> grown db db.
Proof. intros H. repeat split; try apply H; lia. Qed.

Ltac tables :=
  cbn [teams_t games_t players_t player_stats_t
       set_teams set_games set_players set_player_stats rows seq].

Ltac grows Hc :=
  destruct Hc as [Ht [Hg [Hp Hs]]];
  unfold grown, consistent; tables;
  repeat match goal with
         | |- _ /\ _ => split
         | |- keyed _ (mkTable (_ ++ [_])%list _) =>
             apply keyed_insert; [assumption | first [reflexivity | assumption]]
         | |- keyed _ (mkTable (map _ _) _) => apply keyed_update; [assumption | reflexivity]
         | |- keyed _ (mkTable (filter _ _) _) => apply keyed_delete; assumption
         | |- keyed _ _ => assumption
         | |- ?a <= ?a => apply Z.le_refl
         | |- seq ?t <= max_rowid _ ?t + 1 =>
             rewrite (max_rowid_keyed _ t) by assumption; lia
         end.

Lemma perform_grows (w : World) (op : Mutation) :
  consistent (store w) -> grown (store w) (store (snd (perform op w))).
Proof.
  intros Hc. revert op.
  apply (perform_keeps (grown (store w))); [apply grown_refl; exact Hc | ..].
  - intros req x w' E. apply CreateTeam_effect in E. cbv zeta in E.
    destruct E as [_ [-> [_ ->]]]. cbn [store stored]. grows Hc.
  - intros id req x w' E. apply UpdateTeam_effect in E.
    destruct E as [old [_ [_ [_ [_ ->]]]]]. cbn [store stored logged ticked]. grows Hc.
  - intros id w' E. apply DeleteTeam_effect in E.
    destruct E as [_ [_ ->]]. cbn [store stored logged]. grows Hc.
  - intros req x w' E. apply CreatePlayer_effect in E. cbv zeta in E.
    destruct E as [_ [_ [_ [-> [-> _]]]]]. grows Hc.
  - intros id req x w' E. apply UpdatePlayer_effect in E.
    destruct E as [old [_ [_ [_ [_ [_ [-> _]]]]]]]. grows Hc.
  - intros id w' E. apply DeletePlayer_effect in E.
    destruct E as [_ [_ ->]]. cbn [store stored logged]. grows Hc.
  - intros req x w' E. apply CreateGame_effect in E. cbv zeta in E.
    destruct E as [_ [_ [_ [_ [-> [-> _]]]]]]. grows Hc.
  - intros id req x w' E. apply UpdateGame_effect in E.
    destruct E as [old [w1 [now [_ [_ [_ [_ [_ [_ [_ [-> _]]]]]]]]]]]. grows Hc.
  - intros id w' E. apply DeleteGame_effect in E.
    destruct E as [_ [_ ->]]. cbn [store stored logged]. grows Hc.
  - intros req x w' E. apply CreatePlayerStats_effect in E. cbv zeta in E.
    destruct E as [_ [Hid [_ [_ [_ [_ [-> _]]]]]]]. grows Hc.
  - intros id req x w' E. apply UpdatePlayerStats_effect in E.
    destruct E as [old [_ [_ [_ [_ [-> _]]]]]]. grows Hc.
  - intros id w' E. apply DeletePlayerStats_effect in E.
    destruct E as [_ [_ ->]]. cbn [store stored logged]. grows Hc.
Qed.
End RowIds.

Section Rules.
Context {L : GoLib}.

Lemma In_snoc {A} (x r : A) (l : list A) : In x (l ++ [r])%list -> In x l \/ x = r.
Proof.
  intros H. apply in_app_or in H. destruct H as [H | [H | []]]; [left | right]; auto.
Qed.

Lemma In_map_if {A} (hit : A -> bool) (upd : A -> A) (x : A) (l : list A) :
  In x (map (fun r => if hit r then upd r else r) l) ->
  (In x l /\ hit x = false) \/ exists r, In r l /\ hit r = true /\ x = upd r.
Proof.
  intros H. apply in_map_iff in H. destruct H as [r [Hx Hin]].
  destruct (hit r) eqn:E.
  - right. exists r. auto.
  - left. subst x. auto.
Qed.

Lemma selected_game_found (id : Z) (db : DB) (game : Game.t) :
  selected_game id db = Some game ->
  In game (rows (games_t db)) /\ Game.ID game = id /\
  gameRepository.joined db game = true.
Proof.
  intros H. apply find_some in H. destruct H as [Hin Hb].
  apply andb_true_iff in Hb. destruct Hb as [Hid Hj].
  apply Z.eqb_eq in Hid. auto.
Qed.

Lemma at_least_patch (lo : Z) (dst src : option Z) :
  at_least lo dst -> at_least lo src -> at_least lo (patch dst src).
Proof. destruct src; simpl; auto. Qed.

Lemma within_patch (lo hi : Z) (dst src : option Z) :
  within lo hi dst -> within lo hi src -> within lo hi (patch dst src).
Proof. destruct src; simpl; auto. Qed.

(** ** Games *)

Lemma CreateGame_rules (req : CreateGameRequest.t) (w w' : World) (game : Game.t) :
  gameService.CreateGame req w = (Ok game, w') -> game_rules game.
Proof.
  intros E. apply CreateGame_effect in E. cbv zeta in E.
  destruct E as [Hv [_ [_ [Hne [-> _]]]]].
  apply validateCreateGameRequest_spec in Hv.
  destruct Hv as [Hh [Ha [Hs [Hk [Hz [_ [_ [Hst [Hhs [Has _]]]]]]]]]].
  unfold game_rules.
  cbn [Game.HomeTeamID Game.AwayTeamID Game.Season Game.Week Game.GameDate Game.Status
       Game.HomeScore Game.AwayScore].
  repeat (split; [assumption |]). split; [| split; assumption].
  destruct (CreateGameRequest.Status req =? "")%string eqn:Es.
  - simpl. tauto.
  - destruct Hst as [Hst | Hst]; [| exact Hst].
    apply String.eqb_neq in Es. contradiction.
Qed.

Lemma UpdateGame_rules (id : Z) (req : UpdateGameRequest.t) (w w' : World) (game : Game.t) :
  (forall g, In g (rows (games_t (store w))) -> game_rules g) ->
  gameService.UpdateGame id req w = (Ok game, w') -> game_rules game.
Proof.
  intros Hok E. apply UpdateGame_effect in E.
  destruct E as [old [w1 [now [_ [Hold [Hv [_ [_ [Hne [-> _]]]]]]]]]].
  apply validateUpdateGameRequest_passed in Hv.
  destruct Hv as [Hh [Ha [Hs [Hk [Hd [Hst [Hhs [Has _]]]]]]]].
  destruct (selected_game_found _ _ _ Hold) as [Hin _].
  destruct (Hok old Hin) as [Rh [Ra [_ [Rs [Rk [Rd [Rst [Rhs Ras]]]]]]]].
  unfold game_rules.
  cbn [Game.HomeTeamID Game.AwayTeamID Game.Season Game.Week Game.GameDate Game.Status
       Game.HomeScore Game.AwayScore].
  split; [destruct (UpdateGameRequest.HomeTeamID req) as [v |]; cbn [patch_val];
          [exact (Hh v eq_refl) | exact Rh] |].
  split; [destruct (UpdateGameRequest.AwayTeamID req) as [v |]; cbn [patch_val];
          [exact (Ha v eq_refl) | exact Ra] |].
  split; [exact Hne |].
  split; [destruct (UpdateGameRequest.Season req) as [v |]; cbn [patch_val];
          [exact (Hs v eq_refl) | exact Rs] |].
  split; [destruct (UpdateGameRequest.Week req) as [v |]; cbn [patch_val];
          [exact (Hk v eq_refl) | exact Rk] |].
  split; [destruct (UpdateGameRequest.GameDate req) as [v |]; cbn [patch_val];
          [exact (Hd v eq_refl) | exact Rd] |].
  split; [destruct (UpdateGameRequest.Status req) as [v |]; cbn [patch_val];
          [exact (Hst v eq_refl) | exact Rst] |].
  split; apply at_least_patch; assumption.
Qed.
End Rules.

Section PlayerStore.
Context {L : GoLib}.
Import playerService.

Lemma CreatePlayer_rules (req : CreatePlayerRequest.t) (w w' : World) (player : Player.t) :
  CreatePlayer req w = (Ok player, w') -> player_rules player.
Proof.
  intros E. apply CreatePlayer_effect in E. cbv zeta in E.
  destruct E as [Hv [_ [_ [-> _]]]].
  apply validateCreatePlayerRequest_spec in Hv. exact Hv.
Qed.

Lemma UpdatePlayer_rules (id : Z) (req : UpdatePlayerRequest.t) (w w' : World)
    (player : Player.t) :
  (forall p, In p (rows (players_t (store w))) -> player_rules p) ->
  UpdatePlayer id req w = (Ok player, w') -> player_rules player.
Proof.
  intros Hok E. apply UpdatePlayer_effect in E.
  destruct E as [old [_ [Hv [Hold [_ [-> _]]]]]].
  apply validateUpdatePlayerRequest_spec in Hv.
  destruct Hv as [_ [Hf [Hl [Hp [Hj [Hh Hw]]]]]].
  destruct (selected_player_found _ _ _ Hold) as [Hin _].
  destruct (Hok old Hin) as [Rt [Rf [Rl [Rp [Rj [Rh Rw]]]]]].
  unfold player_rules.
  cbn [Player.TeamID Player.FirstName Player.LastName Player.Position
       Player.JerseyNumber Player.Height Player.Weight].
  split; [exact Rt |].
  split; [destruct (UpdatePlayerRequest.FirstName req) as [v |]; cbn [option_map patch_val];
          [exact (Hf v eq_refl) | exact Rf] |].
  split; [destruct (UpdatePlayerRequest.LastName req) as [v |]; cbn [option_map patch_val];
          [exact (Hl v eq_refl) | exact Rl] |].
  split; [destruct (UpdatePlayerRequest.Position req) as [v |]; cbn [option_map patch_val];
          [exact (Hp v eq_refl) | exact Rp] |].
  repeat split; apply within_patch; assumption.
Qed.
End PlayerStore.

Section StatsStore.
Context {L : GoLib}.
Import playerStatsService.

Lemma firstNegative_none (fields : list (option Z * string)) :
  firstNegative fields = None -> Forall (at_least 0) (map fst fields).
Proof.
  induction fields as [| [value name] rest IH]; simpl; intros H; [constructor |].
  destruct (ptr_lt value 0) eqn:E; [discriminate H |].
  constructor; [apply ptr_lt_spec; exact E | exact (IH H)].
Qed.

Lemma validateStatConstraints_none (req : CreatePlayerStatsRequest.t) :
  validateStatConstraints req = None -> firstNegative (createNonNegativeFields req) = None.
Proof.
  unfold validateStatConstraints.
  repeat match goal with |- (if ?c then _ else _) = None -> _ => destruct c; [discriminate |] end.
  auto.
Qed.

Lemma validateUpdateStatConstraints_none (req : UpdatePlayerStatsRequest.t) :
  validateUpdateStatConstraints req = None ->
  firstNegative (updateNonNegativeFields req) = None.
Proof.
  unfold validateUpdateStatConstraints.
  repeat match goal with |- (if ?c then _ else _) = None -> _ => destruct c; [discriminate |] end.
  auto.
Qed.

Lemma CreatePlayerStats_rules (req : CreatePlayerStatsRequest.t) (w w' : World)
    (stats : PlayerStats.t) :
  CreatePlayerStats req w = (Ok stats, w') -> stats_rules stats.
Proof.
  intros E. apply CreatePlayerStats_effect in E. cbv zeta in E.
  destruct E as [Hv [_ [Hp [Hg [Hc _]]]]].
  unfold validateCreatePlayerStatsRequest in Hv.
  destruct (CreatePlayerStatsRequest.PlayerID req <=? 0) eqn:Ep; [discriminate Hv |].
  destruct (CreatePlayerStatsRequest.GameID req <=? 0) eqn:Eg; [discriminate Hv |].
  destruct (noStatistic req); [discriminate Hv |].
  apply Z.leb_gt in Ep. apply Z.leb_gt in Eg.
  unfold stats_rules. rewrite Hp, Hg, Hc.
  split; [exact Ep |]. split; [exact Eg |].
  apply firstNegative_none, validateStatConstraints_none. exact Hv.
Qed.

Lemma Forall_patch (lo : Z) (dst src : list (option Z)) :
  Forall (at_least lo) dst -> Forall (at_least lo) src ->
  Forall (at_least lo) (map (fun ds => patch (fst ds) (snd ds)) (combine dst src)).
Proof.
  intros Hd. revert src. induction Hd as [| d dst Hd Hdst IH]; intros src Hs.
  - constructor.
  - destruct Hs as [| s src Hs Hsrc]; simpl; constructor.
    + apply at_least_patch; assumption.
    + apply IH. exact Hsrc.
Qed.

Lemma counters_applyPatch (old : PlayerStats.t) (req : UpdatePlayerStatsRequest.t) :
  counters (applyPatch old req)
  = map (fun ds => patch (fst ds) (snd ds))
        (combine (counters old) (map fst (updateNonNegativeFields req))).
Proof. reflexivity. Qed.

Lemma UpdatePlayerStats_rules (id : Z) (req : UpdatePlayerStatsRequest.t) (w w' : World)
    (stats : PlayerStats.t) :
  (forall s, In s (rows (player_stats_t (store w))) -> stats_rules s) ->
  UpdatePlayerStats id req w = (Ok stats, w') ->
  forall r, stats_rules r ->
    stats_rules (playerStatsRepository.updated stats (PlayerStats.UpdatedAt stats) r).
Proof.
  intros Hok E r [Rp [Rg _]]. apply UpdatePlayerStats_effect in E.
  destruct E as [old [_ [Hv [Hold [-> _]]]]].
  destruct (selected_found _ _ _ Hold) as [Hin _].
  destruct (Hok old Hin) as [_ [_ Rc]].
  unfold validateUpdatePlayerStatsRequest in Hv.
  destruct (noField req); [discriminate Hv |].
  apply validateUpdateStatConstraints_none, firstNegative_none in Hv.
  split; [exact Rp |]. split; [exact Rg |].
  change (Forall (at_least 0) (counters (applyPatch old req))).
  rewrite counters_applyPatch. apply Forall_patch; assumption.
Qed.
End StatsStore.

Section PerTable.
Context {L : GoLib}.

Ltac untouched E :=
  first
    [ apply CreateTeam_effect in E; cbv zeta in E; destruct E as [_ [_ [_ ->]]]
    | apply UpdateTeam_effect in E; destruct E as [? [_ [_ [_ [_ ->]]]]]
    | apply DeleteTeam_effect in E; destruct E as [_ [_ ->]]
    | apply CreatePlayer_effect in E; cbv zeta in E; destruct E as [_ [_ [_ [_ [-> _]]]]]
    | apply UpdatePlayer_effect in E; destruct E as [? [_ [_ [_ [_ [_ [-> _]]]]]]]
    | apply DeletePlayer_effect in E; destruct E as [_ [_ ->]]
    | apply CreateGame_effect in E; cbv zeta in E; destruct E as [_ [_ [_ [_ [_ [-> _]]]]]]
    | apply UpdateGame_effect in E;
      destruct E as [? [? [? [_ [_ [_ [_ [_ [_ [_ [-> _]]]]]]]]]]]
    | apply DeleteGame_effect in E; destruct E as [_ [_ ->]]
    | apply CreatePlayerStats_effect in E; cbv zeta in E;
      destruct E as [_ [_ [_ [_ [_ [_ [-> _]]]]]]]
    | apply UpdatePlayerStats_effect in E; destruct E as [? [_ [_ [_ [_ [-> _]]]]]]
    | apply DeletePlayerStats_effect in E; destruct E as [_ [_ ->]] ];
  cbn [store stored logged ticked teams_t games_t players_t player_stats_t
       set_teams set_games set_players set_player_stats].

(** Only the game requests change the games table. *)
Lemma perform_keeps_games (I : table Game.t -> Prop) (w : World) :
  I (games_t (store w)) ->
  (forall req x w', gameService.CreateGame req w = (Ok x, w') -> I (games_t (store w'))) ->
  (forall id req x w',
      gameService.UpdateGame id req w = (Ok x, w') -> I (games_t (store w'))) ->
  (forall id w', gameService.DeleteGame id w = (Ok tt, w') -> I (games_t (store w'))) ->
  forall op, I (games_t (store (snd (perform op w)))).
Proof.
  intros HI Hc Hu Hd.
  apply (perform_keeps (fun db => I (games_t db))); try assumption;
    intros; match goal with E : _ = (Ok _, _) |- _ => untouched E end; exact HI.
Qed.

(** Only the player requests change the players table. *)
Lemma perform_keeps_players (I : table Player.t -> Prop) (w : World) :
  I (players_t (store w)) ->
  (forall req x w',
      playerService.CreatePlayer req w = (Ok x, w') -> I (players_t (store w'))) ->
  (forall id req x w',
      playerService.UpdatePlayer id req w = (Ok x, w') -> I (players_t (store w'))) ->
  (forall id w', playerService.DeletePlayer id w = (Ok tt, w') -> I (players_t (store w'))) ->
  forall op, I (players_t (store (snd (perform op w)))).
Proof.
  intros HI Hc Hu Hd.
  apply (perform_keeps (fun db => I (players_t db))); try assumption;
    intros; match goal with E : _ = (Ok _, _) |- _ => untouched E end; exact HI.
Qed.

(** Only the statistics requests change the statistics table. *)
Lemma perform_keeps_stats (I : table PlayerStats.t -> Prop) (w : World) :
  I (player_stats_t (store w)) ->
  (forall req x w',
      playerStatsService.CreatePlayerStats req w = (Ok x, w') ->
      I (player_stats_t (store w'))) ->
  (forall id req x w',
      playerStatsService.UpdatePlayerStats id req w = (Ok x, w') ->
      I (player_stats_t (store w'))) ->
  (forall id w',
      playerStatsService.DeletePlayerStats id w = (Ok tt, w') ->
      I (player_stats_t (store w'))) ->
  forall op, I (player_stats_t (store (snd (perform op w)))).
Proof.
  intros HI Hc Hu Hd.
  apply (perform_keeps (fun db => I (player_stats_t db))); try assumption;
    intros; match goal with E : _ = (Ok _, _) |- _ => untouched E end; exact HI.
Qed.
End PerTable.

(* ================================================================== *)
(** * Row ids and field rules hold across requests *)
(* ================================================================== *)

(** X1.  Row ids are never handed out twice.  In a store as SQLite keeps it, every
    create, update and delete request, accepted or not, leaves a store that
    is still so, and no AUTOINCREMENT counter goes down; a create that is
    accepted returns the id one above the counter it found, which is above
    every id the table ever held, the deleted ones included. *)
Theorem row_ids_are_never_reused {L : GoLib} (w : World) :
  consistent (store w) ->
  (forall op, grown (store w) (store (snd (perform op w)))) /\
  (forall req team w',
      teamService.CreateTeam req w = (Ok team, w') ->
      Team.ID team = seq (teams_t (store w)) + 1 /\
      seq (teams_t (store w')) = Team.ID team) /\
  (forall req player w',
      playerService.CreatePlayer req w = (Ok player, w') ->
      Player.ID player = seq (players_t (store w)) + 1 /\
      seq (players_t (store w')) = Player.ID player) /\
  (forall req game w',
      gameService.CreateGame req w = (Ok game, w') ->
      Game.ID game = seq (games_t (store w)) + 1 /\
      seq (games_t (store w')) = Game.ID game) /\
  (forall req stats w',
      playerStatsService.CreatePlayerStats req w = (Ok stats, w') ->
      PlayerStats.ID stats = seq (player_stats_t (store w)) + 1 /\
      seq (player_stats_t (store w')) = PlayerStats.ID stats).
Proof.
  intros Hc. split; [intros op; apply perform_grows; exact Hc |].
  destruct Hc as [Ht [Hg [Hp Hs]]].
  split; [| split; [| split]].
  - intros req team w' E. apply CreateTeam_effect in E. cbv zeta in E.
    destruct E as [_ [-> [_ ->]]].
    rewrite <- (max_rowid_keyed _ _ Ht). split; reflexivity.
  - intros req player w' E. apply CreatePlayer_effect in E. cbv zeta in E.
    destruct E as [_ [_ [_ [-> [-> _]]]]].
    rewrite <- (max_rowid_keyed _ _ Hp). split; reflexivity.
  - intros req game w' E. apply CreateGame_effect in E. cbv zeta in E.
    destruct E as [_ [_ [_ [_ [-> [-> _]]]]]].
    rewrite <- (max_rowid_keyed _ _ Hg). split; reflexivity.
  - intros req stats w' E. apply CreatePlayerStats_effect in E. cbv zeta in E.
    destruct E as [_ [Hid [_ [_ [_ [_ [-> _]]]]]]].
    rewrite <- (max_rowid_keyed _ _ Hs), Hid. split; reflexivity.
Qed.

(** In the sample league team 2 is deleted; the next team gets id 3. *)
Lemma row_ids_are_never_reused_witness :
  grown (store Sample.league)
        (store (snd (perform (L := Sample.lib) (DeleteTeam 2) Sample.league))) /\
  seq (teams_t (store (snd (perform (L := Sample.lib) (DeleteTeam 2) Sample.league)))) = 2.
Proof.
  split; [| reflexivity].
  apply (row_ids_are_never_reused (L := Sample.lib) Sample.league).
  unfold consistent, keyed. simpl.
  repeat split; try (repeat constructor; simpl; intuition discriminate);
    intros r H; repeat (destruct H as [<- | H]; [simpl; lia |]); destruct H.
Defined.

(** X2.  Every stored game keeps the game rules.  If the games of the store have
    positive and different team ids, a season, a week between 1 and 22, a
    date, one of the four statuses and no negative score, then they still
    do after any create, update or delete request: an update checks its
    patch and the merged team ids and leaves the other fields as stored. *)
Theorem stored_games_keep_the_game_rules {L : GoLib} (w : World) (op : Mutation) :
  (forall g, In g (rows (games_t (store w))) -> game_rules g) ->
  forall g, In g (rows (games_t (store (snd (perform op w))))) -> game_rules g.
Proof.
  intros Hok. revert op.
  apply (perform_keeps_games (fun t => forall g, In g (rows t) -> game_rules g));
    [exact Hok | ..].
  - intros req x w' E g Hg. pose proof (CreateGame_rules _ _ _ _ E) as Hx.
    apply CreateGame_effect in E. cbv zeta in E.
    destruct E as [_ [_ [_ [_ [_ [Hst _]]]]]]. rewrite Hst in Hg. cbn [games_t set_games rows] in Hg.
    apply In_snoc in Hg. destruct Hg as [Hg | ->]; [exact (Hok g Hg) | exact Hx].
  - intros id req x w' E g Hg. pose proof (UpdateGame_rules _ _ _ _ _ Hok E) as Hx.
    apply UpdateGame_effect in E.
    destruct E as [old [w1 [now [_ [_ [_ [_ [_ [_ [_ [Hst _]]]]]]]]]]]. rewrite Hst in Hg. cbn [games_t set_games rows] in Hg.
    apply In_map_if in Hg. destruct Hg as [[Hg _] | [r [_ [_ ->]]]]; [exact (Hok g Hg) |].
    exact Hx.
  - intros id w' E g Hg. apply DeleteGame_effect in E. destruct E as [_ [_ ->]].
    cbn [store stored games_t set_games rows] in Hg.
    apply filter_In in Hg. exact (Hok g (proj1 Hg)).
Qed.

(** The game of the sample league obeys the rules, and still does after
    its away team is changed to team 1, which the same-team test refuses. *)
Lemma stored_games_keep_the_game_rules_witness :
  Forall (game_rules (L := Sample.lib))
    (rows (games_t (store (snd (perform (L := Sample.lib)
                                  (UpdateGame 1 (UpdateGameRequest.onlyAway 1))
                                  Sample.league))))).
Proof.
  apply Forall_forall.
  apply (stored_games_keep_the_game_rules (L := Sample.lib) Sample.league).
  intros g [<- | []]. unfold game_rules. simpl.
  repeat split; try lia; try discriminate. tauto.
Defined.

(** X3.  Every stored player keeps the player rules.  If the players of the
    store have a positive team id, a first name, a last name and a position
    that are not empty, a jersey number between 0 and 99, a height between
    60 and 90 and a weight between 150 and 400 (the last three when
    present), then they still do after any request. *)
Theorem stored_players_keep_the_player_rules {L : GoLib} (w : World) (op : Mutation) :
  (forall p, In p (rows (players_t (store w))) -> player_rules p) ->
  forall p, In p (rows (players_t (store (snd (perform op w))))) -> player_rules p.
Proof.
  intros Hok. revert op.
  apply (perform_keeps_players (fun t => forall p, In p (rows t) -> player_rules p));
    [exact Hok | ..].
  - intros req x w' E p Hp. pose proof (CreatePlayer_rules _ _ _ _ E) as Hx.
    apply CreatePlayer_effect in E. cbv zeta in E.
    destruct E as [_ [_ [_ [_ [Hst _]]]]]. rewrite Hst in Hp. cbn [players_t set_players rows] in Hp.
    apply In_snoc in Hp. destruct Hp as [Hp | ->]; [exact (Hok p Hp) | exact Hx].
  - intros id req x w' E p Hp. pose proof (UpdatePlayer_rules _ _ _ _ _ Hok E) as Hx.
    apply UpdatePlayer_effect in E.
    destruct E as [old [_ [_ [_ [_ [_ [Hst _]]]]]]]. rewrite Hst in Hp. cbn [players_t set_players rows] in Hp.
    apply In_map_if in Hp. destruct Hp as [[Hp _] | [r [_ [_ ->]]]]; [exact (Hok p Hp) |].
    exact Hx.
  - intros id w' E p Hp. apply DeletePlayer_effect in E. destruct E as [_ [_ ->]].
    cbn [store stored players_t set_players rows] in Hp.
    apply filter_In in Hp. exact (Hok p (proj1 Hp)).
Qed.

(** The player of the sample league obeys the rules, and still does after
    an update that sets the jersey number 15 again. *)
Lemma stored_players_keep_the_player_rules_witness :
  Forall player_rules
    (rows (players_t (store (snd (perform (L := Sample.lib)
                                    (UpdatePlayer 1 (UpdatePlayerRequest.onlyJersey 15))
                                    Sample.league))))).
Proof.
  apply Forall_forall.
  apply (stored_players_keep_the_player_rules (L := Sample.lib) Sample.league).
  intros p [<- | []]. unfold player_rules, within. simpl.
  repeat split; try lia; discriminate.
Defined.

(** X4.  No statistics counter ever becomes negative.  If every statistics row
    of the store has positive player and game ids and no negative counter,
    the same holds after any request: a patch is checked for negative
    counters, and a merged counter is the stored one or the patched one. *)
Theorem stored_counters_stay_nonnegative {L : GoLib} (w : World) (op : Mutation) :
  (forall s, In s (rows (player_stats_t (store w))) -> stats_rules s) ->
  forall s, In s (rows (player_stats_t (store (snd (perform op w))))) -> stats_rules s.
Proof.
  intros Hok. revert op.
  apply (perform_keeps_stats (fun t => forall s, In s (rows t) -> stats_rules s));
    [exact Hok | ..].
  - intros req x w' E s Hs. pose proof (CreatePlayerStats_rules _ _ _ _ E) as Hx.
    apply CreatePlayerStats_effect in E. cbv zeta in E.
    destruct E as [_ [_ [_ [_ [_ [_ [Hst _]]]]]]]. rewrite Hst in Hs. cbn [player_stats_t set_player_stats rows] in Hs.
    apply In_snoc in Hs. destruct Hs as [Hs | ->]; [exact (Hok s Hs) | exact Hx].
  - intros id req x w' E s Hs. pose proof (UpdatePlayerStats_rules _ _ _ _ _ Hok E) as Hx.
    apply UpdatePlayerStats_effect in E.
    destruct E as [old [_ [_ [_ [Hxe [Hst _]]]]]]. rewrite Hst in Hs. cbn [player_stats_t set_player_stats rows] in Hs.
    apply In_map_if in Hs. destruct Hs as [[Hs _] | [r [Hr [_ ->]]]]; [exact (Hok s Hs) |].
    specialize (Hx r (Hok r Hr)). rewrite Hxe in Hx. exact Hx.
  - intros id w' E s Hs. apply DeletePlayerStats_effect in E. destruct E as [_ [_ ->]].
    cbn [store stored player_stats_t set_player_stats rows] in Hs.
    apply filter_In in Hs. exact (Hok s (proj1 Hs)).
Qed.

(** In the sample league a patch of the statistics row that sets one
    counter leaves every counter of every row non-negative. *)
Lemma stored_counters_stay_nonnegative_witness :
  Forall stats_rules
    (rows (player_stats_t
             (store (snd (perform (L := Sample.lib)
                            (UpdatePlayerStats 1
                               (UpdatePlayerStatsRequest.fromFields
                                  [("passing_attempts", 40)]))
                            Sample.league))))).
Proof.
  apply Forall_forall.
  apply (stored_counters_stay_nonnegative (L := Sample.lib) Sample.league).
  intros s [<- | []]. unfold stats_rules. simpl.
  split; [lia |]. split; [lia |].
  repeat constructor; simpl; lia.
Defined.

(** X5.  Jersey numbers stay unique within every team.  If no two stored players
    share an id and no two players of one team wear the same number, this
    still holds after any request: a create scans the team of the request,
    an update scans the team of the stored player without the player
    itself, and an update cannot move a player to another team. *)
Theorem jersey_numbers_stay_unique {L : GoLib} (w : World) (op : Mutation) :
  keyed Player.ID (players_t (store w)) ->
  unique_jerseys (store w) ->
  keyed Player.ID (players_t (store (snd (perform op w)))) /\
  unique_jerseys (store (snd (perform op w))).
Proof.
  intros Hk Hu. revert op.
  apply (perform_keeps_players
           (fun t => keyed Player.ID t /\
                     forall a b n, In a (rows t) -> In b (rows t) ->
                       Player.TeamID a = Player.TeamID b ->
                       Player.JerseyNumber a = Some n -> Player.JerseyNumber b = Some n ->
                       Player.ID a = Player.ID b));
    [split; assumption | ..].
  - intros req x w' E. apply CreatePlayer_effect in E. cbv zeta in E.
    destruct E as [_ [_ [Hscan [Hx [Hst _]]]]]. rewrite Hst.
    cbn [players_t set_players rows]. split.
    + apply keyed_insert; [exact Hk | rewrite Hx; reflexivity].
    + intros a b n Ha Hb Hteam Hja Hjb.
      apply In_snoc in Ha. apply In_snoc in Hb.
      destruct Ha as [Ha | ->]; destruct Hb as [Hb | ->].
      * exact (Hu a b n Ha Hb Hteam Hja Hjb).
      * exfalso. rewrite Hx in Hteam, Hjb. cbn [Player.TeamID Player.JerseyNumber] in *.
        exact (Hscan n a Hjb Ha Hteam Hja).
      * exfalso. rewrite Hx in Hteam, Hja. cbn [Player.TeamID Player.JerseyNumber] in *.
        exact (Hscan n b Hja Hb (eq_sym Hteam) Hjb).
      * reflexivity.
  - intros id req x w' E. apply UpdatePlayer_effect in E.
    destruct E as [old [_ [_ [Hold [Hscan [Hx [Hst _]]]]]]]. rewrite Hst.
    cbn [players_t set_players rows].
    destruct (selected_player_found _ _ _ Hold) as [Hin [Hid _]].
    split; [apply keyed_update; [exact Hk | reflexivity] |].
    assert (forall a b n,
               In a (rows (players_t (store w))) -> In b (rows (players_t (store w))) ->
               (Player.ID a =? Player.ID old) = true ->
               (Player.ID b =? Player.ID old) = false ->
               Player.TeamID x = Player.TeamID b ->
               Player.JerseyNumber x = Some n -> Player.JerseyNumber b = Some n ->
               False) as Hmix.
    { intros a b n Ha Hb Hha Hhb Hteam Hja Hjb.
      apply Z.eqb_neq in Hhb. rewrite Hx in Hteam, Hja.
      cbn [Player.TeamID Player.JerseyNumber] in Hteam, Hja.
      destruct (UpdatePlayerRequest.JerseyNumber req) as [m |] eqn:Ej; cbn [patch] in Hja.
      - inversion Hja; subst m.
        apply (Hscan n b eq_refl Hb (eq_sym Hteam)); [congruence | exact Hjb].
      - apply Hhb. symmetry. exact (Hu old b n Hin Hb Hteam Hja Hjb). }
    intros a b n Ha Hb Hteam Hja Hjb.
    apply In_map_if in Ha. apply In_map_if in Hb.
    destruct Ha as [[Ha Hha] | [ra [Hra [Hha ->]]]];
      destruct Hb as [[Hb Hhb] | [rb [Hrb [Hhb ->]]]].
    + exact (Hu a b n Ha Hb Hteam Hja Hjb).
    + exfalso. cbn [Player.TeamID Player.JerseyNumber playerRepository.updated] in *.
      exact (Hmix rb a n Hrb Ha Hhb Hha (eq_sym Hteam) Hjb Hja).
    + exfalso. cbn [Player.TeamID Player.JerseyNumber playerRepository.updated] in *.
      exact (Hmix ra b n Hra Hb Hha Hhb Hteam Hja Hjb).
    + cbn [Player.ID playerRepository.updated].
      apply Z.eqb_eq in Hha. apply Z.eqb_eq in Hhb. congruence.
  - intros id w' E. apply DeletePlayer_effect in E. destruct E as [_ [_ ->]].
    cbn [store stored players_t set_players rows]. split.
    + apply keyed_delete. exact Hk.
    + intros a b n Ha Hb. apply filter_In in Ha. apply filter_In in Hb.
      exact (Hu a b n (proj1 Ha) (proj1 Hb)).
Qed.

(** In the sample league, after a player of team 2 wearing 15 joins. *)
Lemma jersey_numbers_stay_unique_witness :
  let after :=
    store (snd (perform (L := Sample.lib)
                  (CreatePlayer (CreatePlayerRequest.mk 2 "Patrick" "Mahomes" "QB"
                                   (Some 15) (Some 74) (Some 225)))
                  Sample.league)) in
  List.length (rows (players_t after)) = 2%nat /\
  keyed Player.ID (players_t after) /\
  unique_jerseys after.
Proof.
  cbv zeta. split; [reflexivity |].
  apply (jersey_numbers_stay_unique (L := Sample.lib) Sample.league).
  - unfold keyed. simpl. split; [repeat constructor; simpl; tauto |].
    intros r [<- | []]. simpl. lia.
  - intros a b n [<- | []] [<- | []] _ _ _. reflexivity.
Defined.

(* ================================================================== *)
(** * ORDER BY *)
(* ================================================================== *)

Section OrderByFacts.
Context {A : Type} (le : A -> A -> bool).

Lemma sql_place_perm (a : A) (l : list A) : Permutation (sql_place le a l) (a :: l).
Proof.
  induction l as [| b l IH]; simpl; [reflexivity |].
  destruct (le a b); [reflexivity |].
  rewrite IH. apply perm_swap.
Qed.

(** Sorting returns the rows of the scan, each as often as it occurs. *)
Lemma sql_order_by_perm (l : list A) : Permutation (sql_order_by le l) l.
Proof.
  induction l as [| a l IH]; simpl; [reflexivity |].
  rewrite sql_place_perm. constructor. exact IH.
Qed.

Lemma sql_order_by_In (x : A) (l : list A) : In x (sql_order_by le l) <-> In x l.
Proof.
  split; apply Permutation_in; [| symmetry]; apply sql_order_by_perm.
Qed.

Hypothesis total : forall a b, le a b = false -> le b a = true.

Lemma sql_place_sorted (a : A) (l : list A) :
  Sorted (fun x y => le x y = true) l -> Sorted (fun x y => le x y = true) (sql_place le a l).
Proof.
  induction l as [| b l IH]; simpl; intros Hs.
  - repeat constructor.
  - destruct (le a b) eqn:E.
    + constructor; [exact Hs | constructor; exact E].
    + inversion Hs as [| ? ? Hl Hb]; subst.
      constructor; [exact (IH Hl) |].
      destruct l as [| c l]; simpl.
      * constructor. apply total. exact E.
      * destruct (le a c); constructor; [apply total; exact E |].
        inversion Hb; subst. assumption.
Qed.

Lemma sql_order_by_sorted (l : list A) :
  Sorted (fun x y => le x y = true) (sql_order_by le l).
Proof.
  induction l as [| a l IH]; simpl; [constructor |].
  apply sql_place_sorted. exact IH.
Qed.
End OrderByFacts.

Section TextOrder.

Lemma then_by_total (c c' : comparison) (r r' : bool) :
  c' = CompOpp c -> (r = false -> r' = true) ->
  then_by c r = false -> then_by c' r' = true.
Proof. intros -> Hr. destruct c; simpl; auto; discriminate. Qed.

Lemma compare_opp (s t : string) : String.compare t s = CompOpp (String.compare s t).
Proof. apply String.compare_antisym. Qed.
End TextOrder.

(* ================================================================== *)
(** * The read side *)
(* ================================================================== *)

Section ReadSide.
Context {L : GoLib} {C : Collation}.

Lemma readonly_team_GetAll : readonly teamRepository.GetAll.
Proof. unfold teamRepository.GetAll. reads. Qed.

Lemma readonly_team_GetByConference (c : string) : readonly (teamRepository.GetByConference c).
Proof. unfold teamRepository.GetByConference. reads. Qed.

Lemma readonly_team_GetByDivision (d : string) : readonly (teamRepository.GetByDivision d).
Proof. unfold teamRepository.GetByDivision. reads. Qed.

Lemma readonly_player_GetAll : readonly playerRepository.GetAll.
Proof. unfold playerRepository.GetAll. reads. Qed.

Lemma readonly_game_GetAll : readonly gameRepository.GetAll.
Proof. unfold gameRepository.GetAll. reads. Qed.

Lemma readonly_game_GetByTeamID (id : Z) : readonly (gameRepository.GetByTeamID id).
Proof. unfold gameRepository.GetByTeamID. reads. Qed.

Lemma readonly_game_GetBySeason (s : string) : readonly (gameRepository.GetBySeason s).
Proof. unfold gameRepository.GetBySeason. reads. Qed.

Lemma readonly_game_GetByWeek (s : string) (k : Z) : readonly (gameRepository.GetByWeek s k).
Proof. unfold gameRepository.GetByWeek. reads. Qed.

Lemma readonly_stats_GetAll : readonly playerStatsRepository.GetAll.
Proof. unfold playerStatsRepository.GetAll. reads. Qed.

Lemma readonly_stats_GetByPlayerID (id : Z) : readonly (playerStatsRepository.GetByPlayerID id).
Proof. unfold playerStatsRepository.GetByPlayerID. reads. Qed.

Lemma readonly_stats_GetByGameID (id : Z) : readonly (playerStatsRepository.GetByGameID id).
Proof. unfold playerStatsRepository.GetByGameID. reads. Qed.

Lemma readonly_stats_GetByPlayerAndGame (p g : Z) :
  readonly (playerStatsRepository.GetByPlayerAndGame p g).
Proof. unfold playerStatsRepository.GetByPlayerAndGame. reads. Qed.
End ReadSide.

#[export] Hint Resolve readonly_team_GetAll readonly_team_GetByConference
  readonly_team_GetByDivision readonly_player_GetAll readonly_game_GetAll
  readonly_game_GetByTeamID readonly_game_GetBySeason readonly_game_GetByWeek
  readonly_stats_GetAll readonly_stats_GetByPlayerID readonly_stats_GetByGameID
  readonly_stats_GetByPlayerAndGame : reads.

Section ListRuns.
Context {L : GoLib} {C : Collation}.

(** A list query: one SELECT, then the rows computed from the store. *)
Lemma query_run {B} (p q : string) (s : Stmt) (v : DB -> B) (w : World) :
  healthy w ->
  wrapf q (wrapf p (send s) ;; db <- get_store ;; ret (v db)) w
  = (Ok (v (store w)), logged s w).
Proof. intros Hw. apply wrapf_ok. apply probe_run. exact Hw. Qed.
End ListRuns.

(** X6.  The sixteen read operations of the four services only read: whatever
    they return, the store is what it was and no INSERT, UPDATE or DELETE
    was sent. *)
Theorem reads_leave_the_store_alone {L : GoLib} {C : Collation} :
  (forall id, readonly (teamService.GetTeam id)) /\
  readonly teamService.GetAllTeams /\
  (forall c, readonly (teamService.GetTeamsByConference c)) /\
  (forall d, readonly (teamService.GetTeamsByDivision d)) /\
  (forall id, readonly (playerService.GetPlayer id)) /\
  readonly playerService.GetAllPlayers /\
  (forall id, readonly (playerService.GetPlayersByTeam id)) /\
  readonly gameService.GetAllGames /\
  (forall id, readonly (gameService.GetGameByID id)) /\
  (forall id, readonly (gameService.GetGamesByTeam id)) /\
  (forall s, readonly (gameService.GetGamesBySeason s)) /\
  (forall s k, readonly (gameService.GetGamesByWeek s k)) /\
  (forall id, readonly (playerStatsService.GetPlayerStats id)) /\
  readonly playerStatsService.GetAllPlayerStats /\
  (forall id, readonly (playerStatsService.GetPlayerStatsByPlayer id)) /\
  (forall id, readonly (playerStatsService.GetPlayerStatsByGame id)).
Proof.
  repeat match goal with |- _ /\ _ => split end; intros;
    unfold teamService.GetTeam, teamService.GetAllTeams, teamService.GetTeamsByConference,
      teamService.GetTeamsByDivision, playerService.GetPlayer, playerService.GetAllPlayers,
      playerService.GetPlayersByTeam, gameService.GetAllGames, gameService.GetGameByID,
      gameService.GetGamesByTeam, gameService.GetGamesBySeason, gameService.GetGamesByWeek,
      playerStatsService.GetPlayerStats, playerStatsService.GetAllPlayerStats,
      playerStatsService.GetPlayerStatsByPlayer, playerStatsService.GetPlayerStatsByGame;
    reads.
Qed.

(** Walk through a computation, statement by statement. *)
Ltac sends :=
  repeat lazymatch goal with
    | |- avoids _ (ret _) => apply avoids_ret
    | |- avoids _ (fail _) => apply avoids_fail
    | |- avoids _ get_store => apply avoids_get_store
    | |- avoids _ (send _) => apply avoids_send; reflexivity
    | |- avoids _ (wrapf _ _) => apply avoids_wrapf
    | |- avoids _ (bind _ _) => apply avoids_bind; [| intros ?]
    | |- avoids _ (if ?c then _ else _) => destruct c
    end.

Section ReadQueries.
Context {L : GoLib} {C : Collation}.

Lemma team_order_total (a b : Team.t) :
  teamRepository.by_conference a b = false -> teamRepository.by_conference b a = true.
Proof.
  unfold teamRepository.by_conference.
  apply then_by_total; [apply compare_opp |].
  apply then_by_total; [apply compare_opp |].
  apply then_by_total; [apply compare_opp | discriminate].
Qed.

Lemma place_perm (p : Player.t) (l : list Player.t) :
  Permutation (playerRepository.place p l) (p :: l).
Proof.
  induction l as [| q l IH]; simpl; [reflexivity |].
  destruct (playerRepository.order_le p q); [reflexivity |].
  rewrite IH. apply perm_swap.
Qed.

Lemma order_by_In (x : Player.t) (l : list Player.t) :
  In x (playerRepository.order_by l) <-> In x l.
Proof.
  assert (Permutation (playerRepository.order_by l) l) as Hp.
  { induction l as [| a l IH]; simpl; [reflexivity |].
    rewrite place_perm. constructor. exact IH. }
  split; apply Permutation_in; [| symmetry]; exact Hp.
Qed.

Lemma GetTeamsByConference_run (conference : string) (w : World) :
  healthy w -> TrimSpace conference <> "" ->
  teamService.GetTeamsByConference conference w
  = (Ok (sql_order_by teamRepository.by_division
           (filter (fun t => (Team.Conference t =? TrimSpace conference)%string)
                   (rows (teams_t (store w))))),
     logged (SELECT [teams]) w).
Proof.
  intros Hw Hc. unfold teamService.GetTeamsByConference.
  replace (teamService.blank conference) with false
    by (symmetry; apply String.eqb_neq; exact Hc).
  unfold teamRepository.GetByConference.
  apply (query_run _ _ _
           (fun db => sql_order_by teamRepository.by_division
                        (filter (fun t => (Team.Conference t =? TrimSpace conference)%string)
                                (rows (teams_t db))))).
  exact Hw.
Qed.

Lemma GetAllTeams_run (w : World) :
  healthy w ->
  teamService.GetAllTeams w
  = (Ok (sql_order_by teamRepository.by_conference (rows (teams_t (store w)))),
     logged (SELECT [teams]) w).
Proof.
  intros Hw. unfold teamService.GetAllTeams, teamRepository.GetAll.
  apply (query_run _ _ _
           (fun db => sql_order_by teamRepository.by_conference (rows (teams_t db)))).
  exact Hw.
Qed.

Lemma GetPlayersByTeam_run (teamID : Z) (w : World) :
  healthy w -> 0 < teamID ->
  playerService.GetPlayersByTeam teamID w
  = if sql_exists Team.ID teamID (teams_t (store w))
    then (Ok (playerRepository.order_by
                (filter (fun p => (Player.TeamID p =? teamID) &&
                                  playerRepository.joined (store w) p)
                        (rows (players_t (store w))))),
          logged (SELECT [players; teams]) (logged (SELECT [teams]) w))
    else (Err ("team with ID " ++ itoa teamID ++ " not found"), logged (SELECT [teams]) w).
Proof.
  intros Hw Hid. unfold playerService.GetPlayersByTeam.
  replace (teamID <=? 0) with false by (symmetry; apply Z.leb_gt; exact Hid).
  erewrite bind_ok by (apply wrapf_ok; apply team_Exists_run; exact Hw).
  destruct (sql_exists Team.ID teamID (teams_t (store w))); cbn [negb]; [| reflexivity].
  unfold playerRepository.GetByTeamID.
  apply (query_run _ _ _
           (fun db => playerRepository.order_by
                        (filter (fun p => (Player.TeamID p =? teamID) &&
                                          playerRepository.joined db p)
                                (rows (players_t db))))
           (logged (SELECT [teams]) w)).
  auto with world.
Qed.

Lemma GetPlayerStatsByGame_run (gameID : Z) (w : World) :
  healthy w -> 0 < gameID ->
  playerStatsService.GetPlayerStatsByGame gameID w
  = (Ok (sql_order_by (playerStatsRepository.by_owner (store w))
           (filter (fun ps => (PlayerStats.GameID ps =? gameID) &&
                              playerStatsRepository.joined (store w) ps)
                   (rows (player_stats_t (store w))))),
     logged (SELECT [player_stats; players; teams]) w).
Proof.
  intros Hw Hid. unfold playerStatsService.GetPlayerStatsByGame.
  replace (gameID <=? 0) with false by (symmetry; apply Z.leb_gt; exact Hid).
  unfold playerStatsRepository.GetByGameID.
  apply (query_run _ _ _
           (fun db => sql_order_by (playerStatsRepository.by_owner db)
                        (filter (fun ps => (PlayerStats.GameID ps =? gameID) &&
                                           playerStatsRepository.joined db ps)
                                (rows (player_stats_t db))))).
  exact Hw.
Qed.

Lemma GetPlayerStatsByGame_avoids_games (gameID : Z) :
  avoids games (playerStatsService.GetPlayerStatsByGame gameID).
Proof.
  unfold playerStatsService.GetPlayerStatsByGame, playerStatsRepository.GetByGameID.
  sends.
Qed.

Lemma GetGamesByWeek_run (season : string) (week : Z) (w : World) :
  healthy w -> season <> "" -> 1 <= week <= 22 ->
  gameService.GetGamesByWeek season week w
  = (Ok (sql_order_by gameRepository.by_date
           (filter (fun g => (Game.Season g =? season)%string && (Game.Week g =? week) &&
                             gameRepository.joined (store w) g)
                   (rows (games_t (store w))))),
     logged (SELECT [games; teams]) w).
Proof.
  intros Hw Hs Hk. unfold gameService.GetGamesByWeek.
  replace (season =? "")%string with false by (symmetry; apply String.eqb_neq; exact Hs).
  replace ((week <? 1) || (week >? 22)) with false by (symmetry; apply week_spec; exact Hk).
  unfold gameRepository.GetByWeek.
  apply (probe_run _ _
           (fun db => sql_order_by gameRepository.by_date
                        (filter (fun g => (Game.Season g =? season)%string &&
                                          (Game.Week g =? week) &&
                                          gameRepository.joined db g)
                                (rows (games_t db))))).
  exact Hw.
Qed.
End ReadQueries.

(* ================================================================== *)
(** * What the queries return *)
(* ================================================================== *)

(** X7.  Teams are found by the exact text of their conference.  A blank
    conference is refused before any statement is sent; otherwise the
    query returns the stored teams whose conference is, character for
    character, the trimmed argument.  The stored conference is the text the
    client typed (the create validator accepts any letter case), so a team
    stored under another spelling is not returned. *)
Theorem teams_by_conference_match_exactly {L : GoLib} (conference : string) (w : World) :
  (TrimSpace conference = "" ->
   teamService.GetTeamsByConference conference w = (Err "conference cannot be empty", w)) /\
  (TrimSpace conference <> "" -> healthy w ->
   exists found,
     teamService.GetTeamsByConference conference w
     = (Ok found, logged (SELECT [teams]) w) /\
     forall t, In t found <->
               In t (rows (teams_t (store w))) /\ Team.Conference t = TrimSpace conference).
Proof.
  split.
  - intros Hb. unfold teamService.GetTeamsByConference, teamService.blank.
    rewrite Hb. reflexivity.
  - intros Hc Hw. eexists. split; [apply GetTeamsByConference_run; assumption |].
    intros t. rewrite sql_order_by_In, filter_In, String.eqb_eq. tauto.
Qed.

(** The sample league holds the Chiefs, created in conference "AFC", and
    the Raiders, created in conference "afc": a query for " AFC " returns
    the Chiefs alone. *)
Lemma teams_by_conference_match_exactly_witness :
  option_map (map Team.Name)
    (value (fst (teamService.GetTeamsByConference (L := Sample.lib) " AFC " Sample.league)))
  = Some ["Chiefs"] /\
  exists found,
    teamService.GetTeamsByConference (L := Sample.lib) " AFC " Sample.league
    = (Ok found, logged (SELECT [teams]) Sample.league) /\
    forall t, In t found <->
              In t (rows (teams_t (store Sample.league))) /\ Team.Conference t = "AFC".
Proof.
  split; [reflexivity |].
  apply (teams_by_conference_match_exactly (L := Sample.lib) " AFC " Sample.league).
  - discriminate.
  - intros n. reflexivity.
Defined.

(** X8.  The list of all teams is the teams table, sorted.  On a healthy store
    [GetAllTeams] returns every stored team exactly once, and each team of
    the list comes no later than its successor in the order of the query's
    ORDER BY clause (conference, then division, then name). *)
Theorem all_teams_are_listed_in_order {L : GoLib} (w : World) :
  healthy w ->
  exists found,
    teamService.GetAllTeams w = (Ok found, logged (SELECT [teams]) w) /\
    Permutation found (rows (teams_t (store w))) /\
    Sorted (fun a b => teamRepository.by_conference a b = true) found.
Proof.
  intros Hw. eexists. split; [apply GetAllTeams_run; exact Hw |]. split.
  - apply sql_order_by_perm.
  - apply sql_order_by_sorted. apply team_order_total.
Qed.

(** In the sample league the Raiders ("afc") come after the Chiefs ("AFC"):
    the order is that of the bytes. *)
Lemma all_teams_are_listed_in_order_witness :
  option_map (map Team.Name)
    (value (fst (teamService.GetAllTeams (L := Sample.lib) Sample.league)))
  = Some ["Chiefs"; "Raiders"] /\
  exists found,
    teamService.GetAllTeams (L := Sample.lib) Sample.league
    = (Ok found, logged (SELECT [teams]) Sample.league) /\
    Permutation found (rows (teams_t (store Sample.league))) /\
    Sorted (fun a b => teamRepository.by_conference a b = true) found.
Proof.
  split; [reflexivity |].
  apply (all_teams_are_listed_in_order (L := Sample.lib) Sample.league).
  intros n. reflexivity.
Defined.

(** X9.  The players of a team.  For a positive team id on a healthy store,
    [GetPlayersByTeam] reports "team with ID <id> not found" when the team
    does not exist, and otherwise returns exactly the stored players whose
    team id is the given one. *)
Theorem players_of_a_team {L : GoLib} (teamID : Z) (w : World) :
  0 < teamID -> healthy w ->
  (sql_exists Team.ID teamID (teams_t (store w)) = false ->
   playerService.GetPlayersByTeam teamID w
   = (Err ("team with ID " ++ itoa teamID ++ " not found"), logged (SELECT [teams]) w)) /\
  (sql_exists Team.ID teamID (teams_t (store w)) = true ->
   exists found,
     playerService.GetPlayersByTeam teamID w
     = (Ok found, logged (SELECT [players; teams]) (logged (SELECT [teams]) w)) /\
     forall p, In p found <->
               In p (rows (players_t (store w))) /\ Player.TeamID p = teamID).
Proof.
  intros Hid Hw. rewrite GetPlayersByTeam_run by assumption.
  split; intros E; rewrite E; [reflexivity |].
  eexists. split; [reflexivity |].
  intros p. rewrite order_by_In, filter_In, andb_true_iff, Z.eqb_eq.
  unfold playerRepository.joined. split; [tauto |].
  intros [Hin Ht]. rewrite Ht. auto.
Qed.

(** Team 1 of the sample league has one player; team 2 exists and has
    none; team 3 does not exist. *)
Lemma players_of_a_team_witness :
  option_map (map Player.LastName)
    (value (fst (playerService.GetPlayersByTeam (L := Sample.lib) 1 Sample.league)))
  = Some ["Mahomes"] /\
  value (fst (playerService.GetPlayersByTeam (L := Sample.lib) 2 Sample.league)) = Some [] /\
  playerService.GetPlayersByTeam (L := Sample.lib) 3 Sample.league
  = (Err "team with ID 3 not found", logged (SELECT [teams]) Sample.league).
Proof.
  split; [reflexivity |]. split; [reflexivity |].
  apply (players_of_a_team (L := Sample.lib) 3 Sample.league).
  - lia.
  - intros n. reflexivity.
  - reflexivity.
Defined.

(** X10.  Statistics by game are returned without looking the game up.  No
    statement of [GetPlayerStatsByGame] reads the games table, and for any
    positive game id, whether such a game exists or not, it returns the
    statistics rows of that game id whose player and team can be joined;
    [GetPlayerStatsByPlayer], in contrast, reports "player with ID <id> not
    found" for a player that does not exist. *)
Theorem stats_by_game_skip_the_game_lookup {L : GoLib} {C : Collation} (id : Z) (w : World) :
  avoids games (playerStatsService.GetPlayerStatsByGame id) /\
  (0 < id -> healthy w ->
   (exists stats,
       playerStatsService.GetPlayerStatsByGame id w
       = (Ok stats, logged (SELECT [player_stats; players; teams]) w) /\
       forall s, In s stats <->
                 In s (rows (player_stats_t (store w))) /\ PlayerStats.GameID s = id /\
                 playerStatsRepository.joined (store w) s = true) /\
   (sql_exists Player.ID id (players_t (store w)) = false ->
    playerStatsService.GetPlayerStatsByPlayer id w
    = (Err ("player with ID " ++ itoa id ++ " not found"), logged (SELECT [players]) w))).
Proof.
  split; [apply GetPlayerStatsByGame_avoids_games |].
  intros Hid Hw. split.
  - eexists. split; [apply GetPlayerStatsByGame_run; assumption |].
    intros s. rewrite sql_order_by_In, filter_In, andb_true_iff, Z.eqb_eq. tauto.
  - intros E. unfold playerStatsService.GetPlayerStatsByPlayer.
    replace (id <=? 0) with false by (symmetry; apply Z.leb_gt; exact Hid).
    erewrite bind_ok by (apply wrapf_ok; apply player_Exists_run; exact Hw).
    rewrite E. reflexivity.
Qed.

(** The sample league has no game 7 and no player 7: the statistics of
    game 7 are an empty list, those of player 7 an error. *)
Lemma stats_by_game_skip_the_game_lookup_witness :
  sql_exists Game.ID 7 (games_t (store Sample.league)) = false /\
  value (fst (playerStatsService.GetPlayerStatsByGame
                (L := Sample.lib) 7 Sample.league)) = Some [] /\
  playerStatsService.GetPlayerStatsByPlayer
    (L := Sample.lib) (C := Sample.collation) 7 Sample.league
  = (Err "player with ID 7 not found", logged (SELECT [players]) Sample.league).
Proof.
  split; [reflexivity |]. split; [reflexivity |].
  apply (stats_by_game_skip_the_game_lookup
           (L := Sample.lib) (C := Sample.collation) 7 Sample.league).
  - lia.
  - intros n. reflexivity.
  - reflexivity.
Defined.

(* ================================================================== *)
(** * The handlers *)
(* ================================================================== *)

Section Handlers.
Context {L : GoLib} {C : Collation}.

Lemma respond_ok {A B} (call : M A) (failed : string -> http.Response B)
    (succeeded : A -> http.Response B) (w w' : World) (a : A) :
  call w = (Ok a, w') -> respond call failed succeeded w = (succeeded a, w').
Proof. intros H. unfold respond. rewrite H. reflexivity. Qed.

Lemma respond_err {A B} (call : M A) (failed : string -> http.Response B)
    (succeeded : A -> http.Response B) (w w' : World) (e : string) :
  call w = (Err e, w') -> respond call failed succeeded w = (failed e, w').
Proof. intros H. unfold respond. rewrite H. reflexivity. Qed.

(** "invalid ... ID: <id>" is none of the texts the game handlers look for. *)
Lemma invalid_id_is_internal (what : string) (id : Z) :
  existsb (fun c => existsb (Ascii.eqb c) (list_ascii_of_string what))
          (list_ascii_of_string "fc") = false ->
  Contains ("invalid " ++ what ++ " ID: " ++ itoa id) "not found" = false /\
  GameHandler.is_client_error ("invalid " ++ what ++ " ID: " ++ itoa id) = false.
Proof.
  intros Hw. simpl in Hw. apply orb_false_iff in Hw. destruct Hw as [Hf Hc].
  apply orb_false_iff in Hc. destruct Hc as [Hc _].
  assert (forall c t, existsb (Ascii.eqb c) (list_ascii_of_string t) = true ->
                      existsb (Ascii.eqb c) (list_ascii_of_string what) = false ->
                      existsb (Ascii.eqb c)
                        (list_ascii_of_string "invalid  ID: -0123456789") = false ->
                      Contains ("invalid " ++ what ++ " ID: " ++ itoa id) t = false) as Hl.
  { intros c t Ht Hwhat Hfix.
    replace ("invalid " ++ what ++ " ID: " ++ itoa id)
      with (("invalid " ++ what ++ " ID: ") ++ itoa id)
      by (rewrite !append_assoc; reflexivity).
    apply number_lacks with (c := c); [exact Ht |].
    rewrite !chars_app, !existsb_app. rewrite Hwhat.
    change (list_ascii_of_string "invalid  ID: -0123456789")
      with (list_ascii_of_string "invalid " ++ list_ascii_of_string " ID: " ++
            list_ascii_of_string "-0123456789")%list in Hfix.
    rewrite !existsb_app in Hfix.
    apply orb_false_iff in Hfix. destruct Hfix as [H1 H2].
    apply orb_false_iff in H2. destruct H2 as [H2 H3].
    rewrite H1, H2, H3. reflexivity. }
  assert (Contains ("invalid " ++ what ++ " ID: " ++ itoa id) "not found" = false) as Hnf
    by (apply (Hl "f"%char); [reflexivity | exact Hf | reflexivity]).
  split; [exact Hnf |].
  unfold GameHandler.is_client_error. rewrite Hnf.
  rewrite (Hl "f"%char "validation failed"); [| reflexivity | exact Hf | reflexivity].
  rewrite (Hl "c"%char "cannot be the same"); [| reflexivity | exact Hc | reflexivity].
  reflexivity.
Qed.

Lemma not_found_is_found (a : string) (id : Z) :
  Contains (a ++ itoa id ++ " not found") "not found" = true.
Proof.
  replace (a ++ itoa id ++ " not found") with ((a ++ itoa id ++ " ") ++ "not found").
  - apply Contains_suffix.
  - rewrite !append_assoc. reflexivity.
Qed.
End Handlers.

Section WriteRuns.
Context {L : GoLib}.

(** An INSERT that collides with a stored row on the UNIQUE constraint. *)
Lemma insert_clash {A} (p cols : string) (s : Stmt) (get : DB -> table A)
    (set : table A -> DB -> DB) (key : A -> Z) (clash : A -> bool)
    (row : Time -> Z -> A) (w : World) :
  healthy w ->
  existsb clash (rows (get (store w))) = true ->
  (currentTime <- time_Now ;;
   id <- wrapf p (send s ;;
                  on_table get set (sql_insert key clash cols (row currentTime))) ;;
   ret (row currentTime id)) w
  = (Err (p ++ "UNIQUE constraint failed: " ++ cols), logged s (ticked w)).
Proof.
  intros Hw Hc.
  unfold bind, wrapf, send, on_table, time_Now, ret, sql_insert.
  cbn [store trace ticks oracle ticked logged].
  rewrite Hw, Hc. reflexivity.
Qed.

(** A valid create with two existing, different teams reaches the INSERT. *)
Lemma CreateGame_reaches_insert (req : CreateGameRequest.t) (w : World) :
  healthy w ->
  gameService.validateCreateGameRequest req w = (Ok tt, ticked (ticked w)) ->
  sql_exists Team.ID (CreateGameRequest.HomeTeamID req) (teams_t (store w)) = true ->
  sql_exists Team.ID (CreateGameRequest.AwayTeamID req) (teams_t (store w)) = true ->
  CreateGameRequest.HomeTeamID req <> CreateGameRequest.AwayTeamID req ->
  gameService.CreateGame req w
  = wrapf "failed to create game: "
      (gameRepository.Create
         (Game.mk 0 (CreateGameRequest.HomeTeamID req) (CreateGameRequest.AwayTeamID req)
            (CreateGameRequest.Season req) (CreateGameRequest.Week req)
            (CreateGameRequest.GameDate req)
            (if (CreateGameRequest.Status req =? "")%string then "scheduled"
             else CreateGameRequest.Status req)
            (CreateGameRequest.HomeScore req) (CreateGameRequest.AwayScore req)
            zeroTime zeroTime))
      (logged (SELECT [teams]) (logged (SELECT [teams]) (ticked (ticked w)))).
Proof.
  intros Hw Hv Hh Ha Hne. unfold gameService.CreateGame.
  erewrite bind_ok by (apply wrapf_ok; exact Hv).
  erewrite bind_ok by (apply wrapf_ok; apply team_Exists_run; auto with world).
  cbn [store ticked logged]. rewrite Hh. cbn [negb].
  erewrite bind_ok by (apply wrapf_ok; apply team_Exists_run; auto with world).
  cbn [store ticked logged]. rewrite Ha. cbn [negb].
  replace (CreateGameRequest.HomeTeamID req =? CreateGameRequest.AwayTeamID req) with false
    by (symmetry; apply Z.eqb_neq; exact Hne).
  reflexivity.
Qed.
End WriteRuns.

(* ================================================================== *)
(** * Status codes *)
(* ================================================================== *)

(** X11.  An id that is zero or negative is answered differently by the three
    handlers.  The services refuse it with "invalid ... ID: <id>" before
    any statement is sent; the team and player handlers answer every error
    of a GET or DELETE with 404 and every error of a PUT with 400, and the
    game handlers, which look for "not found", "validation failed" and
    "cannot be the same" in the message, find none of them and answer 500. *)
Theorem nonpositive_ids_by_route {L : GoLib} {C : Collation}
    (idStr : string) (id : Z) (w : World) :
  Atoi idStr = Some id -> id <= 0 ->
  TeamHandler.GetTeam idStr w
  = (http.Error ("invalid team ID: " ++ itoa id) http.StatusNotFound, w) /\
  TeamHandler.DeleteTeam idStr w
  = (http.Error ("invalid team ID: " ++ itoa id) http.StatusNotFound, w) /\
  (forall req, TeamHandler.UpdateTeam idStr (Some req) w
               = (http.Error ("invalid team ID: " ++ itoa id) http.StatusBadRequest, w)) /\
  PlayerHandler.GetPlayer idStr w
  = (http.Error ("invalid player ID: " ++ itoa id) http.StatusNotFound, w) /\
  PlayerHandler.DeletePlayer idStr w
  = (http.Error ("invalid player ID: " ++ itoa id) http.StatusNotFound, w) /\
  (forall req, PlayerHandler.UpdatePlayer idStr (Some req) w
               = (http.Error ("invalid player ID: " ++ itoa id) http.StatusBadRequest, w)) /\
  GameHandler.GetGame idStr w
  = (http.Error ("Failed to get game: invalid game ID: " ++ itoa id)
                http.StatusInternalServerError, w) /\
  GameHandler.DeleteGame idStr w
  = (http.Error ("Failed to delete game: invalid game ID: " ++ itoa id)
                http.StatusInternalServerError, w) /\
  (forall req, GameHandler.UpdateGame idStr (Some req) w
               = (http.Error ("Failed to update game: invalid game ID: " ++ itoa id)
                             http.StatusInternalServerError, w)) /\
  GameHandler.GetGamesByTeam idStr w
  = (http.Error ("Failed to get games: invalid team ID: " ++ itoa id)
                http.StatusInternalServerError, w).
Proof.
  intros Ha Hid. apply Z.leb_le in Hid.
  destruct (invalid_id_is_internal "game" id eq_refl) as [Hg Hgc].
  destruct (invalid_id_is_internal "team" id eq_refl) as [Ht _].
  change ("invalid " ++ "game" ++ " ID: " ++ itoa id)
    with ("invalid game ID: " ++ itoa id) in Hg, Hgc.
  change ("invalid " ++ "team" ++ " ID: " ++ itoa id)
    with ("invalid team ID: " ++ itoa id) in Ht.
  unfold TeamHandler.GetTeam, TeamHandler.DeleteTeam, TeamHandler.UpdateTeam,
    PlayerHandler.GetPlayer, PlayerHandler.DeletePlayer, PlayerHandler.UpdatePlayer,
    GameHandler.GetGame, GameHandler.DeleteGame, GameHandler.UpdateGame,
    GameHandler.GetGamesByTeam.
  rewrite Ha.
  unfold respond, teamService.GetTeam, teamService.DeleteTeam, teamService.UpdateTeam,
    playerService.GetPlayer, playerService.DeletePlayer, playerService.UpdatePlayer,
    gameService.GetGameByID, gameService.DeleteGame, gameService.UpdateGame,
    gameService.GetGamesByTeam.
  rewrite Hid. unfold fail. rewrite Hg, Hgc, Ht.
  repeat split.
Qed.

(** The paths "/api/teams/0", "/api/players/0" and "/api/games/0". *)
Lemma nonpositive_ids_by_route_witness :
  fst (TeamHandler.GetTeam (L := Sample.lib) "0" Sample.league)
  = http.Error "invalid team ID: 0" 404 /\
  fst (GameHandler.GetGame (L := Sample.lib) "0" Sample.league)
  = http.Error "Failed to get game: invalid game ID: 0" 500.
Proof.
  destruct (nonpositive_ids_by_route (L := Sample.lib) (C := Sample.collation)
              "0" 0 Sample.league eq_refl ltac:(lia))
    as [Ht [_ [_ [_ [_ [_ [Hg _]]]]]]].
  rewrite Ht, Hg. split; reflexivity.
Defined.

(** X12.  A game that cannot be found is answered 404 by GET and DELETE but 400
    by PUT.  For a positive id on a healthy store: GET answers 200 with the
    game the joined query selects, or 404 with "game with ID <id> not
    found"; DELETE answers 404 with the same message when no row has the
    id, and otherwise 204 after removing the rows with the id; PUT fetches
    the game before it looks at the body, so for a game that cannot be found
    it answers 400 with "failed to get game: game with ID <id> not found"
    whatever the body holds. *)
Theorem missing_game_by_route {L : GoLib}
    (idStr : string) (id : Z) (w : World) :
  Atoi idStr = Some id -> 0 < id -> healthy w ->
  GameHandler.GetGame idStr w
  = (match selected_game id (store w) with
     | Some game => http.Encode game
     | None => http.Error ("game with ID " ++ itoa id ++ " not found") http.StatusNotFound
     end, logged (SELECT [games; teams]) w) /\
  (sql_exists Game.ID id (games_t (store w)) = false ->
   GameHandler.DeleteGame idStr w
   = (http.Error ("game with ID " ++ itoa id ++ " not found") http.StatusNotFound,
      logged (SELECT [games]) w)) /\
  (sql_exists Game.ID id (games_t (store w)) = true ->
   GameHandler.DeleteGame idStr w
   = (http.mkResponse http.StatusNoContent http.empty,
      stored (set_games
                (mkTable (filter (fun g => negb (Game.ID g =? id)) (rows (games_t (store w))))
                         (seq (games_t (store w))))
                (store w))
             (logged (DELETE games) (logged (SELECT [games]) w)))) /\
  (selected_game id (store w) = None ->
   forall req,
     GameHandler.UpdateGame idStr (Some req) w
     = (http.Error ("failed to get game: game with ID " ++ itoa id ++ " not found")
                   http.StatusBadRequest,
        logged (SELECT [games; teams]) w)).
Proof.
  intros Ha Hid Hw. apply Z.leb_gt in Hid.
  unfold GameHandler.GetGame, GameHandler.DeleteGame, GameHandler.UpdateGame.
  rewrite Ha. split; [| split; [| split]].
  - unfold respond, gameService.GetGameByID. rewrite Hid.
    rewrite game_GetByID_run by exact Hw.
    destruct (selected_game id (store w)); [reflexivity |].
    rewrite not_found_is_found. reflexivity.
  - intros E. erewrite respond_err.
    + rewrite not_found_is_found. reflexivity.
    + unfold gameService.DeleteGame. rewrite Hid.
      erewrite bind_ok by (apply wrapf_ok; apply game_Exists_run; exact Hw).
      rewrite E. reflexivity.
  - intros E. erewrite respond_ok; [reflexivity |].
    unfold gameService.DeleteGame. rewrite Hid.
    erewrite bind_ok by (apply wrapf_ok; apply game_Exists_run; exact Hw).
    rewrite E. cbn [negb]. unfold gameRepository.Delete.
    rewrite delete_run by (auto with world).
    reflexivity.
  - intros E req.
    assert (gameService.UpdateGame id req w
            = (Err ("failed to get game: game with ID " ++ itoa id ++ " not found"),
               logged (SELECT [games; teams]) w)) as Hs.
    { unfold gameService.UpdateGame. rewrite Hid.
      apply bind_err.
      apply (wrapf_err "failed to get game: " _ _ _
               ("game with ID " ++ itoa id ++ " not found")).
      rewrite game_GetByID_run by exact Hw. rewrite E. reflexivity. }
    rewrite (respond_err _ _ _ _ _ _ Hs).
    unfold GameHandler.is_client_error.
    rewrite (not_found_is_found "failed to get game: game with ID " id).
    rewrite orb_true_r. reflexivity.
Qed.

(** The sample league has game 1 and no game 9. *)
Lemma missing_game_by_route_witness :
  fst (GameHandler.GetGame (L := Sample.lib) "9" Sample.league)
  = http.Error "game with ID 9 not found" 404 /\
  fst (GameHandler.DeleteGame (L := Sample.lib) "9" Sample.league)
  = http.Error "game with ID 9 not found" 404 /\
  fst (GameHandler.UpdateGame (L := Sample.lib) "9"
         (Some (UpdateGameRequest.onlyAway 1)) Sample.league)
  = http.Error "failed to get game: game with ID 9 not found" 400 /\
  fst (GameHandler.DeleteGame (L := Sample.lib) "1" Sample.league)
  = http.mkResponse 204 http.empty.
Proof.
  assert (healthy (L := Sample.lib) Sample.league) as Hw by (intros n; reflexivity).
  destruct (missing_game_by_route (L := Sample.lib)
              "9" 9 Sample.league eq_refl ltac:(lia) Hw)
    as [Hg [Hd [_ Hu]]].
  destruct (missing_game_by_route (L := Sample.lib)
              "1" 1 Sample.league eq_refl ltac:(lia) Hw)
    as [_ [_ [Hd1 _]]].
  rewrite Hg, (Hd eq_refl), (Hu eq_refl), (Hd1 eq_refl).
  repeat split.
Defined.

(** X13.  The status of a game create.  A body that cannot be decoded and every
    failure of the validator are answered 400, the latter with "validation
    failed: <message>"; so are a team that does not exist and a game of a
    team against itself.  A game that collides with a stored one on home
    team, away team, season, week and date is refused only by the UNIQUE
    constraint of the table: the message of that failure, which the
    repository, the service and the handler each prefix with "failed to
    create game", has none of the texts the handler looks for, and the
    answer is 500.  An accepted game is answered 201. *)
Theorem game_create_status_codes {L : GoLib} (req : CreateGameRequest.t) (w : World) :
  GameHandler.CreateGame None w = (http.Error "Invalid JSON" http.StatusBadRequest, w) /\
  (forall e w1,
      gameService.validateCreateGameRequest req w = (Err e, w1) ->
      GameHandler.CreateGame (Some req) w
      = (http.Error ("validation failed: " ++ e) http.StatusBadRequest, w1)) /\
  (healthy w ->
   gameService.validateCreateGameRequest req w = (Ok tt, ticked (ticked w)) ->
   (sql_exists Team.ID (CreateGameRequest.HomeTeamID req) (teams_t (store w)) = false ->
    fst (GameHandler.CreateGame (Some req) w)
    = http.Error ("home team with ID " ++ itoa (CreateGameRequest.HomeTeamID req) ++
                  " not found") http.StatusBadRequest) /\
   (sql_exists Team.ID (CreateGameRequest.HomeTeamID req) (teams_t (store w)) = true ->
    sql_exists Team.ID (CreateGameRequest.AwayTeamID req) (teams_t (store w)) = true ->
    (CreateGameRequest.HomeTeamID req = CreateGameRequest.AwayTeamID req ->
     fst (GameHandler.CreateGame (Some req) w)
     = http.Error "home team and away team cannot be the same" http.StatusBadRequest) /\
    (CreateGameRequest.HomeTeamID req <> CreateGameRequest.AwayTeamID req ->
     (exists g, In g (rows (games_t (store w))) /\
                Game.HomeTeamID g = CreateGameRequest.HomeTeamID req /\
                Game.AwayTeamID g = CreateGameRequest.AwayTeamID req /\
                Game.Season g = CreateGameRequest.Season req /\
                Game.Week g = CreateGameRequest.Week req /\
                time_eqb (CreateGameRequest.GameDate req) (Game.GameDate g) = true) ->
     fst (GameHandler.CreateGame (Some req) w)
     = http.Error ("Failed to create game: failed to create game: " ++
                   "failed to create game: UNIQUE constraint failed: " ++
                   "games.home_team_id, games.away_team_id, " ++
                   "games.season, games.week, games.game_date")
                  http.StatusInternalServerError /\
     store (snd (GameHandler.CreateGame (Some req) w)) = store w))) /\
  (forall game w',
      gameService.CreateGame req w = (Ok game, w') ->
      GameHandler.CreateGame (Some req) w
      = (http.mkResponse http.StatusCreated (http.json game), w')).
Proof.
  unfold GameHandler.CreateGame.
  split; [reflexivity |]. split; [| split].
  - intros e w1 Hv.
    assert (gameService.CreateGame req w = (Err ("validation failed: " ++ e), w1)) as Hs.
    { unfold gameService.CreateGame. apply bind_err. apply wrapf_err. exact Hv. }
    rewrite (respond_err _ _ _ _ _ _ Hs). unfold GameHandler.is_client_error.
    pose proof (Contains_prefix "validation failed" (": " ++ e)) as Hc.
    change ("validation failed" ++ ": " ++ e) with ("validation failed: " ++ e) in Hc.
    rewrite Hc. reflexivity.
  - intros Hw Hv. split.
    + intros Eh.
      assert (fst (gameService.CreateGame req w)
              = Err ("home team with ID " ++ itoa (CreateGameRequest.HomeTeamID req) ++
                     " not found")) as Hs.
      { unfold gameService.CreateGame.
        erewrite bind_ok by (apply wrapf_ok; exact Hv).
        erewrite bind_ok by (apply wrapf_ok; apply team_Exists_run; auto with world).
        cbn [store ticked logged]. rewrite Eh. reflexivity. }
      unfold respond. destruct (gameService.CreateGame req w) as [r w1].
      cbn [fst] in Hs. subst r. cbn [fst].
      unfold GameHandler.is_client_error.
      rewrite (not_found_is_found "home team with ID " (CreateGameRequest.HomeTeamID req)).
      rewrite orb_true_r. reflexivity.
    + intros Eh Ea. split.
      * intros Hsame.
        assert (fst (gameService.CreateGame req w)
                = Err "home team and away team cannot be the same") as Hs.
        { unfold gameService.CreateGame.
          erewrite bind_ok by (apply wrapf_ok; exact Hv).
          erewrite bind_ok by (apply wrapf_ok; apply team_Exists_run; auto with world).
          cbn [store ticked logged]. rewrite Eh. cbn [negb].
          erewrite bind_ok by (apply wrapf_ok; apply team_Exists_run; auto with world).
          cbn [store ticked logged]. rewrite Ea. cbn [negb].
          rewrite Hsame, Z.eqb_refl. reflexivity. }
        unfold respond. destruct (gameService.CreateGame req w) as [r w1].
        cbn [fst] in Hs. subst r. reflexivity.
      * intros Hne [g [Hin [Gh [Ga [Gs [Gk Gd]]]]]].
        pose proof (CreateGame_reaches_insert req w Hw Hv Eh Ea Hne) as Hs.
        set (game := Game.mk 0 _ _ _ _ _ _ _ _ _ _) in Hs.
        assert (existsb (gameRepository.same game) (rows (games_t (store w))) = true) as Hc.
        { apply existsb_exists. exists g. split; [exact Hin |].
          unfold gameRepository.same, game.
          cbn [Game.HomeTeamID Game.AwayTeamID Game.Season Game.Week Game.GameDate].
          rewrite Gh, Ga, Gs, Gk, Gd, !Z.eqb_refl, String.eqb_refl. reflexivity. }
        unfold gameRepository.Create in Hs.
        erewrite wrapf_err in Hs by (apply insert_clash; [auto with world | exact Hc]).
        rewrite (respond_err _ _ _ _ _ _ Hs).
        split; reflexivity.
  - intros game w' Hs. rewrite (respond_ok _ _ _ _ _ _ Hs). reflexivity.
Qed.

(* ================================================================== *)
(** * Reading back what was written *)
(* ================================================================== *)

Section ReadBack.
Context {L : GoLib}.

Lemma max_rowid_upper {A} (key : A -> Z) (t : table A) (r : A) :
  In r (rows t) -> key r <= max_rowid key t.
Proof.
  unfold max_rowid. induction (rows t) as [| x l IH]; simpl; [contradiction |].
  intros [-> | H]; [lia |]. specialize (IH H). lia.
Qed.

Lemma max_rowid_seq {A} (key : A -> Z) (t : table A) : seq t <= max_rowid key t.
Proof.
  unfold max_rowid. induction (rows t) as [| x l IH]; simpl; lia.
Qed.

Lemma find_snoc_fresh {A} (f : A -> bool) (l : list A) (x : A) :
  (forall r, In r l -> f r = false) -> f x = true -> find f (l ++ [x])%list = Some x.
Proof.
  intros Hl Hx. induction l as [| y l IH]; simpl.
  - rewrite Hx. reflexivity.
  - rewrite (Hl y) by (left; reflexivity). apply IH. intros r Hr. apply Hl. right. exact Hr.
Qed.

Lemma find_ext {A} (f g : A -> bool) (l : list A) :
  (forall x, f x = g x) -> find f l = find g l.
Proof.
  intros H. induction l as [| x l IH]; simpl; [reflexivity |].
  rewrite H, IH. reflexivity.
Qed.

(** The first row with a fresh id is the one just appended. *)
Lemma find_inserted {A} (key : A -> Z) (P : A -> bool) (t : table A) (x : A) :
  key x = max_rowid key t + 1 -> P x = true ->
  find (fun r => (key r =? key x) && P r) (rows t ++ [x])%list = Some x.
Proof.
  intros Hk HP. apply find_snoc_fresh.
  - intros r Hr. apply andb_false_iff. left. apply Z.eqb_neq.
    pose proof (max_rowid_upper key t r Hr). lia.
  - rewrite Z.eqb_refl, HP. reflexivity.
Qed.

(** With unique ids, the row selected after an UPDATE is the updated one. *)
Lemma find_updated {A} (key : A -> Z) (P : A -> bool) (g : A -> A) (l : list A)
    (old : A) (id : Z) :
  NoDup (map key l) -> In old l -> key old = id ->
  (forall r, key (g r) = key r) -> P (g old) = true ->
  find (fun r => (key r =? id) && P r) (map (fun r => if key r =? id then g r else r) l)
  = Some (g old).
Proof.
  intros Hn Hin Hid Hg HP. induction l as [| x l IH]; simpl; [contradiction |].
  inversion Hn as [| ? ? Hx Hl]; subst.
  destruct Hin as [-> | Hin].
  - rewrite Z.eqb_refl, Hg, Z.eqb_refl, HP. reflexivity.
  - destruct (key x =? key old) eqn:E.
    + exfalso. apply Z.eqb_eq in E. apply Hx. rewrite E. apply in_map. exact Hin.
    + rewrite E. cbn [andb]. exact (IH Hl Hin).
Qed.

Lemma sql_exists_filter_out {A} (key : A -> Z) (id : Z) (l : list A) :
  existsb (fun r => key r =? id) (filter (fun r => negb (key r =? id)) l) = false.
Proof.
  induction l as [| x l IH]; simpl; [reflexivity |].
  destruct (key x =? id) eqn:E; simpl; [exact IH |]. rewrite E. exact IH.
Qed.

Lemma sql_find_none {A} (key : A -> Z) (id : Z) (t : table A) :
  sql_exists key id t = false -> sql_find key id t = None.
Proof.
  unfold sql_exists, sql_find. induction (rows t) as [| x l IH]; simpl; [reflexivity |].
  destruct (key x =? id); [discriminate | exact IH].
Qed.

Lemma sql_exists_In {A} (key : A -> Z) (t : table A) (r : A) :
  In r (rows t) -> sql_exists key (key r) t = true.
Proof.
  intros H. apply existsb_exists. exists r. split; [exact H | apply Z.eqb_refl].
Qed.
End ReadBack.

(** The sample league is healthy and its tables are keyed. *)

Lemma league_is_healthy : healthy (L := Sample.lib) Sample.league.
Proof. intros n. reflexivity. Qed.

Lemma league_is_consistent : consistent (L := Sample.lib) (store Sample.league).
Proof.
  unfold consistent, keyed. simpl.
  repeat split; try (repeat constructor; simpl; intuition discriminate);
    intros r H; repeat (destruct H as [<- | H]; [simpl; lia |]); destruct H.
Qed.


(** X14.  What a create stored can be read back.  On a healthy store whose
    AUTOINCREMENT counters are not negative, the team, player or game an
    accepted create returns is what the get-by-id of its service returns
    for the new id right afterwards. *)
Theorem created_rows_are_read_back {L : GoLib} (w : World) :
  healthy w ->
  (forall req team w',
      0 <= seq (teams_t (store w)) ->
      teamService.CreateTeam req w = (Ok team, w') ->
      teamService.GetTeam (Team.ID team) w' = (Ok team, logged (SELECT [teams]) w')) /\
  (forall req player w',
      0 <= seq (players_t (store w)) ->
      playerService.CreatePlayer req w = (Ok player, w') ->
      playerService.GetPlayer (Player.ID player) w'
      = (Ok player, logged (SELECT [players; teams]) w')) /\
  (forall req game w',
      0 <= seq (games_t (store w)) ->
      gameService.CreateGame req w = (Ok game, w') ->
      gameService.GetGameByID (Game.ID game) w'
      = (Ok game, logged (SELECT [games; teams]) w')).
Proof.
  intros Hw. split; [| split].
  - intros req team w' Hseq E. apply CreateTeam_effect in E. cbv zeta in E.
    destruct E as [_ [Ht [_ Hw']]].
    assert (Team.ID team = max_rowid Team.ID (teams_t (store w)) + 1) as Hid
      by (rewrite Ht; reflexivity).
    pose proof (max_rowid_seq Team.ID (teams_t (store w))) as Hm.
    unfold teamService.GetTeam.
    replace (Team.ID team <=? 0) with false by (symmetry; apply Z.leb_gt; lia).
    apply wrapf_ok. rewrite team_GetByID_run by (subst w'; auto with world).
    subst w'. cbn [store stored teams_t set_teams]. unfold sql_find. cbn [rows].
    rewrite (find_snoc_fresh (fun r => Team.ID r =? Team.ID team)); [reflexivity | |].
    + intros r Hr. apply Z.eqb_neq.
      pose proof (max_rowid_upper Team.ID _ r Hr). lia.
    + apply Z.eqb_refl.
  - intros req player w' Hseq E. apply CreatePlayer_effect in E. cbv zeta in E.
    destruct E as [_ [Et [_ [Hp [Hst Ho]]]]].
    assert (Player.ID player = max_rowid Player.ID (players_t (store w)) + 1) as Hid
      by (rewrite Hp; reflexivity).
    assert (Player.TeamID player = CreatePlayerRequest.TeamID req) as Hteam
      by (rewrite Hp; reflexivity).
    pose proof (max_rowid_seq Player.ID (players_t (store w))) as Hm.
    assert (healthy w') as Hw' by (intros n; rewrite Ho; apply Hw).
    unfold playerService.GetPlayer.
    replace (Player.ID player <=? 0) with false by (symmetry; apply Z.leb_gt; lia).
    apply wrapf_ok. rewrite player_GetByID_value by exact Hw'.
    unfold selected_player. rewrite Hst. cbn [players_t set_players rows].
    rewrite (find_inserted Player.ID _ (players_t (store w)) player Hid); [reflexivity |].
    unfold playerRepository.joined. cbn [teams_t set_players]. rewrite Hteam. exact Et.
  - intros req game w' Hseq E. apply CreateGame_effect in E. cbv zeta in E.
    destruct E as [_ [Eh [Ea [_ [Hg [Hst Ho]]]]]].
    assert (Game.ID game = max_rowid Game.ID (games_t (store w)) + 1) as Hid
      by (rewrite Hg; reflexivity).
    assert (Game.HomeTeamID game = CreateGameRequest.HomeTeamID req /\
            Game.AwayTeamID game = CreateGameRequest.AwayTeamID req) as [Hh Ha]
      by (rewrite Hg; split; reflexivity).
    pose proof (max_rowid_seq Game.ID (games_t (store w))) as Hm.
    assert (healthy w') as Hw' by (intros n; rewrite Ho; apply Hw).
    unfold gameService.GetGameByID.
    replace (Game.ID game <=? 0) with false by (symmetry; apply Z.leb_gt; lia).
    rewrite game_GetByID_run by exact Hw'.
    unfold selected_game. rewrite Hst. cbn [games_t set_games rows].
    rewrite (find_inserted Game.ID _ (games_t (store w)) game Hid); [reflexivity |].
    unfold gameRepository.joined. cbn [teams_t set_games]. rewrite Hh, Ha, Eh, Ea.
    reflexivity.
Qed.

(** A third team created in the sample league is read back under id 3. *)
Lemma created_rows_are_read_back_witness :
  let req := CreateTeamRequest.mk " Broncos " "Denver" "AFC" "West" in
  let created := teamService.CreateTeam (L := Sample.lib) req Sample.league in
  option_map Team.Name (value (fst created)) = Some "Broncos" /\
  option_map Team.ID (value (fst created)) = Some 3 /\
  teamService.GetTeam 3 (snd created)
  = (fst created, logged (SELECT [teams]) (snd created)).
Proof.
  cbv zeta. split; [reflexivity |]. split; [reflexivity |].
  remember (teamService.CreateTeam (L := Sample.lib)
              (CreateTeamRequest.mk " Broncos " "Denver" "AFC" "West") Sample.league)
    as created eqn:E.
  assert (option_map Team.ID (value (fst created)) = Some 3) as Hid
    by (rewrite E; reflexivity).
  destruct created as [[team | err] w']; [| discriminate Hid].
  cbn [fst snd value option_map] in Hid |- *. injection Hid as Hteam.
  rewrite <- Hteam.
  apply (proj1 (created_rows_are_read_back (L := Sample.lib) Sample.league
                  league_is_healthy)
           (CreateTeamRequest.mk " Broncos " "Denver" "AFC" "West") team w').
  - simpl. lia.
  - symmetry. exact E.
Defined.

(** X15.  What an update stored can be read back.  On a healthy store in which
    no two rows of a table share an id, the team, player, game or
    statistics row an accepted update returns is what the get-by-id of its
    service returns for that id right afterwards. *)
Theorem updated_rows_are_read_back {L : GoLib} (w : World) :
  healthy w -> consistent (store w) ->
  (forall id req team w',
      teamService.UpdateTeam id req w = (Ok team, w') ->
      teamService.GetTeam id w' = (Ok team, logged (SELECT [teams]) w')) /\
  (forall id req player w',
      playerService.UpdatePlayer id req w = (Ok player, w') ->
      playerService.GetPlayer id w' = (Ok player, logged (SELECT [players; teams]) w')) /\
  (forall id req game w',
      gameService.UpdateGame id req w = (Ok game, w') ->
      gameService.GetGameByID id w' = (Ok game, logged (SELECT [games; teams]) w')) /\
  (forall id req stats w',
      playerStatsService.UpdatePlayerStats id req w = (Ok stats, w') ->
      playerStatsService.GetPlayerStats id w'
      = (Ok stats, logged (SELECT [player_stats; players; teams]) w')).
Proof.
  intros Hw [[Htn _] [[Hgn _] [[Hpn _] [Hsn _]]]]. split; [| split; [| split]].
  - intros id req team w' E. apply UpdateTeam_effect in E.
    destruct E as [old [Hid [_ [Hold [Ht Hw']]]]].
    apply find_some in Hold. destruct Hold as [Hin Hk]. apply Z.eqb_eq in Hk.
    unfold teamService.GetTeam.
    replace (id <=? 0) with false by (symmetry; apply Z.leb_gt; exact Hid).
    apply wrapf_ok. rewrite team_GetByID_run by (subst w'; auto with world).
    subst w'. cbn [store stored logged ticked teams_t set_teams]. unfold sql_find.
    cbn [rows]. rewrite Hk.
    pose proof (find_updated Team.ID (fun _ => true)
                  (teamRepository.updated team (wall (oracle w) (ticks w)))
                  _ old id Htn Hin Hk (fun r => eq_refl) eq_refl) as Hf.
    rewrite (find_ext _ (fun r => Team.ID r =? id)) in Hf
      by (intros r; apply andb_true_r).
    rewrite Hf. rewrite Ht. reflexivity.
  - intros id req player w' E. apply UpdatePlayer_effect in E.
    destruct E as [old [Hid [_ [Hold [_ [Hp [Hst Ho]]]]]]]. cbv zeta in Hp, Hst.
    destruct (selected_player_found _ _ _ Hold) as [Hin [Hk Hj]].
    assert (healthy w') as Hw' by (intros n; rewrite Ho; apply Hw).
    unfold playerService.GetPlayer.
    replace (id <=? 0) with false by (symmetry; apply Z.leb_gt; exact Hid).
    apply wrapf_ok. rewrite player_GetByID_value by exact Hw'.
    unfold selected_player. rewrite Hst. cbn [players_t set_players rows]. rewrite Hk.
    rewrite (find_updated Player.ID _
               (playerRepository.updated player (wall (oracle w) (ticks w)))
               _ old id Hpn Hin Hk (fun r => eq_refl)).
    + rewrite Hp. reflexivity.
    + unfold playerRepository.joined. cbn [teams_t set_players].
      rewrite Hp. cbn [playerRepository.updated Player.TeamID]. exact Hj.
  - intros id req game w' E. apply UpdateGame_effect in E.
    destruct E as [old [w1 [now [Hid [Hold [_ [Hh [Ha [_ [Hg [Hst Ho]]]]]]]]]]].
    destruct (selected_game_found _ _ _ Hold) as [Hin [Hk Hj]].
    apply andb_true_iff in Hj. destruct Hj as [Jh Ja].
    assert (healthy w') as Hw' by (intros n; rewrite Ho; apply Hw).
    unfold gameService.GetGameByID.
    replace (id <=? 0) with false by (symmetry; apply Z.leb_gt; exact Hid).
    rewrite game_GetByID_run by exact Hw'.
    unfold selected_game. rewrite Hst. cbn [games_t set_games rows]. rewrite Hk.
    rewrite (find_updated Game.ID _ (gameRepository.updated game now)
               _ old id Hgn Hin Hk (fun r => eq_refl)).
    + rewrite Hg. reflexivity.
    + unfold gameRepository.joined. cbn [teams_t set_games].
      rewrite Hg. cbn [gameRepository.updated Game.HomeTeamID Game.AwayTeamID].
      apply andb_true_iff. split.
      * destruct (UpdateGameRequest.HomeTeamID req) as [h |]; cbn [patch_val];
          [exact (Hh h eq_refl) | exact Jh].
      * destruct (UpdateGameRequest.AwayTeamID req) as [a |]; cbn [patch_val];
          [exact (Ha a eq_refl) | exact Ja].
  - intros id req stats w' E. apply UpdatePlayerStats_effect in E.
    destruct E as [old [Hid [_ [Hold [Hs [Hst Ho]]]]]]. cbv zeta in Hs, Hst.
    destruct (selected_found _ _ _ Hold) as [Hin [Hk Hj]].
    assert (healthy w') as Hw' by (intros n; rewrite Ho; apply Hw).
    unfold playerStatsService.GetPlayerStats.
    replace (id <=? 0) with false by (symmetry; apply Z.leb_gt; exact Hid).
    apply wrapf_ok. rewrite GetByID_run by exact Hw'.
    unfold selected. rewrite Hst. cbn [player_stats_t set_player_stats rows]. rewrite Hk.
    rewrite (find_updated PlayerStats.ID _
               (playerStatsRepository.updated
                  (playerStatsService.applyPatch old req) (wall (oracle w) (ticks w)))
               _ old id Hsn Hin Hk (fun r => eq_refl)).
    + rewrite Hs. reflexivity.
    + exact Hj.
Qed.
(** In the sample league the player patched with the jersey number 15 is
    read back as returned. *)
Lemma updated_rows_are_read_back_witness :
  let updated := playerService.UpdatePlayer (L := Sample.lib) 1
                   (UpdatePlayerRequest.onlyJersey 15) Sample.league in
  is_ok (fst updated) = true /\
  playerService.GetPlayer 1 (snd updated)
  = (fst updated, logged (SELECT [players; teams]) (snd updated)).
Proof.
  cbv zeta. split; [reflexivity |].
  remember (playerService.UpdatePlayer (L := Sample.lib) 1
              (UpdatePlayerRequest.onlyJersey 15) Sample.league) as updated eqn:E.
  assert (is_ok (fst updated) = true) as Hok by (rewrite E; reflexivity).
  destruct updated as [[player | err] w']; [| discriminate Hok].
  cbn [fst snd].
  apply (proj1 (proj2 (updated_rows_are_read_back (L := Sample.lib)
                         Sample.league league_is_healthy league_is_consistent))
           1 (UpdatePlayerRequest.onlyJersey 15) player w').
  symmetry. exact E.
Defined.

(** A game that exists already is refused with 500, a week 23 with 400. *)
Lemma game_create_status_codes_witness :
  fst (GameHandler.CreateGame (L := Sample.lib) (Some Sample.opener) Sample.league)
  = http.Error ("Failed to create game: failed to create game: " ++
                "failed to create game: UNIQUE constraint failed: " ++
                "games.home_team_id, games.away_team_id, " ++
                "games.season, games.week, games.game_date") 500 /\
  GameHandler.CreateGame (L := Sample.lib)
    (Some (CreateGameRequest.mk (L := Sample.lib) 1 2 "2024" 23 (Sample.date 2024 9 5) "" None None))
    Sample.league
  = (http.Error "validation failed: week must be between 1 and 22, got 23" 400,
     Sample.league).
Proof.
  split.
  - destruct (game_create_status_codes (L := Sample.lib) Sample.opener Sample.league)
      as [_ [_ [H _]]].
    destruct (H league_is_healthy eq_refl) as [_ Hd].
    destruct (Hd eq_refl eq_refl) as [_ Hu].
    apply Hu; [discriminate |].
    eexists. split; [left; reflexivity |]. repeat split.
  - destruct (game_create_status_codes (L := Sample.lib)
                (CreateGameRequest.mk (L := Sample.lib) 1 2 "2024" 23 (Sample.date 2024 9 5) "" None None)
                Sample.league) as [_ [H _]].
    exact (H _ _ eq_refl).
Defined.

(* ================================================================== *)
(** * Deleting a team *)
(* ================================================================== *)

(** X16.  Deleting a team deletes nothing else.  After an accepted [DeleteTeam]
    on a healthy store with unique ids, no team has the id and [GetTeam]
    reports it as not found; the players and games tables are what they
    were, but every player of the deleted team, though still stored and
    still found by the existence probe of [DeletePlayer], is reported by
    [GetPlayer] as not found, and so is every game the team played in by
    [GetGameByID]: their queries join the teams table. *)
Theorem deleting_a_team_orphans_its_rows {L : GoLib}
    (id : Z) (w w' : World) :
  healthy w -> consistent (store w) ->
  teamService.DeleteTeam id w = (Ok tt, w') ->
  sql_exists Team.ID id (teams_t (store w')) = false /\
  teamService.GetTeam id w'
  = (Err ("failed to get team: team with ID " ++ itoa id ++ " not found"),
     logged (SELECT [teams]) w') /\
  players_t (store w') = players_t (store w) /\
  games_t (store w') = games_t (store w) /\
  (forall p, In p (rows (players_t (store w))) -> Player.TeamID p = id ->
             0 < Player.ID p ->
             playerService.GetPlayer (Player.ID p) w'
             = (Err ("failed to get player: player with ID " ++ itoa (Player.ID p) ++
                     " not found"), logged (SELECT [players; teams]) w') /\
             playerRepository.Exists (Player.ID p) w'
             = (Ok true, logged (SELECT [players]) w')) /\
  (forall g, In g (rows (games_t (store w))) ->
             Game.HomeTeamID g = id \/ Game.AwayTeamID g = id ->
             0 < Game.ID g ->
             gameService.GetGameByID (Game.ID g) w'
             = (Err ("game with ID " ++ itoa (Game.ID g) ++ " not found"),
                logged (SELECT [games; teams]) w')).
Proof.
  intros Hw [_ [[Hgn _] [[Hpn _] _]]] E. apply DeleteTeam_effect in E.
  destruct E as [Hid [_ ->]].
  assert (healthy (stored
            (set_teams
               (mkTable (filter (fun r => negb (Team.ID r =? id)) (rows (teams_t (store w))))
                        (seq (teams_t (store w)))) (store w))
            (logged (DELETE teams) (logged (SELECT [teams]) w)))) as Hw'
    by auto with world.
  set (w' := stored _ _) in *.
  assert (sql_exists Team.ID id (teams_t (store w')) = false) as Hgone
    by apply sql_exists_filter_out.
  split; [exact Hgone |]. split; [| split; [reflexivity | split; [reflexivity | split]]].
  - unfold teamService.GetTeam.
    replace (id <=? 0) with false by (symmetry; apply Z.leb_gt; exact Hid).
    apply (wrapf_err "failed to get team: " _ _ _ ("team with ID " ++ itoa id ++ " not found")).
    rewrite team_GetByID_run by exact Hw'.
    rewrite (sql_find_none _ _ _ Hgone). reflexivity.
  - intros p Hin Hteam Hp. split.
    + unfold playerService.GetPlayer.
      replace (Player.ID p <=? 0) with false by (symmetry; apply Z.leb_gt; exact Hp).
      apply (wrapf_err "failed to get player: " _ _ _
               ("player with ID " ++ itoa (Player.ID p) ++ " not found")).
      rewrite player_GetByID_value by exact Hw'.
      replace (selected_player (Player.ID p) (store w')) with (@None Player.t);
        [reflexivity |].
      symmetry. unfold selected_player.
      destruct (find _ _) as [q |] eqn:Ef; [| reflexivity].
      exfalso. apply find_some in Ef. destruct Ef as [Hq Hb].
      apply andb_true_iff in Hb. destruct Hb as [Hk Hj]. apply Z.eqb_eq in Hk.
      assert (q = p) as ->.
      { clear - Hpn Hq Hin Hk. cbn [store w' stored players_t set_teams] in Hq.
        induction (rows (players_t (store w))) as [| x l IH]; [contradiction |].
        simpl in Hpn. inversion Hpn as [| ? ? Hx Hl]; subst.
        destruct Hq as [-> | Hq]; destruct Hin as [-> | Hin]; auto.
        - exfalso. apply Hx. rewrite Hk. apply in_map. exact Hin.
        - exfalso. apply Hx. rewrite <- Hk. apply in_map. exact Hq. }
      unfold playerRepository.joined in Hj. rewrite Hteam in Hj. congruence.
    + rewrite player_Exists_run by exact Hw'.
      rewrite (sql_exists_In Player.ID (players_t (store w')) p Hin). reflexivity.
  - intros g Hin Hteam Hg.
    unfold gameService.GetGameByID.
    replace (Game.ID g <=? 0) with false by (symmetry; apply Z.leb_gt; exact Hg).
    rewrite game_GetByID_run by exact Hw'.
    replace (selected_game (Game.ID g) (store w')) with (@None Game.t); [reflexivity |].
    symmetry. unfold selected_game.
    destruct (find _ _) as [q |] eqn:Ef; [| reflexivity].
    exfalso. apply find_some in Ef. destruct Ef as [Hq Hb].
    apply andb_true_iff in Hb. destruct Hb as [Hk Hj]. apply Z.eqb_eq in Hk.
    assert (q = g) as ->.
    { clear - Hgn Hq Hin Hk. cbn [store w' stored games_t set_teams] in Hq.
      induction (rows (games_t (store w))) as [| x l IH]; [contradiction |].
      simpl in Hgn. inversion Hgn as [| ? ? Hx Hl]; subst.
      destruct Hq as [-> | Hq]; destruct Hin as [-> | Hin]; auto.
      - exfalso. apply Hx. rewrite Hk. apply in_map. exact Hin.
      - exfalso. apply Hx. rewrite <- Hk. apply in_map. exact Hq. }
    unfold gameRepository.joined in Hj. apply andb_true_iff in Hj.
    destruct Hj as [Jh Ja]. destruct Hteam as [Ht | Ht]; rewrite Ht in *; congruence.
Qed.

(** Team 1 of the sample league is deleted: its player and its game can no
    longer be read. *)
Lemma deleting_a_team_orphans_its_rows_witness :
  let w' := snd (teamService.DeleteTeam (L := Sample.lib) 1 Sample.league) in
  fst (teamService.DeleteTeam (L := Sample.lib) 1 Sample.league) = Ok tt /\
  List.length (rows (players_t (store w'))) = 1%nat /\
  playerService.GetPlayer 1 w'
  = (Err "failed to get player: player with ID 1 not found",
     logged (SELECT [players; teams]) w') /\
  gameService.GetGameByID 1 w'
  = (Err "game with ID 1 not found", logged (SELECT [games; teams]) w').
Proof.
  cbv zeta. split; [reflexivity |].
  destruct (deleting_a_team_orphans_its_rows (L := Sample.lib)
              1 Sample.league
              (snd (teamService.DeleteTeam (L := Sample.lib) 1 Sample.league))
              league_is_healthy league_is_consistent eq_refl)
    as [_ [_ [Hp [_ [Hps Hgs]]]]].
  split; [rewrite Hp; reflexivity |]. split.
  - refine (proj1 (Hps (Player.mk 1 1 "Patrick" "Mahomes" "QB" (Some 15) (Some 74) (Some 225)
                          _ _) _ eq_refl ltac:(simpl; lia))).
    left. reflexivity.
  - refine (Hgs (Game.mk 1 1 2 "2024" 1 _ "scheduled" None None _ _) _
              (or_introl eq_refl) ltac:(simpl; lia)).
    left. reflexivity.
Defined.

(* ================================================================== *)
(** * Teams with the same name and city *)
(* ================================================================== *)

(** X17.  Two teams cannot share name and city, and only the table says so.
    [CreateTeam] has no probe of its own: a valid request whose trimmed
    name and city are those of a stored team reaches the INSERT, which the
    UNIQUE(name, city) constraint refuses; the store is unchanged and the
    team handler answers 400 with the message of the driver, which the
    repository and the service each prefix with "failed to create team".  When no
    stored team has both, the team is created and answered 201. *)
Theorem teams_are_unique_by_name_and_city {L : GoLib}
    (req : CreateTeamRequest.t) (w : World) :
  teamService.validateCreateTeamRequest req = None -> healthy w ->
  ((exists t, In t (rows (teams_t (store w))) /\
              Team.Name t = TrimSpace (CreateTeamRequest.Name req) /\
              Team.City t = TrimSpace (CreateTeamRequest.City req)) ->
   TeamHandler.CreateTeam (Some req) w
   = (http.Error ("failed to create team: failed to create team: " ++
                  "UNIQUE constraint failed: teams.name, teams.city")
                 http.StatusBadRequest,
      logged (INSERT teams) (ticked w))) /\
  ((forall t, In t (rows (teams_t (store w))) ->
              Team.Name t = TrimSpace (CreateTeamRequest.Name req) ->
              Team.City t <> TrimSpace (CreateTeamRequest.City req)) ->
   max_rowid Team.ID (teams_t (store w)) < max_int ->
   exists team w',
     TeamHandler.CreateTeam (Some req) w
     = (http.mkResponse http.StatusCreated (http.json team), w') /\
     rows (teams_t (store w')) = (rows (teams_t (store w)) ++ [team])%list /\
     Team.Name team = TrimSpace (CreateTeamRequest.Name req) /\
     Team.City team = TrimSpace (CreateTeamRequest.City req)).
Proof.
  intros Hv Hw. unfold TeamHandler.CreateTeam. split.
  - intros [t [Hin [Hn Hc]]].
    assert (existsb (teamRepository.same
                       (Team.mk 0 (TrimSpace (CreateTeamRequest.Name req))
                          (TrimSpace (CreateTeamRequest.City req))
                          (TrimSpace (CreateTeamRequest.Conference req))
                          (TrimSpace (CreateTeamRequest.Division req)) zeroTime zeroTime))
                    (rows (teams_t (store w))) = true) as Hclash.
    { apply existsb_exists. exists t. split; [exact Hin |].
      unfold teamRepository.same. cbn [Team.Name Team.City].
      rewrite Hn, Hc, !String.eqb_refl. reflexivity. }
    assert (teamService.CreateTeam req w
            = (Err ("failed to create team: failed to create team: " ++
                    "UNIQUE constraint failed: teams.name, teams.city"),
               logged (INSERT teams) (ticked w))) as Hs.
    { unfold teamService.CreateTeam. rewrite Hv. cbv zeta.
      unfold teamRepository.Create.
      apply (wrapf_err "failed to create team: " _ _ _
               ("failed to create team: " ++
                "UNIQUE constraint failed: " ++ "teams.name, teams.city")).
      apply insert_clash; [exact Hw | exact Hclash]. }
    rewrite (respond_err _ _ _ _ _ _ Hs). reflexivity.
  - intros Hfree Hroom. eexists. eexists. split; [| split; [| split]].
    + erewrite respond_ok; [reflexivity |].
      unfold teamService.CreateTeam. rewrite Hv. cbv zeta.
      apply wrapf_ok. unfold teamRepository.Create.
      apply insert_run; [exact Hw | | exact Hroom].
      apply not_true_is_false. intros Hex. apply existsb_exists in Hex.
      destruct Hex as [t [Hin Hs]]. unfold teamRepository.same in Hs.
      cbn [Team.Name Team.City] in Hs. apply andb_true_iff in Hs.
      destruct Hs as [Hn Hc]. apply String.eqb_eq in Hn. apply String.eqb_eq in Hc.
      exact (Hfree t Hin (eq_sym Hn) (eq_sym Hc)).
    + reflexivity.
    + reflexivity.
    + reflexivity.
Qed.

(** In the sample league a second "Chiefs" of "Kansas City" is refused,
    whatever its division; "chiefs" of "Kansas City" is another team. *)
Lemma teams_are_unique_by_name_and_city_witness :
  TeamHandler.CreateTeam (L := Sample.lib)
    (Some (CreateTeamRequest.mk " Chiefs" "Kansas City " "NFC" "East")) Sample.league
  = (http.Error ("failed to create team: failed to create team: " ++
                 "UNIQUE constraint failed: teams.name, teams.city") 400,
     logged (INSERT teams) (ticked Sample.league)) /\
  exists team w',
    TeamHandler.CreateTeam (L := Sample.lib)
      (Some (CreateTeamRequest.mk "chiefs" "Kansas City" "AFC" "West")) Sample.league
    = (http.mkResponse 201 (http.json team), w') /\
    rows (teams_t (store w')) = (rows (teams_t (store Sample.league)) ++ [team])%list /\
    Team.Name team = "chiefs" /\ Team.City team = "Kansas City".
Proof.
  split.
  - apply (teams_are_unique_by_name_and_city (L := Sample.lib)
             (CreateTeamRequest.mk " Chiefs" "Kansas City " "NFC" "East") Sample.league
             eq_refl league_is_healthy).
    eexists. split; [left; reflexivity |]. split; reflexivity.
  - apply (teams_are_unique_by_name_and_city (L := Sample.lib)
             (CreateTeamRequest.mk "chiefs" "Kansas City" "AFC" "West") Sample.league
             eq_refl league_is_healthy).
    + intros t [<- | [<- | []]]; simpl; discriminate.
    + reflexivity.
Defined.

(* ================================================================== *)
(** * The games of a week *)
(* ================================================================== *)

(** X18.  The route of the games of a week.  An empty season and a week that is
    not a number are answered 400 by the handler itself; a week outside 1
    to 22 is refused by the service with "week must be between 1 and 22,
    got <week>", which the handler recognises and answers 400; otherwise,
    on a healthy store, the answer is 200 with exactly the stored games of
    that season and week whose two teams exist. *)
Theorem games_of_a_week_by_route {L : GoLib} {C : Collation}
    (season weekStr : string) (w : World) :
  (season = "" ->
   GameHandler.GetGamesByWeek season weekStr w
   = (http.Error "Season parameter is required" http.StatusBadRequest, w)) /\
  (season <> "" -> Atoi weekStr = None ->
   GameHandler.GetGamesByWeek season weekStr w
   = (http.Error "Invalid week parameter" http.StatusBadRequest, w)) /\
  (forall week,
      season <> "" -> Atoi weekStr = Some week ->
      (week < 1 \/ 22 < week ->
       GameHandler.GetGamesByWeek season weekStr w
       = (http.Error ("week must be between 1 and 22, got " ++ itoa week)
                     http.StatusBadRequest, w)) /\
      (1 <= week <= 22 -> healthy w ->
       exists found,
         GameHandler.GetGamesByWeek season weekStr w
         = (http.Encode found, logged (SELECT [games; teams]) w) /\
         forall g, In g found <->
                   In g (rows (games_t (store w))) /\
                   Game.Season g = season /\ Game.Week g = week /\
                   gameRepository.joined (store w) g = true)).
Proof.
  unfold GameHandler.GetGamesByWeek. split; [| split].
  - intros ->. reflexivity.
  - intros Hs Ha. apply String.eqb_neq in Hs. rewrite Hs, Ha. reflexivity.
  - intros week Hs Ha. pose proof Hs as Hs'. apply String.eqb_neq in Hs.
    rewrite Hs, Ha. split.
    + intros Hk.
      assert ((week <? 1) || (week >? 22) = true) as Ek.
      { destruct ((week <? 1) || (week >? 22)) eqn:E; [reflexivity |].
        apply week_spec in E. lia. }
      erewrite respond_err.
      * rewrite (Contains_inside "week " "must be between 1 and 22" (", got " ++ itoa week)).
        reflexivity.
      * unfold gameService.GetGamesByWeek. rewrite Hs, Ek. reflexivity.
    + intros Hk Hw. eexists. split.
      * erewrite respond_ok; [reflexivity |].
        apply GetGamesByWeek_run; assumption.
      * intros g. rewrite sql_order_by_In, filter_In, !andb_true_iff, String.eqb_eq, Z.eqb_eq.
        tauto.
Qed.

(** Week 1 of season 2024 of the sample league holds its one game; week
    23 is refused. *)
Lemma games_of_a_week_by_route_witness :
  GameHandler.GetGamesByWeek (L := Sample.lib) (C := Sample.collation) "2024" "23"
    Sample.league
  = (http.Error "week must be between 1 and 22, got 23" 400, Sample.league) /\
  exists found,
    GameHandler.GetGamesByWeek (L := Sample.lib) (C := Sample.collation) "2024" "1"
      Sample.league
    = (http.Encode found, logged (SELECT [games; teams]) Sample.league) /\
    forall g, In g found <->
              In g (rows (games_t (store Sample.league))) /\
              Game.Season g = "2024" /\ Game.Week g = 1 /\
              gameRepository.joined (store Sample.league) g = true.
Proof.
  split.
  - destruct (games_of_a_week_by_route (L := Sample.lib) (C := Sample.collation)
                "2024" "23" Sample.league) as [_ [_ H]].
    destruct (H 23 ltac:(discriminate) eq_refl) as [Hout _].
    apply Hout. lia.
  - destruct (games_of_a_week_by_route (L := Sample.lib) (C := Sample.collation)
                "2024" "1" Sample.league) as [_ [_ H]].
    destruct (H 1 ltac:(discriminate) eq_refl) as [_ Hin].
    apply Hin; [lia | exact league_is_healthy].
Defined.

(* ================================================================== *)
(** * What the validators accept *)
(* ================================================================== *)

(** X19.  The fields of a player request.  A create is accepted by the validator
    exactly when the team id is positive, the first name, the last name and
    the position are not blank, and the jersey number, height and weight,
    when given, lie within 0..99, 60..90 and 150..400, bounds included; an
    update exactly when it sets at least one field and the fields it sets
    pass the same tests.  The position is free text. *)
Theorem player_requests_are_bounded {L : GoLib} :
  (forall req,
      playerService.validateCreatePlayerRequest req = None <->
      0 < CreatePlayerRequest.TeamID req /\
      TrimSpace (CreatePlayerRequest.FirstName req) <> "" /\
      TrimSpace (CreatePlayerRequest.LastName req) <> "" /\
      TrimSpace (CreatePlayerRequest.Position req) <> "" /\
      within 0 99 (CreatePlayerRequest.JerseyNumber req) /\
      within 60 90 (CreatePlayerRequest.Height req) /\
      within 150 400 (CreatePlayerRequest.Weight req)) /\
  (forall req,
      playerService.validateUpdatePlayerRequest req = None <->
      req <> UpdatePlayerRequest.empty /\
      (forall s, UpdatePlayerRequest.FirstName req = Some s -> TrimSpace s <> "") /\
      (forall s, UpdatePlayerRequest.LastName req = Some s -> TrimSpace s <> "") /\
      (forall s, UpdatePlayerRequest.Position req = Some s -> TrimSpace s <> "") /\
      within 0 99 (UpdatePlayerRequest.JerseyNumber req) /\
      within 60 90 (UpdatePlayerRequest.Height req) /\
      within 150 400 (UpdatePlayerRequest.Weight req)).
Proof.
  split; intros req;
    [apply validateCreatePlayerRequest_spec | apply validateUpdatePlayerRequest_spec].
Qed.

(** Jersey 0, height 90 and weight 150 are accepted; jersey 100 is not. *)
Lemma player_requests_are_bounded_witness :
  playerService.validateCreatePlayerRequest (L := Sample.lib)
    (CreatePlayerRequest.mk 1 "Justin" "Tucker" "K" (Some 0) (Some 90) (Some 150)) = None /\
  playerService.validateUpdatePlayerRequest (L := Sample.lib)
    (UpdatePlayerRequest.onlyJersey 100) <> None.
Proof.
  destruct (player_requests_are_bounded (L := Sample.lib)) as [Hc Hu]. split.
  - apply Hc. simpl. repeat split; try lia; discriminate.
  - intros H. apply Hu in H. destruct H as [_ [_ [_ [_ [Hj _]]]]]. simpl in Hj. lia.
Defined.

(** X20.  The fields of a game create.  The validator accepts a request exactly
    when both team ids are positive, the season is not empty, the week lies
    within 1..22, the date is set, not before one year ago and not after two
    years from now, the status is empty or one of the four, and no score is
    negative.  "Now" is read twice, once for each bound, and nothing else
    changes. *)
Theorem game_create_validation {L : GoLib} (req : CreateGameRequest.t) (w w' : World) :
  gameService.validateCreateGameRequest req w = (Ok tt, w') <->
  0 < CreateGameRequest.HomeTeamID req /\
  0 < CreateGameRequest.AwayTeamID req /\
  CreateGameRequest.Season req <> "" /\
  1 <= CreateGameRequest.Week req <= 22 /\
  IsZero (CreateGameRequest.GameDate req) = false /\
  Before (CreateGameRequest.GameDate req)
         (AddDate (wall (oracle w) (ticks w)) (-1) 0 0) = false /\
  After (CreateGameRequest.GameDate req)
        (AddDate (wall (oracle w) (S (ticks w))) 2 0 0) = false /\
  (CreateGameRequest.Status req = "" \/
   In (CreateGameRequest.Status req) gameService.validStatuses) /\
  at_least 0 (CreateGameRequest.HomeScore req) /\
  at_least 0 (CreateGameRequest.AwayScore req) /\
  w' = ticked (ticked w).
Proof. apply validateCreateGameRequest_spec. Qed.

(** The opening game of the sample league passes again. *)
Lemma game_create_validation_witness :
  gameService.validateCreateGameRequest (L := Sample.lib) Sample.opener Sample.league
  = (Ok tt, ticked (ticked Sample.league)).
Proof.
  apply (game_create_validation (L := Sample.lib)). simpl.
  repeat split; try lia; try discriminate. left. reflexivity.
Defined.

(* ================================================================== *)
(** * Partial updates *)
(* ================================================================== *)



(* ================================================================== *)
(** * The games of a team *)
(* ================================================================== *)

(** X22.  GET /api/teams/{id}/games lists the home and the away games.  For a
    positive id on a healthy store: when no team has the id the answer is
    404 with "team with ID <id> not found" after the one probe of the teams
    table; otherwise it is 200 with exactly the stored games whose home or
    away team is the one asked for and whose two teams are both stored. *)
Theorem games_of_a_team_by_route {L : GoLib} {C : Collation}
    (idStr : string) (teamID : Z) (w : World) :
  Atoi idStr = Some teamID -> 0 < teamID -> healthy w ->
  (sql_exists Team.ID teamID (teams_t (store w)) = false ->
   GameHandler.GetGamesByTeam idStr w
   = (http.Error ("team with ID " ++ itoa teamID ++ " not found") http.StatusNotFound,
      logged (SELECT [teams]) w)) /\
  (sql_exists Team.ID teamID (teams_t (store w)) = true ->
   exists found,
     GameHandler.GetGamesByTeam idStr w
     = (http.Encode found, logged (SELECT [games; teams]) (logged (SELECT [teams]) w)) /\
     forall g, In g found <->
               In g (rows (games_t (store w))) /\
               (Game.HomeTeamID g = teamID \/ Game.AwayTeamID g = teamID) /\
               gameRepository.joined (store w) g = true).
Proof.
  intros Ha Hid Hw. apply Z.leb_gt in Hid.
  unfold GameHandler.GetGamesByTeam. rewrite Ha. split; intros E.
  - erewrite respond_err.
    + rewrite not_found_is_found. reflexivity.
    + unfold gameService.GetGamesByTeam. rewrite Hid.
      erewrite bind_ok by (apply wrapf_ok; apply team_Exists_run; exact Hw).
      rewrite E. reflexivity.
  - eexists. split.
    + apply respond_ok. unfold gameService.GetGamesByTeam. rewrite Hid.
      erewrite bind_ok by (apply wrapf_ok; apply team_Exists_run; exact Hw).
      rewrite E. cbn [negb]. unfold gameRepository.GetByTeamID.
      apply (probe_run _ _
               (fun db => sql_order_by gameRepository.latest_first
                            (filter (fun g => ((Game.HomeTeamID g =? teamID) ||
                                               (Game.AwayTeamID g =? teamID)) &&
                                              gameRepository.joined db g)
                                    (rows (games_t db))))
               (logged (SELECT [teams]) w)).
      auto with world.
    + intros g. cbn [store logged].
      rewrite sql_order_by_In, filter_In, andb_true_iff, orb_true_iff, !Z.eqb_eq.
      reflexivity.
Qed.

(** Team 2 of the sample league played away in the one game; there is no
    team 3. *)
Lemma games_of_a_team_by_route_witness :
  option_map (map Game.ID)
    (match fst (GameHandler.GetGamesByTeam (L := Sample.lib) (C := Sample.collation)
                  "2" Sample.league) with
     | http.mkResponse 200 (http.json found) => Some found
     | _ => None
     end) = Some [1] /\
  GameHandler.GetGamesByTeam (L := Sample.lib) (C := Sample.collation) "3" Sample.league
  = (http.Error "team with ID 3 not found" 404, logged (SELECT [teams]) Sample.league).
Proof.
  split; [reflexivity |].
  apply (games_of_a_team_by_route (L := Sample.lib) (C := Sample.collation)
           "3" 3 Sample.league); try reflexivity.
  intros n. reflexivity.
Defined.
